(** * mksqlite 1.13: typed-value marshalling of [mksqlite.cpp]

    A shallow embedding of the marshalling core of [mksqlite.cpp]: the
    charset codec ([utf2latin], [latin2utf]), the typed BLOB header
    ([typed_BLOB_header]) with the encode and decode branches of
    [mexFunction], the parameter binder of [mexFunction] and the field name
    clean-up done before rows are fetched. Around that core: [getinteger],
    [strnewdup] and [getstring], the loops of [mexFunction] that read the
    rows of a statement and hand them to the host, the commands of
    [mexFunction] with the table of connections, [TransErrToIdent] and
    [CloseDBs].

    Conventions.
    - C objects are byte lists: an access outside the object is undefined
      behaviour and is reported as [Undefined]; [FINALIZE( msg )] is
      reported as [Fail msg].
    - [int], [int32_t] and [mwSize] are 32 bit wide ([SA_UIN32] demands four
      byte [mwSize]; the code passes [int32_t*] and [int*] where the host
      API takes [const mwSize*], so [mwSize] is [int]), and so are
      [size_t], [ptrdiff_t] and pointers. They are values of [Z], and the
      places where the C code narrows are written with [wrap32] or
      [mod 2 ^ 32].
    - The host runtime (MATLAB) and the SQL engine are not part of the
      file: what they decide (whether an allocation succeeds, what fresh
      memory holds, the return code of a bind call) is taken from an
      environment record.
    - A [double] and a [float] are their bit patterns of IEEE 754; the
      conversions of the C language between them and the integers are
      written out on these patterns, and a conversion to [int] of a number
      that is no [int] is undefined. *)

From Stdlib Require Import String Ascii DecimalString.
From Stdlib Require Import ZArith List Bool Lia.
From Stdlib Require Import Strings.Byte.
Import ListNotations.
Local Open Scope Z_scope.

Set Implicit Arguments.

(** ** Outcomes of a piece of C code *)

(** The message ids used with [FINALIZE] ([MSG_...] of the message table,
    and [SQL_ERR]). *)
Inductive msg : Type :=
| MSG_IMPOSSIBLE
| MSG_INVALIDARG
| MSG_CANTCREATEOUTPUT
| MSG_UNKNWNDBTYPE
| MSG_UNEXPECTEDARG
| MSG_MISSINGARG
| MSG_MEMERROR
| MSG_UNSUPPVARTYPE
| MSG_UNSUPPTBH
| MSG_BLOBTOOBIG
| SQL_ERR.

Inductive result (A : Type) : Type :=
| Ok (a : A)
| Fail (m : msg)
| Undefined.

Arguments Ok {A} a.
Arguments Fail {A} m.
Arguments Undefined {A}.

(** Sequencing: the first [Fail] or [Undefined] ends the run. *)
Notation "x <- r ;; k" := (match r with
                           | Ok x => k
                           | Fail m => Fail m
                           | Undefined => Undefined
                           end)
  (at level 61, r at next level, right associativity).

Notation "' p <- r ;; k" := (match r with
                             | Ok p => k
                             | Fail m => Fail m
                             | Undefined => Undefined
                             end)
  (at level 61, p pattern, r at next level, right associativity).

(** ** Bytes and machine integers *)

Definition byte_val (b : byte) : Z := Z.of_N (Byte.to_N b).

Definition byte_of (z : Z) : byte :=
  match Byte.of_N (Z.to_N (z mod 256)) with
  | Some b => b
  | None => x00
  end.

Definition INT_MAX : Z := 2147483647.
Definition INT_MIN : Z := -2147483648.

(** Conversion to a 32 bit signed integer. *)
Definition wrap32 (z : Z) : Z := (z + 2147483648) mod 4294967296 - 2147483648.

(** Conversion to a 16 bit signed integer. *)
Definition wrap16 (z : Z) : Z := (z + 32768) mod 65536 - 32768.

(** Addition of two [int]s ([cnt++], [cnt += 2], the sum of two [mwSize]):
    signed overflow is undefined. *)
Definition int_add (a b : Z) : result Z :=
  if (INT_MIN <=? a + b) && (a + b <=? INT_MAX) then Ok (a + b) else Undefined.

(** *** Objects in memory *)

(** [len] is the size of an object in bytes. *)
Definition len (buf : list byte) : Z := Z.of_nat (length buf).

(** Reading [n] bytes at offset [off] of the object [buf]. *)
Definition load_bytes (buf : list byte) (off n : Z) : result (list byte) :=
  if (0 <=? off) && (0 <=? n) && (off + n <=? len buf)
  then Ok (firstn (Z.to_nat n) (skipn (Z.to_nat off) buf))
  else Undefined.

(** Writing the bytes [bs] at offset [off] of the object [buf]. *)
Definition store_bytes (buf : list byte) (off : Z) (bs : list byte) : result (list byte) :=
  if (0 <=? off) && (off + len bs <=? len buf)
  then Ok (firstn (Z.to_nat off) buf ++ bs ++ skipn (Z.to_nat (off + len bs)) buf)
  else Undefined.

(** The object representation of an integer of [n] bytes, least significant
    byte first, and its value. *)
Fixpoint le_bytes (n : nat) (z : Z) : list byte :=
  match n with
  | O => []
  | S n' => byte_of z :: le_bytes n' (z / 256)
  end.

Fixpoint le_value (bs : list byte) : Z :=
  match bs with
  | [] => 0
  | b :: bs' => byte_val b + 256 * le_value bs'
  end.

(** The same for the byte order of the machine ([big_endian = true]: most
    significant byte first). *)
Definition int_bytes (big_endian : bool) (n : nat) (z : Z) : list byte :=
  if big_endian then rev (le_bytes n z) else le_bytes n z.

Definition int_value (big_endian : bool) (bs : list byte) : Z :=
  if big_endian then le_value (rev bs) else le_value bs.

(** *** C strings *)

(** [strncpy( dst, src, n )]: the [n] bytes written to [dst]. [src] is the
    source object from the pointer on. *)
Fixpoint strncpy (src : list byte) (n : nat) {struct n} : result (list byte) :=
  match n with
  | O => Ok []
  | S n' =>
      match src with
      | [] => Undefined
      | c :: src' =>
          if byte_val c =? 0 then Ok (repeat x00 (S n'))
          else rest <- strncpy src' n' ;; Ok (c :: rest)
      end
  end.

(** [strcpy( dst, src )]: the bytes written to [dst], the terminator
    included. *)
Fixpoint strcpy (src : list byte) : result (list byte) :=
  match src with
  | [] => Undefined
  | c :: src' =>
      if byte_val c =? 0 then Ok [c]
      else rest <- strcpy src' ;; Ok (c :: rest)
  end.

(** [0 == strncmp( a, b, n )]. *)
Fixpoint strncmp_eq (a b : list byte) (n : nat) {struct n} : result bool :=
  match n with
  | O => Ok true
  | S n' =>
      match a, b with
      | x :: a', y :: b' =>
          if negb (byte_val x =? byte_val y) then Ok false
          else if byte_val x =? 0 then Ok true
          else strncmp_eq a' b' n'
      | _, _ => Undefined
      end
  end.

(** The characters of the C string at the start of [mem] (for
    [sqlite3_bind_text] with length -1). *)
Fixpoint c_string (mem : list byte) : result (list byte) :=
  match mem with
  | [] => Undefined
  | c :: mem' =>
      if byte_val c =? 0 then Ok []
      else rest <- c_string mem' ;; Ok (c :: rest)
  end.

(** ** Charset codec *)

Module Charset.

(** [*p = v] where [p] is [buffer + i]. *)
Definition store (buf : list byte) (i : nat) (v : byte) : result (list byte) :=
  if (i <? length buf)%nat
  then Ok (firstn i buf ++ v :: skipn (S i) buf)
  else Undefined.

(** [*p = v] in both modes of the codec: with [buffer == NULL] the pointer
    [p] stays on the local [ch] and nothing is kept. *)
Definition poke (buffer : option (list byte)) (i : nat) (v : byte)
  : result (option (list byte)) :=
  match buffer with
  | None => Ok None
  | Some buf => buf' <- store buf i v ;; Ok (Some buf')
  end.

(** [if( buffer ) p++;] *)
Definition advance (buffer : option (list byte)) (i : nat) : nat :=
  match buffer with
  | None => i
  | Some _ => S i
  end.

(** The byte written by [utf2latin] for the pair [s[0]], [s[1]]:
    [( s[0] << 6 ) | ( s[1] & 63 )], narrowed to [unsigned char]. *)
Definition pair_to_latin (lead cont : byte) : byte :=
  byte_of (Z.lor (Z.shiftl (byte_val lead) 6) (Z.land (byte_val cont) 63)).

(** The two bytes written by [latin2utf] for a byte above 127. *)
Definition latin_lead (b : byte) : byte := byte_of (128 + 64 + Z.shiftr (byte_val b) 6).
Definition latin_cont (b : byte) : byte := byte_of (128 + Z.land (byte_val b) 63).

(** The [while( *s )] loop of [utf2latin] and the two statements after it.
    [s] is the source object from the read position on, [i] the offset of
    [p] in [buffer]. *)
Fixpoint utf2latin_loop (s : list byte) (buffer : option (list byte)) (i : nat) (cnt : Z)
  : result (Z * option (list byte)) :=
  match s with
  | [] => Undefined
  | c :: s1 =>
      if byte_val c =? 0 then
        buffer' <- poke buffer i x00 ;;
        cnt' <- int_add cnt 1 ;;
        Ok (cnt', buffer')
      else if byte_val c <? 128 then
        buffer' <- poke buffer i c ;;
        cnt' <- int_add cnt 1 ;;
        utf2latin_loop s1 buffer' (advance buffer i) cnt'
      else
        match s1 with
        | [] => Undefined
        | d :: s2 =>
            buffer' <- poke buffer i (pair_to_latin c d) ;;
            cnt' <- int_add cnt 1 ;;
            utf2latin_loop s2 buffer' (advance buffer i) cnt'
        end
  end.

(** [utf2latin( s, buffer )]: the returned count and the final state of the
    destination. [s = None] is the null pointer. *)
Definition utf2latin (s : option (list byte)) (buffer : option (list byte))
  : result (Z * option (list byte)) :=
  match s with
  | None => Ok (0, buffer)
  | Some mem => utf2latin_loop mem buffer 0 0
  end.

(** The loop of [latin2utf]. With [buffer == NULL] the pointer is put back
    on the local [ch[2]] after every character. *)
Fixpoint latin2utf_loop (s : list byte) (buffer : option (list byte)) (i : nat) (cnt : Z)
  : result (Z * option (list byte)) :=
  match s with
  | [] => Undefined
  | c :: s1 =>
      if byte_val c =? 0 then
        buffer' <- poke buffer i x00 ;;
        cnt' <- int_add cnt 1 ;;
        Ok (cnt', buffer')
      else if byte_val c <? 128 then
        buffer' <- poke buffer i c ;;
        cnt' <- int_add cnt 1 ;;
        latin2utf_loop s1 buffer' (advance buffer i) cnt'
      else
        buffer' <- poke buffer i (latin_lead c) ;;
        buffer'' <- poke buffer' (advance buffer i) (latin_cont c) ;;
        cnt' <- int_add cnt 2 ;;
        latin2utf_loop s1 buffer'' (advance buffer (advance buffer i)) cnt'
  end.

Definition latin2utf (s : option (list byte)) (buffer : option (list byte))
  : result (Z * option (list byte)) :=
  match s with
  | None => Ok (0, buffer)
  | Some mem => latin2utf_loop mem buffer 0 0
  end.

(** *** The codec as functions on strings

    The rule of the codec, written on the characters of a string (the bytes
    before its terminator). The functions above are compared with these. *)

Definition to_utf8_char (b : byte) : list byte :=
  if byte_val b <? 128 then [b] else [latin_lead b; latin_cont b].

Definition to_utf8 (x : list byte) : list byte := flat_map to_utf8_char x.

Fixpoint to_single_byte (y : list byte) : list byte :=
  match y with
  | [] => []
  | c :: y1 =>
      if byte_val c <? 128 then c :: to_single_byte y1
      else match y1 with
           | [] => []
           | d :: y2 => pair_to_latin c d :: to_single_byte y2
           end
  end.

(** A C string: no zero byte before the terminator. *)
Definition no_zero (x : list byte) : Prop := Forall (fun b => b <> x00) x.

(** The strings on which [utf2latin] stays inside its source: no zero byte,
    and every byte above 127 is followed by one more byte. *)
Fixpoint paired (y : list byte) : bool :=
  match y with
  | [] => true
  | c :: y1 =>
      if byte_val c =? 0 then false
      else if byte_val c <? 128 then paired y1
      else match y1 with
           | [] => false
           | d :: y2 => negb (byte_val d =? 0) && paired y2
           end
  end.

(** What the codec does to one character: a byte above 127 becomes a lead
    byte and a continuation byte above 127, and the pair is mapped back to
    the byte. *)
Definition char_ok (b : byte) : bool :=
  if byte_val b <? 128 then true
  else negb (byte_val (latin_lead b) <? 128)
       && negb (byte_val (latin_cont b) <? 128)
       && (byte_val (pair_to_latin (latin_lead b) (latin_cont b)) =? byte_val b).

End Charset.

(** ** Host arrays *)

Module Host.

(** The class ids of the host ([mxClassID] of the host header [matrix.h],
    which is not part of the file). *)
Inductive mxClassID : Type :=
| mxUNKNOWN_CLASS
| mxCELL_CLASS
| mxSTRUCT_CLASS
| mxLOGICAL_CLASS
| mxCHAR_CLASS
| mxVOID_CLASS
| mxDOUBLE_CLASS
| mxSINGLE_CLASS
| mxINT8_CLASS
| mxUINT8_CLASS
| mxINT16_CLASS
| mxUINT16_CLASS
| mxINT32_CLASS
| mxUINT32_CLASS
| mxINT64_CLASS
| mxUINT64_CLASS
| mxFUNCTION_CLASS
| mxOPAQUE_CLASS
| mxOBJECT_CLASS.

(** The value of the enumerator, [(int32_t)clsid]. *)
Definition class_code (c : mxClassID) : Z :=
  match c with
  | mxUNKNOWN_CLASS => 0
  | mxCELL_CLASS => 1
  | mxSTRUCT_CLASS => 2
  | mxLOGICAL_CLASS => 3
  | mxCHAR_CLASS => 4
  | mxVOID_CLASS => 5
  | mxDOUBLE_CLASS => 6
  | mxSINGLE_CLASS => 7
  | mxINT8_CLASS => 8
  | mxUINT8_CLASS => 9
  | mxINT16_CLASS => 10
  | mxUINT16_CLASS => 11
  | mxINT32_CLASS => 12
  | mxUINT32_CLASS => 13
  | mxINT64_CLASS => 14
  | mxUINT64_CLASS => 15
  | mxFUNCTION_CLASS => 16
  | mxOPAQUE_CLASS => 17
  | mxOBJECT_CLASS => 18
  end.

Definition all_classes : list mxClassID :=
  [ mxUNKNOWN_CLASS; mxCELL_CLASS; mxSTRUCT_CLASS; mxLOGICAL_CLASS; mxCHAR_CLASS;
    mxVOID_CLASS; mxDOUBLE_CLASS; mxSINGLE_CLASS; mxINT8_CLASS; mxUINT8_CLASS;
    mxINT16_CLASS; mxUINT16_CLASS; mxINT32_CLASS; mxUINT32_CLASS; mxINT64_CLASS;
    mxUINT64_CLASS; mxFUNCTION_CLASS; mxOPAQUE_CLASS; mxOBJECT_CLASS ].

(** [(mxClassID)tbh->clsid]: the enumerator with that value, if any. *)
Definition class_of_code (z : Z) : option mxClassID :=
  find (fun c => class_code c =? z) all_classes.

Definition class_eqb (a b : mxClassID) : bool := class_code a =? class_code b.

(** [mxGetElementSize]. *)
Definition element_size (c : mxClassID) : Z :=
  match c with
  | mxLOGICAL_CLASS | mxINT8_CLASS | mxUINT8_CLASS => 1
  | mxCHAR_CLASS | mxINT16_CLASS | mxUINT16_CLASS => 2
  | mxSINGLE_CLASS | mxINT32_CLASS | mxUINT32_CLASS => 4
  | mxDOUBLE_CLASS | mxINT64_CLASS | mxUINT64_CLASS => 8
  | mxCELL_CLASS | mxSTRUCT_CLASS | mxFUNCTION_CLASS => 4
  | mxUNKNOWN_CLASS | mxVOID_CLASS | mxOPAQUE_CLASS | mxOBJECT_CLASS => 0
  end.

(** An array of the host: class, complex flag, dimensions, the bytes behind
    [mxGetData] and, for a cell array, its cells (a null pointer is
    [None]). *)
Unset Elimination Schemes.
Inductive mxArray : Type :=
| MxArray (cls : mxClassID) (complex : bool) (dims : list Z)
          (data : list byte) (cells : list (option mxArray)).
Set Elimination Schemes.

Definition mxGetClassID (a : mxArray) : mxClassID :=
  match a with MxArray c _ _ _ _ => c end.
Definition mxIsComplex (a : mxArray) : bool :=
  match a with MxArray _ x _ _ _ => x end.
Definition mxGetDimensions (a : mxArray) : list Z :=
  match a with MxArray _ _ d _ _ => d end.
Definition mxGetData (a : mxArray) : list byte :=
  match a with MxArray _ _ _ d _ => d end.
Definition mxCells (a : mxArray) : list (option mxArray) :=
  match a with MxArray _ _ _ _ c => c end.

Definition mxGetNumberOfDimensions (a : mxArray) : Z :=
  Z.of_nat (length (mxGetDimensions a)).
Definition numel (dims : list Z) : Z := fold_right Z.mul 1 dims.
Definition mxGetNumberOfElements (a : mxArray) : Z := numel (mxGetDimensions a).
Definition mxGetElementSize (a : mxArray) : Z := element_size (mxGetClassID a).
Definition mxIsEmpty (a : mxArray) : bool := mxGetNumberOfElements a =? 0.
Definition mxIsCell (a : mxArray) : bool := class_eqb (mxGetClassID a) mxCELL_CLASS.
Definition mxIsStruct (a : mxArray) : bool := class_eqb (mxGetClassID a) mxSTRUCT_CLASS.

(** [mxGetCell( a, i )]: a null pointer outside the array. *)
Definition mxGetCell (a : mxArray) (i : Z) : option mxArray :=
  if i <? 0 then None
  else match nth_error (mxCells a) (Z.to_nat i) with
       | Some c => c
       | None => None
       end.

(** What the host guarantees of an array with data: every dimension is an
    [mwSize], there are as many data bytes as the elements need, and the
    data, an object of the process, is smaller than the address space
    ([size_t] has 32 bits). *)
Definition mx_wf (a : mxArray) : Prop :=
  Forall (fun d => INT_MIN <= d <= INT_MAX) (mxGetDimensions a) /\
  len (mxGetData a) = mxGetNumberOfElements a * mxGetElementSize a /\
  len (mxGetData a) < 2 ^ 32.

(** A [double], kept as its 64 bit pattern; no arithmetic is done on it. *)
Definition double : Type := Z.

(** A value bound to a parameter of a statement. *)
Inductive sql_value : Type :=
| SqlNull
| SqlInt (v : Z)
| SqlDouble (d : double)
| SqlText (s : list byte)
| SqlBlob (b : list byte).

(** The requests for memory made by the code. *)
Inductive alloc_call : Type :=
| sqlite3_malloc_call (n : Z)
| mxCalloc_call (n : Z)
| mxCreateNumericArray_call (dims : list Z) (cls : mxClassID)
| mxCreateCellMatrix_call (m n : Z)
| mxCreateLogicalMatrix_call (m n : Z)
| mxDuplicateArray_call (a : mxArray).

(** The process the code runs in: the global flags of [mksqlite.cpp], the
    platform strings filled in at the first start, and what the machine, the
    host and the engine decide. *)
Record Env : Type := {
  (* flags *)
  check4uniquefields : bool;
  convertUTF8 : bool;
  use_typed_blobs : bool;
  NULLasNaN : bool;
  (* platform *)
  g_platform : list byte;       (* char g_platform[11] *)
  g_endian : list byte;         (* char g_endian[2] *)
  big_endian : bool;            (* byte order of the machine *)
  (* memory *)
  alloc_ok : alloc_call -> bool;   (* does the request succeed *)
  fresh : Z -> byte;               (* content of memory that was not set *)
  (* host *)
  mxGetScalar_other : mxArray -> double;   (* [mxGetScalar] for the classes
                                              the code does not call it for *)
  mxArrayToString : mxArray -> option (list byte);
  (* engine *)
  bind_rc : Z -> sql_value -> Z    (* return code of [sqlite3_bind_...] *)
}.

Definition zeros (n : Z) : list byte := repeat x00 (Z.to_nat n).

(** Memory that was allocated and not set. *)
Definition unset (env : Env) (n : Z) : list byte :=
  map (fun k => fresh env (Z.of_nat k)) (seq 0 (Z.to_nat n)).

(** [sqlite3_malloc( n )]: a null pointer for [n <= 0] or when memory is
    short. *)
Definition sqlite3_malloc (env : Env) (n : Z) : option (list byte) :=
  if (0 <? n) && alloc_ok env (sqlite3_malloc_call n)
  then Some (unset env n) else None.

(** [mxCalloc( n, sizeof(char) )]. *)
Definition mxCalloc (env : Env) (n : Z) : option (list byte) :=
  if alloc_ok env (mxCalloc_call n) then Some (zeros n) else None.

(** [mxCreateNumericArray( ndim, dims, clsid, mxREAL )]: the array is taken
    with the dimensions passed and zeroed data. *)
Definition mxCreateNumericArray (env : Env) (dims : list Z) (cls : mxClassID)
  : option mxArray :=
  if alloc_ok env (mxCreateNumericArray_call dims cls)
  then Some (MxArray cls false dims (zeros (numel dims * element_size cls)) [])
  else None.

(** [mxCreateLogicalMatrix( 0, 0 )]. *)
Definition mxCreateLogicalMatrix00 (env : Env) : option mxArray :=
  if alloc_ok env (mxCreateLogicalMatrix_call 0 0)
  then Some (MxArray mxLOGICAL_CLASS false [0; 0] [] [])
  else None.

(** [mxDuplicateArray( a )]: a deep copy. *)
Definition mxDuplicateArray (env : Env) (a : mxArray) : option mxArray :=
  if alloc_ok env (mxDuplicateArray_call a) then Some a else None.

End Host.

(** ** Numbers handed over by the host *)

Module Numeric.
Import Host.

(** Conversion to an 8 bit signed integer. *)
Definition wrap8 (z : Z) : Z := (z + 128) mod 256 - 128.

(** [(int) x] for a floating point number [x] of an IEEE 754 binary format
    with [ebits] bits of exponent and [mbits] bits of fraction, [x] given by
    its bit pattern: the fractional part is discarded; the conversion is
    undefined when the integral part is no [int], and for an infinity or a
    NaN. *)
Definition fp_to_int (ebits mbits bits : Z) : result Z :=
  let frac := bits mod 2 ^ mbits in
  let e := (bits / 2 ^ mbits) mod 2 ^ ebits in
  let negative := Z.testbit bits (ebits + mbits) in
  let bias := 2 ^ (ebits - 1) - 1 in
  if e =? 2 ^ ebits - 1 then Undefined
  else
    let m := if e =? 0 then frac else 2 ^ mbits + frac in
    let k := (if e =? 0 then 1 else e) - bias - mbits in
    let t := Z.shiftl m k in
    let v := if negative then - t else t in
    if (INT_MIN <=? v) && (v <=? INT_MAX) then Ok v else Undefined.

(** [(int) d] for a [double] and [(int) f] for a [float]. *)
Definition double_to_int (bits : Z) : result Z := fp_to_int 11 52 bits.
Definition float_to_int (bits : Z) : result Z := fp_to_int 8 23 bits.

(** [(double) n] for an integer [n] of at most 53 bits, so for every
    [int] and every [unsigned int]: such a number is a [double], the
    conversion is exact. *)
Definition double_of_int (n : Z) : double :=
  if n =? 0 then 0
  else
    let a := Z.abs n in
    let e := Z.log2 a in
    (if n <? 0 then 2 ^ 63 else 0) + (1023 + e) * 2 ^ 52 + (a * 2 ^ (52 - e) - 2 ^ 52).

(** [(double) f] for a [float] [f], given by its bit pattern: the same
    number, every [float] being a [double]; a NaN stays a NaN, with its
    fraction bits in front and the quiet bit set. *)
Definition double_of_float (bits : Z) : double :=
  let frac := bits mod 2 ^ 23 in
  let e := (bits / 2 ^ 23) mod 2 ^ 8 in
  let sign := if Z.testbit bits 31 then 2 ^ 63 else 0 in
  if e =? 255 then
    sign + 2047 * 2 ^ 52 + (if frac =? 0 then 0 else Z.lor (frac * 2 ^ 29) (2 ^ 51))
  else if e =? 0 then
    if frac =? 0 then sign
    else
      let l := Z.log2 frac in
      sign + (l + 874) * 2 ^ 52 + (frac * 2 ^ (52 - l) - 2 ^ 52)
  else sign + (e + 896) * 2 ^ 52 + frac * 2 ^ 29.

(** The number that an element of class logical or of an integer class of
    8, 16 or 32 bits stands for, [raw] being its bytes read as an unsigned
    number. *)
Definition element_value (cls : mxClassID) (raw : Z) : Z :=
  match cls with
  | mxINT8_CLASS => wrap8 raw
  | mxINT16_CLASS => wrap16 raw
  | mxINT32_CLASS => wrap32 raw
  | _ => raw
  end.

(** [mxCreateDoubleScalar( d )] and [mxCreateDoubleMatrix( 0, 0, mxREAL )]:
    the arrays the host builds. *)
Definition double_scalar (env : Env) (d : double) : mxArray :=
  MxArray mxDOUBLE_CLASS false [1; 1] (int_bytes (big_endian env) 8 d) [].

Definition empty_double : mxArray := MxArray mxDOUBLE_CLASS false [0; 0] [] [].

(** [mxIsNumeric] and [mxIsChar] of the host. *)
Definition mxIsNumeric (a : mxArray) : bool :=
  match mxGetClassID a with
  | mxDOUBLE_CLASS | mxSINGLE_CLASS
  | mxINT8_CLASS | mxUINT8_CLASS | mxINT16_CLASS | mxUINT16_CLASS
  | mxINT32_CLASS | mxUINT32_CLASS | mxINT64_CLASS | mxUINT64_CLASS => true
  | _ => false
  end.

Definition mxIsChar (a : mxArray) : bool := class_eqb (mxGetClassID a) mxCHAR_CLASS.

Section WithEnv.
Variable env : Env.

(** The first [n] bytes behind [mxGetData( a )], read as an unsigned
    integer in the byte order of the machine. *)
Definition load_data (a : mxArray) (n : Z) : result Z :=
  bs <- load_bytes (mxGetData a) 0 n ;; Ok (int_value (big_endian env) bs).

(** [getinteger( a )]. *)
Definition getinteger (a : mxArray) : result Z :=
  match mxGetClassID a with
  | mxINT8_CLASS => v <- load_data a 1 ;; Ok (wrap8 v)
  | mxUINT8_CLASS => v <- load_data a 1 ;; Ok v
  | mxINT16_CLASS => v <- load_data a 2 ;; Ok (wrap16 v)
  | mxUINT16_CLASS => v <- load_data a 2 ;; Ok v
  | mxINT32_CLASS => v <- load_data a 4 ;; Ok (wrap32 v)
  | mxUINT32_CLASS => v <- load_data a 4 ;; Ok (wrap32 v)
  | mxSINGLE_CLASS => v <- load_data a 4 ;; float_to_int v
  | mxDOUBLE_CLASS => v <- load_data a 8 ;; double_to_int v
  | _ => Ok 0
  end.

(** [mxGetScalar( a )] of the host: the first element of the data as a
    [double]. A logical element is a byte that holds 0 or 1. Every number of
    the classes listed is a [double], so the conversion is exact. For the
    other classes, which the scalar switch of [mexFunction] does not read,
    the answer of the host is taken from the environment. *)
Definition mxGetScalar (a : mxArray) : result double :=
  match mxGetClassID a with
  | mxLOGICAL_CLASS => v <- load_data a 1 ;; Ok (double_of_int v)
  | mxINT8_CLASS => v <- load_data a 1 ;; Ok (double_of_int (wrap8 v))
  | mxUINT8_CLASS => v <- load_data a 1 ;; Ok (double_of_int v)
  | mxINT16_CLASS => v <- load_data a 2 ;; Ok (double_of_int (wrap16 v))
  | mxUINT16_CLASS => v <- load_data a 2 ;; Ok (double_of_int v)
  | mxINT32_CLASS => v <- load_data a 4 ;; Ok (double_of_int (wrap32 v))
  | mxUINT32_CLASS => v <- load_data a 4 ;; Ok (double_of_int v)
  | mxSINGLE_CLASS => v <- load_data a 4 ;; Ok (double_of_float v)
  | mxDOUBLE_CLASS => load_data a 8
  | _ => Ok (mxGetScalar_other env a)
  end.

End WithEnv.

(** A 1 x 1 array of an integer class holding [v]. *)
Definition int_scalar (env : Env) (cls : mxClassID) (v : Z) : mxArray :=
  MxArray cls false [1; 1] (int_bytes (big_endian env) (Z.to_nat (element_size cls)) v) [].

(** The values an integer class holds. *)
Definition class_range (cls : mxClassID) (v : Z) : Prop :=
  match cls with
  | mxINT8_CLASS => -128 <= v <= 127
  | mxUINT8_CLASS => 0 <= v <= 255
  | mxINT16_CLASS => -32768 <= v <= 32767
  | mxUINT16_CLASS => 0 <= v <= 65535
  | mxINT32_CLASS => INT_MIN <= v <= INT_MAX
  | mxUINT32_CLASS => 0 <= v <= 4294967295
  | _ => False
  end.

End Numeric.

(** ** Typed BLOBs *)

Module TBH.
Import Host.

(** [static const char TBH_MAGIC[] = "mkSQLite.tbh"], terminator
    included. *)
Definition TBH_MAGIC : list byte := list_byte_of_string "mkSQLite.tbh" ++ [x00].

(** [strlen( TBH_MAGIC )]. *)
Definition strlen_TBH_MAGIC : nat := 12.

(** The layout of [typed_BLOB_header] with two byte alignment of [int16_t]
    and four byte alignment of [int32_t]: [magic] at 0 (13 bytes, one byte
    of padding behind it), [ver] at 14, [clsid] at 16, [platform] at 20 (11
    bytes), [endian] at 31, [sizeDims] at 32. *)
Definition OFF_magic : Z := 0.
Definition OFF_ver : Z := 14.
Definition OFF_clsid : Z := 16.
Definition OFF_platform : Z := 20.
Definition OFF_endian : Z := 31.
Definition OFF_sizeDims : Z := 32.
Definition sizeof_tbh : Z := 36.

(** [TBH_DATA_OFFSET( nDims )], the offset of [sizeDims[nDims+1]]. *)
Definition TBH_DATA_OFFSET (nDims : Z) : Z := OFF_sizeDims + 4 * (nDims + 1).

(** [INT32_MAX] as the file defines it, and [MQSQLITE_MAX_BLOB_SIZE]. *)
Definition INT32_MAX : Z := 0x3FFFFFFF.
Definition MQSQLITE_MAX_BLOB_SIZE : Z := wrap32 INT32_MAX.

(** The classes accepted by the [switch( clsid )] of both branches. *)
Definition supported_class (c : mxClassID) : bool :=
  match c with
  | mxLOGICAL_CLASS | mxCHAR_CLASS | mxDOUBLE_CLASS | mxSINGLE_CLASS
  | mxINT8_CLASS | mxUINT8_CLASS | mxINT16_CLASS | mxUINT16_CLASS
  | mxINT32_CLASS | mxUINT32_CLASS | mxINT64_CLASS | mxUINT64_CLASS => true
  | _ => false
  end.

Section WithEnv.
Variable env : Env.

Definition store_int16 (buf : list byte) (off z : Z) : result (list byte) :=
  store_bytes buf off (int_bytes (big_endian env) 2 z).
Definition store_int32 (buf : list byte) (off z : Z) : result (list byte) :=
  store_bytes buf off (int_bytes (big_endian env) 4 z).
Definition load_int16 (buf : list byte) (off : Z) : result Z :=
  bs <- load_bytes buf off 2 ;; Ok (wrap16 (int_value (big_endian env) bs)).
Definition load_int32 (buf : list byte) (off : Z) : result Z :=
  bs <- load_bytes buf off 4 ;; Ok (wrap32 (int_value (big_endian env) bs)).
Definition load_byte (buf : list byte) (off : Z) : result byte :=
  bs <- load_bytes buf off 1 ;; Ok (hd x00 bs).

(** The loop [tbh->sizeDims[j+1] = (int32_t)pitem_dims[j]], [j] counting
    from the argument. *)
Fixpoint store_dims (buf : list byte) (j : Z) (pitem_dims : list Z) : result (list byte) :=
  match pitem_dims with
  | [] => Ok buf
  | d :: rest =>
      buf' <- store_int32 buf (OFF_sizeDims + 4 * (j + 1)) (wrap32 d) ;;
      store_dims buf' (j + 1) rest
  end.

(** The sizes read through [pSize = &tbh->sizeDims[1]]: [n] entries from
    entry [j] on. *)
Fixpoint load_dims (buf : list byte) (j : Z) (n : nat) : result (list Z) :=
  match n with
  | O => Ok []
  | S n' =>
      d <- load_int32 buf (OFF_sizeDims + 4 * (j + 1)) ;;
      rest <- load_dims buf (j + 1) n' ;;
      Ok (d :: rest)
  end.

(** [sizeBlob] of the encode branch:
    [(mwSize) TBH_DATA_OFFSET( item_nDims ) + (mwSize) (cntElements * szElement)]. *)
Definition sizeBlob (item : mxArray) : result Z :=
  int_add (wrap32 (TBH_DATA_OFFSET (mxGetNumberOfDimensions item)))
          (wrap32 (mxGetNumberOfElements item * mxGetElementSize item)).

(** The typed BLOB branch of the parameter loop, from the computation of
    [sizeBlob] to the [memcpy]: the blob handed to [sqlite3_bind_blob]. *)
Definition typed_blob_encode (item : mxArray) : result (list byte) :=
  let szElement := mxGetElementSize item in
  let cntElements := mxGetNumberOfElements item in
  let item_nDims := mxGetNumberOfDimensions item in
  let pitem_dims := mxGetDimensions item in
  let clsid := mxGetClassID item in
  sizeBlob <- sizeBlob item ;;
  if MQSQLITE_MAX_BLOB_SIZE <? sizeBlob then Fail MSG_BLOBTOOBIG else
  if negb (supported_class clsid) then Fail MSG_UNSUPPVARTYPE else
  match sqlite3_malloc env sizeBlob with
  | None => Fail MSG_MEMERROR
  | Some blob =>
      blob <- store_int16 blob OFF_ver (wrap16 sizeof_tbh) ;;
      blob <- store_int32 blob OFF_clsid (wrap32 (class_code clsid)) ;;
      blob <- store_bytes blob OFF_endian [hd x00 (g_endian env)] ;;
      blob <- store_int32 blob OFF_sizeDims (wrap32 item_nDims) ;;
      magic <- strcpy TBH_MAGIC ;;
      blob <- store_bytes blob OFF_magic magic ;;
      platform <- strncpy (g_platform env) 10 ;;
      blob <- store_bytes blob OFF_platform platform ;;
      blob <- store_dims blob 0 pitem_dims ;;
      payload <- load_bytes (mxGetData item) 0 ((cntElements * szElement) mod 2 ^ 32) ;;
      blob <- store_bytes blob (TBH_DATA_OFFSET item_nDims) payload ;;
      Ok blob
  end.

(** The condition of the warning [MSG_WARNDIFFARCH]:
    [g_endian[0] != endian || 0 != strncmp( g_platform, platform, sizeof( g_platform ) - 1 )]. *)
Definition origin_differs (blob : list byte) (endian : byte) : result bool :=
  if negb (byte_val (hd x00 (g_endian env)) =? byte_val endian)
  then Ok true
  else same <- strncmp_eq (g_platform env) (skipn (Z.to_nat OFF_platform) blob) 10 ;;
       Ok (negb same).

(** The end of the decode branch, behind the [switch( clsid )]: the array
    is created with the sizes found in the blob, the size of the payload is
    compared and the payload is copied. *)
Definition decode_array (blob : list byte) (cls : mxClassID) (item_nDims : Z)
           (warned : bool) : result (bool * mxArray) :=
  let sizeBlob := wrap32 (len blob - TBH_DATA_OFFSET item_nDims) in
  pSize <- load_dims blob 0 (Z.to_nat item_nDims) ;;
  match mxCreateNumericArray env pSize cls with
  | None => Fail MSG_MEMERROR
  | Some array =>
      if negb (sizeBlob mod 2 ^ 32
               =? (mxGetNumberOfElements array * mxGetElementSize array) mod 2 ^ 32)
      then Fail MSG_INVALIDARG
      else
        payload <- load_bytes blob (TBH_DATA_OFFSET item_nDims) (sizeBlob mod 2 ^ 32) ;;
        data <- store_bytes (mxGetData array) 0 payload ;;
        Ok (warned, MxArray cls false pSize data [])
  end.

(** The typed BLOB branch of the result loop for a column value of
    [m_Size > 0] bytes ([len blob] is [m_Size]): whether the warning
    [MSG_WARNDIFFARCH] was given, and the array stored in the result. *)
Definition typed_blob_decode (blob : list byte) : result (bool * mxArray) :=
  ver <- load_int16 blob OFF_ver ;;
  if negb (ver =? wrap16 sizeof_tbh) then Fail MSG_UNSUPPTBH else
  clsid <- load_int32 blob OFF_clsid ;;
  endian <- load_byte blob OFF_endian ;;
  item_nDims <- load_int32 blob OFF_sizeDims ;;
  warned <- origin_differs blob endian ;;
  magic_ok <- strncmp_eq (skipn (Z.to_nat OFF_magic) blob) TBH_MAGIC strlen_TBH_MAGIC ;;
  if negb magic_ok || negb (ver =? wrap16 sizeof_tbh) then Fail MSG_UNSUPPTBH else
  match class_of_code clsid with
  | None => Fail MSG_UNSUPPVARTYPE
  | Some cls =>
      if negb (supported_class cls) then Fail MSG_UNSUPPVARTYPE
      else decode_array blob cls item_nDims warned
  end.

End WithEnv.

(** The size of the blob for [item], without the narrowing of the C
    code: header, sizes and payload. *)
Definition blob_total (item : mxArray) : Z :=
  TBH_DATA_OFFSET (mxGetNumberOfDimensions item)
  + mxGetNumberOfElements item * mxGetElementSize item.

(** [blob] with the byte at offset [off] replaced by [b]. *)
Definition set_byte (blob : list byte) (off : nat) (b : byte) : list byte :=
  match skipn off blob with
  | [] => blob
  | _ :: rest => firstn off blob ++ b :: rest
  end.

End TBH.

(** ** Parameter binding *)

Module Binder.
Import Host Numeric.

Definition SQLITE_OK : Z := 0.
Definition SQLITE_RANGE : Z := 25.

(** A prepared statement, as far as the binder sees it: the values bound to
    its parameters 1, 2, ... (parameters that were never bound are NULL). *)
Definition stmt : Type := list sql_value.

(** [sqlite3_bind_parameter_count( st )]. *)
Definition sqlite3_bind_parameter_count (st : stmt) : Z := Z.of_nat (length st).

(** A statement that was just prepared. *)
Definition prepared (n : nat) : stmt := repeat SqlNull n.

Definition set_slot (st : stmt) (k : nat) (v : sql_value) : stmt :=
  firstn k st ++ v :: skipn (S k) st.

Section WithEnv.
Variable env : Env.

(** [sqlite3_bind_...( st, idx, v )]: the return code and the statement. *)
Definition sqlite3_bind (st : stmt) (idx : Z) (v : sql_value) : Z * stmt :=
  if (1 <=? idx) && (idx <=? sqlite3_bind_parameter_count st) then
    let rc := bind_rc env idx v in
    if rc =? SQLITE_OK then (rc, set_slot st (Z.to_nat (idx - 1)) v) else (rc, st)
  else (SQLITE_RANGE, st).

(** [if ( SQLITE_OK != sqlite3_bind_...( ... ) ) FINALIZE( SQL_ERR )]. *)
Definition bind_or_fail (st : stmt) (idx : Z) (v : sql_value) : result stmt :=
  let '(rc, st') := sqlite3_bind st idx v in
  if negb (rc =? SQLITE_OK) then Fail SQL_ERR else Ok st'.

(** The [case mxCHAR_CLASS] of the scalar switch. *)
Definition bind_string (st : stmt) (iParam : Z) (item : mxArray) : result stmt :=
  match mxArrayToString env item with
  | None => bind_or_fail st (iParam + 1) SqlNull
  | Some chars =>
      let str_value := chars ++ [x00] in
      str_value <-
        (if convertUTF8 env then
           ' (len, _) <- Charset.latin2utf (Some str_value) None ;;
           match mxCalloc env len with
           | Some temp =>
               ' (_, filled) <- Charset.latin2utf (Some str_value) (Some temp) ;;
               match filled with
               | Some temp' => Ok temp'
               | None => Undefined
               end
           | None => Fail MSG_MEMERROR
           end
         else Ok str_value) ;;
      text <- c_string str_value ;;
      bind_or_fail st (iParam + 1) (SqlText text)
  end.

(** The scalar switch (the [else] branch of
    [cntElements > 1 && clsid != mxCHAR_CLASS]). *)
Definition bind_scalar (st : stmt) (iParam : Z) (item : mxArray) : result stmt :=
  match mxGetClassID item with
  | mxLOGICAL_CLASS
  | mxINT8_CLASS
  | mxUINT8_CLASS
  | mxINT16_CLASS
  | mxINT32_CLASS
  | mxUINT16_CLASS
  | mxUINT32_CLASS =>
      d <- mxGetScalar env item ;;
      n <- double_to_int d ;;
      bind_or_fail st (iParam + 1) (SqlInt n)
  | mxDOUBLE_CLASS
  | mxSINGLE_CLASS =>
      d <- mxGetScalar env item ;;
      bind_or_fail st (iParam + 1) (SqlDouble d)
  | mxCHAR_CLASS => bind_string st iParam item
  | _ => Fail MSG_INVALIDARG
  end.

(** The branch for [cntElements > 1 && clsid != mxCHAR_CLASS]. *)
Definition bind_matrix (st : stmt) (iParam : Z) (item : mxArray) : result stmt :=
  let szElement := mxGetElementSize item in
  let cntElements := mxGetNumberOfElements item in
  if negb (use_typed_blobs env) then
    blob <- load_bytes (mxGetData item) 0 (wrap32 (cntElements * szElement)) ;;
    bind_or_fail st (iParam + 1) (SqlBlob blob)
  else
    blob <- TBH.typed_blob_encode env item ;;
    bind_or_fail st (iParam + 1) (SqlBlob blob).

(** One round of the loop over [iParam]. *)
Definition bind_param (st : stmt) (iParam : Z) (item : option mxArray) : result stmt :=
  match item with
  | None => Ok st
  | Some item =>
      if mxIsEmpty item then Ok st
      else if mxIsComplex item || mxIsCell item || mxIsStruct item
      then Fail MSG_UNSUPPVARTYPE
      else if (1 <? mxGetNumberOfElements item)
              && negb (class_eqb (mxGetClassID item) mxCHAR_CLASS)
      then bind_matrix st iParam item
      else bind_scalar st iParam item
  end.

(** The loop [for ( iParam; iParam < bind_names_count; iParam++ )] with [n]
    rounds left. *)
Fixpoint bind_loop (st : stmt) (pArgs : mxArray) (iParam : Z) (n : nat) : result stmt :=
  match n with
  | O => Ok st
  | S n' =>
      st' <- bind_param st iParam (mxGetCell pArgs iParam) ;;
      bind_loop st' pArgs (iParam + 1) n'
  end.

(** The cell array [pArgs] built from the arguments behind the command
    ([prhs[FirstArg]] and the following, [NumArgs] of them). *)
Definition collect_args (bind_names_count : Z) (args : list mxArray) : result mxArray :=
  let NumArgs := Z.of_nat (length args) in
  if (bind_names_count =? 0) && (0 <? NumArgs) then Fail MSG_UNEXPECTEDARG else
  pArgs <-
    (if match args with
        | [] => true
        | first :: _ => negb (mxIsCell first)
        end
     then
       if bind_names_count <? NumArgs then Fail MSG_UNEXPECTEDARG else
       if alloc_ok env (mxCreateCellMatrix_call bind_names_count 1)
       then Ok (Some (MxArray mxCELL_CLASS false [bind_names_count; 1] []
                        (map (fun i => match nth_error args i with
                                       | Some a => mxDuplicateArray env a
                                       | None => mxCreateLogicalMatrix00 env
                                       end)
                             (seq 0 (Z.to_nat bind_names_count)))))
       else Ok None
     else
       if 1 <? NumArgs then Fail MSG_UNEXPECTEDARG else
       Ok (match args with
           | first :: _ => mxDuplicateArray env first
           | [] => None
           end)) ;;
  match pArgs with
  | None => Fail MSG_MISSINGARG
  | Some pArgs => Ok pArgs
  end.

(** Parameter binding of [mexFunction], from
    [sqlite3_bind_parameter_count] to the end of the loop. *)
Definition bind_parameters (st : stmt) (args : list mxArray) : result stmt :=
  let bind_names_count := sqlite3_bind_parameter_count st in
  pArgs <- collect_args bind_names_count args ;;
  bind_loop st pArgs 0 (Z.to_nat bind_names_count).

End WithEnv.

End Binder.

(** ** Field names of the result *)

Module Fieldnames.
Import Host.
Local Open Scope string_scope.

(** [isalnum] in the "C" locale: the digits and the letters of ASCII; a
    byte from 128 on is none of them. *)
Definition isalnum (c : ascii) : bool :=
  let n := nat_of_ascii c in
  ((48 <=? n) && (n <=? 57) || (65 <=? n) && (n <=? 90) || (97 <=? n) && (n <=? 122))%nat.

(** The [while ( *mk_c )] loop on a copy of the column name. *)
Fixpoint sanitize (cname : string) : string :=
  match cname with
  | EmptyString => EmptyString
  | String c rest => String (if isalnum c then c else "_"%char) (sanitize rest)
  end.

(** [sprintf( newcolumnname, "%s_%d", name, k )]. *)
Definition sprintf_name (name : string) (k : Z) : string :=
  name ++ "_" ++ NilZero.string_of_int (Z.to_int k).

(** The loop over [lCol]: is [newcolumnname] different from every entry of
    [fieldnames]. *)
Definition unique (fieldnames : list string) (newcolumnname : string) : bool :=
  forallb (fun f => negb (String.eqb f newcolumnname)) fieldnames.

(** The loop [for( k; k < 100; k++ )] with [n = 100 - k] rounds left: the
    value of [k] behind the loop. *)
Fixpoint k_loop (fieldnames : list string) (name : string) (n : nat) (k : Z) : Z :=
  match n with
  | O => k
  | S n' =>
      if unique fieldnames (sprintf_name name k) then k
      else k_loop fieldnames name n' (k + 1)
  end.

Definition set_name (fieldnames : list string) (j : nat) (name : string) : list string :=
  firstn j fieldnames ++ name :: skipn (S j) fieldnames.

(** The state of the clean-up: the names and the number of warnings
    [MSG_MSGUNIQUEWARN] given so far. *)
Definition names_state : Type := (list string * nat)%type.

(** The body of the loop over [jCol]. *)
Definition compare_columns (st : names_state) (iCol jCol : nat) : names_state :=
  let '(fieldnames, warnings) := st in
  match nth_error fieldnames iCol, nth_error fieldnames jCol with
  | Some fi, Some fj =>
      if String.eqb fi fj then
        let k := k_loop fieldnames fj 99 1 in
        if (k =? 100)%Z then (fieldnames, S warnings)
        else (set_name fieldnames jCol (sprintf_name fj k), warnings)
      else st
  | _, _ => st
  end.

(** [for( jCol; jCol < ncol; jCol++ )] with [n = ncol - jCol]. *)
Fixpoint j_loop (st : names_state) (iCol jCol : nat) (n : nat) : names_state :=
  match n with
  | O => st
  | S n' => j_loop (compare_columns st iCol jCol) iCol (S jCol) n'
  end.

(** [for( iCol; iCol < (ncol - 1); iCol++ )] with [n = ncol - 1 - iCol]. *)
Fixpoint i_loop (st : names_state) (ncol iCol : nat) (n : nat) : names_state :=
  match n with
  | O => st
  | S n' => i_loop (j_loop st iCol (S iCol) (ncol - S iCol)) ncol (S iCol) n'
  end.

(** The pairs [(iCol, jCol)] in the order in which the two loops visit
    them. *)
Definition column_pairs (ncol : nat) : list (nat * nat) :=
  flat_map (fun i => map (fun j => (i, j)) (seq (S i) (ncol - S i))) (seq 0 (ncol - 1)).

(** The columns of the pairs in [done] have different names. *)
Definition distinct_on (names : list string) (done : list (nat * nat)) : Prop :=
  forall a b x y, In (a, b) done -> a <> b ->
                  nth_error names a = Some x -> nth_error names b = Some y -> x <> y.

(** The sanitized character. *)
Definition sanitize_char (c : ascii) : ascii := if isalnum c then c else "_"%char.

(** The names handed to [mxCreateStructArray] for the column names
    [cnames] reported by the engine, and the number of warnings. *)
Definition fieldnames (env : Env) (cnames : list string) : names_state :=
  let names := map sanitize cnames in
  let ncol := length cnames in
  if check4uniquefields env
  then i_loop (names, O) ncol 0 (ncol - 1)
  else (names, O).

End Fieldnames.

(** ** Sample data *)

Module Examples.
Import Host.

(** A little endian PC in typed BLOB mode, with memory at hand and an
    engine that accepts every value. *)
Definition env0 : Env := {|
  check4uniquefields := true;
  convertUTF8 := true;
  use_typed_blobs := true;
  NULLasNaN := false;
  g_platform := list_byte_of_string "PCWIN" ++ repeat x00 6;
  g_endian := list_byte_of_string "L" ++ [x00];
  big_endian := false;
  alloc_ok := fun _ => true;
  fresh := fun _ => xaa;
  mxGetScalar_other := fun _ => 0;
  mxArrayToString := fun a => Some (mxGetData a);
  bind_rc := fun _ _ => 0
|}.

(** The [int16] row vector [1 2 3]. *)
Definition item0 : mxArray :=
  MxArray mxINT16_CLASS false [1; 3] [x01; x00; x02; x00; x03; x00] [].

(** Its typed blob. *)
Definition blob0 : list byte :=
  Eval vm_compute in
    match TBH.typed_blob_encode env0 item0 with
    | Ok blob => blob
    | _ => []
    end.

(** [blob0] with another version number and without its last byte. *)
Definition blob_bad_version_short : list byte :=
  Eval vm_compute in removelast (TBH.set_byte blob0 14 x25).

(** [blob0] with the first letter of the magic string in upper case. *)
Definition blob_bad_magic : list byte :=
  Eval vm_compute in TBH.set_byte blob0 0 x4d.

(** A [uint8] row vector whose blob has exactly the largest size, and one
    with one element more. *)
Definition payload_max : list byte := repeat x00 (Z.to_nat 1073741779).
Definition item_max : mxArray :=
  MxArray mxUINT8_CLASS false [1; 1073741779] payload_max [].
Definition item_over : mxArray :=
  MxArray mxUINT8_CLASS false [1; 1073741780] (x00 :: payload_max) [].

(** A [uint8] matrix of 2 x 1500000000 elements: its blob would have
    3000000044 bytes. *)
Definition item_huge : mxArray :=
  MxArray mxUINT8_CLASS false [2; 1500000000] (repeat x00 (Z.to_nat 3000000000)) [].

(** The same process with the check for unique field names switched
    off. *)
Definition env_nocheck : Env := {|
  check4uniquefields := false;
  convertUTF8 := convertUTF8 env0;
  use_typed_blobs := use_typed_blobs env0;
  NULLasNaN := NULLasNaN env0;
  g_platform := g_platform env0;
  g_endian := g_endian env0;
  big_endian := big_endian env0;
  alloc_ok := alloc_ok env0;
  fresh := fresh env0;
  mxGetScalar_other := mxGetScalar_other env0;
  mxArrayToString := mxArrayToString env0;
  bind_rc := bind_rc env0
|}.

(** Scalars of the classes of the scalar switch, and of a 64 bit class. *)
Definition scalar_int32 : mxArray :=
  MxArray mxINT32_CLASS false [1; 1] [x2a; x00; x00; x00] [].
Definition scalar_int64 : mxArray :=
  MxArray mxINT64_CLASS false [1; 1] [x2a; x00; x00; x00; x00; x00; x00; x00] [].
Definition scalar_double : mxArray :=
  MxArray mxDOUBLE_CLASS false [1; 1] [x00; x00; x00; x00; x00; x00; x45; x40] [].

(** The largest [uint32], 4294967295. *)
Definition scalar_uint32_max : mxArray :=
  MxArray mxUINT32_CLASS false [1; 1] [xff; xff; xff; xff] [].

End Examples.

(** ** The form of the field names *)

Module Names.
Import Fieldnames.
Local Open Scope string_scope.

(** A name made of letters, digits and underscores. *)
Fixpoint name_ok (s : string) : bool :=
  match s with
  | EmptyString => true
  | String c rest => (isalnum c || Ascii.eqb c "_"%char) && name_ok rest
  end.

(** What the loops over the pairs of columns keep: against the sanitized
    names [s], every name is the sanitized name or that name with a suffix
    [_1] to [_99], and a name with a suffix is the name of no other
    column. *)
Definition names_inv (s names : list string) : Prop :=
  length names = length s /\
  forall j x sj,
    nth_error names j = Some x -> nth_error s j = Some sj ->
    x = sj \/
    (exists k, (1 <= k < 100)%Z /\ x = sprintf_name sj k) /\
    (forall c y, c <> j -> nth_error names c = Some y -> y <> x).

End Names.

(** ** Strings of the engine *)

Module Strings.
Import Host.

(** What the process decides besides [Env]: whether [new char [n]] gives
    memory (the code tests the pointer it gets, as for an allocator that
    returns a null pointer when memory is short), the value of
    [mxGetNaN()], and whether the host can create the arrays of a result. *)
Inductive create_call : Type :=
| mxCreateString_call (s : option (list byte))
| mxCreateDoubleMatrix_call (m n : Z)
| mxCreateDoubleScalar_call (d : double)
| mxCreateStructArray_call (dims : list Z) (fieldnames : list string).

Record Runtime : Type := {
  new_ok : Z -> bool;
  g_NaN : double;
  create_ok : create_call -> bool
}.

(** [strlen( s )]. *)
Definition strlen (mem : list byte) : result Z :=
  chars <- c_string mem ;; Ok (len chars).

Section WithEnv.
Variable env : Env.
Variable rt : Runtime.

(** [new char [n]]. *)
Definition new_char (n : Z) : option (list byte) :=
  if new_ok rt n then Some (unset env n) else None.

(** [strnewdup( s )]; [None] is the null pointer. *)
Definition strnewdup (s : option (list byte)) : result (option (list byte)) :=
  if convertUTF8 env then
    match s with
    | Some mem =>
        ' (buflen, _) <- Charset.utf2latin (Some mem) None ;;
        match new_char buflen with
        | Some newstr =>
            ' (_, filled) <- Charset.utf2latin (Some mem) (Some newstr) ;;
            Ok filled
        | None => Ok None
        end
    | None => Ok None
    end
  else
    match s with
    | Some mem =>
        n <- strlen mem ;;
        match new_char ((n + 1) mod 2 ^ 32) with
        | Some newstr =>
            copy <- strcpy mem ;;
            newstr <- store_bytes newstr 0 copy ;;
            Ok (Some newstr)
        | None => Ok None
        end
    | None => Ok None
    end.

End WithEnv.

End Strings.

(** ** The rows of a result *)

Module Rows.
Import Host Numeric Strings.

(** The type codes of the engine. *)
Definition SQLITE_INTEGER : Z := 1.
Definition SQLITE_FLOAT : Z := 2.
Definition SQLITE_TEXT : Z := 3.
Definition SQLITE_BLOB : Z := 4.
Definition SQLITE_NULL : Z := 5.

Definition SQLITE_ROW : Z := 100.
Definition SQLITE_DONE : Z := 101.

(** A column of the current row, as the engine reports it: its type and
    what the [sqlite3_column_...] function for that type returns
    ([sqlite3_column_text] a C string or a null pointer, [sqlite3_column_blob]
    a sequence of [sqlite3_column_bytes] bytes, at most [INT_MAX] of them).
    [ColOther] stands for a type code that is none of the five. *)
Inductive column : Type :=
| ColNull
| ColInteger (v : Z)
| ColFloat (d : double)
| ColText (s : option (list byte))
| ColBlob (b : list byte)
| ColOther (fieldtype : Z).

Definition sqlite3_column_type (c : column) : Z :=
  match c with
  | ColInteger _ => SQLITE_INTEGER
  | ColFloat _ => SQLITE_FLOAT
  | ColText _ => SQLITE_TEXT
  | ColBlob _ => SQLITE_BLOB
  | ColNull => SQLITE_NULL
  | ColOther t => t
  end.

(** [sqlite3_column_int]: the lower 32 bits of the 64 bit integer. *)
Definition sqlite3_column_int (v : Z) : Z := wrap32 v.

(** [class Value]. *)
Record Value : Type := {
  m_Type : Z;
  m_Size : Z;
  m_StringValue : option (list byte);
  m_NumericValue : double
}.

(** What is stored in a field of the result: the array made by the host
    for a string ([mxCreateString], with the characters of its argument, or
    [None] for a null pointer), or an array whose content the code
    decides. *)
Inductive field : Type :=
| FString (chars : option (list byte))
| FArray (a : mxArray).

(** [plhs[0]]. *)
Inductive output : Type :=
| OutArray (a : mxArray)
| OutString (chars : list byte)
| OutStruct (fieldnames : list string) (rows : list (list (option field))).

Section WithEnv.
Variable env : Env.
Variable rt : Runtime.

(** The body of the loop over [jCol] in the loop that reads the rows. *)
Definition fetch_value (c : column) : result Value :=
  let fieldtype := sqlite3_column_type c in
  match c with
  | ColNull =>
      Ok {| m_Type := fieldtype; m_Size := 0; m_StringValue := None;
            m_NumericValue := g_NaN rt |}
  | ColInteger v =>
      Ok {| m_Type := fieldtype; m_Size := 0; m_StringValue := None;
            m_NumericValue := double_of_int (sqlite3_column_int v) |}
  | ColFloat d =>
      Ok {| m_Type := fieldtype; m_Size := 0; m_StringValue := None;
            m_NumericValue := d |}
  | ColText s =>
      str <- strnewdup env rt s ;;
      Ok {| m_Type := fieldtype; m_Size := 0; m_StringValue := str;
            m_NumericValue := 0 |}
  | ColBlob b =>
      let size := len b in
      if 0 <? size then
        match new_char env rt size with
        | Some buf =>
            bytes <- load_bytes b 0 size ;;
            buf <- store_bytes buf 0 bytes ;;
            Ok {| m_Type := fieldtype; m_Size := size; m_StringValue := Some buf;
                  m_NumericValue := 0 |}
        | None => Undefined
        end
      else
        Ok {| m_Type := fieldtype; m_Size := 0; m_StringValue := None;
              m_NumericValue := 0 |}
  | ColOther _ => Fail MSG_UNKNWNDBTYPE
  end.

(** One row, and the rows of the statement in their order. *)
Fixpoint fetch_row (row : list column) : result (list Value) :=
  match row with
  | [] => Ok []
  | c :: rest =>
      v <- fetch_value c ;;
      vs <- fetch_row rest ;;
      Ok (v :: vs)
  end.

Fixpoint fetch_rows (rows : list (list column)) : result (list (list Value)) :=
  match rows with
  | [] => Ok []
  | row :: rest =>
      r <- fetch_row row ;;
      rs <- fetch_rows rest ;;
      Ok (r :: rs)
  end.

(** The arrays the host creates for a result; [None] is a null pointer
    (stored in the field as it is by [mxSetFieldByNumber]). *)
Definition mxCreateString (s : option (list byte)) : result (option field) :=
  chars <- match s with
           | Some mem => chars <- c_string mem ;; Ok (Some chars)
           | None => Ok None
           end ;;
  Ok (if create_ok rt (mxCreateString_call chars) then Some (FString chars) else None).

Definition mxCreateDoubleMatrix00 : option field :=
  if create_ok rt (mxCreateDoubleMatrix_call 0 0) then Some (FArray empty_double) else None.

Definition mxCreateDoubleScalar (d : double) : option field :=
  if create_ok rt (mxCreateDoubleScalar_call d) then Some (FArray (double_scalar env d))
  else None.

(** The body of the loop over [fieldnr] in the loop that fills the result:
    the field, and whether [MSG_WARNDIFFARCH] was given. *)
Definition transfer_value (v : Value) : result (bool * option field) :=
  if m_Type v =? SQLITE_TEXT then
    c <- mxCreateString (m_StringValue v) ;; Ok (false, c)
  else if (m_Type v =? SQLITE_NULL) && negb (NULLasNaN env) then
    Ok (false, mxCreateDoubleMatrix00)
  else if m_Type v =? SQLITE_BLOB then
    if 0 <? m_Size v then
      if negb (use_typed_blobs env) then
        match mxCreateNumericArray env [1; m_Size v] mxUINT8_CLASS with
        | Some out_uchar8 =>
            match m_StringValue v with
            | Some mem =>
                bytes <- load_bytes mem 0 (m_Size v) ;;
                data <- store_bytes (mxGetData out_uchar8) 0 bytes ;;
                Ok (false, Some (FArray (MxArray mxUINT8_CLASS false [1; m_Size v] data [])))
            | None => Undefined
            end
        | None => Undefined
        end
      else
        match m_StringValue v with
        | Some blob =>
            ' (warned, array) <- TBH.typed_blob_decode env blob ;;
            Ok (warned, Some (FArray array))
        | None => Undefined
        end
    else Ok (false, mxCreateDoubleMatrix00)
  else Ok (false, mxCreateDoubleScalar (m_NumericValue v)).

Fixpoint transfer_row (row : list Value) : result (nat * list (option field)) :=
  match row with
  | [] => Ok (O, [])
  | v :: rest =>
      ' (warned, f) <- transfer_value v ;;
      ' (n, fs) <- transfer_row rest ;;
      Ok ((if warned then S n else n), f :: fs)
  end.

Fixpoint transfer_rows (rows : list (list Value))
  : result (nat * list (list (option field))) :=
  match rows with
  | [] => Ok (O, [])
  | row :: rest =>
      ' (n, r) <- transfer_row row ;;
      ' (m, rs) <- transfer_rows rest ;;
      Ok ((n + m)%nat, r :: rs)
  end.

(** Whether the warning [MSG_WARNDIFFARCH] is given for a typed blob,
    however its decoding ends: the warning comes behind the first check of
    the version and in front of the other checks. *)
Definition decode_warns (blob : list byte) : bool :=
  match TBH.load_int16 env blob TBH.OFF_ver with
  | Ok ver =>
      if negb (ver =? wrap16 TBH.sizeof_tbh) then false
      else
        match TBH.load_int32 env blob TBH.OFF_clsid,
              TBH.load_byte blob TBH.OFF_endian,
              TBH.load_int32 env blob TBH.OFF_sizeDims with
        | Ok _, Ok endian, Ok _ =>
            match TBH.origin_differs env blob endian with
            | Ok warned => warned
            | _ => false
            end
        | _, _, _ => false
        end
  | _ => false
  end.

(** The number of warnings given for a field whose transfer ends with
    [FINALIZE]. *)
Definition failed_field_warnings (v : Value) : nat :=
  if (m_Type v =? SQLITE_BLOB) && (0 <? m_Size v) && use_typed_blobs env then
    match m_StringValue v with
    | Some blob => if decode_warns blob then 1%nat else O
    | None => O
    end
  else O.

(** The loop that fills the result, up to its end or to the first field
    that is not transferred: whether the end was reached, the number of
    warnings given, and the fields of the struct array ([mxCreateStructArray]
    creates them as null pointers, and so they stay from the field that
    fails on). *)
Fixpoint transfer_row_progress (row : list Value) : bool * nat * list (option field) :=
  match row with
  | [] => (true, O, [])
  | v :: rest =>
      match transfer_value v with
      | Ok (warned, f) =>
          let '(done, n, fs) := transfer_row_progress rest in
          (done, (if warned then S n else n), f :: fs)
      | _ => (false, failed_field_warnings v, None :: map (fun _ => None) rest)
      end
  end.

Fixpoint transfer_progress (rows : list (list Value))
  : bool * nat * list (list (option field)) :=
  match rows with
  | [] => (true, O, [])
  | row :: rest =>
      let '(done, n, r) := transfer_row_progress row in
      if done then
        let '(done', m, rs) := transfer_progress rest in
        (done', (n + m)%nat, r :: rs)
      else (false, n, r :: map (map (fun _ => None)) rest)
  end.

(** The part of [mexFunction] behind the binding of the parameters, for a
    statement with the column names [cnames] that gives the rows [rows] and
    then the code [last] (a code other than [SQLITE_ROW]): the number of
    warnings [MSG_MSGUNIQUEWARN], the number of warnings [MSG_WARNDIFFARCH],
    and [plhs[0]]. *)
Definition query_result (cnames : list string) (rows : list (list column)) (last : Z)
  : result (nat * nat * output) :=
  let ncol := Z.of_nat (length cnames) in
  if 0 <? ncol then
    let '(fieldnames, unique_warnings) := Fieldnames.fieldnames env cnames in
    allrows <- fetch_rows rows ;;
    rowcount <- (if Z.of_nat (length rows) <=? INT_MAX
                 then Ok (Z.of_nat (length rows)) else Undefined) ;;
    if rowcount =? 0 then
      match mxCreateDoubleMatrix00 with
      | Some (FArray a) => Ok (unique_warnings, O, OutArray a)
      | _ => Fail MSG_CANTCREATEOUTPUT
      end
    else
      if create_ok rt (mxCreateStructArray_call [rowcount; 1] fieldnames) then
        ' (warnings, cells) <- transfer_rows allrows ;;
        Ok (unique_warnings, warnings, OutStruct fieldnames cells)
      else Fail MSG_CANTCREATEOUTPUT
  else
    let res := match rows with
               | [] => last
               | _ => SQLITE_ROW
               end in
    match mxCreateDoubleMatrix00 with
    | Some (FArray a) =>
        if negb (SQLITE_DONE =? res) then Fail SQL_ERR else Ok (O, O, OutArray a)
    | _ => Fail MSG_CANTCREATEOUTPUT
    end.

(** What that part has done when it ends, with its result or with
    [FINALIZE]: the number of warnings [MSG_MSGUNIQUEWARN] and
    [MSG_WARNDIFFARCH] given, and what was assigned to [plhs[0]] ([None]: no
    assignment was reached; [Some None]: a null pointer was assigned). *)
Definition query_progress (cnames : list string) (rows : list (list column))
  : nat * nat * option (option output) :=
  let ncol := Z.of_nat (length cnames) in
  if 0 <? ncol then
    let '(fieldnames, unique_warnings) := Fieldnames.fieldnames env cnames in
    match fetch_rows rows with
    | Ok allrows =>
        let rowcount := Z.of_nat (length rows) in
        if rowcount =? 0 then
          match mxCreateDoubleMatrix00 with
          | Some (FArray a) => (unique_warnings, O, Some (Some (OutArray a)))
          | _ => (unique_warnings, O, Some None)
          end
        else
          if create_ok rt (mxCreateStructArray_call [rowcount; 1] fieldnames) then
            let '(_, warnings, cells) := transfer_progress allrows in
            (unique_warnings, warnings, Some (Some (OutStruct fieldnames cells)))
          else (unique_warnings, O, Some None)
    | _ => (unique_warnings, O, None)
    end
  else
    match mxCreateDoubleMatrix00 with
    | Some (FArray a) => (O, O, Some (Some (OutArray a)))
    | _ => (O, O, Some None)
    end.

(** The value the engine gives back for a parameter that was bound, when
    the statement hands it on as it is. *)
Definition column_of_bound (v : sql_value) : column :=
  match v with
  | SqlNull => ColNull
  | SqlInt n => ColInteger n
  | SqlDouble d => ColFloat d
  | SqlText s => ColText (Some (s ++ [x00]))
  | SqlBlob b => ColBlob b
  end.

End WithEnv.

End Rows.

(** ** The commands of [mexFunction] *)

Module Commands.
Import Host Numeric Strings Rows.

Definition MaxNumOfDbs : Z := 5.
Definition DEFAULT_BUSYTIMEOUT : Z := 1000.
Definition VERSION : list byte := list_byte_of_string "1.13".

(** [TransErrToIdent], for the code that [sqlite3_errcode] gave. *)
Definition TransErrToIdent (errorcode : Z) : string :=
  (match errorcode with
  | 0 => "SQLITE:OK"
  | 1 => "SQLITE:ERROR"
  | 2 => "SQLITE:INTERNAL"
  | 3 => "SQLITE:PERM"
  | 4 => "SQLITE:ABORT"
  | 5 => "SQLITE:BUSY"
  | 6 => "SQLITE:LOCKED"
  | 7 => "SQLITE:NOMEM"
  | 8 => "SQLITE:READONLY"
  | 9 => "SQLITE:INTERRUPT"
  | 10 => "SQLITE:IOERR"
  | 11 => "SQLITE:CORRUPT"
  | 12 => "SQLITE:NOTFOUND"
  | 13 => "SQLITE:FULL"
  | 14 => "SQLITE:CANTOPEN"
  | 15 => "SQLITE:PROTOCOL"
  | 16 => "SQLITE:EMPTY"
  | 17 => "SQLITE:SCHEMA"
  | 18 => "SQLITE:TOOBIG"
  | 19 => "SQLITE:CONSTRAINT"
  | 20 => "SQLITE:MISMATCH"
  | 21 => "SQLITE:MISUSE"
  | 22 => "SQLITE:NOLFS"
  | 23 => "SQLITE:AUTH"
  | 24 => "SQLITE:FORMAT"
  | 25 => "SQLITE:RANGE"
  | 26 => "SQLITE:NOTADB"
  | 100 => "SQLITE:ROW"
  | 101 => "SQLITE:DONE"
  | _ => "SQLITE:" ++ NilZero.string_of_int (Z.to_int errorcode)
  end)%string.

(** A database connection ([sqlite3*], not null). *)
Definition handle : Type := Z.

(** A statement that was prepared: the number of its parameters, the names
    of its columns, and the rows it gives for the values bound to the
    parameters, with the code that ends the stepping. *)
Record statement : Type := {
  parameters : nat;
  column_names : list string;
  run : Binder.stmt -> list (list column) * Z
}.

(** What the engine and the host decide during one call of
    [mexFunction]. *)
Record World : Type := {
  (* [sqlite3_open]: the code, and the connection stored in [g_dbs] *)
  sqlite3_open : list byte -> Z * option handle;
  sqlite3_busy_timeout : option handle -> Z -> Z;
  sqlite3_complete : list byte -> Z;
  (* [sqlite3_prepare_v2]: the code, and the statement when the code is
     [SQLITE_OK] *)
  sqlite3_prepare_v2 : option handle -> list byte -> Z * statement;
  sqlite3_errcode : option handle -> Z;
  SQLITE_VERSION : list byte;
  (* [mxGetString( a, c, buflen )]: the characters written to [c] in front
     of the terminator when 0 is returned, [None] when 1 is returned *)
  mxGetString : mxArray -> Z -> option (list byte)
}.

(** The texts printed with [mexPrintf]. *)
Inductive printed : Type :=
| MSG_INVALIDDBHANDLE
| MSG_USAGE
| MSG_NOOPENARG
| MSG_NOFREESLOT
| MSG_CANTOPEN
| status_line (i : Z) (open : bool)
| version_mex
| version_sql.

(** What a call does to the world around it, besides its result;
    [warnings u o] stands for the calls of [mexWarnMsgTxt] of a statement, [u]
    of them with [MSG_MSGUNIQUEWARN] and [o] with [MSG_WARNDIFFARCH]. *)
Inductive event : Type :=
| mexPrintf (text : printed)
| sqlite3_close (db : option handle)
| sqlite3_create_function (db : option handle) (name : string) (nArg : Z)
| warnings (unique_warnings origin_warnings : nat)
| mexWarnMsgTxt_CLOSINGFILES.

(** The messages of [mexErrMsgTxt]: those of [msg], and the others that
    the commands use. *)
Inductive message : Type :=
| Msg (m : msg)
| MSG_DBNOTOPEN
| MSG_INVQUERY
| MSG_BUSYTIMEOUTFAIL
| MSG_CANTCOPYSTRING.

(** How a call ends: with a return, with [mexErrMsgTxt], or with
    [mexErrMsgIdAndTxt] and an identifier of [TransErrToIdent]. *)
Inductive ending : Type :=
| Return
| ErrMsgTxt (m : message)
| ErrMsgIdAndTxt (ident : string).

(** The globals of the file, what was done so far, and [plhs[0]]. *)
Record machine : Type := {
  flags : Env;
  g_dbs : list (option handle);
  events : list event;
  plhs0 : option output
}.

Definition emit (e : event) (m : machine) : machine :=
  {| flags := flags m; g_dbs := g_dbs m; events := events m ++ [e]; plhs0 := plhs0 m |}.

Definition set_plhs0 (o : option output) (m : machine) : machine :=
  {| flags := flags m; g_dbs := g_dbs m; events := events m; plhs0 := o |}.

Definition set_flags (env : Env) (m : machine) : machine :=
  {| flags := env; g_dbs := g_dbs m; events := events m; plhs0 := plhs0 m |}.

(** [g_dbs[i] = db]. *)
Definition set_db (i : nat) (db : option handle) (m : machine) : machine :=
  {| flags := flags m;
     g_dbs := firstn i (g_dbs m) ++ db :: skipn (S i) (g_dbs m);
     events := events m; plhs0 := plhs0 m |}.

(** [g_dbs[db_id]]; [None] outside the array. *)
Definition get_db (m : machine) (db_id : Z) : option (option handle) :=
  if (0 <=? db_id) && (db_id <? MaxNumOfDbs)
  then nth_error (g_dbs m) (Z.to_nat db_id) else None.

(** The flags, one of them changed. *)
Definition with_check4uniquefields (env : Env) (b : bool) : Env :=
  {| check4uniquefields := b; convertUTF8 := convertUTF8 env;
     use_typed_blobs := use_typed_blobs env; NULLasNaN := NULLasNaN env;
     g_platform := g_platform env; g_endian := g_endian env;
     big_endian := big_endian env; alloc_ok := alloc_ok env; fresh := fresh env;
     mxGetScalar_other := mxGetScalar_other env;
     mxArrayToString := mxArrayToString env; bind_rc := bind_rc env |}.

Definition with_convertUTF8 (env : Env) (b : bool) : Env :=
  {| check4uniquefields := check4uniquefields env; convertUTF8 := b;
     use_typed_blobs := use_typed_blobs env; NULLasNaN := NULLasNaN env;
     g_platform := g_platform env; g_endian := g_endian env;
     big_endian := big_endian env; alloc_ok := alloc_ok env; fresh := fresh env;
     mxGetScalar_other := mxGetScalar_other env;
     mxArrayToString := mxArrayToString env; bind_rc := bind_rc env |}.

Definition with_use_typed_blobs (env : Env) (b : bool) : Env :=
  {| check4uniquefields := check4uniquefields env; convertUTF8 := convertUTF8 env;
     use_typed_blobs := b; NULLasNaN := NULLasNaN env;
     g_platform := g_platform env; g_endian := g_endian env;
     big_endian := big_endian env; alloc_ok := alloc_ok env; fresh := fresh env;
     mxGetScalar_other := mxGetScalar_other env;
     mxArrayToString := mxArrayToString env; bind_rc := bind_rc env |}.

Definition with_NULLasNaN (env : Env) (b : bool) : Env :=
  {| check4uniquefields := check4uniquefields env; convertUTF8 := convertUTF8 env;
     use_typed_blobs := use_typed_blobs env; NULLasNaN := b;
     g_platform := g_platform env; g_endian := g_endian env;
     big_endian := big_endian env; alloc_ok := alloc_ok env; fresh := fresh env;
     mxGetScalar_other := mxGetScalar_other env;
     mxArrayToString := mxArrayToString env; bind_rc := bind_rc env |}.

(** The commands, in the order in which [mexFunction] looks for them; the
    first five are compared with [strcmp], the others with [_strcmpi]. *)
Inductive command : Type :=
| cmd_version_mex
| cmd_version_sql
| cmd_open
| cmd_close
| cmd_status
| cmd_setbusytimeout
| cmd_check4uniquefields
| cmd_convertUTF8
| cmd_typedBLOBs
| cmd_NULLasNaN
| cmd_sql.

(** [tolower] in the "C" locale, and [0 == strcmp( a, b )] and
    [0 == _strcmpi( a, b )] for the characters of [a] and a literal [b]. *)
Definition tolower (b : byte) : byte :=
  if (65 <=? byte_val b) && (byte_val b <=? 90) then byte_of (byte_val b + 32) else b.

Fixpoint bytes_eqb (a b : list byte) : bool :=
  match a, b with
  | [], [] => true
  | x :: a', y :: b' => Byte.eqb x y && bytes_eqb a' b'
  | _, _ => false
  end.

Definition strcmp_eq (a : list byte) (b : string) : bool :=
  bytes_eqb a (list_byte_of_string b).

Definition strcmpi_eq (a : list byte) (b : string) : bool :=
  bytes_eqb (map tolower a) (map tolower (list_byte_of_string b)).

(** The chain of comparisons on the characters of the command. *)
Definition which_command (chars : list byte) : command :=
  if strcmp_eq chars "version mex" then cmd_version_mex
  else if strcmp_eq chars "version sql" then cmd_version_sql
  else if strcmp_eq chars "open" then cmd_open
  else if strcmp_eq chars "close" then cmd_close
  else if strcmp_eq chars "status" then cmd_status
  else if strcmpi_eq chars "setbusytimeout" then cmd_setbusytimeout
  else if strcmpi_eq chars "check4uniquefields" then cmd_check4uniquefields
  else if strcmpi_eq chars "convertUTF8" then cmd_convertUTF8
  else if strcmpi_eq chars "typedBLOBs" then cmd_typedBLOBs
  else if strcmpi_eq chars "NULLasNaN" then cmd_NULLasNaN
  else cmd_sql.

(** The query that stands for "show tables". *)
Definition show_tables_query : list byte :=
  list_byte_of_string
    ("SELECT name as tablename FROM sqlite_master "
     ++ "WHERE type IN ('table','view') AND name NOT LIKE 'sqlite_%' "
     ++ "UNION ALL "
     ++ "SELECT name as tablename FROM sqlite_temp_master "
     ++ "WHERE type IN ('table','view') "
     ++ "ORDER BY 1")%string.

(** The outcome of a piece of code that ends with a value, with
    [mexErrMsgTxt], or outside the language. *)
Inductive outcome (A : Type) : Type :=
| Done (a : A)
| Raise (m : message)
| Undef.

Arguments Done {A} a.
Arguments Raise {A} m.
Arguments Undef {A}.

Definition lift {A : Type} (r : result A) : outcome A :=
  match r with
  | Ok a => Done a
  | Fail m => Raise (Msg m)
  | Undefined => Undef
  end.

Section WithWorld.
Variable world : World.
Variable rt : Runtime.

(** [mxGetM( a )] and [mxGetN( a )]. *)
Definition mxGetM (a : mxArray) : Z :=
  match mxGetDimensions a with
  | [] => 1
  | d :: _ => d
  end.

Definition mxGetN (a : mxArray) : Z := numel (tl (mxGetDimensions a)).

(** [getstring( a )]: the memory of the C string. *)
Definition getstring (env : Env) (a : mxArray) : outcome (list byte) :=
  let count := (mxGetM a * mxGetN a + 1) mod 2 ^ 32 in
  match mxCalloc env count with
  | None => Raise MSG_CANTCOPYSTRING
  | Some c =>
      match mxGetString world a (wrap32 count) with
      | None => Raise MSG_CANTCOPYSTRING
      | Some chars =>
          match store_bytes c 0 (chars ++ [x00]) with
          | Ok c =>
              if convertUTF8 env then
                match Charset.latin2utf (Some c) None with
                | Ok (buflen, _) =>
                    match mxCalloc env buflen with
                    | None => Raise MSG_CANTCOPYSTRING
                    | Some buffer =>
                        match Charset.latin2utf (Some c) (Some buffer) with
                        | Ok (_, Some buffer) => Done buffer
                        | _ => Undef
                        end
                    end
                | _ => Undef
                end
              else Done c
          | _ => Undef
          end
      end
  end.

(** The argument [a] is a text, and [getstring] gives a C string with the
    characters [chars] for it. *)
Definition text_arg (env : Env) (a : mxArray) (chars : list byte) : Prop :=
  mxIsChar a = true /\
  exists mem, getstring env a = Done mem /\ c_string mem = Ok chars.

(** [plhs[0] = mxCreateDoubleScalar( (double) n )] and
    [plhs[0] = mxCreateString( s )]. *)
Definition scalar_out (env : Env) (n : Z) : option output :=
  match Rows.mxCreateDoubleScalar env rt (double_of_int n) with
  | Some (FArray a) => Some (OutArray a)
  | _ => None
  end.

Definition string_out (chars : list byte) : option output :=
  if create_ok rt (mxCreateString_call (Some chars)) then Some (OutString chars) else None.

(** The label [finalize] for a call that did not get to a statement, or
    has finalized it: the message, if there is one, is raised. *)
Definition finalize (m : machine) (db_id : Z) (g_finalize_msg : option message)
  : option (machine * ending) :=
  match g_finalize_msg with
  | None => Some (m, Return)
  | Some (Msg SQL_ERR) =>
      match get_db m db_id with
      | Some db => Some (m, ErrMsgIdAndTxt (TransErrToIdent (sqlite3_errcode world db)))
      | None => None
      end
  | Some msg => Some (m, ErrMsgTxt msg)
  end.

(** [sqlite3_close( g_dbs[db_id] ); g_dbs[db_id] = 0;] *)
Definition close_db (m : machine) (db_id : Z) : option machine :=
  match get_db m db_id with
  | Some db => Some (set_db (Z.to_nat db_id) None (emit (sqlite3_close db) m))
  | None => None
  end.

(** The loop over the table that closes what is open, from entry [i] on
    ([n] entries left). *)
Fixpoint close_all (m : machine) (i : nat) (n : nat) : option machine :=
  match n with
  | O => Some m
  | S n' =>
      match get_db m (Z.of_nat i) with
      | Some (Some db) =>
          close_all (set_db i None (emit (sqlite3_close (Some db)) m)) (S i) n'
      | Some None => close_all m (S i) n'
      | None => None
      end
  end.

(** The calls of [sqlite3_close] for the connections that a table holds,
    in the order of its entries. *)
Definition closed_connections (dbs : list (option handle)) : list event :=
  flat_map (fun db => match db with
                      | Some h => [sqlite3_close (Some h)]
                      | None => []
                      end) dbs.

(** The loop that looks for a free entry, from entry [i] on: [db_id]
    behind the loop. *)
Fixpoint free_slot (m : machine) (i : nat) (n : nat) : option Z :=
  match n with
  | O => Some (-1)
  | S n' =>
      match get_db m (Z.of_nat i) with
      | Some None => Some (Z.of_nat i)
      | Some (Some _) => free_slot m (S i) n'
      | None => None
      end
  end.

(** The loop of the command "status". *)
Fixpoint print_status (m : machine) (i : nat) (n : nat) : option machine :=
  match n with
  | O => Some m
  | S n' =>
      match get_db m (Z.of_nat i) with
      | Some db =>
          print_status
            (emit (mexPrintf (status_line (Z.of_nat i)
                                (match db with Some _ => true | None => false end))) m)
            (S i) n'
      | None => None
      end
  end.

(** The end of a command that failed with the connection in [g_dbs[db_id]]:
    the text is printed, the connection is closed, its entry is cleared and
    0 is returned. *)
Definition close_and_fail (m : machine) (db_id : Z) (msg : message) : option (machine * ending) :=
  match close_db (emit (mexPrintf MSG_CANTOPEN) m) db_id with
  | Some m => finalize (set_plhs0 (scalar_out (flags m) 0) m) db_id (Some msg)
  | None => None
  end.

(** The command "open". The id that is returned, [(double) db_id + 1], is
    the [double] of the integer [db_id + 1]: the sum is exact. *)
Definition do_open (m : machine) (db_id NumArgs : Z) (args : list mxArray)
  : option (machine * ending) :=
  match (if NumArgs =? 1 then nth_error args 0 else None) with
  | Some a =>
      if mxIsChar a then
        match getstring (flags m) a with
        | Done dbname =>
            match (if 0 <? db_id
                   then match get_db m db_id with
                        | Some (Some _) => close_db m db_id
                        | Some None => Some m
                        | None => None
                        end
                   else Some m) with
            | Some m =>
                match (if db_id <? 0 then free_slot m 0 (Z.to_nat MaxNumOfDbs)
                       else Some db_id) with
                | Some db_id =>
                    if db_id <? 0 then
                      finalize (emit (mexPrintf MSG_NOFREESLOT)
                                  (set_plhs0 (scalar_out (flags m) 0) m))
                               db_id (Some (Msg MSG_IMPOSSIBLE))
                    else
                      match c_string dbname, get_db m db_id with
                      | Ok name, Some _ =>
                          let '(rc, db) := sqlite3_open world name in
                          let m := set_db (Z.to_nat db_id) db m in
                          if negb (rc =? Binder.SQLITE_OK) then
                            close_and_fail m db_id (Msg MSG_IMPOSSIBLE)
                          else if negb (sqlite3_busy_timeout world db DEFAULT_BUSYTIMEOUT
                                        =? Binder.SQLITE_OK) then
                            close_and_fail m db_id MSG_BUSYTIMEOUTFAIL
                          else
                            let m := emit (sqlite3_create_function db "pow" 2) m in
                            let m := emit (sqlite3_create_function db "regex" 2) m in
                            let m := emit (sqlite3_create_function db "regex" 3) m in
                            finalize (set_plhs0 (scalar_out (flags m) (db_id + 1)) m)
                                     db_id None
                      | _, _ => None
                      end
                | None => None
                end
            | None => None
            end
        | Raise msg => Some (m, ErrMsgTxt msg)
        | Undef => None
        end
      else finalize (emit (mexPrintf MSG_NOOPENARG) m) db_id (Some (Msg MSG_INVALIDARG))
  | None => finalize (emit (mexPrintf MSG_NOOPENARG) m) db_id (Some (Msg MSG_INVALIDARG))
  end.

(** The command "close". *)
Definition do_close (m : machine) (db_id NumArgs : Z) : option (machine * ending) :=
  if 0 <? NumArgs then finalize m db_id (Some (Msg MSG_INVALIDARG))
  else if db_id <? 0 then
    match close_all m 0 (Z.to_nat MaxNumOfDbs) with
    | Some m => finalize m db_id None
    | None => None
    end
  else
    match get_db m db_id with
    | Some None => finalize m db_id (Some MSG_DBNOTOPEN)
    | Some (Some _) =>
        match close_db m db_id with
        | Some m => finalize m db_id None
        | None => None
        end
    | None => None
    end.

(** The command "status". *)
Definition do_status (m : machine) (db_id NumArgs : Z) : option (machine * ending) :=
  if 0 <? NumArgs then finalize m db_id (Some (Msg MSG_INVALIDARG))
  else
    match print_status m 0 (Z.to_nat MaxNumOfDbs) with
    | Some m => finalize m db_id None
    | None => None
    end.

(** The one argument of a command that must be numeric. *)
Definition numeric_arg (NumArgs : Z) (args : list mxArray) : option mxArray :=
  match (if NumArgs =? 1 then nth_error args 0 else None) with
  | Some a => if mxIsNumeric a then Some a else None
  | None => None
  end.

(** The command "setbusytimeout". *)
Definition do_setbusytimeout (m : machine) (db_id NumArgs : Z) (args : list mxArray)
  : option (machine * ending) :=
  match numeric_arg NumArgs args with
  | None => finalize m db_id (Some (Msg MSG_INVALIDARG))
  | Some a =>
      match get_db m db_id with
      | None => None
      | Some None => finalize m db_id (Some MSG_DBNOTOPEN)
      | Some (Some db) =>
          match getinteger (flags m) a with
          | Ok TimeoutValue =>
              if negb (sqlite3_busy_timeout world (Some db) TimeoutValue
                       =? Binder.SQLITE_OK)
              then close_and_fail m db_id MSG_BUSYTIMEOUTFAIL
              else finalize m db_id None
          | _ => None
          end
      end
  end.

(** The commands that read or set a flag. *)
Definition do_flag (get : Env -> bool) (set : Env -> bool -> Env)
           (m : machine) (db_id NumArgs : Z) (args : list mxArray)
  : option (machine * ending) :=
  if NumArgs =? 0 then
    finalize (set_plhs0 (scalar_out (flags m) (if get (flags m) then 1 else 0)) m)
             db_id None
  else
    match numeric_arg NumArgs args with
    | None => finalize m db_id (Some (Msg MSG_INVALIDARG))
    | Some a =>
        match getinteger (flags m) a with
        | Ok v => finalize (set_flags (set (flags m) (negb (v =? 0))) m) db_id None
        | _ => None
        end
    end.

(** Every other command: an SQL statement. *)
Definition do_sql (m : machine) (db_id : Z) (chars : list byte) (args : list mxArray)
  : option (machine * ending) :=
  if db_id <? 0 then
    finalize (emit (mexPrintf MSG_INVALIDDBHANDLE) m) db_id (Some (Msg MSG_IMPOSSIBLE))
  else
    match get_db m db_id with
    | None => None
    | Some None => finalize m db_id (Some MSG_DBNOTOPEN)
    | Some (Some db) =>
        let query := if strcmpi_eq chars "show tables" then show_tables_query else chars in
        if negb (sqlite3_complete world query =? 0) then
          finalize m db_id (Some MSG_INVQUERY)
        else
          let '(rc, st) := sqlite3_prepare_v2 world (Some db) query in
          if negb (rc =? Binder.SQLITE_OK) then finalize m db_id (Some (Msg SQL_ERR))
          else
            match Binder.bind_parameters (flags m) (Binder.prepared (parameters st)) args with
            | Ok bound =>
                let '(rows, last) := run st bound in
                match query_result (flags m) rt (column_names st) rows last with
                | Ok (u, o, out) =>
                    finalize (set_plhs0 (Some out) (emit (warnings u o) m))
                             db_id None
                | Fail msg =>
                    let '(u, o, assigned) :=
                      query_progress (flags m) rt (column_names st) rows in
                    let m := emit (warnings u o) m in
                    finalize (match assigned with
                              | Some out => set_plhs0 out m
                              | None => m
                              end) db_id (Some (Msg msg))
                | Undefined => None
                end
            | Fail msg => finalize m db_id (Some (Msg msg))
            | Undefined => None
            end
    end.

(** The chain of commands, for the characters of the command, the
    arguments behind it and their number. *)
Definition dispatch (m : machine) (nlhs db_id NumArgs : Z) (chars : list byte)
           (args : list mxArray) : option (machine * ending) :=
  match which_command chars with
  | cmd_version_mex =>
      if nlhs =? 0
      then finalize (emit (mexPrintf version_mex) m) db_id None
      else finalize (set_plhs0 (string_out VERSION) m) db_id None
  | cmd_version_sql =>
      if nlhs =? 0
      then finalize (emit (mexPrintf version_sql) m) db_id None
      else finalize (set_plhs0 (string_out (SQLITE_VERSION world)) m) db_id None
  | cmd_open => do_open m db_id NumArgs args
  | cmd_close => do_close m db_id NumArgs
  | cmd_status => do_status m db_id NumArgs
  | cmd_setbusytimeout => do_setbusytimeout m db_id NumArgs args
  | cmd_check4uniquefields =>
      do_flag check4uniquefields with_check4uniquefields m db_id NumArgs args
  | cmd_convertUTF8 => do_flag convertUTF8 with_convertUTF8 m db_id NumArgs args
  | cmd_typedBLOBs => do_flag use_typed_blobs with_use_typed_blobs m db_id NumArgs args
  | cmd_NULLasNaN => do_flag NULLasNaN with_NULLasNaN m db_id NumArgs args
  | cmd_sql => do_sql m db_id chars args
  end.

(** [mexFunction] from the test of the number of arguments on, with
    [db_id], [CommandPos] and [NumArgs] as they are there. *)
Definition with_command (m : machine) (nlhs : Z) (prhs : list mxArray)
           (db_id : Z) (CommandPos : nat) (NumArgs : Z) : option (machine * ending) :=
  if NumArgs <? 1 then
    finalize (emit (mexPrintf MSG_USAGE) m) db_id (Some (Msg MSG_INVALIDARG))
  else
    match nth_error prhs CommandPos with
    | Some cmd =>
        if negb (mxIsChar cmd) then
          finalize (emit (mexPrintf MSG_USAGE) m) db_id (Some (Msg MSG_INVALIDARG))
        else
          match getstring (flags m) cmd with
          | Done command =>
              match c_string command with
              | Ok chars =>
                  dispatch m nlhs db_id (NumArgs - 1) chars (skipn (S CommandPos) prhs)
              | _ => None
              end
          | Raise msg => Some (m, ErrMsgTxt msg)
          | Undef => None
          end
    | None => None
    end.

(** [mexFunction( nlhs, plhs, nrhs, prhs )] behind the first start (the
    language and the platform are known): the globals and [plhs[0]] when it
    ends, what it did, and how it ended. [None] stands for undefined
    behaviour. *)
Definition mexFunction (m : machine) (nlhs : Z) (prhs : list mxArray)
  : option (machine * ending) :=
  let nrhs := Z.of_nat (length prhs) in
  match prhs with
  | first :: _ =>
      if mxIsNumeric first then
        match getinteger (flags m) first with
        | Ok db_id =>
            if (db_id <? 0) || (MaxNumOfDbs <? db_id) then
              finalize (emit (mexPrintf MSG_INVALIDDBHANDLE) m) db_id
                       (Some (Msg MSG_IMPOSSIBLE))
            else with_command m nlhs prhs (db_id - 1) 1 (nrhs - 1)
        | _ => None
        end
      else with_command m nlhs prhs 0 0 nrhs
  | [] => with_command m nlhs prhs 0 0 nrhs
  end.

(** [CloseDBs]: what is open is closed, and a warning tells so. *)
Definition CloseDBs (m : machine) : option machine :=
  match close_all m 0 (Z.to_nat MaxNumOfDbs) with
  | Some m' =>
      if existsb (fun db => match db with Some _ => true | None => false end) (g_dbs m)
      then Some (emit mexWarnMsgTxt_CLOSINGFILES m') else Some m'
  | None => None
  end.

End WithWorld.

End Commands.

(** ** More sample data *)

Module Samples.
Import Host.

(** A big endian machine, and a little endian machine with another platform
    name. *)
Definition env_sol : Env := {|
  check4uniquefields := true;
  convertUTF8 := true;
  use_typed_blobs := true;
  NULLasNaN := false;
  g_platform := list_byte_of_string "SOL64" ++ repeat x00 6;
  g_endian := list_byte_of_string "B" ++ [x00];
  big_endian := true;
  alloc_ok := fun _ => true;
  fresh := fun _ => xaa;
  mxGetScalar_other := fun _ => 0;
  mxArrayToString := fun a => Some (mxGetData a);
  bind_rc := fun _ _ => 0
|}.

Definition env_glnx : Env := {|
  check4uniquefields := true;
  convertUTF8 := true;
  use_typed_blobs := true;
  NULLasNaN := false;
  g_platform := list_byte_of_string "GLNX86" ++ repeat x00 5;
  g_endian := list_byte_of_string "L" ++ [x00];
  big_endian := false;
  alloc_ok := fun _ => true;
  fresh := fun _ => x55;
  mxGetScalar_other := fun _ => 0;
  mxArrayToString := fun a => Some (mxGetData a);
  bind_rc := fun _ _ => 0
|}.

(** The characters of a text array whose elements have two bytes, the low
    byte first. *)
Fixpoint low_bytes (data : list byte) : list byte :=
  match data with
  | lo :: _ :: rest => lo :: low_bytes rest
  | _ => []
  end.

(** A little endian PC whose host hands out the characters of a text that
    way. *)
Definition env_text (convert typed : bool) : Env := {|
  check4uniquefields := true;
  convertUTF8 := convert;
  use_typed_blobs := typed;
  NULLasNaN := false;
  g_platform := list_byte_of_string "PCWIN" ++ repeat x00 6;
  g_endian := list_byte_of_string "L" ++ [x00];
  big_endian := false;
  alloc_ok := fun _ => true;
  fresh := fun _ => xaa;
  mxGetScalar_other := fun _ => 0;
  mxArrayToString := fun a => Some (low_bytes (mxGetData a));
  bind_rc := fun _ _ => 0
|}.

(** Memory and arrays at hand. *)
Definition rt0 : Strings.Runtime := {|
  Strings.new_ok := fun _ => true;
  Strings.g_NaN := 0xFFF8000000000000;
  Strings.create_ok := fun _ => true
|}.

(** A text of three characters (the letter a, the letter a with two dots
    of Latin-1, the letter b) as a 1 x 3 text array. *)
Definition text_item : mxArray :=
  MxArray mxCHAR_CLASS false [1; 3] [x61; x00; xe4; x00; x62; x00] [].

(** The [int16] matrix with the rows 1 2 3 and 4 5 6 (the columns one
    behind the other). *)
Definition matrix_item : mxArray :=
  MxArray mxINT16_CLASS false [2; 3]
          [x01; x00; x04; x00; x02; x00; x05; x00; x03; x00; x06; x00] [].

(** A text array with the characters of [s], two bytes for each, the low
    byte first. *)
Definition text_of (s : string) : mxArray :=
  MxArray mxCHAR_CLASS false [1; Z.of_nat (String.length s)]
          (flat_map (fun b => [b; x00]) (list_byte_of_string s)) [].

(** An engine that opens every file (the connection is numbered by the
    length of the name), takes a query for complete when it ends in a
    semicolon, and prepares every query as a statement with one parameter
    and one column [x] that gives one row with the value of the
    parameter. *)
Definition world0 : Commands.World := {|
  Commands.sqlite3_open := fun name => (0, Some (100 + len name));
  Commands.sqlite3_busy_timeout := fun _ _ => 0;
  Commands.sqlite3_complete :=
    fun query => if Byte.eqb (last query x00) x3b then 1 else 0;
  Commands.sqlite3_prepare_v2 :=
    fun _ _ => (0, {| Commands.parameters := 1;
                      Commands.column_names := ["x"%string];
                      Commands.run :=
                        fun bound => ([map Rows.column_of_bound bound], Rows.SQLITE_DONE) |});
  Commands.sqlite3_errcode := fun _ => 1;
  Commands.SQLITE_VERSION := list_byte_of_string "3.7.15";
  Commands.mxGetString := fun a _ => Some (low_bytes (mxGetData a))
|}.

(** An engine like [world0] whose statements have no parameter and no
    column and end with the code 19 ([SQLITE_CONSTRAINT]). *)
Definition world_constraint : Commands.World := {|
  Commands.sqlite3_open := Commands.sqlite3_open world0;
  Commands.sqlite3_busy_timeout := Commands.sqlite3_busy_timeout world0;
  Commands.sqlite3_complete := Commands.sqlite3_complete world0;
  Commands.sqlite3_prepare_v2 :=
    fun _ _ => (0, {| Commands.parameters := 0;
                      Commands.column_names := [];
                      Commands.run := fun _ => ([], 19) |});
  Commands.sqlite3_errcode := fun _ => 19;
  Commands.SQLITE_VERSION := Commands.SQLITE_VERSION world0;
  Commands.mxGetString := Commands.mxGetString world0
|}.

(** The globals with the connection 7 in the first entry of the table. *)
Definition machine0 : Commands.machine := {|
  Commands.flags := env_text true true;
  Commands.g_dbs := [Some 7; None; None; None; None];
  Commands.events := [];
  Commands.plhs0 := None
|}.

(** The same with every entry in use. *)
Definition machine_full : Commands.machine := {|
  Commands.flags := env_text true true;
  Commands.g_dbs := [Some 7; Some 8; Some 9; Some 10; Some 11];
  Commands.events := [];
  Commands.plhs0 := None
|}.

(** A database id as the host passes it: a [double] scalar. *)
Definition id_arg (n : Z) : mxArray :=
  Numeric.double_scalar (env_text true true) (Numeric.double_of_int n).

End Samples.

(** * Properties *)

(** ** Bytes and machine integers *)

Lemma byte_of_val (b : byte) : byte_of (byte_val b) = b.
Proof. destruct b; reflexivity. Qed.

Lemma byte_val_range (b : byte) : 0 <= byte_val b < 256.
Proof.
  unfold byte_val. pose proof (Byte.to_N_bounded b) as H. lia.
Qed.

Lemma byte_val_of (z : Z) : byte_val (byte_of z) = z mod 256.
Proof.
  unfold byte_of, byte_val.
  assert (Hr : 0 <= z mod 256 < 256) by (apply Z.mod_pos_bound; lia).
  destruct (Byte.of_N (Z.to_N (z mod 256))) as [b|] eqn:E.
  - apply Byte.to_of_N in E. rewrite E. lia.
  - apply Byte.of_N_None_iff in E. lia.
Qed.

Lemma byte_val_inj (a b : byte) : byte_val a = byte_val b -> a = b.
Proof.
  intro H. rewrite <- (byte_of_val a), <- (byte_of_val b). now rewrite H.
Qed.

Lemma byte_val_zero (b : byte) : (byte_val b =? 0) = true <-> b = x00.
Proof.
  rewrite Z.eqb_eq. split.
  - intro H. apply byte_val_inj. exact H.
  - intros ->. reflexivity.
Qed.

Lemma byte_val_nonzero (b : byte) : b <> x00 -> (byte_val b =? 0) = false.
Proof.
  intro H. destruct (byte_val b =? 0) eqn:E; [|reflexivity].
  apply byte_val_zero in E. contradiction.
Qed.

Lemma len_nil : len [] = 0.
Proof. reflexivity. Qed.

Lemma len_cons (b : byte) (l : list byte) : len (b :: l) = 1 + len l.
Proof. unfold len. simpl length. lia. Qed.

Lemma len_app (l1 l2 : list byte) : len (l1 ++ l2) = len l1 + len l2.
Proof. unfold len. rewrite length_app. lia. Qed.

Lemma len_nonneg (l : list byte) : 0 <= len l.
Proof. unfold len. lia. Qed.

Lemma int_add_ok (a b : Z) :
  INT_MIN <= a + b <= INT_MAX -> int_add a b = Ok (a + b).
Proof.
  intro H. unfold int_add.
  replace (INT_MIN <=? a + b) with true by (symmetry; apply Z.leb_le; lia).
  replace (a + b <=? INT_MAX) with true by (symmetry; apply Z.leb_le; lia).
  reflexivity.
Qed.

(** ** Objects in memory *)

Lemma load_bytes_ok (buf : list byte) (off n : Z) :
  0 <= off -> 0 <= n -> off + n <= len buf ->
  load_bytes buf off n = Ok (firstn (Z.to_nat n) (skipn (Z.to_nat off) buf)).
Proof.
  intros H1 H2 H3. unfold load_bytes.
  replace (0 <=? off) with true by (symmetry; apply Z.leb_le; lia).
  replace (0 <=? n) with true by (symmetry; apply Z.leb_le; lia).
  replace (off + n <=? len buf) with true by (symmetry; apply Z.leb_le; lia).
  reflexivity.
Qed.

Lemma load_bytes_inv (buf : list byte) (off n : Z) (bs : list byte) :
  load_bytes buf off n = Ok bs ->
  0 <= off /\ 0 <= n /\ off + n <= len buf /\
  bs = firstn (Z.to_nat n) (skipn (Z.to_nat off) buf) /\ len bs = n.
Proof.
  unfold load_bytes. intro H.
  destruct (0 <=? off) eqn:E1; [|discriminate].
  destruct (0 <=? n) eqn:E2; [|discriminate].
  destruct (off + n <=? len buf) eqn:E3; [|discriminate].
  apply Z.leb_le in E1, E2, E3. simpl in H. injection H as <-.
  repeat split; try assumption.
  unfold len in *. rewrite length_firstn, length_skipn. lia.
Qed.

Lemma load_bytes_all (buf : list byte) : load_bytes buf 0 (len buf) = Ok buf.
Proof.
  pose proof (len_nonneg buf) as H. rewrite load_bytes_ok by lia.
  simpl skipn. unfold len. rewrite Nat2Z.id, firstn_all. reflexivity.
Qed.

Lemma store_bytes_ok (buf : list byte) (off : Z) (bs : list byte) :
  0 <= off -> off + len bs <= len buf ->
  store_bytes buf off bs
  = Ok (firstn (Z.to_nat off) buf ++ bs ++ skipn (Z.to_nat (off + len bs)) buf).
Proof.
  intros H1 H2. unfold store_bytes.
  replace (0 <=? off) with true by (symmetry; apply Z.leb_le; lia).
  replace (off + len bs <=? len buf) with true by (symmetry; apply Z.leb_le; lia).
  reflexivity.
Qed.

Lemma store_bytes_inv (buf : list byte) (off : Z) (bs buf' : list byte) :
  store_bytes buf off bs = Ok buf' ->
  0 <= off /\ off + len bs <= len buf /\ len buf' = len buf /\
  buf' = firstn (Z.to_nat off) buf ++ bs ++ skipn (Z.to_nat (off + len bs)) buf.
Proof.
  unfold store_bytes. intro H.
  destruct (0 <=? off) eqn:E1; [|discriminate].
  destruct (off + len bs <=? len buf) eqn:E2; [|discriminate].
  apply Z.leb_le in E1, E2. simpl in H. injection H as <-.
  repeat split; try assumption.
  unfold len in *. rewrite !length_app, length_firstn, length_skipn. lia.
Qed.

(** The bytes of an object after a store. *)
Lemma store_bytes_nth (buf : list byte) (off : Z) (bs buf' : list byte) (i : nat) :
  store_bytes buf off bs = Ok buf' ->
  nth_error buf' i
  = if (Z.to_nat off <=? i)%nat && (i <? Z.to_nat off + length bs)%nat
    then nth_error bs (i - Z.to_nat off)
    else nth_error buf i.
Proof.
  intro H. apply store_bytes_inv in H. destruct H as (H1 & H2 & _ & ->).
  unfold len in H2.
  rewrite nth_error_app, length_firstn.
  replace (Nat.min (Z.to_nat off) (length buf)) with (Z.to_nat off) by lia.
  destruct (Nat.ltb_spec i (Z.to_nat off)) as [L|L].
  - replace (Z.to_nat off <=? i)%nat with false by (symmetry; apply Nat.leb_gt; lia).
    simpl. rewrite nth_error_firstn.
    replace (i <? Z.to_nat off)%nat with true by (symmetry; apply Nat.ltb_lt; lia).
    reflexivity.
  - replace (Z.to_nat off <=? i)%nat with true by (symmetry; apply Nat.leb_le; lia).
    simpl. rewrite nth_error_app.
    destruct (Nat.ltb_spec (i - Z.to_nat off) (length bs)) as [L'|L'].
    + replace (i <? Z.to_nat off + length bs)%nat with true
        by (symmetry; apply Nat.ltb_lt; lia).
      reflexivity.
    + replace (i <? Z.to_nat off + length bs)%nat with false
        by (symmetry; apply Nat.ltb_ge; lia).
      rewrite nth_error_skipn. f_equal. unfold len. lia.
Qed.

(** Two loads agree when the objects have the same size and the same bytes
    in the range read. *)
Lemma load_bytes_ext (b1 b2 : list byte) (off n : Z) :
  len b1 = len b2 ->
  (forall i : nat, (Z.to_nat off <= i < Z.to_nat off + Z.to_nat n)%nat ->
                   nth_error b1 i = nth_error b2 i) ->
  load_bytes b1 off n = load_bytes b2 off n.
Proof.
  intros Hl Hi. unfold load_bytes. rewrite Hl.
  destruct ((0 <=? off) && (0 <=? n) && (off + n <=? len b2)); [|reflexivity].
  f_equal. apply nth_error_ext. intro k.
  rewrite !nth_error_firstn, !nth_error_skipn.
  destruct (Nat.ltb_spec k (Z.to_nat n)); [|reflexivity].
  apply Hi. lia.
Qed.

Lemma load_store_other (buf : list byte) (off : Z) (bs buf' : list byte) (off' n : Z) :
  store_bytes buf off bs = Ok buf' ->
  off' + n <= off \/ off + len bs <= off' ->
  load_bytes buf' off' n = load_bytes buf off' n.
Proof.
  intros H D. pose proof (store_bytes_inv _ _ _ H) as (H1 & H2 & H3 & _).
  destruct (Z.leb_spec 0 off') as [P|P].
  - apply load_bytes_ext; [exact H3|].
    intros i Hi. rewrite (store_bytes_nth _ _ _ i H).
    unfold len in *.
    destruct (Nat.leb_spec (Z.to_nat off) i); [|reflexivity].
    destruct (Nat.ltb_spec i (Z.to_nat off + length bs)); [|reflexivity].
    lia.
  - unfold load_bytes.
    replace (0 <=? off') with false by (symmetry; apply Z.leb_gt; lia).
    reflexivity.
Qed.

Lemma load_store_same (buf : list byte) (off : Z) (bs buf' : list byte) :
  store_bytes buf off bs = Ok buf' ->
  load_bytes buf' off (len bs) = Ok bs.
Proof.
  intro H. pose proof (store_bytes_inv _ _ _ H) as (H1 & H2 & H3 & _).
  rewrite load_bytes_ok by (unfold len in *; lia).
  f_equal. apply nth_error_ext. intro k.
  rewrite nth_error_firstn, nth_error_skipn, (store_bytes_nth _ _ _ _ H).
  unfold len. rewrite Nat2Z.id.
  destruct (Nat.ltb_spec k (length bs)) as [L|L].
  - replace (Z.to_nat off <=? Z.to_nat off + k)%nat with true
      by (symmetry; apply Nat.leb_le; lia).
    replace (Z.to_nat off + k <? Z.to_nat off + length bs)%nat with true
      by (symmetry; apply Nat.ltb_lt; lia).
    simpl. f_equal. lia.
  - symmetry. apply nth_error_None. lia.
Qed.

(** *** Integers in memory *)

Lemma length_le_bytes (n : nat) (z : Z) : length (le_bytes n z) = n.
Proof. revert z. induction n as [|n IH]; intro z; simpl; [reflexivity|now rewrite IH]. Qed.

Lemma len_int_bytes (be : bool) (n : nat) (z : Z) : len (int_bytes be n z) = Z.of_nat n.
Proof.
  unfold len, int_bytes. destruct be; [rewrite length_rev|]; now rewrite length_le_bytes.
Qed.

Lemma le_value_le_bytes (n : nat) (z : Z) :
  le_value (le_bytes n z) = z mod 256 ^ Z.of_nat n.
Proof.
  revert z. induction n as [|n IH]; intro z.
  - simpl. now rewrite Z.mod_1_r.
  - cbn [le_bytes le_value]. rewrite byte_val_of, IH.
    rewrite Nat2Z.inj_succ, Z.pow_succ_r by lia.
    rewrite Z.rem_mul_r by lia. reflexivity.
Qed.

Lemma int_value_int_bytes (be : bool) (n : nat) (z : Z) :
  int_value be (int_bytes be n z) = z mod 256 ^ Z.of_nat n.
Proof.
  unfold int_value, int_bytes. destruct be; [rewrite rev_involutive|];
    apply le_value_le_bytes.
Qed.

Lemma wrap32_mod (z : Z) : wrap32 (z mod 256 ^ 4) = wrap32 z.
Proof.
  unfold wrap32. change (256 ^ 4) with 4294967296.
  rewrite Zplus_mod_idemp_l. reflexivity.
Qed.

Lemma wrap16_mod (z : Z) : wrap16 (z mod 256 ^ 2) = wrap16 z.
Proof.
  unfold wrap16. change (256 ^ 2) with 65536.
  rewrite Zplus_mod_idemp_l. reflexivity.
Qed.

Lemma wrap32_small (z : Z) : INT_MIN <= z <= INT_MAX -> wrap32 z = z.
Proof.
  unfold wrap32, INT_MIN, INT_MAX. intro H. rewrite Z.mod_small; lia.
Qed.

Lemma wrap32_range (z : Z) : INT_MIN <= wrap32 z <= INT_MAX.
Proof.
  unfold wrap32, INT_MIN, INT_MAX.
  pose proof (Z.mod_pos_bound (z + 2147483648) 4294967296). lia.
Qed.

(** ** Charset codec *)

Module CharsetFacts.
Import Charset.

Lemma poke_slot (pre : list byte) (old v : byte) (post : list byte) :
  poke (Some (pre ++ old :: post)) (length pre) v = Ok (Some (pre ++ v :: post)).
Proof.
  unfold poke, store.
  replace (length pre <? length (pre ++ old :: post))%nat with true.
  - rewrite firstn_app, Nat.sub_diag, firstn_all. simpl firstn. rewrite app_nil_r.
    replace (S (length pre)) with (length (pre ++ [old])) by (rewrite length_app; simpl; lia).
    replace (pre ++ old :: post) with ((pre ++ [old]) ++ post) by (rewrite <- app_assoc; reflexivity).
    rewrite skipn_app, Nat.sub_diag, skipn_all. reflexivity.
  - symmetry. apply Nat.ltb_lt. rewrite length_app. simpl. lia.
Qed.

Lemma char_ok_all (b : byte) : char_ok b = true.
Proof. destruct b; vm_compute; reflexivity. Qed.

Lemma high_byte (b : byte) :
  (byte_val b <? 128) = false ->
  (byte_val (latin_lead b) <? 128) = false /\
  (byte_val (latin_cont b) <? 128) = false /\
  pair_to_latin (latin_lead b) (latin_cont b) = b.
Proof.
  intro H. pose proof (char_ok_all b) as C. unfold char_ok in C. rewrite H in C.
  apply andb_true_iff in C. destruct C as [C C3].
  apply andb_true_iff in C. destruct C as [C1 C2].
  apply negb_true_iff in C1. apply negb_true_iff in C2.
  apply Z.eqb_eq in C3. apply byte_val_inj in C3. auto.
Qed.

Lemma high_nonzero (b : byte) : (byte_val b <? 128) = false -> b <> x00.
Proof. intros H ->. discriminate H. Qed.

Lemma to_utf8_cons (b : byte) (x : list byte) :
  to_utf8 (b :: x) = to_utf8_char b ++ to_utf8 x.
Proof. reflexivity. Qed.

(** The string given back by [to_utf8] is a C string. *)
Lemma to_utf8_no_zero (x : list byte) : no_zero x -> no_zero (to_utf8 x).
Proof.
  induction 1 as [|b x Hb Hx IH]; [constructor|].
  rewrite to_utf8_cons. unfold to_utf8_char.
  destruct (byte_val b <? 128) eqn:E; simpl app.
  - constructor; assumption.
  - destruct (high_byte b E) as (E1 & E2 & _).
    constructor; [now apply high_nonzero|].
    constructor; [now apply high_nonzero|]. exact IH.
Qed.

Lemma to_single_byte_to_utf8 (x : list byte) : to_single_byte (to_utf8 x) = x.
Proof.
  induction x as [|b x IH]; [reflexivity|].
  rewrite to_utf8_cons. unfold to_utf8_char.
  destruct (byte_val b <? 128) eqn:E; simpl app; cbn [to_single_byte].
  - rewrite E. now rewrite IH.
  - destruct (high_byte b E) as (E1 & _ & E3). rewrite E1, E3. now rewrite IH.
Qed.

Lemma len_to_utf8 (x : list byte) : len x <= len (to_utf8 x) <= 2 * len x.
Proof.
  induction x as [|b x IH]; [unfold len; simpl; lia|].
  rewrite to_utf8_cons. unfold to_utf8_char.
  destruct (byte_val b <? 128); simpl app; repeat rewrite len_cons; lia.
Qed.

(** *** [latin2utf] against the rule *)

Lemma latin2utf_loop_count (x rest : list byte) :
  no_zero x ->
  forall i cnt,
    INT_MIN <= cnt -> cnt + len (to_utf8 x) + 1 <= INT_MAX ->
    latin2utf_loop (x ++ x00 :: rest) None i cnt = Ok (cnt + len (to_utf8 x) + 1, None).
Proof.
  induction 1 as [|b x Hb Hx IH]; intros i cnt Hlo Hhi.
  - change (to_utf8 []) with (@nil byte) in *. rewrite len_nil in *.
    simpl. rewrite int_add_ok by lia. do 2 f_equal. lia.
  - pose proof (len_nonneg (to_utf8 x)) as Hn.
    simpl app. cbn [latin2utf_loop]. rewrite (byte_val_nonzero Hb).
    rewrite to_utf8_cons in *. unfold to_utf8_char in *.
    destruct (byte_val b <? 128) eqn:E; cbn [poke advance] in *.
    + simpl app in Hhi. rewrite len_cons in Hhi.
      rewrite int_add_ok by lia. rewrite IH by lia.
      simpl app. rewrite len_cons. do 2 f_equal. lia.
    + simpl app in Hhi. rewrite !len_cons in Hhi.
      rewrite int_add_ok by lia. rewrite IH by lia.
      simpl app. rewrite !len_cons. do 2 f_equal. lia.
Qed.

Lemma latin2utf_loop_fill (x rest : list byte) :
  no_zero x ->
  forall pre slot post cnt,
    len slot = len (to_utf8 x) + 1 ->
    INT_MIN <= cnt -> cnt + len (to_utf8 x) + 1 <= INT_MAX ->
    latin2utf_loop (x ++ x00 :: rest) (Some (pre ++ slot ++ post)) (length pre) cnt
    = Ok (cnt + len (to_utf8 x) + 1, Some (pre ++ (to_utf8 x ++ [x00]) ++ post)).
Proof.
  induction 1 as [|b x Hb Hx IH]; intros pre slot post cnt Hslot Hlo Hhi.
  - change (to_utf8 []) with (@nil byte) in *. rewrite len_nil in *.
    destruct slot as [|s0 [|s1 slot]]; try (unfold len in Hslot; simpl in Hslot; lia).
    simpl app. cbn [latin2utf_loop]. simpl (byte_val x00 =? 0).
    rewrite poke_slot. rewrite int_add_ok by lia.
    do 2 f_equal. lia.
  - pose proof (len_nonneg (to_utf8 x)) as Hn.
    simpl app. cbn [latin2utf_loop]. rewrite (byte_val_nonzero Hb).
    rewrite to_utf8_cons in *. unfold to_utf8_char in *.
    destruct (byte_val b <? 128) eqn:E.
    + simpl app in Hhi, Hslot. rewrite len_cons in Hhi, Hslot.
      destruct slot as [|s0 slot]; [rewrite len_nil in Hslot; lia|].
      rewrite len_cons in Hslot.
      simpl app. rewrite poke_slot. rewrite int_add_ok by lia.
      cbn [advance].
      replace (pre ++ b :: slot ++ post) with ((pre ++ [b]) ++ slot ++ post)
        by (rewrite <- app_assoc; reflexivity).
      replace (S (length pre)) with (length (pre ++ [b]))
        by (rewrite length_app; simpl; lia).
      rewrite IH by lia. rewrite len_cons. rewrite <- app_assoc. simpl app.
      do 2 f_equal. lia.
    + simpl app in Hhi, Hslot. rewrite !len_cons in Hhi, Hslot.
      destruct slot as [|s0 [|s1 slot]];
        try (repeat rewrite len_cons in Hslot; rewrite len_nil in Hslot; lia).
      rewrite !len_cons in Hslot.
      simpl app. rewrite poke_slot. cbn [advance].
      replace (pre ++ latin_lead b :: s1 :: slot ++ post)
        with ((pre ++ [latin_lead b]) ++ s1 :: slot ++ post)
        by (rewrite <- app_assoc; reflexivity).
      replace (S (length pre)) with (length (pre ++ [latin_lead b]))
        by (rewrite length_app; simpl; lia).
      rewrite poke_slot. rewrite int_add_ok by lia.
      replace ((pre ++ [latin_lead b]) ++ latin_cont b :: slot ++ post)
        with ((pre ++ [latin_lead b; latin_cont b]) ++ slot ++ post)
        by (rewrite <- !app_assoc; reflexivity).
      replace (S (length (pre ++ [latin_lead b])))
        with (length (pre ++ [latin_lead b; latin_cont b]))
        by (rewrite !length_app; simpl; lia).
      rewrite IH by lia. rewrite !len_cons. rewrite <- app_assoc. simpl app.
      do 2 f_equal. lia.
Qed.

Lemma paired_to_utf8 (x : list byte) : no_zero x -> paired (to_utf8 x) = true.
Proof.
  induction 1 as [|b x Hb Hx IH]; [reflexivity|].
  rewrite to_utf8_cons. unfold to_utf8_char.
  destruct (byte_val b <? 128) eqn:E; simpl app; cbn [paired].
  - now rewrite (byte_val_nonzero Hb), E.
  - destruct (high_byte b E) as (E1 & E2 & _).
    rewrite (byte_val_nonzero (high_nonzero E1)), E1.
    rewrite (byte_val_nonzero (high_nonzero E2)). exact IH.
Qed.

(** *** [utf2latin] against the rule *)

Lemma utf2latin_loop_count (rest : list byte) (n : nat) :
  forall y, (length y <= n)%nat -> paired y = true ->
  forall i cnt,
    INT_MIN <= cnt -> cnt + len (to_single_byte y) + 1 <= INT_MAX ->
    utf2latin_loop (y ++ x00 :: rest) None i cnt
    = Ok (cnt + len (to_single_byte y) + 1, None).
Proof.
  induction n as [|n IH]; intros y Hn Hp i cnt Hlo Hhi.
  - destruct y; [|simpl in Hn; lia].
    simpl in *. rewrite len_nil in *. rewrite int_add_ok by lia.
    do 2 f_equal. lia.
  - destruct y as [|c y].
    + simpl in *. rewrite len_nil in *. rewrite int_add_ok by lia.
      do 2 f_equal. lia.
    + cbn [paired] in Hp. simpl app. cbn [utf2latin_loop].
      cbn [to_single_byte] in *.
      destruct (byte_val c =? 0); [discriminate|].
      destruct (byte_val c <? 128) eqn:E.
      * rewrite len_cons in *. pose proof (len_nonneg (to_single_byte y)).
        cbn [poke advance]. rewrite int_add_ok by lia.
        rewrite IH; [do 2 f_equal; lia|simpl in Hn; lia|exact Hp|lia|lia].
      * destruct y as [|d y]; [discriminate|].
        apply andb_true_iff in Hp. destruct Hp as [_ Hp].
        rewrite len_cons in *. pose proof (len_nonneg (to_single_byte y)).
        simpl app. cbn [poke advance]. rewrite int_add_ok by lia.
        rewrite IH; [do 2 f_equal; lia|simpl in Hn; lia|exact Hp|lia|lia].
Qed.

Lemma utf2latin_loop_fill (rest : list byte) (n : nat) :
  forall y, (length y <= n)%nat -> paired y = true ->
  forall pre slot post cnt,
    len slot = len (to_single_byte y) + 1 ->
    INT_MIN <= cnt -> cnt + len (to_single_byte y) + 1 <= INT_MAX ->
    utf2latin_loop (y ++ x00 :: rest) (Some (pre ++ slot ++ post)) (length pre) cnt
    = Ok (cnt + len (to_single_byte y) + 1,
          Some (pre ++ (to_single_byte y ++ [x00]) ++ post)).
Proof.
  assert (Base : forall pre slot post cnt,
             len slot = len (@nil byte) + 1 ->
             INT_MIN <= cnt -> cnt + len (@nil byte) + 1 <= INT_MAX ->
             utf2latin_loop ([] ++ x00 :: rest) (Some (pre ++ slot ++ post)) (length pre) cnt
             = Ok (cnt + len (@nil byte) + 1, Some (pre ++ ([] ++ [x00]) ++ post))).
  { intros pre slot post cnt Hslot Hlo Hhi. rewrite len_nil in *.
    destruct slot as [|s0 [|s1 slot]]; try (unfold len in Hslot; simpl in Hslot; lia).
    simpl app. cbn [utf2latin_loop]. simpl (byte_val x00 =? 0).
    rewrite poke_slot. rewrite int_add_ok by lia. do 2 f_equal. lia. }
  induction n as [|n IH]; intros y Hn Hp pre slot post cnt Hslot Hlo Hhi.
  - destruct y; [|simpl in Hn; lia]. now apply Base.
  - destruct y as [|c y]; [now apply Base|].
    cbn [paired] in Hp. simpl app. cbn [utf2latin_loop].
    cbn [to_single_byte] in *.
    destruct (byte_val c =? 0); [discriminate|].
    assert (Step : forall v y',
               (length y' <= n)%nat -> paired y' = true ->
               len slot = len (v :: to_single_byte y') + 1 ->
               cnt + len (v :: to_single_byte y') + 1 <= INT_MAX ->
               (buffer' <- poke (Some (pre ++ slot ++ post)) (length pre) v ;;
                cnt' <- int_add cnt 1 ;;
                utf2latin_loop (y' ++ x00 :: rest) buffer'
                  (advance (Some (pre ++ slot ++ post)) (length pre)) cnt')
               = Ok (cnt + len (v :: to_single_byte y') + 1,
                     Some (pre ++ ((v :: to_single_byte y') ++ [x00]) ++ post))).
    { intros v y' Hn' Hp' Hslot' Hhi'.
      rewrite len_cons in *. pose proof (len_nonneg (to_single_byte y')).
      destruct slot as [|s0 slot]; [rewrite len_nil in Hslot'; lia|].
      rewrite len_cons in Hslot'.
      simpl app. rewrite poke_slot. rewrite int_add_ok by lia. cbn [advance].
      replace (pre ++ v :: slot ++ post) with ((pre ++ [v]) ++ slot ++ post)
        by (rewrite <- app_assoc; reflexivity).
      replace (S (length pre)) with (length (pre ++ [v]))
        by (rewrite length_app; simpl; lia).
      rewrite IH; [|exact Hn'|exact Hp'|lia|lia|lia].
      rewrite <- app_assoc. simpl app. do 2 f_equal. lia. }
    destruct (byte_val c <? 128) eqn:E.
    + apply Step; [simpl in Hn; lia|exact Hp|exact Hslot|exact Hhi].
    + destruct y as [|d y]; [discriminate|].
      apply andb_true_iff in Hp. destruct Hp as [_ Hp].
      simpl app. apply Step; [simpl in Hn; lia|exact Hp|exact Hslot|exact Hhi].
Qed.

End CharsetFacts.

Module CharsetClaims.
Import Charset CharsetFacts.

Lemma len_to_single_byte (n : nat) :
  forall y, (length y <= n)%nat -> 0 <= len (to_single_byte y) <= len y.
Proof.
  induction n as [|n IH]; intros y Hn.
  - destruct y; [simpl; rewrite len_nil; lia|simpl in Hn; lia].
  - destruct y as [|c y]; [simpl; rewrite len_nil; lia|].
    cbn [to_single_byte]. destruct (byte_val c <? 128).
    + rewrite !len_cons. specialize (IH y). simpl in Hn. lia.
    + destruct y as [|d y]; [rewrite len_nil, len_cons, len_nil; lia|].
      rewrite !len_cons. specialize (IH y). simpl in Hn. lia.
Qed.

(** C3. Charset round trip. For every C string [x] (no zero byte before
    the terminator) that is short enough for the [int] counter,
    [latin2utf] fills a buffer of the size it asks for with the UTF-8 form
    of [x], and [utf2latin] turns that form back into [x]. The codec leaves
    a byte below 128 as it is, writes [128+64+(b>>6)] and [128+(b&63)] for
    a byte [b] from 128 on, and maps a pair [lead], [cont] to
    [(lead<<6)|(cont&63)]. *)
Theorem C3_charset_round_trip (x buf1 buf2 : list byte) :
  no_zero x ->
  2 * len x + 1 <= INT_MAX ->
  len buf1 = len (to_utf8 x) + 1 ->
  len buf2 = len x + 1 ->
  latin2utf (Some (x ++ [x00])) (Some buf1)
  = Ok (len (to_utf8 x) + 1, Some (to_utf8 x ++ [x00])) /\
  utf2latin (Some (to_utf8 x ++ [x00])) (Some buf2)
  = Ok (len x + 1, Some (x ++ [x00])) /\
  to_utf8 x
  = flat_map (fun b => if byte_val b <? 128 then [b]
                       else [byte_of (128 + 64 + Z.shiftr (byte_val b) 6);
                             byte_of (128 + Z.land (byte_val b) 63)]) x /\
  (forall (b : byte) (buf : list byte),
      b <> x00 -> (byte_val b <? 128) = true -> len buf = 2 ->
      utf2latin (Some [b; x00]) (Some buf) = Ok (2, Some [b; x00])) /\
  (forall (lead cont : byte) (buf : list byte),
      (byte_val lead <? 128) = false -> cont <> x00 -> len buf = 2 ->
      utf2latin (Some [lead; cont; x00]) (Some buf)
      = Ok (2, Some [byte_of (Z.lor (Z.shiftl (byte_val lead) 6)
                                    (Z.land (byte_val cont) 63)); x00])).
Proof.
  intros Hx Hlen H1 H2.
  pose proof (len_to_utf8 x) as Hu. pose proof (len_nonneg x) as Hn.
  unfold INT_MAX in Hlen.
  repeat split.
  - unfold latin2utf.
    pose proof (@latin2utf_loop_fill x [] Hx [] buf1 [] 0) as F.
    rewrite app_nil_r in F. simpl in F. rewrite app_nil_r in F.
    apply F; unfold INT_MIN, INT_MAX; lia.
  - unfold utf2latin.
    pose proof (@utf2latin_loop_fill [] (length (to_utf8 x)) (to_utf8 x)
                  (le_n _) (paired_to_utf8 Hx) [] buf2 [] 0) as F.
    rewrite to_single_byte_to_utf8 in F.
    rewrite app_nil_r in F. simpl in F. rewrite app_nil_r in F.
    apply F; unfold INT_MIN, INT_MAX; lia.
  - intros b buf Hb Elow Hbuf. unfold utf2latin.
    pose proof (@utf2latin_loop_fill [] 1 [b] (le_n _)) as F.
    cbn [paired to_single_byte] in F. rewrite (byte_val_nonzero Hb), Elow in F.
    specialize (F eq_refl [] buf [] 0).
    rewrite app_nil_r in F. simpl in F. apply F; [exact Hbuf|unfold INT_MIN; lia|unfold INT_MAX; lia].
  - intros lead cont buf Ehigh Hc Hbuf. unfold utf2latin.
    pose proof (@utf2latin_loop_fill [] 2 [lead; cont] (le_n _)) as F.
    cbn [paired to_single_byte] in F.
    rewrite (byte_val_nonzero (high_nonzero Ehigh)), Ehigh, (byte_val_nonzero Hc) in F.
    specialize (F eq_refl [] buf [] 0).
    rewrite app_nil_r in F. simpl in F. apply F; [exact Hbuf|unfold INT_MIN; lia|unfold INT_MAX; lia].
Qed.

Lemma C3_witness :
  no_zero [x61; xe4; x62] /\
  2 * len [x61; xe4; x62] + 1 <= INT_MAX /\
  latin2utf (Some ([x61; xe4; x62] ++ [x00])) (Some (repeat xff 5))
  = Ok (5, Some [x61; xc3; xa4; x62; x00]) /\
  utf2latin (Some [x61; xc3; xa4; x62; x00]) (Some (repeat xff 4))
  = Ok (4, Some [x61; xe4; x62; x00]).
Proof.
  assert (Hz : no_zero [x61; xe4; x62]) by (repeat constructor; discriminate).
  assert (Hl : 2 * len [x61; xe4; x62] + 1 <= INT_MAX) by (vm_compute; discriminate).
  split; [exact Hz|]. split; [exact Hl|].
  pose proof (@C3_charset_round_trip [x61; xe4; x62] (repeat xff 5) (repeat xff 4)
                Hz Hl eq_refl eq_refl) as (A & B & _).
  split; [exact A|exact B].
Defined.

(** C4 (as amended). Length protocol of the codec. Called without a
    destination, either function returns the size of the buffer it needs,
    and that size counts the terminator; called again with a buffer of that
    size it returns the same number and has written every byte of the
    buffer, the terminator last. This holds for every C string given to
    [latin2utf], and for every C string given to [utf2latin] in which each
    byte from 128 on is followed by one more byte. *)
Theorem C4_length_protocol (x y buf1 buf2 : list byte) :
  no_zero x ->
  2 * len x + 1 <= INT_MAX ->
  paired y = true ->
  len y + 1 <= INT_MAX ->
  len buf1 = len (to_utf8 x) + 1 ->
  len buf2 = len (to_single_byte y) + 1 ->
  latin2utf (Some (x ++ [x00])) None = Ok (len (to_utf8 x) + 1, None) /\
  latin2utf (Some (x ++ [x00])) (Some buf1)
  = Ok (len (to_utf8 x) + 1, Some (to_utf8 x ++ [x00])) /\
  utf2latin (Some (y ++ [x00])) None = Ok (len (to_single_byte y) + 1, None) /\
  utf2latin (Some (y ++ [x00])) (Some buf2)
  = Ok (len (to_single_byte y) + 1, Some (to_single_byte y ++ [x00])).
Proof.
  intros Hx Hlx Hy Hly H1 H2.
  pose proof (len_to_utf8 x) as Hu. pose proof (len_nonneg x) as Hn.
  pose proof (@len_to_single_byte (length y) y (le_n _)) as Hs.
  unfold INT_MAX in Hlx, Hly.
  repeat split; unfold latin2utf, utf2latin.
  - apply latin2utf_loop_count; [exact Hx|unfold INT_MIN; lia|unfold INT_MAX; lia].
  - pose proof (@latin2utf_loop_fill x [] Hx [] buf1 [] 0) as F.
    rewrite app_nil_r in F. simpl in F. rewrite app_nil_r in F.
    apply F; unfold INT_MIN, INT_MAX; lia.
  - apply (@utf2latin_loop_count [] (length y)); [lia|exact Hy|unfold INT_MIN; lia|unfold INT_MAX; lia].
  - pose proof (@utf2latin_loop_fill [] (length y) y (le_n _) Hy [] buf2 [] 0) as F.
    rewrite app_nil_r in F. simpl in F. rewrite app_nil_r in F.
    apply F; unfold INT_MIN, INT_MAX; lia.
Qed.

Lemma C4_witness :
  latin2utf (Some ([xfc; x62] ++ [x00])) None = Ok (4, None) /\
  latin2utf (Some ([xfc; x62] ++ [x00])) (Some (repeat xff 4))
  = Ok (4, Some [xc3; xbc; x62; x00]) /\
  utf2latin (Some ([xc3; xbc; x62] ++ [x00])) None = Ok (3, None) /\
  utf2latin (Some ([xc3; xbc; x62] ++ [x00])) (Some (repeat xff 3))
  = Ok (3, Some [xfc; x62; x00]).
Proof.
  assert (Hz : no_zero [xfc; x62]) by (repeat constructor; discriminate).
  assert (Hl : 2 * len [xfc; x62] + 1 <= INT_MAX) by (vm_compute; discriminate).
  assert (Hl' : len [xc3; xbc; x62] + 1 <= INT_MAX) by (vm_compute; discriminate).
  exact (@C4_length_protocol [xfc; x62] [xc3; xbc; x62] (repeat xff 4) (repeat xff 3)
           Hz Hl eq_refl Hl' eq_refl eq_refl).
Defined.

(** The length returned for the one letter string "a" is 2, not the number
    of characters before the terminator; a buffer of one byte is
    overrun. *)
Lemma C4_counterexample :
  latin2utf (Some [x61; x00]) None = Ok (2, None) /\
  utf2latin (Some [x61; x00]) None = Ok (2, None) /\
  2 <> len [x61] /\
  latin2utf (Some [x61; x00]) (Some [xff]) = Undefined /\
  utf2latin (Some [x61; x00]) (Some [xff]) = Undefined.
Proof. repeat split; try reflexivity. vm_compute. discriminate. Qed.

End CharsetClaims.

(** ** C strings *)

Lemma strncpy_length (n : nat) :
  forall src p, strncpy src n = Ok p -> length p = n.
Proof.
  induction n as [|n IH]; intros src p H.
  - simpl in H. injection H as <-. reflexivity.
  - cbn [strncpy] in H. destruct src as [|c src]; [discriminate|].
    destruct (byte_val c =? 0).
    + injection H as <-. simpl. f_equal. apply repeat_length.
    + destruct (strncpy src n) as [rest| |] eqn:E; try discriminate.
      injection H as <-. simpl. f_equal. eapply IH. exact E.
Qed.

Lemma strncpy_defined (n : nat) :
  forall src, (n <= length src)%nat -> exists p, strncpy src n = Ok p.
Proof.
  induction n as [|n IH]; intros src H.
  - now exists [].
  - destruct src as [|c src]; [simpl in H; lia|].
    cbn [strncpy]. destruct (byte_val c =? 0); [eauto|].
    destruct (IH src) as [p Hp]; [simpl in H; lia|]. rewrite Hp. eauto.
Qed.

(** A platform string that was copied with [strncpy] compares equal. *)
Lemma strncmp_strncpy (n : nat) :
  forall src p rest, strncpy src n = Ok p -> strncmp_eq src (p ++ rest) n = Ok true.
Proof.
  induction n as [|n IH]; intros src p rest H; [reflexivity|].
  cbn [strncpy] in H. destruct src as [|c src]; [discriminate|].
  destruct (byte_val c =? 0) eqn:E.
  - injection H as <-. apply byte_val_zero in E. subst c. reflexivity.
  - destruct (strncpy src n) as [q| |] eqn:Q; try discriminate.
    injection H as <-. simpl app. cbn [strncmp_eq].
    rewrite Z.eqb_refl. simpl negb. cbv iota. rewrite E. now apply IH.
Qed.

(** [strncmp] looks at the first [n] bytes only. *)
Lemma strncmp_eq_firstn_l (n : nat) :
  forall a b, strncmp_eq (firstn n a) b n = strncmp_eq a b n.
Proof.
  induction n as [|n IH]; intros a b; [reflexivity|].
  destruct a as [|x a]; [reflexivity|]. destruct b as [|y b]; [reflexivity|].
  cbn [firstn strncmp_eq]. now rewrite IH.
Qed.

Lemma strncmp_eq_firstn_r (n : nat) :
  forall a b, strncmp_eq a (firstn n b) n = strncmp_eq a b n.
Proof.
  induction n as [|n IH]; intros a b; [reflexivity|].
  destruct a as [|x a]; [now destruct b|]. destruct b as [|y b]; [reflexivity|].
  cbn [firstn strncmp_eq]. now rewrite IH.
Qed.

Lemma strncmp_eq_defined (n : nat) :
  forall a b, (n <= length a)%nat -> (n <= length b)%nat ->
              exists r, strncmp_eq a b n = Ok r.
Proof.
  induction n as [|n IH]; intros a b Ha Hb; [now exists true|].
  destruct a as [|x a]; [simpl in Ha; lia|]. destruct b as [|y b]; [simpl in Hb; lia|].
  cbn [strncmp_eq]. destruct (negb (byte_val x =? byte_val y)); [eauto|].
  destruct (byte_val x =? 0); [eauto|]. apply IH; simpl in *; lia.
Qed.

(** Against a string without a zero byte among its first [n] bytes,
    [strncmp] returns 0 exactly when the first [n] bytes agree. *)
Lemma strncmp_eq_spec (n : nat) :
  forall a b, (n <= length a)%nat -> (n <= length b)%nat ->
              Forall (fun c => c <> x00) (firstn n b) ->
              strncmp_eq a b n = Ok true /\ firstn n a = firstn n b
              \/ strncmp_eq a b n = Ok false /\ firstn n a <> firstn n b.
Proof.
  induction n as [|n IH]; intros a b Ha Hb Hz; [left; split; reflexivity|].
  destruct a as [|x a]; [simpl in Ha; lia|]. destruct b as [|y b]; [simpl in Hb; lia|].
  cbn [firstn] in *. inversion Hz as [|? ? Hy Hz']; subst.
  cbn [strncmp_eq]. destruct (byte_val x =? byte_val y) eqn:E; simpl negb; cbv iota.
  - apply Z.eqb_eq in E. apply byte_val_inj in E. subst y.
    rewrite (byte_val_nonzero Hy).
    destruct (IH a b) as [[R1 R2]|[R1 R2]]; try (simpl in *; lia); try assumption.
    + left. split; [exact R1|now rewrite R2].
    + right. split; [exact R1|]. intro F. injection F as F. contradiction.
  - right. split; [reflexivity|]. intro F. injection F as F _. subst y.
    rewrite Z.eqb_refl in E. discriminate.
Qed.

(** The part of an object that a load gave. *)
Lemma load_bytes_skipn (buf : list byte) (off n : Z) (bs : list byte) :
  load_bytes buf off n = Ok bs ->
  skipn (Z.to_nat off) buf = bs ++ skipn (Z.to_nat (off + n)) buf.
Proof.
  intro H. apply load_bytes_inv in H. destruct H as (H1 & H2 & H3 & -> & _).
  rewrite <- (firstn_skipn (Z.to_nat n) (skipn (Z.to_nat off) buf)) at 1.
  f_equal. rewrite skipn_skipn. f_equal. lia.
Qed.

(** ** Typed BLOBs *)

Module TBHFacts.
Import Host TBH.

Section WithEnv.
Variable env : Env.

Lemma load_int32_store (buf : list byte) (off z : Z) (buf' : list byte) :
  store_int32 env buf off z = Ok buf' -> load_int32 env buf' off = Ok (wrap32 z).
Proof.
  unfold store_int32, load_int32. intro H.
  pose proof (@load_store_same _ _ _ _ H) as L. rewrite len_int_bytes in L.
  change (Z.of_nat 4) with 4 in L. rewrite L.
  rewrite int_value_int_bytes. change (Z.of_nat 4) with 4. now rewrite wrap32_mod.
Qed.

Lemma load_int16_store (buf : list byte) (off z : Z) (buf' : list byte) :
  store_int16 env buf off z = Ok buf' -> load_int16 env buf' off = Ok (wrap16 z).
Proof.
  unfold store_int16, load_int16. intro H.
  pose proof (@load_store_same _ _ _ _ H) as L. rewrite len_int_bytes in L.
  change (Z.of_nat 2) with 2 in L. rewrite L.
  rewrite int_value_int_bytes. change (Z.of_nat 2) with 2. now rewrite wrap16_mod.
Qed.

Lemma store_int32_inv (buf : list byte) (off z : Z) (buf' : list byte) :
  store_int32 env buf off z = Ok buf' ->
  0 <= off /\ off + 4 <= len buf /\ len buf' = len buf /\
  forall off' n, off' + n <= off \/ off + 4 <= off' ->
                 load_bytes buf' off' n = load_bytes buf off' n.
Proof.
  unfold store_int32. intro H.
  pose proof (@store_bytes_inv _ _ _ _ H) as (H1 & H2 & H3 & _).
  rewrite len_int_bytes in H2. change (Z.of_nat 4) with 4 in H2.
  repeat split; try assumption.
  intros off' n D. apply (@load_store_other _ _ _ _ off' n H).
  rewrite len_int_bytes. exact D.
Qed.

Lemma store_int32_ok (buf : list byte) (off z : Z) :
  0 <= off -> off + 4 <= len buf -> exists buf', store_int32 env buf off z = Ok buf'.
Proof.
  intros H1 H2. unfold store_int32. rewrite store_bytes_ok; [eauto|exact H1|].
  rewrite len_int_bytes. exact H2.
Qed.

(** The loop that stores the sizes. *)
Lemma store_dims_len (dims : list Z) :
  forall buf j buf', store_dims env buf j dims = Ok buf' -> len buf' = len buf.
Proof.
  induction dims as [|d dims IH]; intros buf j buf' H.
  - simpl in H. now injection H as <-.
  - cbn [store_dims] in H.
    destruct (store_int32 env buf (OFF_sizeDims + 4 * (j + 1)) (wrap32 d)) as [b1| |] eqn:E;
      try discriminate.
    apply store_int32_inv in E. destruct E as (_ & _ & E3 & _).
    rewrite (@IH _ _ _ H). exact E3.
Qed.

Lemma store_dims_other (dims : list Z) :
  forall buf j buf',
    store_dims env buf j dims = Ok buf' ->
    0 <= j ->
    forall off n,
      off + n <= OFF_sizeDims + 4 * (j + 1)
      \/ OFF_sizeDims + 4 * (j + 1 + Z.of_nat (length dims)) <= off ->
      load_bytes buf' off n = load_bytes buf off n.
Proof.
  induction dims as [|d dims IH]; intros buf j buf' H Hj off n D.
  - simpl in H. now injection H as <-.
  - cbn [store_dims] in H.
    destruct (store_int32 env buf (OFF_sizeDims + 4 * (j + 1)) (wrap32 d)) as [b1| |] eqn:E;
      try discriminate.
    apply store_int32_inv in E. destruct E as (_ & _ & _ & E4).
    simpl length in D.
    rewrite (@IH _ _ _ H) by lia. apply E4. lia.
Qed.

Lemma load_dims_store_dims (dims : list Z) :
  forall buf j buf',
    store_dims env buf j dims = Ok buf' ->
    0 <= j ->
    load_dims env buf' j (length dims) = Ok (map wrap32 dims).
Proof.
  induction dims as [|d dims IH]; intros buf j buf' H Hj; [reflexivity|].
  cbn [store_dims] in H.
  destruct (store_int32 env buf (OFF_sizeDims + 4 * (j + 1)) (wrap32 d)) as [b1| |] eqn:E;
    try discriminate.
  simpl length. cbn [load_dims].
  pose proof (@load_int32_store _ _ _ _ E) as L.
  unfold load_int32 in L |- *.
  rewrite (@store_dims_other _ _ _ _ H) by lia.
  destruct (load_bytes b1 (OFF_sizeDims + 4 * (j + 1)) 4); try discriminate.
  injection L as L. rewrite L.
  rewrite (@IH _ _ _ H) by lia. simpl map.
  rewrite (wrap32_small (wrap32_range d)). reflexivity.
Qed.

Lemma store_dims_ok (dims : list Z) :
  forall buf j,
    0 <= j ->
    OFF_sizeDims + 4 * (j + 1 + Z.of_nat (length dims)) <= len buf ->
    exists buf', store_dims env buf j dims = Ok buf'.
Proof.
  induction dims as [|d dims IH]; intros buf j Hj Hl; [simpl; eauto|].
  cbn [store_dims]. simpl length in Hl.
  destruct (@store_int32_ok buf (OFF_sizeDims + 4 * (j + 1)) (wrap32 d)) as [b1 E];
    [unfold OFF_sizeDims; lia|lia|].
  rewrite E. apply IH; [lia|].
  apply store_int32_inv in E. destruct E as (_ & _ & E3 & _). rewrite E3. lia.
Qed.

Lemma map_wrap32_dims (dims : list Z) :
  Forall (fun d => INT_MIN <= d <= INT_MAX) dims -> map wrap32 dims = dims.
Proof.
  induction 1 as [|d dims Hd _ IH]; [reflexivity|].
  simpl. now rewrite IH, (wrap32_small Hd).
Qed.

Lemma class_of_code_code (cls : mxClassID) : class_of_code (class_code cls) = Some cls.
Proof. destruct cls; reflexivity. Qed.

Lemma len_unset (n : Z) : 0 <= n -> len (unset env n) = n.
Proof.
  intro H. unfold len, unset. rewrite length_map, length_seq. lia.
Qed.

Lemma sqlite3_malloc_inv (n : Z) (buf : list byte) :
  sqlite3_malloc env n = Some buf ->
  0 < n /\ alloc_ok env (sqlite3_malloc_call n) = true /\ len buf = n.
Proof.
  unfold sqlite3_malloc. intro H.
  destruct (0 <? n) eqn:E; [|discriminate].
  destruct (alloc_ok env (sqlite3_malloc_call n)) eqn:A; [|discriminate].
  simpl in H. injection H as <-. apply Z.ltb_lt in E.
  repeat split; [exact E|]. apply len_unset. lia.
Qed.


(** The sizes read depend on the bytes of the entries only. *)
Lemma load_dims_frame (b1 b2 : list byte) (n : nat) :
  forall j,
    (forall k, j <= k < j + Z.of_nat n ->
               load_bytes b1 (OFF_sizeDims + 4 * (k + 1)) 4
               = load_bytes b2 (OFF_sizeDims + 4 * (k + 1)) 4) ->
    load_dims env b1 j n = load_dims env b2 j n.
Proof.
  induction n as [|n IH]; intros j H; [reflexivity|].
  cbn [load_dims]. unfold load_int32. rewrite (H j) by lia.
  rewrite (IH (j + 1)); [reflexivity|]. intros k Hk. apply H. lia.
Qed.

Lemma sizeBlob_exact (item : mxArray) :
  mx_wf item ->
  TBH_DATA_OFFSET (mxGetNumberOfDimensions item) + len (mxGetData item) <= INT_MAX ->
  sizeBlob item
  = Ok (TBH_DATA_OFFSET (mxGetNumberOfDimensions item) + len (mxGetData item)).
Proof.
  intros [_ [Hd _]] Hmax. unfold sizeBlob. rewrite <- Hd.
  pose proof (len_nonneg (mxGetData item)) as Hn.
  assert (Hnd : 0 <= mxGetNumberOfDimensions item)
    by (unfold mxGetNumberOfDimensions; lia).
  unfold TBH_DATA_OFFSET, OFF_sizeDims, INT_MAX in *.
  rewrite !wrap32_small by (unfold INT_MIN, INT_MAX; lia).
  apply int_add_ok. unfold INT_MIN, INT_MAX. lia.
Qed.

Ltac thru E :=
  rewrite (@load_store_other _ _ _ _ _ _ E)
    by (rewrite ?len_int_bytes;
        unfold TBH_DATA_OFFSET, OFF_sizeDims, OFF_ver, OFF_clsid, OFF_platform,
          OFF_endian, OFF_magic, len in *;
        simpl length; lia).

Ltac thru_dims E :=
  rewrite (@store_dims_other _ _ _ _ E)
    by (unfold TBH_DATA_OFFSET, OFF_sizeDims, OFF_ver, OFF_clsid, OFF_platform,
          OFF_endian, OFF_magic in *; lia).

(** What is found in a blob made by the encode branch. *)
Lemma typed_blob_encode_inv (item : mxArray) (blob : list byte) :
  mx_wf item ->
  typed_blob_encode env item = Ok blob ->
  supported_class (mxGetClassID item) = true /\
  len blob = TBH_DATA_OFFSET (mxGetNumberOfDimensions item) + len (mxGetData item) /\
  len blob <= MQSQLITE_MAX_BLOB_SIZE /\
  alloc_ok env (sqlite3_malloc_call (len blob)) = true /\
  load_int16 env blob OFF_ver = Ok (wrap16 sizeof_tbh) /\
  load_int32 env blob OFF_clsid = Ok (class_code (mxGetClassID item)) /\
  load_bytes blob OFF_endian 1 = Ok [hd x00 (g_endian env)] /\
  load_int32 env blob OFF_sizeDims = Ok (mxGetNumberOfDimensions item) /\
  load_bytes blob OFF_magic 13 = Ok TBH_MAGIC /\
  (exists platform, strncpy (g_platform env) 10 = Ok platform /\
                    load_bytes blob OFF_platform 10 = Ok platform) /\
  load_dims env blob 0 (length (mxGetDimensions item)) = Ok (mxGetDimensions item) /\
  load_bytes blob (TBH_DATA_OFFSET (mxGetNumberOfDimensions item)) (len (mxGetData item))
  = Ok (mxGetData item).
Proof.
  intros [Wd [Wl Ws]] H. unfold typed_blob_encode in H. cbv zeta in H.
  rewrite <- Wl in H.
  rewrite Z.mod_small in H by (pose proof (len_nonneg (mxGetData item)); lia).
  rewrite load_bytes_all in H.
  destruct (sizeBlob item) as [sz| |] eqn:Esz; try discriminate.
  destruct (MQSQLITE_MAX_BLOB_SIZE <? sz) eqn:Emax; try discriminate.
  destruct (supported_class (mxGetClassID item)) eqn:Esup; try discriminate.
  cbv beta iota in H. simpl negb in H. cbv iota in H.
  destruct (sqlite3_malloc env sz) as [b0|] eqn:Em; try discriminate.
  destruct (store_int16 env b0 OFF_ver (wrap16 sizeof_tbh)) as [b1| |] eqn:E1;
    try discriminate.
  destruct (store_int32 env b1 OFF_clsid (wrap32 (class_code (mxGetClassID item))))
    as [b2| |] eqn:E2; try discriminate.
  destruct (store_bytes b2 OFF_endian [hd x00 (g_endian env)]) as [b3| |] eqn:E3;
    try discriminate.
  destruct (store_int32 env b3 OFF_sizeDims (wrap32 (mxGetNumberOfDimensions item)))
    as [b4| |] eqn:E4; try discriminate.
  change (strcpy TBH_MAGIC) with (Ok TBH_MAGIC) in H. cbv beta iota in H.
  destruct (store_bytes b4 OFF_magic TBH_MAGIC) as [b5| |] eqn:E5; try discriminate.
  destruct (strncpy (g_platform env) 10) as [platform| |] eqn:Ep; try discriminate.
  destruct (store_bytes b5 OFF_platform platform) as [b6| |] eqn:E6; try discriminate.
  destruct (store_dims env b6 0 (mxGetDimensions item)) as [b7| |] eqn:E7;
    try discriminate.
  destruct (store_bytes b7 (TBH_DATA_OFFSET (mxGetNumberOfDimensions item))
              (mxGetData item)) as [b8| |] eqn:E8; try discriminate.
  injection H as <-.
  (* sizes *)
  apply Z.ltb_ge in Emax.
  assert (Emax' : sz <= 1073741823) by exact Emax.
  pose proof (@sqlite3_malloc_inv _ _ Em) as (Hpos & Hal & L0).
  pose proof (@strncpy_length _ _ _ Ep) as Lp.
  assert (Lm : len TBH_MAGIC = 13) by reflexivity.
  unfold store_int16 in E1. unfold store_int32 in E2, E4.
  pose proof (@store_bytes_inv _ _ _ _ E1) as (_ & _ & L1 & _).
  pose proof (@store_bytes_inv _ _ _ _ E2) as (_ & _ & L2 & _).
  pose proof (@store_bytes_inv _ _ _ _ E3) as (_ & _ & L3 & _).
  pose proof (@store_bytes_inv _ _ _ _ E4) as (_ & _ & L4 & _).
  pose proof (@store_bytes_inv _ _ _ _ E5) as (_ & _ & L5 & _).
  pose proof (@store_bytes_inv _ _ _ _ E6) as (_ & _ & L6 & _).
  pose proof (@store_dims_len _ _ _ _ E7) as L7.
  pose proof (@store_bytes_inv _ _ _ _ E8) as (P8 & B8 & L8 & _).
  assert (Hn : 0 <= mxGetNumberOfDimensions item)
    by (unfold mxGetNumberOfDimensions; lia).
  pose proof (len_nonneg (mxGetData item)) as Hdl.
  assert (Lb : len b8 = sz) by congruence.
  assert (Hsz : sz = TBH_DATA_OFFSET (mxGetNumberOfDimensions item) + len (mxGetData item)).
  { change MQSQLITE_MAX_BLOB_SIZE with 1073741823 in Emax.
    assert (B : TBH_DATA_OFFSET (mxGetNumberOfDimensions item) + len (mxGetData item)
                <= INT_MAX) by (unfold INT_MAX; lia).
    rewrite (@sizeBlob_exact _ (conj Wd (conj Wl Ws)) B) in Esz. now injection Esz. }
  assert (Hp10 : len platform = 10) by (unfold len; rewrite Lp; reflexivity).
  split; [reflexivity|]. split; [congruence|]. split; [lia|].
  split; [now rewrite Lb|].
  split.
  { unfold load_int16. thru E8. thru_dims E7. thru E6. thru E5. thru E4. thru E3. thru E2.
    fold (load_int16 env b1 OFF_ver). rewrite (@load_int16_store _ _ _ _ E1).
    reflexivity. }
  split.
  { unfold load_int32. thru E8. thru_dims E7. thru E6. thru E5. thru E4. thru E3.
    fold (load_int32 env b2 OFF_clsid). rewrite (@load_int32_store _ _ _ _ E2).
    f_equal. rewrite wrap32_small; [apply wrap32_small|];
      destruct (mxGetClassID item); vm_compute; split; discriminate. }
  split.
  { thru E8. thru_dims E7. thru E6. thru E5. thru E4.
    apply (@load_store_same _ _ _ _ E3). }
  split.
  { unfold load_int32. thru E8. thru_dims E7. thru E6. thru E5.
    fold (load_int32 env b4 OFF_sizeDims). rewrite (@load_int32_store _ _ _ _ E4).
    f_equal. unfold TBH_DATA_OFFSET, OFF_sizeDims in *.
    rewrite wrap32_small; [apply wrap32_small|rewrite wrap32_small];
      unfold INT_MIN, INT_MAX; lia. }
  split.
  { thru E8. thru_dims E7. thru E6. apply (@load_store_same _ _ _ _ E5). }
  split.
  { exists platform. split; [reflexivity|].
    thru E8. thru_dims E7. rewrite <- Hp10. apply (@load_store_same _ _ _ _ E6). }
  split.
  { pose proof (@load_dims_store_dims _ _ _ _ E7 (Z.le_refl 0)) as D.
    rewrite (@map_wrap32_dims _ Wd) in D. rewrite <- D.
    apply load_dims_frame. intros k Hk.
    unfold mxGetNumberOfDimensions in *. thru E8. reflexivity. }
  apply (@load_store_same _ _ _ _ E8).
Qed.

Lemma store_bytes_ex (buf : list byte) (off : Z) (bs : list byte) :
  0 <= off -> off + len bs <= len buf ->
  exists buf', store_bytes buf off bs = Ok buf' /\ len buf' = len buf.
Proof.
  intros H1 H2. rewrite store_bytes_ok by assumption.
  eexists. split; [reflexivity|].
  unfold len in *. rewrite !length_app, length_firstn, length_skipn. lia.
Qed.

(** The encode branch returns a blob when the size is within the bound,
    the class is one of the switch and [sqlite3_malloc] gives memory. *)
Lemma typed_blob_encode_ok (item : mxArray) :
  mx_wf item ->
  (10 <= length (g_platform env))%nat ->
  TBH_DATA_OFFSET (mxGetNumberOfDimensions item) + len (mxGetData item)
  <= MQSQLITE_MAX_BLOB_SIZE ->
  supported_class (mxGetClassID item) = true ->
  alloc_ok env (sqlite3_malloc_call
                  (TBH_DATA_OFFSET (mxGetNumberOfDimensions item) + len (mxGetData item)))
  = true ->
  exists blob, typed_blob_encode env item = Ok blob.
Proof.
  intros W Hp Hmax Hsup Hal. pose proof W as [_ [Wl Ws]].
  assert (Hmax' : TBH_DATA_OFFSET (mxGetNumberOfDimensions item) + len (mxGetData item)
                  <= 1073741823) by exact Hmax.
  assert (Hn : 0 <= mxGetNumberOfDimensions item)
    by (unfold mxGetNumberOfDimensions; lia).
  pose proof (len_nonneg (mxGetData item)) as Hdl.
  unfold typed_blob_encode. cbv zeta.
  rewrite sizeBlob_exact by (try exact W; unfold INT_MAX; lia).
  set (sz := TBH_DATA_OFFSET (mxGetNumberOfDimensions item) + len (mxGetData item)) in *.
  replace (MQSQLITE_MAX_BLOB_SIZE <? sz) with false by (symmetry; apply Z.ltb_ge; exact Hmax).
  rewrite Hsup. simpl negb. cbv iota.
  assert (Hsz : 36 <= sz) by (unfold sz, TBH_DATA_OFFSET, OFF_sizeDims; lia).
  unfold sqlite3_malloc. rewrite Hal.
  replace (0 <? sz) with true by (symmetry; apply Z.ltb_lt; lia). simpl andb. cbv iota.
  pose proof (@len_unset sz ltac:(lia)) as L0.
  generalize dependent (unset env sz). intros b0 L0.
  unfold store_int16, store_int32.
  destruct (@store_bytes_ex b0 OFF_ver (int_bytes (big_endian env) 2 (wrap16 sizeof_tbh)))
    as (b1 & E1 & L1);
    [unfold OFF_ver; lia|rewrite len_int_bytes; unfold OFF_ver; simpl; lia|].
  rewrite E1.
  destruct (@store_bytes_ex b1 OFF_clsid
              (int_bytes (big_endian env) 4 (wrap32 (class_code (mxGetClassID item)))))
    as (b2 & E2 & L2);
    [unfold OFF_clsid; lia|rewrite len_int_bytes; unfold OFF_clsid; simpl; lia|].
  rewrite E2.
  destruct (@store_bytes_ex b2 OFF_endian [hd x00 (g_endian env)]) as (b3 & E3 & L3);
    [unfold OFF_endian; lia|unfold OFF_endian, len at 1; simpl; lia|].
  rewrite E3.
  destruct (@store_bytes_ex b3 OFF_sizeDims
              (int_bytes (big_endian env) 4 (wrap32 (mxGetNumberOfDimensions item))))
    as (b4 & E4 & L4);
    [unfold OFF_sizeDims; lia|rewrite len_int_bytes; unfold OFF_sizeDims; simpl; lia|].
  rewrite E4.
  change (strcpy TBH_MAGIC) with (Ok TBH_MAGIC). cbv beta iota.
  destruct (@store_bytes_ex b4 OFF_magic TBH_MAGIC) as (b5 & E5 & L5);
    [unfold OFF_magic; lia|change (len TBH_MAGIC) with 13; unfold OFF_magic; lia|].
  rewrite E5.
  destruct (@strncpy_defined 10 (g_platform env) Hp) as (platform & Ep).
  rewrite Ep. pose proof (@strncpy_length _ _ _ Ep) as Lp.
  destruct (@store_bytes_ex b5 OFF_platform platform) as (b6 & E6 & L6);
    [unfold OFF_platform; lia|unfold OFF_platform, len at 1; rewrite Lp; simpl; lia|].
  rewrite E6.
  destruct (@store_dims_ok (mxGetDimensions item) b6 0) as (b7 & E7);
    [lia|unfold sz in *; unfold mxGetNumberOfDimensions, TBH_DATA_OFFSET, OFF_sizeDims in *;
         lia|].
  rewrite E7. pose proof (@store_dims_len _ _ _ _ E7) as L7.
  rewrite <- Wl. rewrite Z.mod_small by lia. rewrite load_bytes_all.
  destruct (@store_bytes_ex b7 (TBH_DATA_OFFSET (mxGetNumberOfDimensions item))
              (mxGetData item)) as (b8 & E8 & L8);
    [unfold TBH_DATA_OFFSET, OFF_sizeDims; lia|unfold sz in *; lia|].
  rewrite E8. eauto.
Qed.

Lemma typed_blob_encode_too_big (item : mxArray) (sz : Z) :
  sizeBlob item = Ok sz -> MQSQLITE_MAX_BLOB_SIZE < sz ->
  typed_blob_encode env item = Fail MSG_BLOBTOOBIG.
Proof.
  intros H1 H2. unfold typed_blob_encode. cbv zeta. rewrite H1.
  replace (MQSQLITE_MAX_BLOB_SIZE <? sz) with true by (symmetry; apply Z.ltb_lt; exact H2).
  reflexivity.
Qed.

(** *** The decode branch on a header that passes the checks *)

Lemma typed_blob_decode_checked (blob : list byte) (code n : Z) (e : byte)
      (w : bool) (cls : mxClassID) :
  load_int16 env blob OFF_ver = Ok (wrap16 sizeof_tbh) ->
  load_int32 env blob OFF_clsid = Ok code ->
  load_bytes blob OFF_endian 1 = Ok [e] ->
  load_int32 env blob OFF_sizeDims = Ok n ->
  origin_differs env blob e = Ok w ->
  strncmp_eq (skipn (Z.to_nat OFF_magic) blob) TBH_MAGIC strlen_TBH_MAGIC = Ok true ->
  class_of_code code = Some cls ->
  supported_class cls = true ->
  typed_blob_decode env blob = decode_array env blob cls n w.
Proof.
  intros Hv Hc He Hn Hw Hm Hcls Hsup. unfold typed_blob_decode.
  rewrite Hv, Z.eqb_refl. simpl negb. cbv iota.
  rewrite Hc. unfold load_byte. rewrite He. simpl hd. rewrite Hn, Hw, Hm.
  simpl. rewrite Hcls, Hsup. reflexivity.
Qed.

Lemma origin_same (blob platform : list byte) :
  strncpy (g_platform env) 10 = Ok platform ->
  load_bytes blob OFF_platform 10 = Ok platform ->
  origin_differs env blob (hd x00 (g_endian env)) = Ok false.
Proof.
  intros Hp Hl. unfold origin_differs. rewrite Z.eqb_refl. simpl negb. cbv iota.
  rewrite (@load_bytes_skipn _ _ _ _ Hl).
  rewrite (@strncmp_strncpy _ _ _ _ Hp). reflexivity.
Qed.

Lemma magic_same (blob : list byte) :
  load_bytes blob OFF_magic 13 = Ok TBH_MAGIC ->
  strncmp_eq (skipn (Z.to_nat OFF_magic) blob) TBH_MAGIC strlen_TBH_MAGIC = Ok true.
Proof.
  intro H. rewrite (@load_bytes_skipn _ _ _ _ H). reflexivity.
Qed.

Lemma zeros_filled (n : Z) (data : list byte) :
  len data = n -> store_bytes (zeros n) 0 data = Ok data.
Proof.
  intro H. pose proof (len_nonneg data) as Hn.
  assert (Lz : len (zeros n) = n)
    by (unfold len, zeros; rewrite repeat_length; unfold len in H; lia).
  rewrite store_bytes_ok by lia. f_equal. simpl.
  rewrite skipn_all2; [apply app_nil_r|]. unfold len in *. lia.
Qed.

(** The array and payload part of the decode branch on a blob whose sizes
    and payload agree. *)
Lemma decode_array_ok (blob : list byte) (cls : mxClassID) (dims : list Z)
      (data : list byte) (w : bool) (n : Z) :
  n = Z.of_nat (length dims) ->
  len blob = TBH_DATA_OFFSET n + len data ->
  len blob <= INT_MAX ->
  len data = numel dims * element_size cls ->
  load_dims env blob 0 (length dims) = Ok dims ->
  alloc_ok env (mxCreateNumericArray_call dims cls) = true ->
  load_bytes blob (TBH_DATA_OFFSET n) (len data) = Ok data ->
  decode_array env blob cls n w = Ok (w, MxArray cls false dims data []).
Proof.
  intros En Hl Hmax Hd Hdims Hal Hpay.
  pose proof (len_nonneg data) as Hn. unfold INT_MAX in Hmax.
  assert (Hoff : 36 <= TBH_DATA_OFFSET n) by (unfold TBH_DATA_OFFSET, OFF_sizeDims; lia).
  unfold decode_array. cbv zeta.
  replace (Z.to_nat n) with (length dims) by lia. rewrite Hdims.
  unfold mxCreateNumericArray. rewrite Hal.
  unfold mxGetNumberOfElements, mxGetElementSize. cbn [mxGetDimensions mxGetClassID mxGetData].
  rewrite <- Hd.
  replace (len blob - TBH_DATA_OFFSET n) with (len data) by lia.
  rewrite wrap32_small by (unfold INT_MIN, INT_MAX; lia).
  rewrite Z.mod_small by lia. rewrite Z.eqb_refl. simpl negb. cbv iota.
  rewrite Hpay. rewrite zeros_filled by reflexivity. reflexivity.
Qed.

(** *** One byte of a blob replaced *)

Lemma set_byte_nth (blob : list byte) (k : nat) (b : byte) (i : nat) :
  i <> k -> nth_error (set_byte blob k b) i = nth_error blob i.
Proof.
  intro Hik. unfold set_byte.
  destruct (skipn k blob) as [|old rest] eqn:E; [reflexivity|].
  rewrite <- (firstn_skipn k blob) at 2. rewrite E.
  rewrite !nth_error_app.
  destruct (i <? length (firstn k blob))%nat eqn:L; [reflexivity|].
  apply Nat.ltb_ge in L.
  assert (Lk : length (firstn k blob) = k).
  { apply firstn_length_le.
    destruct (Nat.le_gt_cases k (length blob)) as [|G]; [assumption|].
    rewrite skipn_all2 in E by lia. discriminate. }
  rewrite Lk in *. destruct (i - k)%nat as [|m] eqn:M; [lia|reflexivity].
Qed.

Lemma set_byte_len (blob : list byte) (k : nat) (b : byte) :
  len (set_byte blob k b) = len blob.
Proof.
  unfold set_byte, len.
  destruct (skipn k blob) as [|old rest] eqn:E; [reflexivity|].
  rewrite <- (firstn_skipn k blob) at 2. rewrite E.
  rewrite !length_app. reflexivity.
Qed.

Lemma load_set_byte (blob : list byte) (k : nat) (b : byte) (off n : Z) :
  off + n <= Z.of_nat k \/ Z.of_nat k < off \/ off < 0 ->
  load_bytes (set_byte blob k b) off n = load_bytes blob off n.
Proof.
  intro D. destruct (Z.leb_spec 0 off) as [P|P].
  - apply load_bytes_ext; [apply set_byte_len|].
    intros i Hi. apply set_byte_nth. lia.
  - unfold load_bytes.
    replace (0 <=? off) with false by (symmetry; apply Z.leb_gt; lia).
    reflexivity.
Qed.

Lemma skipn_set_byte (blob : list byte) (k : nat) (b : byte) (j : nat) :
  (k < j)%nat -> skipn j (set_byte blob k b) = skipn j blob.
Proof.
  intro H. apply nth_error_ext. intro i.
  rewrite !nth_error_skipn. apply set_byte_nth. lia.
Qed.

Lemma firstn_set_byte (blob : list byte) (k : nat) (b : byte) (j : nat) :
  (j <= k)%nat -> firstn j (set_byte blob k b) = firstn j blob.
Proof.
  intro H. apply nth_error_ext. intro i.
  rewrite !nth_error_firstn.
  destruct (Nat.ltb_spec i j); [|reflexivity]. apply set_byte_nth. lia.
Qed.

Lemma element_size_supported (cls : mxClassID) :
  supported_class cls = true -> 1 <= element_size cls <= 8.
Proof. destruct cls; simpl; intro H; try discriminate; lia. Qed.

(** The byte behind the twelve characters of the magic string is not
    looked at by the array and payload part. *)
Lemma decode_array_set_byte (blob : list byte) (b : byte) (cls : mxClassID)
      (n : Z) (w : bool) :
  36 <= len blob <= INT_MAX ->
  supported_class cls = true ->
  decode_array env (set_byte blob 12 b) cls n w = decode_array env blob cls n w.
Proof.
  intros Hl Hsup. unfold decode_array. cbv zeta. rewrite set_byte_len.
  rewrite (@load_dims_frame (set_byte blob 12 b) blob (Z.to_nat n) 0)
    by (intros k Hk; apply load_set_byte; unfold OFF_sizeDims; lia).
  destruct (load_dims env blob 0 (Z.to_nat n)) as [pSize| |] eqn:Ed; try reflexivity.
  unfold mxCreateNumericArray.
  destruct (alloc_ok env (mxCreateNumericArray_call pSize cls)); [|reflexivity].
  unfold mxGetNumberOfElements, mxGetElementSize.
  cbn [mxGetDimensions mxGetClassID mxGetData].
  destruct (wrap32 (len blob - TBH_DATA_OFFSET n) mod 2 ^ 32
            =? (numel pSize * element_size cls) mod 2 ^ 32) eqn:Echk;
    simpl negb; cbv iota; [|reflexivity].
  rewrite load_set_byte; [reflexivity|].
  destruct (Z.ltb_spec (TBH_DATA_OFFSET n) 0) as [N|N]; [lia|].
  destruct (Z.ltb_spec 12 (TBH_DATA_OFFSET n)) as [G|G]; [simpl; lia|].
  exfalso.
  assert (Hn : n < 0) by (unfold TBH_DATA_OFFSET, OFF_sizeDims in *; lia).
  replace (Z.to_nat n) with 0%nat in Ed by lia.
  simpl in Ed. injection Ed as <-.
  apply Z.eqb_eq in Echk. simpl numel in Echk.
  pose proof (element_size_supported cls Hsup) as Hs.
  unfold INT_MAX in Hl.
  rewrite wrap32_small in Echk by (unfold INT_MIN, INT_MAX; lia).
  rewrite !Z.mod_small in Echk by lia. lia.
Qed.

(** *** The checks of the decode branch *)

Lemma len_skipn (buf : list byte) (k : nat) :
  Z.of_nat k <= len buf -> len (skipn k buf) = len buf - Z.of_nat k.
Proof. unfold len. rewrite length_skipn. lia. Qed.

Lemma origin_differs_defined (blob : list byte) (e : byte) :
  (10 <= length (g_platform env))%nat -> 36 <= len blob ->
  exists w, origin_differs env blob e = Ok w.
Proof.
  intros Hp Hl. unfold origin_differs.
  destruct (negb (byte_val (hd x00 (g_endian env)) =? byte_val e)); [eauto|].
  destruct (@strncmp_eq_defined 10 (g_platform env) (skipn (Z.to_nat OFF_platform) blob))
    as [r Hr]; [exact Hp| |rewrite Hr; eauto].
  rewrite length_skipn. unfold len, OFF_platform in *. lia.
Qed.

Lemma magic_nonzero : Forall (fun c => c <> x00) (firstn strlen_TBH_MAGIC TBH_MAGIC).
Proof. repeat constructor; discriminate. Qed.

Lemma magic_check (blob : list byte) :
  36 <= len blob ->
  strncmp_eq (skipn (Z.to_nat OFF_magic) blob) TBH_MAGIC strlen_TBH_MAGIC = Ok true
  /\ firstn 12 blob = firstn 12 TBH_MAGIC
  \/ strncmp_eq (skipn (Z.to_nat OFF_magic) blob) TBH_MAGIC strlen_TBH_MAGIC = Ok false
     /\ firstn 12 blob <> firstn 12 TBH_MAGIC.
Proof.
  intro Hl. change (skipn (Z.to_nat OFF_magic) blob) with blob.
  apply strncmp_eq_spec; [unfold len, strlen_TBH_MAGIC in *; lia|simpl; lia|].
  exact magic_nonzero.
Qed.

(** A wrong version number is refused. *)
Lemma decode_bad_version (blob : list byte) (ver : Z) :
  load_int16 env blob OFF_ver = Ok ver -> ver <> wrap16 sizeof_tbh ->
  typed_blob_decode env blob = Fail MSG_UNSUPPTBH.
Proof.
  intros Hv Hne. unfold typed_blob_decode. rewrite Hv.
  replace (ver =? wrap16 sizeof_tbh) with false by (symmetry; now apply Z.eqb_neq).
  reflexivity.
Qed.

(** A header of full size is read without leaving the blob. *)
Lemma header_loads (blob : list byte) :
  36 <= len blob ->
  exists ver code e n,
    load_int16 env blob OFF_ver = Ok ver /\
    load_int32 env blob OFF_clsid = Ok code /\
    load_bytes blob OFF_endian 1 = Ok [e] /\
    load_int32 env blob OFF_sizeDims = Ok n.
Proof.
  intro Hl. unfold load_int16, load_int32.
  rewrite !load_bytes_ok
    by (unfold OFF_ver, OFF_clsid, OFF_endian, OFF_sizeDims; lia).
  assert (He : exists e, firstn (Z.to_nat 1) (skipn (Z.to_nat OFF_endian) blob) = [e]).
  { destruct (skipn (Z.to_nat OFF_endian) blob) as [|e r] eqn:E.
    - apply (f_equal (@length byte)) in E. rewrite length_skipn in E.
      unfold len, OFF_endian in *. simpl in E. lia.
    - exists e. reflexivity. }
  destruct He as [e He]. rewrite He. eauto 10.
Qed.

(** A wrong magic string is refused. *)
Lemma decode_bad_magic (blob : list byte) :
  (10 <= length (g_platform env))%nat -> 36 <= len blob ->
  firstn 12 blob <> firstn 12 TBH_MAGIC ->
  typed_blob_decode env blob = Fail MSG_UNSUPPTBH.
Proof.
  intros Hp Hl Hm.
  destruct (@header_loads blob Hl) as (ver & code & e & n & Hv & Hc & He & Hn).
  destruct (@origin_differs_defined blob e Hp Hl) as [w Hw].
  destruct (@magic_check blob Hl) as [[_ M]|[M _]]; [contradiction|].
  unfold typed_blob_decode. rewrite Hv.
  destruct (negb (ver =? wrap16 sizeof_tbh)); [reflexivity|].
  rewrite Hc. unfold load_byte. rewrite He. simpl hd. rewrite Hn, Hw, M. reflexivity.
Qed.

(** With a header that passes the checks, a payload of the wrong size is
    refused. *)
Lemma decode_size_mismatch (blob : list byte) (code n : Z) (cls : mxClassID)
      (dims : list Z) :
  (forall e, exists w, origin_differs env blob e = Ok w) ->
  36 <= len blob <= INT_MAX ->
  load_int16 env blob OFF_ver = Ok (wrap16 sizeof_tbh) ->
  firstn 12 blob = firstn 12 TBH_MAGIC ->
  load_int32 env blob OFF_clsid = Ok code ->
  class_of_code code = Some cls ->
  supported_class cls = true ->
  load_int32 env blob OFF_sizeDims = Ok n ->
  0 <= n -> TBH_DATA_OFFSET n <= len blob ->
  load_dims env blob 0 (Z.to_nat n) = Ok dims ->
  alloc_ok env (mxCreateNumericArray_call dims cls) = true ->
  0 <= numel dims * element_size cls < 2 ^ 32 ->
  len blob - TBH_DATA_OFFSET n <> numel dims * element_size cls ->
  typed_blob_decode env blob = Fail MSG_INVALIDARG.
Proof.
  intros Ho Hl Hv Hm Hc Hcls Hsup Hn Hn0 Hoff Hd Hal Hrange Hne.
  destruct Hl as [Hl Hmax].
  destruct (@header_loads blob Hl) as (ver' & code' & e & n' & _ & _ & He & _).
  destruct (Ho e) as [w Hw].
  assert (Hoff0 : 36 <= TBH_DATA_OFFSET n) by (unfold TBH_DATA_OFFSET, OFF_sizeDims; lia).
  destruct (@magic_check blob Hl) as [[M _]|[_ M]]; [|contradiction].
  rewrite (@typed_blob_decode_checked blob code n e w cls Hv Hc He Hn Hw M Hcls Hsup).
  unfold decode_array. cbv zeta. rewrite Hd.
  unfold mxCreateNumericArray. rewrite Hal.
  unfold mxGetNumberOfElements, mxGetElementSize.
  cbn [mxGetDimensions mxGetClassID mxGetData].
  unfold INT_MAX in Hmax.
  rewrite wrap32_small by (unfold INT_MIN, INT_MAX; lia).
  rewrite !Z.mod_small by lia.
  replace (len blob - TBH_DATA_OFFSET n =? numel dims * element_size cls) with false
    by (symmetry; now apply Z.eqb_neq).
  reflexivity.
Qed.

(** *** A blob cut short by one byte *)

Lemma len_removelast (buf : list byte) : buf <> [] -> len (removelast buf) = len buf - 1.
Proof.
  intro H. unfold len. rewrite removelast_firstn_len, length_firstn.
  destruct buf; [contradiction|]. simpl length. lia.
Qed.

Lemma load_removelast (buf : list byte) (off n : Z) :
  off + n <= len buf - 1 ->
  load_bytes (removelast buf) off n = load_bytes buf off n.
Proof.
  intro H. destruct buf as [|b0 buf'] eqn:E; [reflexivity|]. rewrite <- E in *.
  assert (Hne : buf <> []) by (rewrite E; discriminate).
  pose proof (@len_removelast buf Hne) as L.
  unfold load_bytes. rewrite L.
  destruct (0 <=? off) eqn:E1; [|reflexivity].
  destruct (0 <=? n) eqn:E2; [|reflexivity].
  apply Z.leb_le in E1, E2.
  replace (off + n <=? len buf - 1) with true by (symmetry; apply Z.leb_le; lia).
  replace (off + n <=? len buf) with true by (symmetry; apply Z.leb_le; lia).
  simpl andb. cbv iota. f_equal. apply nth_error_ext. intro i.
  rewrite !nth_error_firstn, !nth_error_skipn.
  destruct (Nat.ltb_spec i (Z.to_nat n)); [|reflexivity].
  rewrite removelast_firstn_len, nth_error_firstn.
  replace (Z.to_nat off + i <? Init.Nat.pred (length buf))%nat with true; [reflexivity|].
  symmetry. apply Nat.ltb_lt. unfold len in *. lia.
Qed.

(** A blob of the encode branch without its last payload byte is refused
    for its size. *)
Lemma decode_truncated (item : mxArray) (blob : list byte) :
  mx_wf item ->
  typed_blob_encode env item = Ok blob ->
  alloc_ok env (mxCreateNumericArray_call (mxGetDimensions item) (mxGetClassID item))
  = true ->
  0 < len (mxGetData item) ->
  typed_blob_decode env (removelast blob) = Fail MSG_INVALIDARG.
Proof.
  intros W He Hal Hpos.
  destruct (@typed_blob_encode_inv item blob W He)
    as (Hsup & Hlen & Hmax & _ & Hv & Hc & Hen & Hn & Hm & (platform & Hp & Hpl) & Hd & Hpay).
  destruct W as [Wd [Wl Ws]].
  change MQSQLITE_MAX_BLOB_SIZE with 1073741823 in Hmax.
  assert (Hnd : 0 <= mxGetNumberOfDimensions item)
    by (unfold mxGetNumberOfDimensions; lia).
  assert (Hoff : 36 <= TBH_DATA_OFFSET (mxGetNumberOfDimensions item))
    by (unfold TBH_DATA_OFFSET, OFF_sizeDims; lia).
  assert (Hne : blob <> []).
  { intros ->. unfold len in Hlen. simpl in Hlen. unfold len in Hpos. lia. }
  pose proof (@len_removelast blob Hne) as L.
  assert (Ho : forall e, exists w, origin_differs env (removelast blob) e = Ok w).
  { intro e. unfold origin_differs.
    destruct (negb (byte_val (hd x00 (g_endian env)) =? byte_val e)); [eauto|].
    assert (Hpl' : load_bytes (removelast blob) OFF_platform 10 = Ok platform)
      by (rewrite load_removelast; [exact Hpl|unfold OFF_platform; lia]).
    rewrite (@load_bytes_skipn _ _ _ _ Hpl').
    rewrite (@strncmp_strncpy _ _ _ _ Hp). eauto. }
  apply (@decode_size_mismatch (removelast blob) (class_code (mxGetClassID item))
           (mxGetNumberOfDimensions item) (mxGetClassID item) (mxGetDimensions item));
    try assumption.
  - rewrite L. unfold INT_MAX. lia.
  - unfold load_int16 in *. rewrite load_removelast; [exact Hv|unfold OFF_ver; lia].
  - apply load_bytes_inv in Hm. destruct Hm as (_ & _ & _ & Hm & _).
    change (Z.to_nat 13) with 13%nat in Hm. change (Z.to_nat OFF_magic) with 0%nat in Hm.
    simpl skipn in Hm.
    rewrite removelast_firstn_len, firstn_firstn.
    replace (Nat.min 12 (Init.Nat.pred (length blob))) with 12%nat
      by (unfold len in *; lia).
    rewrite Hm. rewrite firstn_firstn. reflexivity.
  - unfold load_int32 in *. rewrite load_removelast; [exact Hc|unfold OFF_clsid; lia].
  - apply class_of_code_code.
  - unfold load_int32 in *. rewrite load_removelast; [exact Hn|unfold OFF_sizeDims; lia].
  - rewrite L. lia.
  - unfold mxGetNumberOfDimensions. rewrite Nat2Z.id. rewrite <- Hd.
    apply load_dims_frame. intros k Hk. apply load_removelast.
    unfold mxGetNumberOfDimensions, TBH_DATA_OFFSET, OFF_sizeDims in *. lia.
  - fold (mxGetNumberOfElements item). fold (mxGetElementSize item).
    rewrite <- Wl. lia.
  - fold (mxGetNumberOfElements item). fold (mxGetElementSize item).
    rewrite <- Wl, L. lia.
Qed.

End WithEnv.
End TBHFacts.

Module TBHClaims.
Import Host TBH TBHFacts Examples.

(** C1. Typed BLOB round trip. For every array the host can hand over
    (every dimension an [mwSize], as many payload bytes as the dimensions
    and the element size of the class demand): a blob returned by the
    encode branch holds the payload bytes as they are behind its header,
    and the decode branch, when the host can create the array, returns an
    array of the same class, with the same dimensions and the same payload
    bytes, without a warning about the origin. The encode branch does
    return a blob for every class of its switch when the size is within the
    bound and [sqlite3_malloc] gives memory. *)
Theorem C1_typed_blob_round_trip (env : Env) (item : mxArray) :
  mx_wf item ->
  alloc_ok env (mxCreateNumericArray_call (mxGetDimensions item) (mxGetClassID item))
  = true ->
  (forall blob,
      typed_blob_encode env item = Ok blob ->
      supported_class (mxGetClassID item) = true /\
      load_bytes blob (TBH_DATA_OFFSET (mxGetNumberOfDimensions item))
                 (len (mxGetData item))
      = Ok (mxGetData item) /\
      typed_blob_decode env blob
      = Ok (false, MxArray (mxGetClassID item) false (mxGetDimensions item)
                          (mxGetData item) [])) /\
  (supported_class (mxGetClassID item) = true ->
   blob_total item <= MQSQLITE_MAX_BLOB_SIZE ->
   (10 <= length (g_platform env))%nat ->
   alloc_ok env (sqlite3_malloc_call (blob_total item)) = true ->
   exists blob, typed_blob_encode env item = Ok blob).
Proof.
  intros W Hal. split.
  - intros blob He.
    destruct (@typed_blob_encode_inv env item blob W He)
      as (Hsup & Hlen & Hmax & _ & Hv & Hc & Hen & Hn & Hm & (platform & Hp & Hpl)
          & Hd & Hpay).
    split; [exact Hsup|]. split; [exact Hpay|].
    rewrite (@typed_blob_decode_checked env blob _ _ _ false (mxGetClassID item)
               Hv Hc Hen Hn (@origin_same env _ _ Hp Hpl) (@magic_same blob Hm)
               (class_of_code_code _) Hsup).
    destruct W as [Wd [Wl Ws]].
    apply decode_array_ok; try assumption; try reflexivity.
    change MQSQLITE_MAX_BLOB_SIZE with 1073741823 in Hmax. unfold INT_MAX. lia.
  - intros Hsup Hle Hp Hm. pose proof W as [_ [Wl _]].
    assert (Htot : blob_total item
                   = TBH_DATA_OFFSET (mxGetNumberOfDimensions item)
                     + len (mxGetData item))
      by (unfold blob_total; now rewrite Wl).
    rewrite Htot in Hle, Hm.
    exact (@typed_blob_encode_ok env item W Hp Hle Hsup Hm).
Qed.

Lemma item0_wf : mx_wf item0.
Proof.
  split; [|split; reflexivity].
  repeat constructor; discriminate.
Qed.

Lemma C1_witness :
  typed_blob_encode env0 item0 = Ok blob0 /\
  typed_blob_decode env0 blob0
  = Ok (false, MxArray mxINT16_CLASS false [1; 3] [x01; x00; x02; x00; x03; x00] []).
Proof.
  assert (He : typed_blob_encode env0 item0 = Ok blob0) by (vm_compute; reflexivity).
  split; [exact He|].
  exact (proj2 (proj2 (proj1 (@C1_typed_blob_round_trip env0 item0 item0_wf eq_refl)
                              blob0 He))).
Defined.

(** C10. The byte behind the twelve characters of the magic string (the
    place of its terminator in the header) is not looked at by the decode
    branch: whatever is put there, the result is the same, so a blob that
    differs from a valid one in that byte only is decoded as the valid one
    is. ([m_Size] is an [int], so the blob has at most [INT_MAX] bytes.) *)
Theorem C10_magic_terminator_ignored (env : Env) (blob : list byte) (b : byte) :
  len blob <= INT_MAX ->
  typed_blob_decode env (set_byte blob 12 b) = typed_blob_decode env blob.
Proof.
  intro Hmax. unfold typed_blob_decode, load_int16, load_int32, load_byte.
  rewrite !load_set_byte
    by (right; left; unfold OFF_ver, OFF_clsid, OFF_endian, OFF_sizeDims; simpl; lia).
  destruct (load_bytes blob OFF_ver 2) as [v| |]; try reflexivity.
  destruct (negb (wrap16 (int_value (big_endian env) v) =? wrap16 sizeof_tbh));
    [reflexivity|].
  destruct (load_bytes blob OFF_clsid 4) as [c| |]; try reflexivity.
  destruct (load_bytes blob OFF_endian 1) as [e| |]; try reflexivity.
  destruct (load_bytes blob OFF_sizeDims 4) as [n| |] eqn:En; try reflexivity.
  apply load_bytes_inv in En. destruct En as (_ & _ & En & _).
  unfold OFF_sizeDims in En.
  unfold origin_differs.
  rewrite skipn_set_byte by (unfold OFF_platform; simpl; lia).
  destruct (if negb (byte_val (hd x00 (g_endian env)) =? byte_val (hd x00 e))
            then Ok true
            else same <- strncmp_eq (g_platform env)
                           (skipn (Z.to_nat OFF_platform) blob) 10 ;;
                 Ok (negb same)) as [w| |]; try reflexivity.
  change (skipn (Z.to_nat OFF_magic) (set_byte blob 12 b)) with (set_byte blob 12 b).
  change (skipn (Z.to_nat OFF_magic) blob) with blob.
  rewrite <- (strncmp_eq_firstn_l strlen_TBH_MAGIC (set_byte blob 12 b)).
  rewrite <- (strncmp_eq_firstn_l strlen_TBH_MAGIC blob).
  rewrite firstn_set_byte by (unfold strlen_TBH_MAGIC; lia).
  destruct (strncmp_eq (firstn strlen_TBH_MAGIC blob) TBH_MAGIC strlen_TBH_MAGIC)
    as [ok| |]; try reflexivity.
  destruct ok; cbn [negb orb]; [|reflexivity].
  destruct (class_of_code (wrap32 (int_value (big_endian env) c))) as [cls|];
    [|reflexivity].
  destruct (supported_class cls) eqn:Hsup; simpl negb; cbv iota; [|reflexivity].
  apply decode_array_set_byte; [lia|exact Hsup].
Qed.

Lemma C10_witness :
  len blob0 <= INT_MAX /\
  typed_blob_decode env0 (set_byte blob0 12 x7f)
  = Ok (false, MxArray mxINT16_CLASS false [1; 3] [x01; x00; x02; x00; x03; x00] []).
Proof.
  assert (Hl : len blob0 <= INT_MAX) by (vm_compute; discriminate).
  split; [exact Hl|].
  rewrite (@C10_magic_terminator_ignored env0 blob0 x7f Hl).
  vm_compute. reflexivity.
Defined.


Lemma set_byte_nth_same (blob : list byte) (k : nat) (b : byte) :
  (k < length blob)%nat -> nth_error (set_byte blob k b) k = Some b.
Proof.
  intro H. unfold set_byte.
  destruct (skipn k blob) as [|old rest] eqn:E.
  - apply (f_equal (@length byte)) in E. rewrite length_skipn in E. simpl in E. lia.
  - rewrite nth_error_app, length_firstn.
    replace (Nat.min k (length blob)) with k by lia.
    rewrite Nat.ltb_irrefl, Nat.sub_diag. reflexivity.
Qed.

(** C2 (as amended). Integrity checks of the decode branch, for a blob that
    holds at least the header and at most [INT_MAX] bytes. A version field
    other than the size of the header is refused, and so is a blob whose
    first twelve bytes are not the magic string: both with the one message
    for an unsupported header ([MSG_UNSUPPTBH]); putting a wrong byte at any
    of the twelve places is refused that way. When version, magic string and
    class pass, the sizes lie inside the blob and the host creates the
    array, a payload whose length is not the number of elements times the
    element size is refused with [MSG_INVALIDARG]; a blob of the encode
    branch without its last payload byte is refused that way. *)
Theorem C2_decode_integrity (env : Env) (blob : list byte) :
  (10 <= length (g_platform env))%nat ->
  sizeof_tbh <= len blob <= INT_MAX ->
  (forall ver, load_int16 env blob OFF_ver = Ok ver -> ver <> wrap16 sizeof_tbh ->
               typed_blob_decode env blob = Fail MSG_UNSUPPTBH) /\
  (firstn 12 blob <> firstn 12 TBH_MAGIC ->
   typed_blob_decode env blob = Fail MSG_UNSUPPTBH) /\
  (forall (k : nat) (b : byte),
      (k < 12)%nat -> nth_error TBH_MAGIC k <> Some b ->
      typed_blob_decode env (set_byte blob k b) = Fail MSG_UNSUPPTBH) /\
  (forall (code n : Z) (cls : mxClassID) (dims : list Z),
      load_int16 env blob OFF_ver = Ok (wrap16 sizeof_tbh) ->
      firstn 12 blob = firstn 12 TBH_MAGIC ->
      load_int32 env blob OFF_clsid = Ok code ->
      class_of_code code = Some cls ->
      supported_class cls = true ->
      load_int32 env blob OFF_sizeDims = Ok n ->
      0 <= n -> TBH_DATA_OFFSET n <= len blob ->
      load_dims env blob 0 (Z.to_nat n) = Ok dims ->
      alloc_ok env (mxCreateNumericArray_call dims cls) = true ->
      0 <= numel dims * element_size cls < 2 ^ 32 ->
      len blob - TBH_DATA_OFFSET n <> numel dims * element_size cls ->
      typed_blob_decode env blob = Fail MSG_INVALIDARG) /\
  (forall (item : mxArray) (full : list byte),
      mx_wf item ->
      typed_blob_encode env item = Ok full ->
      alloc_ok env (mxCreateNumericArray_call (mxGetDimensions item) (mxGetClassID item))
      = true ->
      0 < len (mxGetData item) ->
      typed_blob_decode env (removelast full) = Fail MSG_INVALIDARG).
Proof.
  intros Hp [Hl Hmax]. change sizeof_tbh with 36 in Hl.
  split; [intros ver Hv Hne; now apply (@decode_bad_version env blob ver)|].
  split; [intro Hm; now apply decode_bad_magic|].
  split.
  { intros k b Hk Hb. apply decode_bad_magic; [exact Hp|now rewrite set_byte_len|].
    intro F. apply Hb.
    assert (N : nth_error (firstn 12 (set_byte blob k b)) k = Some b).
    { rewrite nth_error_firstn.
      replace (k <? 12)%nat with true by (symmetry; apply Nat.ltb_lt; lia).
      apply set_byte_nth_same. unfold len in Hl. lia. }
    rewrite F, nth_error_firstn in N.
    replace (k <? 12)%nat with true in N by (symmetry; apply Nat.ltb_lt; lia).
    exact N. }
  split.
  { intros code n cls dims Hv Hm Hc Hcls Hsup Hn Hn0 Hoff Hd Hal Hr Hne.
    apply (@decode_size_mismatch env blob code n cls dims); try assumption.
    - intro e. now apply origin_differs_defined.
    - split; assumption. }
  intros item full W He Hal Hpos. now apply (@decode_truncated env item full).
Qed.

Lemma C2_witness :
  (10 <= length (g_platform env0))%nat /\
  sizeof_tbh <= len blob0 <= INT_MAX /\
  typed_blob_decode env0 blob_bad_magic = Fail MSG_UNSUPPTBH /\
  typed_blob_decode env0 (removelast blob0) = Fail MSG_INVALIDARG.
Proof.
  assert (Hp : (10 <= length (g_platform env0))%nat) by (vm_compute; repeat constructor).
  assert (Hl : sizeof_tbh <= len blob0 <= INT_MAX) by (vm_compute; split; discriminate).
  split; [exact Hp|]. split; [exact Hl|].
  destruct (@C2_decode_integrity env0 blob0 Hp Hl) as (_ & _ & Hk & _ & Ht).
  split.
  - apply (Hk 0%nat x4d); [repeat constructor|discriminate].
  - apply (Ht item0 blob0 item0_wf); [vm_compute; reflexivity|reflexivity|reflexivity].
Defined.

(** [blob_bad_version_short] declares one row of three [int16] (six bytes
    of payload) and holds five bytes behind the header, and its version
    field is 37: the decode branch stops at the version and reports an
    unsupported header, not a wrong size. *)
Lemma C2_counterexample :
  load_int16 env0 blob_bad_version_short OFF_ver = Ok 37 /\
  load_dims env0 blob_bad_version_short 0 2 = Ok [1; 3] /\
  len blob_bad_version_short - TBH_DATA_OFFSET 2 = 5 /\
  numel [1; 3] * element_size mxINT16_CLASS = 6 /\
  typed_blob_decode env0 blob_bad_version_short = Fail MSG_UNSUPPTBH.
Proof. repeat split; vm_compute; reflexivity. Qed.

End TBHClaims.

(** ** Numbers handed over by the host *)

Module NumericFacts.
Import Host Numeric.

Lemma wrap8_small (z : Z) : -128 <= z <= 127 -> wrap8 z = z.
Proof. unfold wrap8. intro H. rewrite Z.mod_small; lia. Qed.

Lemma wrap8_mod (z : Z) : wrap8 (z mod 256 ^ 1) = wrap8 z.
Proof.
  unfold wrap8. change (256 ^ 1) with 256. rewrite Zplus_mod_idemp_l. reflexivity.
Qed.

Lemma load_data_int_bytes (env : Env) (cls : mxClassID) (c : bool) (dims : list Z)
      (n : nat) (v : Z) (cells : list (option mxArray)) :
  load_data env (MxArray cls c dims (int_bytes (big_endian env) n v) cells) (Z.of_nat n)
  = Ok (v mod 256 ^ Z.of_nat n).
Proof.
  unfold load_data. cbn [mxGetData].
  pose proof (load_bytes_all (int_bytes (big_endian env) n v)) as L.
  rewrite len_int_bytes in L. rewrite L. now rewrite int_value_int_bytes.
Qed.

(** The fields of the [double] of an integer of at most 32 bits. *)
Lemma double_of_int_fields_wide (n : Z) :
  n <> 0 -> - 2 ^ 32 < n < 2 ^ 32 ->
  let e := Z.log2 (Z.abs n) in
  0 <= e <= 31 /\
  double_of_int n mod 2 ^ 52 = Z.abs n * 2 ^ (52 - e) - 2 ^ 52 /\
  (double_of_int n / 2 ^ 52) mod 2 ^ 11 = 1023 + e /\
  Z.testbit (double_of_int n) 63 = (n <? 0).
Proof.
  intros Hn Hr e.
  assert (Ha : 1 <= Z.abs n < 2 ^ 32) by lia.
  pose proof (Z.log2_spec (Z.abs n) ltac:(lia)) as [L1 L2]. fold e in L1, L2.
  assert (He : 0 <= e <= 31).
  { split; [apply Z.log2_nonneg|].
    destruct (Z.le_gt_cases e 31) as [|G]; [assumption|].
    assert (2 ^ 32 <= 2 ^ e) by (apply Z.pow_le_mono_r; lia). lia. }
  assert (Hp : 2 ^ e * 2 ^ (52 - e) = 2 ^ 52)
    by (rewrite <- Z.pow_add_r by lia; f_equal; lia).
  assert (Hq : 0 < 2 ^ (52 - e)) by (apply Z.pow_pos_nonneg; lia).
  set (p := 2 ^ (52 - e)) in *.
  assert (HF : 0 <= Z.abs n * p - 2 ^ 52 < 2 ^ 52).
  { rewrite Z.pow_succ_r in L2 by lia. nia. }
  set (F := Z.abs n * p - 2 ^ 52) in *.
  set (s := if n <? 0 then 1 else 0).
  assert (Hs : 0 <= s <= 1) by (unfold s; destruct (n <? 0); lia).
  assert (B : double_of_int n = F + (s * 2 ^ 11 + (1023 + e)) * 2 ^ 52).
  { unfold double_of_int. replace (n =? 0) with false by (symmetry; apply Z.eqb_neq; lia).
    fold e. fold p. fold F. unfold s. destruct (n <? 0); lia. }
  split; [exact He|]. rewrite B. split; [|split].
  - rewrite Z_mod_plus_full. apply Z.mod_small. exact HF.
  - rewrite Z_div_plus_full by lia. rewrite (Z.div_small F) by exact HF.
    rewrite Z.add_0_l, Z.add_comm, Z_mod_plus_full. apply Z.mod_small. lia.
  - assert (T : Z.b2z (Z.testbit (F + (s * 2 ^ 11 + (1023 + e)) * 2 ^ 52) 63) = s).
    { rewrite Z.testbit_spec' by lia.
      replace (F + (s * 2 ^ 11 + (1023 + e)) * 2 ^ 52)
        with ((F + (1023 + e) * 2 ^ 52) + s * 2 ^ 63) by lia.
      rewrite Z_div_plus_full by lia.
      rewrite Z.div_small by lia. simpl Z.add. apply Z.mod_small. lia. }
    unfold s in T. destruct (Z.testbit _ 63), (n <? 0); simpl in T; congruence.
Qed.

Lemma double_of_int_fields (n : Z) :
  n <> 0 -> INT_MIN <= n <= INT_MAX ->
  let e := Z.log2 (Z.abs n) in
  0 <= e <= 31 /\
  double_of_int n mod 2 ^ 52 = Z.abs n * 2 ^ (52 - e) - 2 ^ 52 /\
  (double_of_int n / 2 ^ 52) mod 2 ^ 11 = 1023 + e /\
  Z.testbit (double_of_int n) 63 = (n <? 0).
Proof.
  intros Hn Hr. apply double_of_int_fields_wide; [exact Hn|].
  unfold INT_MIN, INT_MAX in Hr. lia.
Qed.

(** An [int] that went through [double] comes back as it was. *)
Lemma double_to_int_of_int (n : Z) :
  INT_MIN <= n <= INT_MAX -> double_to_int (double_of_int n) = Ok n.
Proof.
  intro Hr. destruct (Z.eq_dec n 0) as [->|Hn]; [reflexivity|].
  destruct (double_of_int_fields Hn Hr) as (He & Hf & Hx & Hs).
  set (e := Z.log2 (Z.abs n)) in *.
  unfold double_to_int, fp_to_int. cbv zeta.
  change (11 + 52) with 63. rewrite Hf, Hx, Hs.
  replace (1023 + e =? 2 ^ 11 - 1) with false by (symmetry; apply Z.eqb_neq; lia).
  replace (1023 + e =? 0) with false by (symmetry; apply Z.eqb_neq; lia).
  replace (2 ^ 52 + (Z.abs n * 2 ^ (52 - e) - 2 ^ 52)) with (Z.abs n * 2 ^ (52 - e)) by lia.
  replace (1023 + e - (2 ^ (11 - 1) - 1) - 52) with (- (52 - e)) by lia.
  rewrite Z.shiftl_opp_r, Z.shiftr_div_pow2 by lia.
  rewrite Z.div_mul by (apply Z.pow_nonzero; lia).
  assert (V : (if n <? 0 then - Z.abs n else Z.abs n) = n)
    by (destruct (Z.ltb_spec n 0); lia).
  rewrite V.
  replace (INT_MIN <=? n) with true by (symmetry; apply Z.leb_le; lia).
  replace (n <=? INT_MAX) with true by (symmetry; apply Z.leb_le; lia).
  reflexivity.
Qed.

(** An [unsigned int] above [INT_MAX] that went through [double] is no
    [int]: the conversion [(int) d] is undefined. *)
Lemma double_to_int_above (n : Z) :
  INT_MAX < n < 2 ^ 32 -> double_to_int (double_of_int n) = Undefined.
Proof.
  intro Hr. unfold INT_MAX in Hr.
  assert (Hn : n <> 0) by lia.
  destruct (double_of_int_fields_wide Hn ltac:(lia)) as (He & Hf & Hx & Hs).
  set (e := Z.log2 (Z.abs n)) in *.
  unfold double_to_int, fp_to_int. cbv zeta.
  change (11 + 52) with 63. rewrite Hf, Hx, Hs.
  replace (1023 + e =? 2 ^ 11 - 1) with false by (symmetry; apply Z.eqb_neq; lia).
  replace (1023 + e =? 0) with false by (symmetry; apply Z.eqb_neq; lia).
  replace (2 ^ 52 + (Z.abs n * 2 ^ (52 - e) - 2 ^ 52)) with (Z.abs n * 2 ^ (52 - e)) by lia.
  replace (1023 + e - (2 ^ (11 - 1) - 1) - 52) with (- (52 - e)) by lia.
  rewrite Z.shiftl_opp_r, Z.shiftr_div_pow2 by lia.
  rewrite Z.div_mul by (apply Z.pow_nonzero; lia).
  replace (n <? 0) with false by (symmetry; apply Z.ltb_ge; lia).
  rewrite Z.abs_eq by lia.
  replace (n <=? INT_MAX) with false by (symmetry; apply Z.leb_gt; unfold INT_MAX; lia).
  now rewrite andb_false_r.
Qed.

Lemma le_value_range (bs : list byte) : 0 <= le_value bs < 256 ^ len bs.
Proof.
  induction bs as [|b bs IH].
  - simpl. unfold len. simpl. lia.
  - cbn [le_value]. rewrite len_cons.
    pose proof (byte_val_range b) as Hb. pose proof (len_nonneg bs) as Hl.
    rewrite Z.pow_add_r by lia. change (256 ^ 1) with 256. nia.
Qed.

Lemma int_value_range (be : bool) (bs : list byte) : 0 <= int_value be bs < 256 ^ len bs.
Proof.
  unfold int_value. destruct be; [|apply le_value_range].
  replace (len bs) with (len (rev bs)) by (unfold len; now rewrite length_rev).
  apply le_value_range.
Qed.

(** The first element of an array with one element. *)
Lemma load_data_scalar (env : Env) (a : mxArray) :
  mx_wf a -> mxGetNumberOfElements a = 1 ->
  exists raw, load_data env a (mxGetElementSize a) = Ok raw
              /\ 0 <= raw < 256 ^ mxGetElementSize a.
Proof.
  intros (_ & Hl & _) H1. rewrite H1, Z.mul_1_l in Hl.
  exists (int_value (big_endian env) (mxGetData a)). unfold load_data.
  rewrite <- Hl, load_bytes_all. split; [reflexivity|apply int_value_range].
Qed.

(** The number an element stands for, class by class. *)
Lemma element_value_range (cls : mxClassID) (raw : Z) :
  In cls [mxLOGICAL_CLASS; mxINT8_CLASS; mxUINT8_CLASS; mxINT16_CLASS; mxUINT16_CLASS;
          mxINT32_CLASS; mxUINT32_CLASS] ->
  0 <= raw < 256 ^ element_size cls ->
  INT_MIN <= element_value cls raw < 2 ^ 32 /\
  (cls <> mxUINT32_CLASS -> element_value cls raw <= INT_MAX).
Proof.
  intros Hin Hr. cbn [In] in Hin. unfold INT_MIN, INT_MAX.
  repeat (destruct Hin as [Hin|Hin];
          [subst cls; cbn [element_size element_value] in *;
           unfold wrap8, wrap16, wrap32;
           (split; [|intro; try congruence]);
           try (Z.div_mod_to_equations; lia)|]).
  contradiction.
Qed.

Lemma mxGetScalar_integer (env : Env) (a : mxArray) (raw : Z) :
  In (mxGetClassID a)
     [mxLOGICAL_CLASS; mxINT8_CLASS; mxUINT8_CLASS; mxINT16_CLASS; mxUINT16_CLASS;
      mxINT32_CLASS; mxUINT32_CLASS] ->
  load_data env a (mxGetElementSize a) = Ok raw ->
  mxGetScalar env a = Ok (double_of_int (element_value (mxGetClassID a) raw)).
Proof.
  intros Hin Hl. unfold mxGetScalar, mxGetElementSize in *. cbn [In] in Hin.
  repeat (destruct Hin as [Hin|Hin];
          [rewrite <- Hin in *; cbn [element_size element_value] in *; rewrite Hl;
           reflexivity|]).
  contradiction.
Qed.

Lemma double_of_int_range (n : Z) :
  INT_MIN <= n <= INT_MAX -> 0 <= double_of_int n < 2 ^ 64.
Proof.
  intro Hr. destruct (Z.eq_dec n 0) as [->|Hn]; [vm_compute; split; [discriminate|reflexivity]|].
  assert (Ha : 1 <= Z.abs n <= 2 ^ 31) by (unfold INT_MIN, INT_MAX in Hr; lia).
  pose proof (Z.log2_spec (Z.abs n) ltac:(lia)) as [L1 L2].
  set (e := Z.log2 (Z.abs n)) in *.
  assert (He : 0 <= e <= 31).
  { split; [apply Z.log2_nonneg|].
    destruct (Z.le_gt_cases e 31) as [|G]; [assumption|].
    assert (2 ^ 32 <= 2 ^ e) by (apply Z.pow_le_mono_r; lia). lia. }
  assert (Hp : 2 ^ e * 2 ^ (52 - e) = 2 ^ 52)
    by (rewrite <- Z.pow_add_r by lia; f_equal; lia).
  assert (Hq : 0 < 2 ^ (52 - e)) by (apply Z.pow_pos_nonneg; lia).
  unfold double_of_int. replace (n =? 0) with false by (symmetry; apply Z.eqb_neq; lia).
  fold e. set (p := 2 ^ (52 - e)) in *.
  assert (HF : 0 <= Z.abs n * p - 2 ^ 52 < 2 ^ 52).
  { rewrite Z.pow_succ_r in L2 by lia. nia. }
  destruct (n <? 0); lia.
Qed.

End NumericFacts.

(** ** Parameter binding *)

Module BinderFacts.
Import Host TBH Binder.

Section WithEnv.
Variable env : Env.

Lemma set_slot_length (st : stmt) (k : nat) (v : sql_value) :
  (k < length st)%nat -> length (set_slot st k v) = length st.
Proof.
  intro H. unfold set_slot. rewrite length_app. cbn [length].
  rewrite length_firstn, length_skipn. lia.
Qed.

Lemma set_slot_same (st : stmt) (k : nat) (v : sql_value) :
  (k < length st)%nat -> nth_error (set_slot st k v) k = Some v.
Proof.
  intro H. unfold set_slot. rewrite nth_error_app, length_firstn.
  replace (Nat.min k (length st)) with k by lia.
  rewrite Nat.ltb_irrefl, Nat.sub_diag. reflexivity.
Qed.

Lemma set_slot_other (st : stmt) (k : nat) (v : sql_value) (j : nat) :
  (k < length st)%nat -> j <> k -> nth_error (set_slot st k v) j = nth_error st j.
Proof.
  intros H Hj. unfold set_slot. rewrite nth_error_app, length_firstn.
  replace (Nat.min k (length st)) with k by lia.
  destruct (Nat.ltb_spec j k) as [L|L].
  - rewrite nth_error_firstn.
    replace (j <? k)%nat with true by (symmetry; apply Nat.ltb_lt; lia). reflexivity.
  - destruct (j - k)%nat as [|m] eqn:M; [lia|].
    cbn [nth_error]. rewrite nth_error_skipn. f_equal. lia.
Qed.

(** A bind call that is accepted sets its slot and no other. *)
Lemma bind_or_fail_inv (st : stmt) (idx : Z) (v : sql_value) (st' : stmt) :
  bind_or_fail env st idx v = Ok st' ->
  1 <= idx <= sqlite3_bind_parameter_count st /\
  st' = set_slot st (Z.to_nat (idx - 1)) v.
Proof.
  unfold bind_or_fail, sqlite3_bind. intro H.
  destruct ((1 <=? idx) && (idx <=? sqlite3_bind_parameter_count st)) eqn:R.
  - apply andb_true_iff in R. destruct R as [R1 R2].
    apply Z.leb_le in R1, R2.
    destruct (bind_rc env idx v =? SQLITE_OK) eqn:E.
    + rewrite E in H. simpl in H. injection H as <-. split; [lia|reflexivity].
    + rewrite E in H. discriminate.
  - discriminate.
Qed.

Lemma bind_or_fail_ok (st : stmt) (idx : Z) (v : sql_value) :
  1 <= idx <= sqlite3_bind_parameter_count st ->
  bind_rc env idx v = SQLITE_OK ->
  bind_or_fail env st idx v = Ok (set_slot st (Z.to_nat (idx - 1)) v).
Proof.
  intros [R1 R2] E. unfold bind_or_fail, sqlite3_bind.
  replace (1 <=? idx) with true by (symmetry; apply Z.leb_le; lia).
  replace (idx <=? sqlite3_bind_parameter_count st) with true
    by (symmetry; apply Z.leb_le; lia).
  simpl andb. cbv iota. rewrite E. reflexivity.
Qed.

Lemma bind_or_fail_frame (st : stmt) (iParam : Z) (v : sql_value) (st' : stmt) :
  0 <= iParam ->
  bind_or_fail env st (iParam + 1) v = Ok st' ->
  length st' = length st /\
  forall j, j <> Z.to_nat iParam -> nth_error st' j = nth_error st j.
Proof.
  intros Hi H. apply bind_or_fail_inv in H. destruct H as [[R1 R2] ->].
  unfold sqlite3_bind_parameter_count in R2.
  replace (iParam + 1 - 1) with iParam by lia.
  split; [apply set_slot_length; lia|].
  intros j Hj. apply set_slot_other; [lia|exact Hj].
Qed.

(** One round of the loop touches the slot of its parameter only. *)
Lemma bind_param_frame (st : stmt) (iParam : Z) (item : option mxArray) (st' : stmt) :
  0 <= iParam ->
  bind_param env st iParam item = Ok st' ->
  length st' = length st /\
  forall j, j <> Z.to_nat iParam -> nth_error st' j = nth_error st j.
Proof.
  intros Hi H. unfold bind_param in H.
  destruct item as [item|]; [|injection H as <-; auto].
  destruct (mxIsEmpty item); [injection H as <-; auto|].
  destruct (mxIsComplex item || mxIsCell item || mxIsStruct item); [discriminate|].
  destruct ((1 <? mxGetNumberOfElements item)
            && negb (class_eqb (mxGetClassID item) mxCHAR_CLASS)).
  - unfold bind_matrix in H. cbv zeta in H.
    destruct (negb (use_typed_blobs env)).
    + destruct (load_bytes (mxGetData item) 0
                  (wrap32 (mxGetNumberOfElements item * mxGetElementSize item)));
        try discriminate.
      exact (@bind_or_fail_frame _ _ _ _ Hi H).
    + destruct (typed_blob_encode env item); try discriminate.
      exact (@bind_or_fail_frame _ _ _ _ Hi H).
  - unfold bind_scalar in H.
    destruct (mxGetClassID item); try discriminate;
      try (destruct (Numeric.mxGetScalar env item) as [d| |]; try discriminate;
           try (destruct (Numeric.double_to_int d) as [n| |]; try discriminate);
           exact (@bind_or_fail_frame _ _ _ _ Hi H)).
    unfold bind_string in H.
    destruct (mxArrayToString env item) as [chars|];
      [|exact (@bind_or_fail_frame _ _ _ _ Hi H)].
    match type of H with
    | match ?r with _ => _ end = _ => destruct r as [str| |]; try discriminate
    end.
    destruct (c_string str); try discriminate.
    exact (@bind_or_fail_frame _ _ _ _ Hi H).
Qed.

Lemma bind_loop_frame (pArgs : mxArray) (n : nat) :
  forall st iParam st',
    0 <= iParam ->
    bind_loop env st pArgs iParam n = Ok st' ->
    length st' = length st /\
    forall j, (j < Z.to_nat iParam \/ Z.to_nat iParam + n <= j)%nat ->
              nth_error st' j = nth_error st j.
Proof.
  induction n as [|n IH]; intros st iParam st' Hi H.
  - simpl in H. injection H as <-. auto.
  - cbn [bind_loop] in H.
    destruct (bind_param env st iParam (mxGetCell pArgs iParam)) as [st1| |] eqn:E;
      try discriminate.
    destruct (@bind_param_frame _ _ _ _ Hi E) as [L1 F1].
    destruct (IH st1 (iParam + 1) st' ltac:(lia) H) as [L2 F2].
    split; [congruence|].
    intros j Hj. rewrite F2 by lia. apply F1. lia.
Qed.

(** Rounds over cells that are null or empty bind nothing. *)
Lemma bind_loop_skip (pArgs : mxArray) (n : nat) :
  forall st iParam,
    (forall k, iParam <= k < iParam + Z.of_nat n ->
               match mxGetCell pArgs k with
               | None => True
               | Some a => mxIsEmpty a = true
               end) ->
    bind_loop env st pArgs iParam n = Ok st.
Proof.
  induction n as [|n IH]; intros st iParam H; [reflexivity|].
  cbn [bind_loop].
  assert (E : bind_param env st iParam (mxGetCell pArgs iParam) = Ok st).
  { specialize (H iParam ltac:(lia)). unfold bind_param.
    destruct (mxGetCell pArgs iParam) as [a|]; [now rewrite H|reflexivity]. }
  rewrite E. apply IH. intros k Hk. apply H. lia.
Qed.

Lemma bind_loop_app (pArgs : mxArray) (n m : nat) :
  forall st iParam,
    bind_loop env st pArgs iParam (n + m)
    = (st' <- bind_loop env st pArgs iParam n ;;
       bind_loop env st' pArgs (iParam + Z.of_nat n) m).
Proof.
  induction n as [|n IH]; intros st iParam.
  - simpl. now rewrite Z.add_0_r.
  - cbn [Nat.add bind_loop].
    destruct (bind_param env st iParam (mxGetCell pArgs iParam)); try reflexivity.
    rewrite IH. replace (iParam + 1 + Z.of_nat n) with (iParam + Z.of_nat (S n)) by lia.
    reflexivity.
Qed.

End WithEnv.
End BinderFacts.

Module BinderClaims.
Import Host Numeric TBH Binder TBHFacts BinderFacts Examples.

Lemma c_string_spec (x rest : list byte) :
  Charset.no_zero x -> c_string (x ++ x00 :: rest) = Ok x.
Proof.
  induction 1 as [|b x Hb Hx IH]; [reflexivity|].
  simpl app. cbn [c_string]. rewrite (byte_val_nonzero Hb). now rewrite IH.
Qed.

(** The text bound for a string argument. *)
Lemma bind_string_ok (env : Env) (st : stmt) (iParam : Z) (item : mxArray)
      (chars : list byte) :
  mxArrayToString env item = Some chars ->
  Charset.no_zero chars ->
  2 * len chars + 1 <= INT_MAX ->
  alloc_ok env (mxCalloc_call (len (Charset.to_utf8 chars) + 1)) = true ->
  bind_string env st iParam item
  = bind_or_fail env st (iParam + 1)
      (SqlText (if convertUTF8 env then Charset.to_utf8 chars else chars)).
Proof.
  intros Hs Hz Hl Hal. unfold bind_string. rewrite Hs.
  destruct (convertUTF8 env).
  - pose proof (CharsetFacts.len_to_utf8 chars) as Hu.
    pose proof (len_nonneg chars) as Hn.
    assert (Lz : len (zeros (len (Charset.to_utf8 chars) + 1))
                 = len (Charset.to_utf8 chars) + 1).
    { unfold len at 1, zeros. rewrite repeat_length. lia. }
    unfold Charset.latin2utf.
    rewrite (@CharsetFacts.latin2utf_loop_count chars [] Hz 0%nat 0)
      by (unfold INT_MIN, INT_MAX in *; lia).
    simpl Z.add. unfold mxCalloc. rewrite Hal.
    pose proof (@CharsetFacts.latin2utf_loop_fill chars [] Hz []
                  (zeros (len (Charset.to_utf8 chars) + 1)) [] 0) as F.
    rewrite app_nil_r in F. simpl in F. rewrite app_nil_r in F.
    rewrite F by (unfold INT_MIN, INT_MAX in *; lia).
    rewrite (@c_string_spec _ [] (CharsetFacts.to_utf8_no_zero Hz)). reflexivity.
  - rewrite (@c_string_spec _ [] Hz). reflexivity.
Qed.


(** C5 (as amended). Dispatch of a single element value that is not
    complex, for a slot of the statement and an engine that accepts the
    call. A value of class logical or of an integer class of 8, 16 or 32 bits
    goes through [mxGetScalar] and the conversion to [int]: when the number
    it holds is an [int] (it always is, but for a [uint32] above [INT_MAX]),
    that number is bound as an integer; for a [uint32] above [INT_MAX] the
    conversion is undefined. A value of class double is bound as the
    floating point number it holds, a value of class single as the [double]
    of the [float] it holds. A text is bound as text, turned into UTF-8
    before when the conversion is switched on; a cell or a struct fails with
    [MSG_UNSUPPVARTYPE]; every other class, the integers of 64 bits among
    them, fails with [MSG_INVALIDARG]. *)
Theorem C5_scalar_dispatch (env : Env) (st : stmt) (iParam : Z) (item : mxArray) :
  mxGetNumberOfElements item = 1 ->
  mxIsComplex item = false ->
  0 <= iParam < sqlite3_bind_parameter_count st ->
  (forall v, bind_rc env (iParam + 1) v = SQLITE_OK) ->
  (In (mxGetClassID item)
      [mxLOGICAL_CLASS; mxINT8_CLASS; mxUINT8_CLASS; mxINT16_CLASS; mxUINT16_CLASS;
       mxINT32_CLASS; mxUINT32_CLASS] ->
   mx_wf item ->
   exists raw,
     load_data env item (mxGetElementSize item) = Ok raw /\
     (element_value (mxGetClassID item) raw <= INT_MAX ->
      bind_param env st iParam (Some item)
      = Ok (set_slot st (Z.to_nat iParam)
              (SqlInt (element_value (mxGetClassID item) raw)))) /\
     (INT_MAX < element_value (mxGetClassID item) raw ->
      bind_param env st iParam (Some item) = Undefined) /\
     (mxGetClassID item <> mxUINT32_CLASS ->
      element_value (mxGetClassID item) raw <= INT_MAX)) /\
  (mxGetClassID item = mxDOUBLE_CLASS ->
   mx_wf item ->
   exists d,
     load_data env item 8 = Ok d /\
     bind_param env st iParam (Some item)
     = Ok (set_slot st (Z.to_nat iParam) (SqlDouble d))) /\
  (mxGetClassID item = mxSINGLE_CLASS ->
   mx_wf item ->
   exists f,
     load_data env item 4 = Ok f /\
     bind_param env st iParam (Some item)
     = Ok (set_slot st (Z.to_nat iParam) (SqlDouble (double_of_float f)))) /\
  (mxGetClassID item = mxCHAR_CLASS ->
   forall chars,
     mxArrayToString env item = Some chars ->
     Charset.no_zero chars ->
     2 * len chars + 1 <= INT_MAX ->
     alloc_ok env (mxCalloc_call (len (Charset.to_utf8 chars) + 1)) = true ->
     bind_param env st iParam (Some item)
     = Ok (set_slot st (Z.to_nat iParam)
             (SqlText (if convertUTF8 env then Charset.to_utf8 chars else chars)))) /\
  (In (mxGetClassID item) [mxCELL_CLASS; mxSTRUCT_CLASS] ->
   bind_param env st iParam (Some item) = Fail MSG_UNSUPPVARTYPE) /\
  (In (mxGetClassID item)
      [mxINT64_CLASS; mxUINT64_CLASS; mxUNKNOWN_CLASS; mxVOID_CLASS; mxFUNCTION_CLASS;
       mxOPAQUE_CLASS; mxOBJECT_CLASS] ->
   bind_param env st iParam (Some item) = Fail MSG_INVALIDARG).
Proof.
  intros Hone Hreal Hslot Hrc.
  assert (Hbind : forall v, bind_or_fail env st (iParam + 1) v
                            = Ok (set_slot st (Z.to_nat iParam) v)).
  { intro v. rewrite bind_or_fail_ok by (try apply Hrc; lia).
    do 3 f_equal. lia. }
  assert (Hdisp : bind_param env st iParam (Some item)
                  = if mxIsCell item || mxIsStruct item then Fail MSG_UNSUPPVARTYPE
                    else bind_scalar env st iParam item).
  { unfold bind_param, mxIsEmpty. rewrite Hone, Hreal. simpl.
    destruct (mxIsCell item || mxIsStruct item); reflexivity. }
  rewrite Hdisp. unfold mxIsCell, mxIsStruct, bind_scalar.
  split; [|split; [|split; [|split; [|split]]]].
  - intros H W.
    destruct (@NumericFacts.load_data_scalar env item W Hone) as (raw & Hl & Hr).
    pose proof (@NumericFacts.mxGetScalar_integer env item raw H Hl) as Hs.
    destruct (@NumericFacts.element_value_range (mxGetClassID item) raw H Hr)
      as [[Hlo Hhi] Hcls].
    exists raw. split; [exact Hl|].
    set (v := element_value (mxGetClassID item) raw) in *.
    assert (Hb : (if class_eqb (mxGetClassID item) mxCELL_CLASS
                     || class_eqb (mxGetClassID item) mxSTRUCT_CLASS
                  then Fail MSG_UNSUPPVARTYPE
                  else bind_scalar env st iParam item)
                 = (n <- double_to_int (double_of_int v) ;;
                    bind_or_fail env st (iParam + 1) (SqlInt n))).
    { unfold bind_scalar. rewrite Hs. clear - H. cbn [In] in H.
      repeat (destruct H as [H|H]; [rewrite <- H; reflexivity|]). contradiction. }
    unfold bind_scalar in Hb. rewrite Hb.
    split; [|split].
    + intro Hle. rewrite NumericFacts.double_to_int_of_int by lia. apply Hbind.
    + intro Hgt. rewrite NumericFacts.double_to_int_above by lia. reflexivity.
    + exact Hcls.
  - intros H W.
    destruct (@NumericFacts.load_data_scalar env item W Hone) as (raw & Hl & _).
    unfold mxGetElementSize in Hl. rewrite H in Hl. cbn [element_size] in Hl.
    exists raw. split; [exact Hl|].
    unfold mxGetScalar. rewrite H. cbn [class_eqb class_code Z.eqb Pos.eqb orb].
    rewrite Hl. apply Hbind.
  - intros H W.
    destruct (@NumericFacts.load_data_scalar env item W Hone) as (raw & Hl & _).
    unfold mxGetElementSize in Hl. rewrite H in Hl. cbn [element_size] in Hl.
    exists raw. split; [exact Hl|].
    unfold mxGetScalar. rewrite H. cbn [class_eqb class_code Z.eqb Pos.eqb orb].
    rewrite Hl. apply Hbind.
  - intros H chars Hs Hz Hl Hal. rewrite H. simpl.
    rewrite (@bind_string_ok env st iParam item chars Hs Hz Hl Hal). apply Hbind.
  - intro H. simpl in H.
    repeat (destruct H as [H|H]; [rewrite <- H; reflexivity|]). contradiction.
  - intro H. simpl in H.
    repeat (destruct H as [H|H]; [rewrite <- H; reflexivity|]). contradiction.
Qed.

Lemma scalar_int32_wf : mx_wf scalar_int32.
Proof.
  split; [|split; reflexivity].
  repeat constructor; discriminate.
Qed.

Lemma scalar_double_wf : mx_wf scalar_double.
Proof.
  split; [|split; reflexivity].
  repeat constructor; discriminate.
Qed.

Lemma C5_witness :
  bind_param env0 (prepared 1) 0 (Some scalar_int32) = Ok [SqlInt 42] /\
  bind_param env0 (prepared 1) 0 (Some scalar_double)
  = Ok [SqlDouble 4631107791820423168].
Proof.
  assert (Hs : 0 <= 0 < sqlite3_bind_parameter_count (prepared 1))
    by (vm_compute; split; [discriminate|reflexivity]).
  destruct (@C5_scalar_dispatch env0 (prepared 1) 0 scalar_int32
              eq_refl eq_refl Hs (fun _ => eq_refl)) as (A & _).
  destruct (@C5_scalar_dispatch env0 (prepared 1) 0 scalar_double
              eq_refl eq_refl Hs (fun _ => eq_refl)) as (_ & B & _).
  split.
  - destruct (A (or_intror (or_intror (or_intror (or_intror (or_intror
                   (or_introl eq_refl)))))) scalar_int32_wf)
      as (raw & Hl & Hok & _).
    injection Hl as <-. apply Hok. vm_compute. discriminate.
  - destruct (B eq_refl scalar_double_wf) as (d & Hl & Hok).
    injection Hl as <-. exact Hok.
Defined.

(** A scalar of class [int64] is not bound as an integer: the call fails
    with [MSG_INVALIDARG]. A cell with one element fails with
    [MSG_UNSUPPVARTYPE], not with [MSG_INVALIDARG]. The [uint32] 4294967295
    is not bound as an integer either: it is no [int], so its conversion is
    undefined. *)
Lemma C5_counterexample :
  mxGetClassID scalar_int64 = mxINT64_CLASS /\
  mxGetNumberOfElements scalar_int64 = 1 /\
  bind_param env0 (prepared 1) 0 (Some scalar_int64) = Fail MSG_INVALIDARG /\
  mxGetNumberOfElements (MxArray mxCELL_CLASS false [1; 1] [] [None]) = 1 /\
  bind_param env0 (prepared 1) 0 (Some (MxArray mxCELL_CLASS false [1; 1] [] [None]))
  = Fail MSG_UNSUPPVARTYPE /\
  mxGetClassID scalar_uint32_max = mxUINT32_CLASS /\
  mxGetNumberOfElements scalar_uint32_max = 1 /\
  mxGetScalar env0 scalar_uint32_max = Ok (double_of_int 4294967295) /\
  bind_param env0 (prepared 1) 0 (Some scalar_uint32_max) = Undefined.
Proof. repeat split; reflexivity. Qed.


(** *** Number of values and number of placeholders *)

Lemma too_many_args (env : Env) (bind_names_count : Z) (args : list mxArray) :
  0 <= bind_names_count < Z.of_nat (length args) ->
  collect_args env bind_names_count args = Fail MSG_UNEXPECTEDARG.
Proof.
  intros [H0 H]. unfold collect_args.
  destruct (bind_names_count =? 0) eqn:Z0.
  - replace (0 <? Z.of_nat (length args)) with true
      by (symmetry; apply Z.ltb_lt; lia). reflexivity.
  - apply Z.eqb_neq in Z0. simpl andb. cbv iota.
    replace (bind_names_count <? Z.of_nat (length args)) with true
      by (symmetry; apply Z.ltb_lt; lia).
    replace (1 <? Z.of_nat (length args)) with true
      by (symmetry; apply Z.ltb_lt; lia).
    destruct args as [|first rest]; [reflexivity|].
    destruct (negb (mxIsCell first)); reflexivity.
Qed.

Lemma collect_args_positional (env : Env) (bind_names_count : Z) (args : list mxArray) :
  match args with
  | [] => true
  | first :: _ => negb (mxIsCell first)
  end = true ->
  Z.of_nat (length args) <= bind_names_count ->
  alloc_ok env (mxCreateCellMatrix_call bind_names_count 1) = true ->
  collect_args env bind_names_count args
  = Ok (MxArray mxCELL_CLASS false [bind_names_count; 1] []
          (map (fun i => match nth_error args i with
                         | Some a => mxDuplicateArray env a
                         | None => mxCreateLogicalMatrix00 env
                         end)
               (seq 0 (Z.to_nat bind_names_count)))).
Proof.
  intros Hm Hn Hal. unfold collect_args. rewrite Hm.
  replace ((bind_names_count =? 0) && (0 <? Z.of_nat (length args))) with false.
  - replace (bind_names_count <? Z.of_nat (length args)) with false
      by (symmetry; apply Z.ltb_ge; lia).
    rewrite Hal. reflexivity.
  - symmetry. apply andb_false_iff.
    destruct (Z.eqb_spec bind_names_count 0) as [E|E]; [right|left; reflexivity].
    apply Z.ltb_ge. lia.
Qed.

Lemma mxGetCell_positional (env : Env) (count : Z) (args : list mxArray) (k : Z) :
  0 <= k < count ->
  mxGetCell (MxArray mxCELL_CLASS false [count; 1] []
               (map (fun i => match nth_error args i with
                              | Some a => mxDuplicateArray env a
                              | None => mxCreateLogicalMatrix00 env
                              end)
                    (seq 0 (Z.to_nat count)))) k
  = match nth_error args (Z.to_nat k) with
    | Some a => mxDuplicateArray env a
    | None => mxCreateLogicalMatrix00 env
    end.
Proof.
  intros [H0 H1]. unfold mxGetCell.
  replace (k <? 0) with false by (symmetry; apply Z.ltb_ge; lia).
  cbn [mxCells]. rewrite nth_error_map, nth_error_seq.
  replace (Z.to_nat k <? Z.to_nat count)%nat with true
    by (symmetry; apply Nat.ltb_lt; lia).
  reflexivity.
Qed.

(** C6. Arity of parameter binding. With no placeholder, any value fails
    with [MSG_UNEXPECTEDARG]; more values than placeholders fail with
    [MSG_UNEXPECTEDARG]. Fewer values than placeholders, passed one by one,
    are collected into the cell array (the missing places hold empty
    arrays), the outcome of the call is the outcome of binding the values
    that were passed, and when it succeeds every slot behind them is as it
    was before, so SQL NULL for a statement that was just prepared. When the
    first value is a cell array, it is taken as the collection when it is
    the only value, and any further value fails with
    [MSG_UNEXPECTEDARG]. *)
Theorem C6_binding_arity (env : Env) (st : stmt) (args : list mxArray) :
  (sqlite3_bind_parameter_count st = 0 -> args <> [] ->
   bind_parameters env st args = Fail MSG_UNEXPECTEDARG) /\
  (sqlite3_bind_parameter_count st < Z.of_nat (length args) ->
   bind_parameters env st args = Fail MSG_UNEXPECTEDARG) /\
  (match args with
   | [] => true
   | first :: _ => negb (mxIsCell first)
   end = true ->
   (length args <= length st)%nat ->
   alloc_ok env (mxCreateCellMatrix_call (sqlite3_bind_parameter_count st) 1) = true ->
   exists pArgs,
     collect_args env (sqlite3_bind_parameter_count st) args = Ok pArgs /\
     (forall i a, nth_error args i = Some a ->
                  mxGetCell pArgs (Z.of_nat i) = mxDuplicateArray env a) /\
     bind_parameters env st args = bind_loop env st pArgs 0 (length args) /\
     forall st', bind_parameters env st args = Ok st' ->
                 length st' = length st /\
                 (forall i, (length args <= i)%nat -> nth_error st' i = nth_error st i) /\
                 (forall n i, st = prepared n -> (length args <= i < n)%nat ->
                              nth_error st' i = Some SqlNull)) /\
  (forall first rest,
      args = first :: rest -> mxIsCell first = true ->
      (rest <> [] -> bind_parameters env st args = Fail MSG_UNEXPECTEDARG) /\
      (rest = [] -> 0 < sqlite3_bind_parameter_count st ->
       alloc_ok env (mxDuplicateArray_call first) = true ->
       collect_args env (sqlite3_bind_parameter_count st) args = Ok first /\
       bind_parameters env st args
       = bind_loop env st first 0 (Z.to_nat (sqlite3_bind_parameter_count st)))).
Proof.
  assert (Hc0 : 0 <= sqlite3_bind_parameter_count st)
    by (unfold sqlite3_bind_parameter_count; lia).
  split; [|split; [|split]].
  - intros Hz Hne. unfold bind_parameters.
    rewrite too_many_args; [reflexivity|].
    destruct args; [contradiction|]. simpl length. lia.
  - intro Hlt. unfold bind_parameters. rewrite too_many_args; [reflexivity|lia].
  - intros Hm Hle Hal.
    pose proof (@collect_args_positional env (sqlite3_bind_parameter_count st) args Hm
                  ltac:(unfold sqlite3_bind_parameter_count; lia) Hal) as Hcol.
    eexists. split; [exact Hcol|].
    assert (Hcell : forall i a, nth_error args i = Some a ->
                      mxGetCell (MxArray mxCELL_CLASS false
                                   [sqlite3_bind_parameter_count st; 1] []
                                   (map (fun i => match nth_error args i with
                                                  | Some a => mxDuplicateArray env a
                                                  | None => mxCreateLogicalMatrix00 env
                                                  end)
                                      (seq 0 (Z.to_nat (sqlite3_bind_parameter_count st)))))
                                (Z.of_nat i)
                      = mxDuplicateArray env a).
    { intros i a Hi.
      assert (Hlt : (i < length args)%nat) by (apply nth_error_Some; congruence).
      rewrite mxGetCell_positional
        by (unfold sqlite3_bind_parameter_count; lia).
      rewrite Nat2Z.id, Hi. reflexivity. }
    split; [exact Hcell|].
    assert (Hrun : bind_parameters env st args
                   = bind_loop env st
                       (MxArray mxCELL_CLASS false [sqlite3_bind_parameter_count st; 1] []
                          (map (fun i => match nth_error args i with
                                         | Some a => mxDuplicateArray env a
                                         | None => mxCreateLogicalMatrix00 env
                                         end)
                             (seq 0 (Z.to_nat (sqlite3_bind_parameter_count st)))))
                       0 (length args)).
    { unfold bind_parameters. rewrite Hcol.
      unfold sqlite3_bind_parameter_count at 3. rewrite Nat2Z.id.
      replace (length st) with (length args + (length st - length args))%nat by lia.
      rewrite bind_loop_app.
      replace (length args + (length st - length args) - length args)%nat
        with (length st - length args)%nat by lia.
      match goal with
      | |- match ?r with _ => _ end = _ => destruct r as [st1| |]; try reflexivity
      end.
      apply bind_loop_skip. intros k Hk.
      rewrite mxGetCell_positional
        by (unfold sqlite3_bind_parameter_count; lia).
      replace (nth_error args (Z.to_nat k)) with (@None mxArray)
        by (symmetry; apply nth_error_None; lia).
      unfold mxCreateLogicalMatrix00.
      destruct (alloc_ok env (mxCreateLogicalMatrix_call 0 0)); [reflexivity|exact I]. }
    split; [exact Hrun|].
    intros st' Hok. rewrite Hrun in Hok.
    destruct (@bind_loop_frame env _ _ _ _ _ (Z.le_refl 0) Hok) as [L F].
    split; [exact L|]. split.
    + intros i Hi. apply F. right. simpl. lia.
    + intros n i -> Hi. rewrite F by (right; simpl; lia).
      unfold prepared. apply nth_error_repeat. lia.
  - intros first rest -> Hcell. split.
    + intro Hne. unfold bind_parameters, collect_args.
      destruct ((sqlite3_bind_parameter_count st =? 0)
                && (0 <? Z.of_nat (length (first :: rest)))); [reflexivity|].
      rewrite Hcell. simpl negb. cbv iota.
      replace (1 <? Z.of_nat (length (first :: rest))) with true; [reflexivity|].
      symmetry. apply Z.ltb_lt. destruct rest; [contradiction|]. simpl length. lia.
    + intros -> Hpos Hal.
      assert (Hcol : collect_args env (sqlite3_bind_parameter_count st) [first] = Ok first).
      { unfold collect_args.
        replace (sqlite3_bind_parameter_count st =? 0) with false
          by (symmetry; apply Z.eqb_neq; lia).
        rewrite Hcell. simpl. unfold mxDuplicateArray. rewrite Hal. reflexivity. }
      split; [exact Hcol|]. unfold bind_parameters. rewrite Hcol. reflexivity.
Qed.


(** Two placeholders: one value leaves the second slot NULL, three values
    are refused. *)
Example bind_one_of_two :
  bind_parameters env0 (prepared 2) [scalar_int32] = Ok [SqlInt 42; SqlNull].
Proof. reflexivity. Qed.

Example bind_three_of_two :
  bind_parameters env0 (prepared 2) [scalar_int32; scalar_int32; scalar_int32]
  = Fail MSG_UNEXPECTEDARG.
Proof. reflexivity. Qed.

(** *** The bound on the size of a typed blob *)

Lemma item_max_wf : mx_wf item_max.
Proof.
  split.
  - change (mxGetDimensions item_max) with [1; 1073741779].
    repeat constructor; discriminate.
  - assert (L : len payload_max = 1073741779).
    { unfold len, payload_max. rewrite repeat_length.
      rewrite Z2Nat.id by discriminate. reflexivity. }
    change (len payload_max = 1 * (1073741779 * 1) * 1 /\ len payload_max < 2 ^ 32).
    rewrite L. split; reflexivity.
Qed.

Lemma item_over_wf : mx_wf item_over.
Proof.
  split.
  - change (mxGetDimensions item_over) with [1; 1073741780].
    repeat constructor; discriminate.
  - assert (L : len (x00 :: payload_max) = 1073741780).
    { rewrite len_cons. unfold len, payload_max. rewrite repeat_length.
      rewrite Z2Nat.id by discriminate. reflexivity. }
    change (len (x00 :: payload_max) = 1 * (1073741780 * 1) * 1
            /\ len (x00 :: payload_max) < 2 ^ 32).
    rewrite L. split; reflexivity.
Qed.

(** X30. The bound on the size of a typed blob, for a blob whose size is
    an [int]. [sizeBlob] is then the offset of the payload for the number of
    dimensions plus the number of elements times the element size. When it
    is above [MQSQLITE_MAX_BLOB_SIZE] the encode branch fails with
    [MSG_BLOBTOOBIG], and so does the binding of a value with several
    elements in typed blob mode. A blob one byte over the bound fails that
    way; a blob up to the bound, so one exactly at the bound, is encoded
    (for a class of the switch, and when [sqlite3_malloc] gives memory) and
    has that size. *)
Theorem blob_size_bound_within_int (env : Env) (item : mxArray) :
  mx_wf item ->
  (10 <= length (g_platform env))%nat ->
  (blob_total item <= INT_MAX -> sizeBlob item = Ok (blob_total item)) /\
  (MQSQLITE_MAX_BLOB_SIZE < blob_total item <= INT_MAX ->
   typed_blob_encode env item = Fail MSG_BLOBTOOBIG /\
   forall st iParam,
     use_typed_blobs env = true ->
     mxIsComplex item || mxIsCell item || mxIsStruct item = false ->
     1 < mxGetNumberOfElements item ->
     class_eqb (mxGetClassID item) mxCHAR_CLASS = false ->
     bind_param env st iParam (Some item) = Fail MSG_BLOBTOOBIG) /\
  (blob_total item = MQSQLITE_MAX_BLOB_SIZE + 1 ->
   typed_blob_encode env item = Fail MSG_BLOBTOOBIG) /\
  (blob_total item <= MQSQLITE_MAX_BLOB_SIZE ->
   supported_class (mxGetClassID item) = true ->
   alloc_ok env (sqlite3_malloc_call (blob_total item)) = true ->
   exists blob, typed_blob_encode env item = Ok blob /\ len blob = blob_total item).
Proof.
  intros W Hp. pose proof W as [Wd [Wl Ws]].
  assert (Htot : blob_total item
                 = TBH_DATA_OFFSET (mxGetNumberOfDimensions item) + len (mxGetData item))
    by (unfold blob_total; now rewrite Wl).
  assert (Hsz : blob_total item <= INT_MAX -> sizeBlob item = Ok (blob_total item)).
  { intro H. rewrite Htot in *. now apply sizeBlob_exact. }
  split; [exact Hsz|split; [|split]].
  - intros [Hbig Hint]. pose proof (Hsz Hint) as Hs.
    split; [now apply (@typed_blob_encode_too_big env item (blob_total item))|].
    intros st iParam Ht Hk Hmany Hchar. unfold bind_param, mxIsEmpty.
    replace (mxGetNumberOfElements item =? 0) with false
      by (symmetry; apply Z.eqb_neq; lia).
    rewrite Hk.
    replace (1 <? mxGetNumberOfElements item) with true
      by (symmetry; apply Z.ltb_lt; lia).
    rewrite Hchar. simpl. unfold bind_matrix. cbv zeta. rewrite Ht. simpl negb. cbv iota.
    now rewrite (@typed_blob_encode_too_big env item (blob_total item) Hs Hbig).
  - intro H. apply (@typed_blob_encode_too_big env item (blob_total item)).
    + apply Hsz. rewrite H. vm_compute. discriminate.
    + rewrite H. lia.
  - intros Hle Hsup Hal. rewrite Htot in Hle, Hal.
    destruct (@typed_blob_encode_ok env item W Hp Hle Hsup Hal) as [blob Hb].
    exists blob. split; [exact Hb|].
    destruct (@typed_blob_encode_inv env item blob W Hb) as (_ & L & _).
    now rewrite Htot.
Qed.

Lemma blob_size_bound_within_int_witness :
  blob_total item_max = MQSQLITE_MAX_BLOB_SIZE /\
  (exists blob, typed_blob_encode env0 item_max = Ok blob
                /\ len blob = MQSQLITE_MAX_BLOB_SIZE) /\
  blob_total item_over = MQSQLITE_MAX_BLOB_SIZE + 1 /\
  typed_blob_encode env0 item_over = Fail MSG_BLOBTOOBIG.
Proof.
  assert (Hp : (10 <= length (g_platform env0))%nat) by (simpl; repeat constructor).
  assert (Tm : blob_total item_max = MQSQLITE_MAX_BLOB_SIZE) by reflexivity.
  assert (To : blob_total item_over = MQSQLITE_MAX_BLOB_SIZE + 1) by reflexivity.
  split; [exact Tm|]. split.
  - destruct (@blob_size_bound_within_int env0 item_max item_max_wf Hp) as (_ & _ & _ & H).
    rewrite <- Tm. apply H; [rewrite Tm; apply Z.le_refl|reflexivity|reflexivity].
  - split; [exact To|].
    destruct (@blob_size_bound_within_int env0 item_over item_over_wf Hp) as (_ & _ & H & _).
    exact (H To).
Defined.

Lemma item_huge_wf : mx_wf item_huge.
Proof.
  split.
  - change (mxGetDimensions item_huge) with [2; 1500000000].
    repeat constructor; discriminate.
  - assert (L : len (repeat x00 (Z.to_nat 3000000000)) = 3000000000).
    { unfold len. rewrite repeat_length.
      rewrite Z2Nat.id by discriminate. reflexivity. }
    change (len (repeat x00 (Z.to_nat 3000000000)) = 2 * (1500000000 * 1) * 1
            /\ len (repeat x00 (Z.to_nat 3000000000)) < 2 ^ 32).
    rewrite L. split; reflexivity.
Qed.

(** C7. A value whose blob is larger than an [int] can hold passes the
    check of the size. For the [uint8] matrix of 2 x 1500000000 elements
    the size of the blob, 3000000044 bytes, is above
    [MQSQLITE_MAX_BLOB_SIZE], but [sizeBlob], an [mwSize], is
    [-1294967252]: the comparison with the bound does not fire,
    [sqlite3_malloc] is called with that number and returns a null pointer,
    and the encode branch, and with it the binding of the value, ends with
    [MSG_MEMERROR], not with [MSG_BLOBTOOBIG]. *)
Theorem C7_failing_input :
  mx_wf item_huge /\
  1 < mxGetNumberOfElements item_huge /\
  blob_total item_huge = 3000000044 /\
  MQSQLITE_MAX_BLOB_SIZE < blob_total item_huge /\
  sizeBlob item_huge = Ok (-1294967252) /\
  sqlite3_malloc env0 (-1294967252) = None /\
  typed_blob_encode env0 item_huge = Fail MSG_MEMERROR /\
  bind_param env0 (prepared 1) 0 (Some item_huge) = Fail MSG_MEMERROR.
Proof.
  assert (Hs : sizeBlob item_huge = Ok (-1294967252)) by reflexivity.
  assert (He : typed_blob_encode env0 item_huge = Fail MSG_MEMERROR).
  { unfold typed_blob_encode. cbv zeta. rewrite Hs. reflexivity. }
  split; [exact item_huge_wf|].
  split; [reflexivity|].
  split; [reflexivity|].
  split; [reflexivity|].
  split; [exact Hs|].
  split; [reflexivity|].
  split; [exact He|].
  unfold bind_param, bind_matrix. cbv zeta.
  change (mxIsEmpty item_huge) with false.
  change (mxIsComplex item_huge || mxIsCell item_huge || mxIsStruct item_huge) with false.
  change ((1 <? mxGetNumberOfElements item_huge)
          && negb (class_eqb (mxGetClassID item_huge) mxCHAR_CLASS)) with true.
  change (negb (use_typed_blobs env0)) with false. cbv iota.
  rewrite He. reflexivity.
Qed.

End BinderClaims.

(** ** Field names *)

Module FieldnamesFacts.
Import Host Fieldnames.

Lemma sanitize_length (s : string) : String.length (sanitize s) = String.length s.
Proof. induction s as [|c s IH]; simpl; [reflexivity|now rewrite IH]. Qed.

Lemma sanitize_get (s : string) :
  forall i, String.get i (sanitize s) = option_map sanitize_char (String.get i s).
Proof.
  induction s as [|c s IH]; intro i; [reflexivity|].
  destruct i as [|i]; simpl; [reflexivity|apply IH].
Qed.

Lemma unique_true (names : list string) (cand : string) :
  unique names cand = true <-> ~ In cand names.
Proof.
  unfold unique. rewrite forallb_forall. split.
  - intros H Hin. specialize (H cand Hin). rewrite String.eqb_refl in H. discriminate.
  - intros H f Hf. apply negb_true_iff. apply String.eqb_neq. intros ->. contradiction.
Qed.

(** The loop over [k] stops at the first candidate that is unique, or
    runs to its end. *)
Lemma k_loop_spec (names : list string) (name : string) (n : nat) :
  forall k0,
    let r := k_loop names name n k0 in
    (forall k, k0 <= k < r -> unique names (sprintf_name name k) = false) /\
    (r = k0 + Z.of_nat n
     \/ k0 <= r < k0 + Z.of_nat n /\ unique names (sprintf_name name r) = true).
Proof.
  induction n as [|n IH]; intro k0; cbn zeta.
  - simpl. split; [intros; lia|left; lia].
  - cbn [k_loop]. destruct (unique names (sprintf_name name k0)) eqn:E.
    + split; [intros; lia|right; split; [lia|exact E]].
    + specialize (IH (k0 + 1)). cbn zeta in IH. destruct IH as [A B]. split.
      * intros k Hk. destruct (Z.eq_dec k k0) as [->|Hne]; [exact E|apply A; lia].
      * destruct B as [B|[B1 B2]]; [left; lia|right; split; [lia|exact B2]].
Qed.

Lemma j_loop_fold (n : nat) :
  forall st iCol jCol,
    j_loop st iCol jCol n
    = fold_left (fun st p => compare_columns st (fst p) (snd p))
                (map (fun j => (iCol, j)) (seq jCol n)) st.
Proof.
  induction n as [|n IH]; intros st iCol jCol; [reflexivity|].
  cbn [j_loop seq map fold_left]. apply IH.
Qed.

Lemma i_loop_fold (ncol n : nat) :
  forall st iCol,
    i_loop st ncol iCol n
    = fold_left (fun st p => compare_columns st (fst p) (snd p))
                (flat_map (fun i => map (fun j => (i, j)) (seq (S i) (ncol - S i)))
                          (seq iCol n)) st.
Proof.
  induction n as [|n IH]; intros st iCol; [reflexivity|].
  cbn [i_loop seq flat_map]. rewrite fold_left_app, <- j_loop_fold. apply IH.
Qed.

Lemma set_name_length (names : list string) (j : nat) (name : string) :
  (j < length names)%nat -> length (set_name names j name) = length names.
Proof.
  intro H. unfold set_name. rewrite length_app. cbn [length].
  rewrite length_firstn, length_skipn. lia.
Qed.

Lemma set_name_same (names : list string) (j : nat) (name : string) :
  (j < length names)%nat -> nth_error (set_name names j name) j = Some name.
Proof.
  intro H. unfold set_name. rewrite nth_error_app, length_firstn.
  replace (Nat.min j (length names)) with j by lia.
  rewrite Nat.ltb_irrefl, Nat.sub_diag. reflexivity.
Qed.

Lemma set_name_other (names : list string) (j : nat) (name : string) (c : nat) :
  (j < length names)%nat -> c <> j ->
  nth_error (set_name names j name) c = nth_error names c.
Proof.
  intros H Hc. unfold set_name. rewrite nth_error_app, length_firstn.
  replace (Nat.min j (length names)) with j by lia.
  destruct (Nat.ltb_spec c j) as [L|L].
  - rewrite nth_error_firstn.
    replace (c <? j)%nat with true by (symmetry; apply Nat.ltb_lt; lia). reflexivity.
  - destruct (c - j)%nat as [|m] eqn:M; [lia|].
    cbn [nth_error]. rewrite nth_error_skipn. f_equal. lia.
Qed.

(** What the comparison of two columns does. *)
Lemma compare_columns_spec (names : list string) (w : nat) (iCol jCol : nat)
      (fi fj : string) :
  nth_error names iCol = Some fi ->
  nth_error names jCol = Some fj ->
  (fi <> fj -> compare_columns (names, w) iCol jCol = (names, w)) /\
  (fi = fj ->
   (forall k, 1 <= k < 100 -> unique names (sprintf_name fj k) = false) ->
   compare_columns (names, w) iCol jCol = (names, S w)) /\
  (fi = fj ->
   forall k, 1 <= k < 100 ->
             unique names (sprintf_name fj k) = true ->
             (forall k', 1 <= k' < k -> unique names (sprintf_name fj k') = false) ->
             compare_columns (names, w) iCol jCol
             = (set_name names jCol (sprintf_name fj k), w)).
Proof.
  intros Hi Hj. unfold compare_columns. rewrite Hi, Hj.
  pose proof (k_loop_spec names fj 99 1) as S. cbn zeta in S.
  destruct S as [A B].
  split; [|split].
  - intro Hne. apply String.eqb_neq in Hne. now rewrite Hne.
  - intros -> Hall. rewrite String.eqb_refl.
    destruct B as [B|[B1 B2]].
    + rewrite B. reflexivity.
    + rewrite Hall in B2 by lia. discriminate.
  - intros -> k Hk Hu Hfirst. rewrite String.eqb_refl.
    assert (E : k_loop names fj 99 1 = k).
    { destruct B as [B|[B1 B2]].
      - rewrite A in Hu by lia. discriminate.
      - destruct (Z.lt_trichotomy (k_loop names fj 99 1) k) as [L|[L|L]].
        + rewrite Hfirst in B2 by lia. discriminate.
        + exact L.
        + rewrite A in Hu by lia. discriminate. }
    rewrite E. replace (k =? 100) with false by (symmetry; apply Z.eqb_neq; lia).
    reflexivity.
Qed.


(** *** The two loops as a whole *)

Lemma fieldnames_fold (env : Env) (cnames : list string) :
  check4uniquefields env = true ->
  fieldnames env cnames
  = fold_left (fun st p => compare_columns st (fst p) (snd p))
              (column_pairs (length cnames)) (map sanitize cnames, O).
Proof.
  intro H. unfold fieldnames, column_pairs. rewrite H. apply i_loop_fold.
Qed.

Lemma in_column_pairs (ncol a b : nat) :
  In (a, b) (column_pairs ncol) <-> (a < b < ncol)%nat.
Proof.
  unfold column_pairs. rewrite in_flat_map. split.
  - intros (i & Hi & Hin). apply in_map_iff in Hin. destruct Hin as (j & E & Hj).
    injection E as <- <-. apply in_seq in Hi, Hj. lia.
  - intros H. exists a. split; [apply in_seq; lia|].
    apply in_map_iff. exists b. split; [reflexivity|apply in_seq; lia].
Qed.

(** The outcomes of one comparison. *)
Lemma compare_columns_cases (names : list string) (w : nat) (iCol jCol : nat) :
  (compare_columns (names, w) iCol jCol = (names, w) /\
   forall x y, nth_error names iCol = Some x -> nth_error names jCol = Some y -> x <> y)
  \/ compare_columns (names, w) iCol jCol = (names, S w)
  \/ exists fj k,
      nth_error names jCol = Some fj /\ 1 <= k < 100 /\
      ~ In (sprintf_name fj k) names /\
      compare_columns (names, w) iCol jCol = (set_name names jCol (sprintf_name fj k), w).
Proof.
  unfold compare_columns.
  destruct (nth_error names iCol) as [fi|] eqn:Ei; [|left; split; [reflexivity|discriminate]].
  destruct (nth_error names jCol) as [fj|] eqn:Ej; [|left; split; [reflexivity|discriminate]].
  destruct (String.eqb fi fj) eqn:E.
  - right. pose proof (k_loop_spec names fj 99 1) as S. cbn zeta in S.
    destruct S as [_ [B|[B1 B2]]].
    + left. rewrite B. reflexivity.
    + right. exists fj, (k_loop names fj 99 1).
      replace (k_loop names fj 99 1 =? 100) with false
        by (symmetry; apply Z.eqb_neq; lia).
      repeat split; try lia. now apply unique_true.
  - left. split; [reflexivity|]. intros x y Hx Hy. injection Hx as <-. injection Hy as <-.
    now apply String.eqb_neq.
Qed.

Lemma compare_columns_keeps (st : names_state) (iCol jCol : nat) :
  length (fst (compare_columns st iCol jCol)) = length (fst st) /\
  (snd st <= snd (compare_columns st iCol jCol))%nat /\
  forall c, c <> jCol ->
            nth_error (fst (compare_columns st iCol jCol)) c = nth_error (fst st) c.
Proof.
  destruct st as [names w].
  destruct (compare_columns_cases names w iCol jCol)
    as [[E _]|[E|(fj & k & Hj & _ & _ & E)]]; rewrite E; cbn [fst snd].
  - auto.
  - auto.
  - assert (L : (jCol < length names)%nat) by (apply nth_error_Some; congruence).
    split; [now apply set_name_length|]. split; [lia|].
    intros c Hc. now apply set_name_other.
Qed.

Lemma fold_keeps (l : list (nat * nat)) :
  forall st,
    let st' := fold_left (fun st p => compare_columns st (fst p) (snd p)) l st in
    length (fst st') = length (fst st) /\
    (snd st <= snd st')%nat /\
    forall c, (forall p, In p l -> snd p <> c) ->
              nth_error (fst st') c = nth_error (fst st) c.
Proof.
  induction l as [|p l IH]; intro st; cbn zeta; [simpl; auto|].
  cbn [fold_left]. specialize (IH (compare_columns st (fst p) (snd p))). cbn zeta in IH.
  destruct IH as (L & W & N).
  destruct (compare_columns_keeps st (fst p) (snd p)) as (L1 & W1 & N1).
  split; [congruence|]. split; [lia|].
  intros c Hc. rewrite N by (intros q Hq; apply Hc; now right).
  apply N1. intro E. apply (Hc p); [now left|now symmetry].
Qed.

Lemma compare_columns_distinct (names : list string) (w : nat) (iCol jCol : nat)
      (done : list (nat * nat)) (names' : list string) :
  distinct_on names done ->
  compare_columns (names, w) iCol jCol = (names', w) ->
  distinct_on names' ((iCol, jCol) :: done).
Proof.
  intros D E.
  destruct (compare_columns_cases names w iCol jCol)
    as [[E1 Hne]|[E1|(fj & k & Hj & _ & Hu & E1)]]; rewrite E1 in E.
  - injection E as <-. intros a b x y [P|P] Hab Ha Hb.
    + injection P as <- <-. now apply Hne.
    + now apply (D a b).
  - injection E as _ E. lia.
  - injection E as <-.
    assert (L : (jCol < length names)%nat) by (apply nth_error_Some; congruence).
    assert (Fresh : forall c z, c <> jCol -> nth_error names c = Some z ->
                                z <> sprintf_name fj k).
    { intros c z _ Hz ->. apply Hu. eapply nth_error_In. exact Hz. }
    intros a b x y P Hab Ha Hb.
    destruct (Nat.eq_dec a jCol) as [->|Na].
    + rewrite set_name_same in Ha by exact L. injection Ha as <-.
      rewrite set_name_other in Hb by (try exact L; congruence).
      intro F. now apply (Fresh b y ltac:(congruence) Hb).
    + rewrite set_name_other in Ha by assumption.
      destruct (Nat.eq_dec b jCol) as [->|Nb].
      * rewrite set_name_same in Hb by exact L. injection Hb as <-.
        now apply (Fresh a x Na Ha).
      * rewrite set_name_other in Hb by assumption.
        destruct P as [P|P]; [injection P as <- <-; congruence|now apply (D a b)].
Qed.

Lemma fold_distinct (l : list (nat * nat)) :
  forall names w done names',
    distinct_on names done ->
    fold_left (fun st p => compare_columns st (fst p) (snd p)) l (names, w) = (names', w) ->
    distinct_on names' (rev l ++ done).
Proof.
  induction l as [|[i j] l IH]; intros names w done names' D E.
  - simpl in E. injection E as <-. exact D.
  - cbn [fold_left fst snd] in E.
    destruct (compare_columns (names, w) i j) as [names1 w1] eqn:E1.
    pose proof (compare_columns_keeps (names, w) i j) as (_ & W1 & _).
    rewrite E1 in W1. cbn [snd] in W1.
    pose proof (fold_keeps l (names1, w1)) as (_ & W2 & _). cbn zeta in W2.
    rewrite E in W2. cbn [snd] in W2.
    assert (w1 = w) by lia. subst w1.
    pose proof (@compare_columns_distinct names w i j done names1 D E1) as D1.
    specialize (IH names1 w ((i, j) :: done) names' D1 E).
    simpl rev. rewrite <- app_assoc. exact IH.
Qed.

(** Without a warning, the names that leave the two loops are pairwise
    different. *)
Lemma fieldnames_NoDup (env : Env) (cnames names : list string) :
  check4uniquefields env = true ->
  fieldnames env cnames = (names, O) ->
  NoDup names.
Proof.
  intros Hc E. rewrite (@fieldnames_fold env cnames Hc) in E.
  pose proof (fold_keeps (column_pairs (length cnames)) (map sanitize cnames, O))
    as (L & _ & _). cbn zeta in L. rewrite E in L. cbn [fst] in L.
  rewrite length_map in L.
  assert (D0 : distinct_on (map sanitize cnames) []) by (intros a b x y []).
  pose proof (@fold_distinct _ _ _ _ _ D0 E) as D. rewrite app_nil_r in D.
  apply NoDup_nth_error. intros a b Ha Hab.
  destruct (Nat.eq_dec a b) as [|Hne]; [assumption|exfalso].
  destruct (nth_error names a) as [x|] eqn:Ex; [|apply nth_error_None in Ex; lia].
  assert (Hb : (b < length names)%nat) by (apply nth_error_Some; congruence).
  destruct (Nat.lt_ge_cases a b) as [Lt|Ge].
  - apply (D a b x x); try congruence.
    rewrite <- in_rev. apply in_column_pairs. lia.
  - apply (D b a x x); try congruence.
    rewrite <- in_rev. apply in_column_pairs. lia.
Qed.

End FieldnamesFacts.

Module FieldnamesClaims.
Import Host Fieldnames FieldnamesFacts Examples.
Local Open Scope string_scope.

(** C8. Resolution of duplicate field names, with the check switched on.
    Every character of a column name that is not a letter or a digit is
    replaced by an underscore. Then the pairs of columns are visited, the
    earlier column in the outer loop: when the later column has the name of
    the earlier one, the candidates [name_1] to [name_99] are tried in this
    order against all names as they are at that moment, the first candidate
    that is none of them becomes the name of the later column, and when
    there is none the name stays and a warning is given. The number of
    names and the first name do not change, without a warning the names
    that result are pairwise different, and the columns a, a, a become a,
    a_1, a_2. *)
Theorem C8_duplicate_fieldnames (env : Env) (cnames names : list string)
        (warnings : nat) :
  check4uniquefields env = true ->
  fieldnames env cnames = (names, warnings) ->
  (forall s i, String.get i (sanitize s)
               = option_map (fun c => if isalnum c then c else "_"%char)
                            (String.get i s)) /\
  (names, warnings)
  = fold_left (fun st p => compare_columns st (fst p) (snd p))
              (column_pairs (length cnames)) (map sanitize cnames, O) /\
  (forall iCol jCol, In (iCol, jCol) (column_pairs (length cnames))
                     <-> (iCol < jCol < length cnames)%nat) /\
  (forall current w iCol jCol fi fj,
      nth_error current iCol = Some fi ->
      nth_error current jCol = Some fj ->
      (fi <> fj -> compare_columns (current, w) iCol jCol = (current, w)) /\
      (fi = fj ->
       (forall k, (1 <= k < 100)%Z -> unique current (sprintf_name fj k) = false) ->
       compare_columns (current, w) iCol jCol = (current, S w)) /\
      (fi = fj ->
       forall k, (1 <= k < 100)%Z ->
                 unique current (sprintf_name fj k) = true ->
                 (forall k', (1 <= k' < k)%Z ->
                             unique current (sprintf_name fj k') = false) ->
                 compare_columns (current, w) iCol jCol
                 = (set_name current jCol (sprintf_name fj k), w))) /\
  length names = length cnames /\
  nth_error names 0 = option_map sanitize (nth_error cnames 0) /\
  (warnings = O -> NoDup names) /\
  (cnames = ["a"; "a"; "a"] -> names = ["a"; "a_1"; "a_2"] /\ warnings = O).
Proof.
  intros Hc E.
  pose proof (@fieldnames_fold env cnames Hc) as F. rewrite E in F.
  pose proof (fold_keeps (column_pairs (length cnames)) (map sanitize cnames, O))
    as (L & _ & N). cbn zeta in L, N. rewrite <- F in L, N. cbn [fst] in L, N.
  split; [exact sanitize_get|].
  split; [exact F|].
  split; [intros iCol jCol; apply in_column_pairs|].
  split; [intros current w iCol jCol fi fj Hi Hj; now apply compare_columns_spec|].
  split; [now rewrite L, length_map|].
  split.
  { rewrite N.
    - rewrite nth_error_map. reflexivity.
    - intros [a b] Hp. apply in_column_pairs in Hp. simpl. lia. }
  split.
  { intros ->. now apply (@fieldnames_NoDup env cnames names). }
  intros ->. unfold fieldnames in E. rewrite Hc in E. vm_compute in E.
  injection E as <- <-. split; reflexivity.
Qed.

Lemma C8_witness :
  fieldnames env0 ["a"; "a"; "a"] = (["a"; "a_1"; "a_2"], O) /\
  NoDup ["a"; "a_1"; "a_2"].
Proof.
  assert (E : fieldnames env0 ["a"; "a"; "a"] = (["a"; "a_1"; "a_2"], O))
    by (vm_compute; reflexivity).
  split; [exact E|].
  destruct (@C8_duplicate_fieldnames env0 _ _ _ eq_refl E) as (_ & _ & _ & _ & _ & _ & H & _).
  exact (H eq_refl).
Defined.

(** C9. With the check for unique field names switched off the loops over
    the pairs of columns are not entered: the names handed on are the
    sanitized column names as they are, duplicates among them, and there is
    no warning. *)
Theorem C9_unique_check_off (env : Env) (cnames : list string) :
  check4uniquefields env = false ->
  fieldnames env cnames = (map sanitize cnames, O) /\
  (forall s i, String.get i (sanitize s)
               = option_map (fun c => if isalnum c then c else "_"%char)
                            (String.get i s)).
Proof.
  intro H. split; [|exact sanitize_get].
  unfold fieldnames. now rewrite H.
Qed.

Lemma C9_witness :
  fieldnames env_nocheck ["a"; "a"; "x y"] = (["a"; "a"; "x_y"], O).
Proof.
  exact (proj1 (@C9_unique_check_off env_nocheck ["a"; "a"; "x y"] eq_refl)).
Defined.

End FieldnamesClaims.

(** ** More on the numbers handed over by the host *)

Module NumericProps.
Import Host Numeric NumericFacts Examples.

(** X1. [getinteger] on integers. For a 1 x 1 array of a class of 8, 16 or
    32 bit integers that holds [v], [getinteger] returns [v] converted to
    [int]: [v] itself, except for a [uint32] above [INT_MAX], which comes
    back negative ([v - 2^32]). *)
Theorem getinteger_integer_classes (env : Env) (cls : mxClassID) (v : Z) :
  class_range cls v ->
  getinteger env (int_scalar env cls v) = Ok (wrap32 v) /\
  (v <= INT_MAX -> wrap32 v = v) /\
  (INT_MAX < v -> wrap32 v = v - 2 ^ 32).
Proof.
  intro H.
  assert (W : (v <= INT_MAX -> wrap32 v = v) /\ (INT_MAX < v -> wrap32 v = v - 2 ^ 32)).
  { destruct cls; simpl in H; try contradiction; unfold INT_MIN, INT_MAX in *;
      (split; intro; unfold wrap32;
       [rewrite Z.mod_small by lia; lia
       |try lia; replace (v + 2147483648) with (v - 2147483648 + 1 * 4294967296) by lia;
        rewrite Z_mod_plus_full, Z.mod_small by lia; lia]). }
  split; [|exact W].
  unfold getinteger, int_scalar.
  destruct cls; simpl in H; try contradiction; cbn [mxGetClassID element_size];
    match goal with
    | |- context [load_data _ _ ?k] =>
        change k with (Z.of_nat (Z.to_nat k));
        rewrite load_data_int_bytes
    end; f_equal.
  - rewrite wrap8_mod, wrap8_small by lia. unfold wrap32. rewrite Z.mod_small; lia.
  - simpl. rewrite Z.mod_small by lia. unfold wrap32. rewrite Z.mod_small; lia.
  - rewrite wrap16_mod. unfold wrap16, wrap32. rewrite !Z.mod_small; lia.
  - simpl. rewrite Z.mod_small by lia. unfold wrap32. rewrite Z.mod_small; lia.
  - apply wrap32_mod.
  - apply wrap32_mod.
Qed.

Lemma getinteger_integer_classes_witness :
  class_range mxUINT32_CLASS 4294967295 /\
  getinteger env0 (int_scalar env0 mxUINT32_CLASS 4294967295) = Ok (-1) /\
  class_range mxINT16_CLASS (-2) /\
  getinteger env0 (int_scalar env0 mxINT16_CLASS (-2)) = Ok (-2).
Proof.
  assert (R1 : class_range mxUINT32_CLASS 4294967295) by (simpl; lia).
  assert (R2 : class_range mxINT16_CLASS (-2)) by (simpl; lia).
  split; [exact R1|]. split.
  - exact (proj1 (@getinteger_integer_classes env0 mxUINT32_CLASS 4294967295 R1)).
  - split; [exact R2|].
    exact (proj1 (@getinteger_integer_classes env0 mxINT16_CLASS (-2) R2)).
Defined.

(** X2. An [int] that the code hands out as a [double] scalar (a database
    id, a flag) is read back by [getinteger] as the same [int]: the
    conversions [(double) n] and [(int) d] are inverse on [int]. *)
Theorem getinteger_double_round_trip (env : Env) (n : Z) :
  INT_MIN <= n <= INT_MAX ->
  getinteger env (double_scalar env (double_of_int n)) = Ok n.
Proof.
  intro H. unfold getinteger, double_scalar. cbn [mxGetClassID].
  change 8 with (Z.of_nat 8) at 1. rewrite load_data_int_bytes.
  change (256 ^ Z.of_nat 8) with (2 ^ 64).
  rewrite Z.mod_small by (now apply double_of_int_range).
  now apply double_to_int_of_int.
Qed.

Lemma getinteger_double_round_trip_witness :
  INT_MIN <= -5 <= INT_MAX /\
  getinteger env0 (double_scalar env0 (double_of_int (-5))) = Ok (-5).
Proof.
  assert (H : INT_MIN <= -5 <= INT_MAX) by (unfold INT_MIN, INT_MAX; lia).
  split; [exact H|]. exact (@getinteger_double_round_trip env0 (-5) H).
Defined.

End NumericProps.

(** ** More on the charset codec *)

Module CharsetProps.
Import Charset CharsetFacts.

Lemma ascii_no_zero (x : list byte) :
  Forall (fun b => 0 < byte_val b < 128) x -> no_zero x.
Proof.
  induction 1 as [|b x Hb _ IH]; constructor; [|exact IH].
  intros ->. change (byte_val x00) with 0 in Hb. lia.
Qed.

Lemma ascii_to_utf8 (x : list byte) :
  Forall (fun b => 0 < byte_val b < 128) x -> to_utf8 x = x.
Proof.
  induction 1 as [|b x Hb _ IH]; [reflexivity|].
  rewrite to_utf8_cons, IH. unfold to_utf8_char.
  replace (byte_val b <? 128) with true by (symmetry; apply Z.ltb_lt; lia).
  reflexivity.
Qed.

Lemma ascii_to_single_byte (x : list byte) :
  Forall (fun b => 0 < byte_val b < 128) x -> to_single_byte x = x.
Proof.
  induction 1 as [|b x Hb _ IH]; [reflexivity|].
  cbn [to_single_byte].
  replace (byte_val b <? 128) with true by (symmetry; apply Z.ltb_lt; lia).
  now rewrite IH.
Qed.

Lemma ascii_paired (x : list byte) :
  Forall (fun b => 0 < byte_val b < 128) x -> paired x = true.
Proof.
  induction 1 as [|b x Hb _ IH]; [reflexivity|].
  cbn [paired].
  replace (byte_val b =? 0) with false by (symmetry; apply Z.eqb_neq; lia).
  replace (byte_val b <? 128) with true by (symmetry; apply Z.ltb_lt; lia).
  exact IH.
Qed.

(** X3. Text in ASCII passes the codec unchanged, in both directions: for a
    C string of bytes below 128, [latin2utf] and [utf2latin] ask for the
    length of the string plus one and fill the buffer with a copy of the
    string. *)
Theorem codec_ascii_unchanged (x buf : list byte) :
  Forall (fun b => 0 < byte_val b < 128) x ->
  len x + 1 <= INT_MAX ->
  len buf = len x + 1 ->
  latin2utf (Some (x ++ [x00])) None = Ok (len x + 1, None) /\
  latin2utf (Some (x ++ [x00])) (Some buf) = Ok (len x + 1, Some (x ++ [x00])) /\
  utf2latin (Some (x ++ [x00])) None = Ok (len x + 1, None) /\
  utf2latin (Some (x ++ [x00])) (Some buf) = Ok (len x + 1, Some (x ++ [x00])).
Proof.
  intros Ha Hl Hb.
  pose proof (len_nonneg x) as Hn. unfold INT_MAX in Hl.
  pose proof (ascii_to_utf8 Ha) as U. pose proof (ascii_to_single_byte Ha) as S.
  unfold latin2utf, utf2latin. repeat split.
  - pose proof (@latin2utf_loop_count x [] (ascii_no_zero Ha) 0%nat 0) as F.
    rewrite U in F. apply F; unfold INT_MIN, INT_MAX; lia.
  - pose proof (@latin2utf_loop_fill x [] (ascii_no_zero Ha) [] buf [] 0) as F.
    rewrite U, app_nil_r in F. simpl in F. rewrite app_nil_r in F.
    apply F; unfold INT_MIN, INT_MAX; lia.
  - pose proof (@utf2latin_loop_count [] (length x) x (le_n _) (ascii_paired Ha) 0%nat 0) as F.
    rewrite S in F. apply F; unfold INT_MIN, INT_MAX; lia.
  - pose proof (@utf2latin_loop_fill [] (length x) x (le_n _) (ascii_paired Ha) [] buf [] 0) as F.
    rewrite S, app_nil_r in F. simpl in F. rewrite app_nil_r in F.
    apply F; unfold INT_MIN, INT_MAX; lia.
Qed.

Lemma codec_ascii_unchanged_witness :
  latin2utf (Some ([x53; x51; x4c] ++ [x00])) (Some (repeat xff 4))
  = Ok (4, Some [x53; x51; x4c; x00]) /\
  utf2latin (Some ([x53; x51; x4c] ++ [x00])) (Some (repeat xff 4))
  = Ok (4, Some [x53; x51; x4c; x00]).
Proof.
  assert (Ha : Forall (fun b => 0 < byte_val b < 128) [x53; x51; x4c])
    by (repeat constructor).
  assert (Hl : len [x53; x51; x4c] + 1 <= INT_MAX) by (vm_compute; discriminate).
  pose proof (@codec_ascii_unchanged [x53; x51; x4c] (repeat xff 4) Ha Hl eq_refl)
    as (_ & A & _ & B).
  split; [exact A|exact B].
Defined.

Lemma len_to_utf8_exact (x : list byte) :
  len (to_utf8 x) = len x + len (filter (fun b => negb (byte_val b <? 128)) x).
Proof.
  induction x as [|b x IH]; [reflexivity|].
  rewrite to_utf8_cons. unfold to_utf8_char. cbn [filter].
  destruct (byte_val b <? 128); simpl app; cbn [negb]; repeat rewrite len_cons; lia.
Qed.

(** X4. The sizes the codec asks for. For a C string [x], [latin2utf] asks
    for one byte per character, one more for each byte from 128 on, and one
    for the terminator; [utf2latin] asks for the UTF-8 form of [x] exactly
    what [x] takes, and for no string (in which every byte from 128 on has a
    byte behind it) more than the string itself takes. *)
Theorem codec_sizes (x y : list byte) :
  no_zero x ->
  2 * len x + 1 <= INT_MAX ->
  paired y = true ->
  len y + 1 <= INT_MAX ->
  latin2utf (Some (x ++ [x00])) None
  = Ok (len x + len (filter (fun b => negb (byte_val b <? 128)) x) + 1, None) /\
  utf2latin (Some (to_utf8 x ++ [x00])) None = Ok (len x + 1, None) /\
  exists m, utf2latin (Some (y ++ [x00])) None = Ok (m, None) /\ 1 <= m <= len y + 1.
Proof.
  intros Hx Hlx Hy Hly.
  pose proof (len_to_utf8 x) as Hu. pose proof (len_nonneg x) as Hn.
  pose proof (@CharsetClaims.len_to_single_byte (length y) y (le_n _)) as Hs.
  unfold INT_MAX in Hlx, Hly. unfold latin2utf, utf2latin.
  split; [|split].
  - rewrite <- len_to_utf8_exact.
    apply latin2utf_loop_count; [exact Hx|unfold INT_MIN; lia|unfold INT_MAX; lia].
  - pose proof (@utf2latin_loop_count [] (length (to_utf8 x)) (to_utf8 x) (le_n _)
                  (paired_to_utf8 Hx) 0%nat 0) as F.
    rewrite to_single_byte_to_utf8 in F. apply F; unfold INT_MIN, INT_MAX; lia.
  - exists (len (to_single_byte y) + 1). split; [|lia].
    apply (@utf2latin_loop_count [] (length y)); [lia|exact Hy|unfold INT_MIN; lia|unfold INT_MAX; lia].
Qed.

Lemma codec_sizes_witness :
  latin2utf (Some ([xfc; x62; xe4] ++ [x00])) None = Ok (6, None) /\
  utf2latin (Some (to_utf8 [xfc; x62; xe4] ++ [x00])) None = Ok (4, None).
Proof.
  assert (Hz : no_zero [xfc; x62; xe4]) by (repeat constructor; discriminate).
  assert (Hl : 2 * len [xfc; x62; xe4] + 1 <= INT_MAX) by (vm_compute; discriminate).
  assert (Hl' : len [x61] + 1 <= INT_MAX) by (vm_compute; discriminate).
  pose proof (@codec_sizes [xfc; x62; xe4] [x61] Hz Hl eq_refl Hl') as (A & B & _).
  split; [exact A|exact B].
Defined.

Lemma poke_cases (buffer : option (list byte)) (i : nat) (v : byte) :
  (exists b, poke buffer i v = Ok b) \/ poke buffer i v = Undefined.
Proof.
  unfold poke, store. destruct buffer as [buf|]; [|eauto].
  destruct (i <? length buf)%nat; eauto.
Qed.

Lemma int_add_cases (a b : Z) : (exists c, int_add a b = Ok c) \/ int_add a b = Undefined.
Proof. unfold int_add. destruct ((INT_MIN <=? a + b) && (a + b <=? INT_MAX)); eauto. Qed.

(** A string that ends in a byte from 128 on: the loop takes the terminator
    for the second byte of the pair and reads on behind it. *)
Lemma utf2latin_loop_dangling (b : byte) (n : nat) :
  128 <= byte_val b ->
  forall y, (length y <= n)%nat -> paired y = true ->
  forall buffer i cnt, utf2latin_loop (y ++ [b; x00]) buffer i cnt = Undefined.
Proof.
  intro Hb.
  assert (E0 : (byte_val b =? 0) = false) by (apply Z.eqb_neq; lia).
  assert (E1 : (byte_val b <? 128) = false) by (apply Z.ltb_ge; lia).
  assert (Step : forall s v buffer i cnt,
             (forall buffer i cnt, utf2latin_loop s buffer i cnt = Undefined) ->
             (buffer' <- poke buffer i v ;;
              cnt' <- int_add cnt 1 ;;
              utf2latin_loop s buffer' (advance buffer i) cnt') = Undefined).
  { intros s v buffer i cnt H.
    destruct (poke_cases buffer i v) as [[b' ->]| ->]; [|reflexivity].
    destruct (int_add_cases cnt 1) as [[c ->]| ->]; [|reflexivity]. apply H. }
  induction n as [|n IH]; intros y Hn Hp buffer i cnt.
  - destruct y; [|simpl in Hn; lia].
    simpl app. cbn [utf2latin_loop]. rewrite E0, E1.
    exact (Step [] _ buffer i cnt (fun _ _ _ => eq_refl)).
  - destruct y as [|c y].
    + simpl app. cbn [utf2latin_loop]. rewrite E0, E1.
      exact (Step [] _ buffer i cnt (fun _ _ _ => eq_refl)).
    + cbn [paired] in Hp. simpl app. cbn [utf2latin_loop].
      destruct (byte_val c =? 0); [discriminate|].
      destruct (byte_val c <? 128).
      * apply Step. intros. apply IH; [simpl in Hn; lia|exact Hp].
      * destruct y as [|d y]; [discriminate|].
        apply andb_true_iff in Hp. destruct Hp as [_ Hp].
        simpl app. apply Step. intros. apply IH; [simpl in Hn; lia|exact Hp].
Qed.

Lemma utf2latin_loop_prefix (tail : list byte) (n : nat) :
  forall y, (length y <= n)%nat -> paired y = true ->
  forall i cnt,
    INT_MIN <= cnt -> cnt + len (to_single_byte y) <= INT_MAX ->
    utf2latin_loop (y ++ tail) None i cnt
    = utf2latin_loop tail None i (cnt + len (to_single_byte y)).
Proof.
  induction n as [|n IH]; intros y Hn Hp i cnt Hlo Hhi.
  - destruct y; [|simpl in Hn; lia]. simpl. rewrite len_nil. now rewrite Z.add_0_r.
  - destruct y as [|c y]; [simpl; rewrite len_nil; now rewrite Z.add_0_r|].
    cbn [paired] in Hp. simpl app. cbn [utf2latin_loop].
    cbn [to_single_byte] in *.
    destruct (byte_val c =? 0); [discriminate|].
    destruct (byte_val c <? 128) eqn:E.
    + rewrite len_cons in *. pose proof (len_nonneg (to_single_byte y)).
      cbn [poke advance]. rewrite int_add_ok by lia.
      rewrite IH; [f_equal; lia|simpl in Hn; lia|exact Hp|lia|lia].
    + destruct y as [|d y]; [discriminate|].
      apply andb_true_iff in Hp. destruct Hp as [_ Hp].
      rewrite len_cons in *. pose proof (len_nonneg (to_single_byte y)).
      simpl app. cbn [poke advance]. rewrite int_add_ok by lia.
      rewrite IH; [f_equal; lia|simpl in Hn; lia|exact Hp|lia|lia].
Qed.

(** X5. A text that ends in a single byte from 128 on (a cut UTF-8
    sequence) makes [utf2latin] run over the end of the string: the
    terminator is taken for the second byte of the pair, and the loop goes on
    with the bytes behind the string. When the object ends with the
    terminator this is a read outside the object, whatever buffer is
    passed. *)
Theorem utf2latin_runs_over_terminator (y : list byte) (b : byte) :
  paired y = true ->
  128 <= byte_val b ->
  (forall buffer, utf2latin (Some (y ++ [b; x00])) buffer = Undefined) /\
  (forall rest,
      len y + 2 <= INT_MAX ->
      utf2latin (Some (y ++ b :: x00 :: rest)) None
      = utf2latin_loop rest None 0 (len (to_single_byte y) + 1)).
Proof.
  intros Hp Hb. split.
  - intro buffer. unfold utf2latin.
    now apply (@utf2latin_loop_dangling b (length y)).
  - intros rest Hl. unfold utf2latin.
    pose proof (@CharsetClaims.len_to_single_byte (length y) y (le_n _)) as Hs.
    unfold INT_MAX in Hl.
    rewrite (@utf2latin_loop_prefix (b :: x00 :: rest) (length y) y (le_n _) Hp)
      by (unfold INT_MIN, INT_MAX; lia).
    cbn [utf2latin_loop].
    replace (byte_val b =? 0) with false by (symmetry; apply Z.eqb_neq; lia).
    replace (byte_val b <? 128) with false by (symmetry; apply Z.ltb_ge; lia).
    cbn [poke advance]. rewrite int_add_ok by (unfold INT_MIN, INT_MAX; lia).
    reflexivity.
Qed.

Lemma utf2latin_runs_over_terminator_witness :
  utf2latin (Some ([x61] ++ [xc3; x00])) (Some (repeat xff 8)) = Undefined /\
  utf2latin (Some ([x61] ++ xc3 :: x00 :: [x62; x00])) None = Ok (4, None).
Proof.
  assert (Hb : 128 <= byte_val xc3) by (vm_compute; discriminate).
  assert (Hl : len [x61] + 2 <= INT_MAX) by (vm_compute; discriminate).
  pose proof (@utf2latin_runs_over_terminator [x61] xc3 eq_refl Hb) as (A & B).
  split; [apply A|]. rewrite (B [x62; x00] Hl). reflexivity.
Defined.

End CharsetProps.

(** ** More on typed BLOBs *)

Module TBHProps.
Import Host TBH TBHFacts Examples Samples.

(** The two bytes of the version number, read in the other byte order. *)
Lemma version_other_order (be : bool) (bs : list byte) :
  len bs = 2 ->
  wrap16 (int_value be bs) = wrap16 sizeof_tbh ->
  wrap16 (int_value (negb be) bs) <> wrap16 sizeof_tbh.
Proof.
  intros Hl Hv.
  destruct bs as [|b0 [|b1 [|b2 bs]]]; try (unfold len in Hl; simpl in Hl; lia).
  pose proof (byte_val_range b0) as R0. pose proof (byte_val_range b1) as R1.
  change (wrap16 sizeof_tbh) with 36 in *.
  unfold wrap16, int_value in *.
  destruct be; cbn [negb rev app le_value] in *; intro F;
    Z.div_mod_to_equations; lia.
Qed.

(** X6. A typed blob written on a machine of the other byte order is
    refused: the version number in its header is read with its two bytes
    exchanged, and the decode branch fails with [MSG_UNSUPPTBH]. *)
Theorem typed_blob_other_byte_order (env1 env2 : Env) (item : mxArray) (blob : list byte) :
  mx_wf item ->
  typed_blob_encode env1 item = Ok blob ->
  big_endian env2 = negb (big_endian env1) ->
  typed_blob_decode env2 blob = Fail MSG_UNSUPPTBH.
Proof.
  intros W He Hbe.
  destruct (@typed_blob_encode_inv env1 item blob W He) as (_ & _ & _ & _ & Hv & _).
  unfold load_int16 in Hv.
  destruct (load_bytes blob OFF_ver 2) as [bs| |] eqn:L; try discriminate.
  injection Hv as Hv. pose proof (load_bytes_inv _ _ _ L) as (_ & _ & _ & _ & Lbs).
  pose proof (@version_other_order (big_endian env1) bs Lbs Hv) as N.
  unfold typed_blob_decode, load_int16. rewrite L, Hbe.
  replace (wrap16 (int_value (negb (big_endian env1)) bs) =? wrap16 sizeof_tbh) with false
    by (symmetry; now apply Z.eqb_neq).
  reflexivity.
Qed.

Lemma typed_blob_other_byte_order_witness :
  mx_wf item0 /\
  typed_blob_encode env0 item0 = Ok blob0 /\
  big_endian env_sol = negb (big_endian env0) /\
  typed_blob_decode env_sol blob0 = Fail MSG_UNSUPPTBH.
Proof.
  assert (He : typed_blob_encode env0 item0 = Ok blob0) by (vm_compute; reflexivity).
  split; [exact TBHClaims.item0_wf|]. split; [exact He|]. split; [reflexivity|].
  exact (@typed_blob_other_byte_order env0 env_sol item0 blob0 TBHClaims.item0_wf He eq_refl).
Defined.

(** Comparing with a platform name that was copied by [strncpy] is
    comparing with the name itself. *)
Lemma strncmp_strncpy_src (n : nat) :
  forall a src p rest,
    strncpy src n = Ok p -> strncmp_eq a (p ++ rest) n = strncmp_eq a src n.
Proof.
  induction n as [|n IH]; intros a src p rest H; [reflexivity|].
  cbn [strncpy] in H. destruct src as [|c src]; [discriminate|].
  destruct (byte_val c =? 0) eqn:E.
  - injection H as <-. apply byte_val_zero in E. subst c.
    destruct a as [|x a]; [reflexivity|].
    simpl app. cbn [strncmp_eq]. change (byte_val x00) with 0.
    destruct (byte_val x =? 0); reflexivity.
  - destruct (strncpy src n) as [q| |] eqn:Q; try discriminate.
    injection H as <-. simpl app. destruct a as [|x a]; [reflexivity|].
    cbn [strncmp_eq]. destruct (negb (byte_val x =? byte_val c)); [reflexivity|].
    destruct (byte_val x =? 0); [reflexivity|]. now apply IH.
Qed.

Lemma load_dims_same_order (env1 env2 : Env) (blob : list byte) (n : nat) :
  big_endian env2 = big_endian env1 ->
  forall j, load_dims env2 blob j n = load_dims env1 blob j n.
Proof.
  intro H. induction n as [|n IH]; intro j; [reflexivity|].
  cbn [load_dims]. unfold load_int32. rewrite H, IH. reflexivity.
Qed.

(** X7. A typed blob written on another platform of the same byte order is
    decoded to the array that was encoded: same class, sizes and bytes. The
    warning [MSG_WARNDIFFARCH] is given exactly when the endian letters of
    the two processes differ or the first ten characters of their platform
    names compare different. *)
Theorem typed_blob_other_platform (env1 env2 : Env) (item : mxArray) (blob : list byte) :
  mx_wf item ->
  typed_blob_encode env1 item = Ok blob ->
  big_endian env2 = big_endian env1 ->
  (10 <= length (g_platform env2))%nat ->
  alloc_ok env2 (mxCreateNumericArray_call (mxGetDimensions item) (mxGetClassID item))
  = true ->
  exists same,
    strncmp_eq (g_platform env2) (g_platform env1) 10 = Ok same /\
    typed_blob_decode env2 blob
    = Ok (negb (byte_val (hd x00 (g_endian env2)) =? byte_val (hd x00 (g_endian env1)))
          || negb same,
          MxArray (mxGetClassID item) false (mxGetDimensions item) (mxGetData item) []).
Proof.
  intros W He Hbe Hp2 Hal.
  destruct (@typed_blob_encode_inv env1 item blob W He)
    as (Hsup & Hlen & Hmax & _ & Hv & Hc & Hen & Hn & Hm & (platform & Hp & Hpl) & Hd & Hpay).
  destruct W as [Wd [Wl Ws]].
  assert (Hnd : 0 <= mxGetNumberOfDimensions item)
    by (unfold mxGetNumberOfDimensions; lia).
  pose proof (len_nonneg (mxGetData item)) as Hdl.
  assert (Hl36 : 36 <= len blob) by (unfold TBH_DATA_OFFSET, OFF_sizeDims in Hlen; lia).
  pose proof (@load_bytes_skipn _ _ _ _ Hpl) as Sk.
  destruct (@strncmp_eq_defined 10 (g_platform env2) (skipn (Z.to_nat OFF_platform) blob))
    as [same Hs]; [exact Hp2|rewrite length_skipn; unfold len, OFF_platform in *; lia|].
  exists same. split.
  - rewrite <- Hs, Sk. symmetry. now apply strncmp_strncpy_src.
  - assert (Hw : origin_differs env2 blob (hd x00 (g_endian env1))
                 = Ok (negb (byte_val (hd x00 (g_endian env2))
                             =? byte_val (hd x00 (g_endian env1))) || negb same)).
    { unfold origin_differs.
      destruct (negb (byte_val (hd x00 (g_endian env2))
                      =? byte_val (hd x00 (g_endian env1)))); [reflexivity|].
      rewrite Hs. reflexivity. }
    assert (Hv2 : load_int16 env2 blob OFF_ver = Ok (wrap16 sizeof_tbh))
      by (unfold load_int16 in *; now rewrite Hbe).
    assert (Hc2 : load_int32 env2 blob OFF_clsid = Ok (class_code (mxGetClassID item)))
      by (unfold load_int32 in *; now rewrite Hbe).
    assert (Hn2 : load_int32 env2 blob OFF_sizeDims = Ok (mxGetNumberOfDimensions item))
      by (unfold load_int32 in *; now rewrite Hbe).
    rewrite (@typed_blob_decode_checked env2 blob _ _ _ _ (mxGetClassID item)
               Hv2 Hc2 Hen Hn2 Hw (@magic_same blob Hm) (class_of_code_code _) Hsup).
    apply decode_array_ok; try assumption; try reflexivity.
    + change MQSQLITE_MAX_BLOB_SIZE with 1073741823 in Hmax. unfold INT_MAX. lia.
    + rewrite (@load_dims_same_order env1 env2 blob _ Hbe). exact Hd.
Qed.

Lemma typed_blob_other_platform_witness :
  typed_blob_encode env0 item0 = Ok blob0 /\
  typed_blob_decode env_glnx blob0 = Ok (true, item0).
Proof.
  assert (He : typed_blob_encode env0 item0 = Ok blob0) by (vm_compute; reflexivity).
  split; [exact He|].
  assert (Hp : (10 <= length (g_platform env_glnx))%nat) by (vm_compute; repeat constructor).
  destruct (@typed_blob_other_platform env0 env_glnx item0 blob0 TBHClaims.item0_wf He
              eq_refl Hp eq_refl) as (same & Hs & Hd).
  vm_compute in Hs. injection Hs as <-. exact Hd.
Defined.

(** *** Header bytes that are never written and never read *)

Lemma nth_unset (env : Env) (n : Z) (k : nat) :
  Z.of_nat k < n -> nth_error (unset env n) k = Some (fresh env (Z.of_nat k)).
Proof.
  intro H. unfold unset. rewrite nth_error_map.
  rewrite (nth_error_nth' _ 0%nat) by (rewrite length_seq; lia).
  rewrite seq_nth by lia. reflexivity.
Qed.

Lemma load_one_nth (buf : list byte) (k : nat) (b : byte) :
  nth_error buf k = Some b -> load_bytes buf (Z.of_nat k) 1 = Ok [b].
Proof.
  intro H.
  assert (L : (k < length buf)%nat) by (apply nth_error_Some; congruence).
  rewrite load_bytes_ok by (unfold len; lia).
  rewrite Nat2Z.id. f_equal.
  destruct (skipn k buf) as [|x r] eqn:E.
  - apply (f_equal (@length byte)) in E. rewrite length_skipn in E. simpl in E. lia.
  - pose proof (nth_error_skipn k buf 0) as N. rewrite E, Nat.add_0_r, H in N.
    simpl in N. injection N as ->. reflexivity.
Qed.

Lemma nth_load_one (buf : list byte) (k : nat) (b : byte) :
  load_bytes buf (Z.of_nat k) 1 = Ok [b] -> nth_error buf k = Some b.
Proof.
  intro H. apply load_bytes_inv in H. destruct H as (_ & _ & _ & E & _).
  rewrite Nat2Z.id in E.
  pose proof (nth_error_skipn k buf 0) as N. rewrite Nat.add_0_r in N. rewrite <- N.
  destruct (skipn k buf) as [|x r]; [discriminate|].
  simpl in E. injection E as ->. reflexivity.
Qed.

(** The byte at offset [k] of a blob made by the encode branch, for an
    offset that none of the stores covers. *)
Lemma typed_blob_encode_unset (env : Env) (item : mxArray) (blob : list byte) (k : nat) :
  k = 13%nat \/ k = 30%nat ->
  mx_wf item ->
  typed_blob_encode env item = Ok blob ->
  nth_error blob k = Some (fresh env (Z.of_nat k)).
Proof.
  intros Hk [Wd [Wl Ws]] H. unfold typed_blob_encode in H. cbv zeta in H.
  rewrite <- Wl in H.
  rewrite Z.mod_small in H by (pose proof (len_nonneg (mxGetData item)); lia).
  rewrite load_bytes_all in H.
  destruct (sizeBlob item) as [sz| |] eqn:Esz; try discriminate.
  destruct (MQSQLITE_MAX_BLOB_SIZE <? sz) eqn:Emax; try discriminate.
  destruct (supported_class (mxGetClassID item)) eqn:Esup; try discriminate.
  cbv beta iota in H. simpl negb in H. cbv iota in H.
  destruct (sqlite3_malloc env sz) as [b0|] eqn:Em; try discriminate.
  destruct (store_int16 env b0 OFF_ver (wrap16 sizeof_tbh)) as [b1| |] eqn:E1;
    try discriminate.
  destruct (store_int32 env b1 OFF_clsid (wrap32 (class_code (mxGetClassID item))))
    as [b2| |] eqn:E2; try discriminate.
  destruct (store_bytes b2 OFF_endian [hd x00 (g_endian env)]) as [b3| |] eqn:E3;
    try discriminate.
  destruct (store_int32 env b3 OFF_sizeDims (wrap32 (mxGetNumberOfDimensions item)))
    as [b4| |] eqn:E4; try discriminate.
  change (strcpy TBH_MAGIC) with (Ok TBH_MAGIC) in H. cbv beta iota in H.
  destruct (store_bytes b4 OFF_magic TBH_MAGIC) as [b5| |] eqn:E5; try discriminate.
  destruct (strncpy (g_platform env) 10) as [platform| |] eqn:Ep; try discriminate.
  destruct (store_bytes b5 OFF_platform platform) as [b6| |] eqn:E6; try discriminate.
  destruct (store_dims env b6 0 (mxGetDimensions item)) as [b7| |] eqn:E7;
    try discriminate.
  destruct (store_bytes b7 (TBH_DATA_OFFSET (mxGetNumberOfDimensions item))
              (mxGetData item)) as [b8| |] eqn:E8; try discriminate.
  injection H as <-.
  pose proof (@strncpy_length _ _ _ Ep) as Lp.
  assert (Lm : length TBH_MAGIC = 13%nat) by reflexivity.
  assert (Hn : 0 <= mxGetNumberOfDimensions item)
    by (unfold mxGetNumberOfDimensions; lia).
  unfold store_int16 in E1. unfold store_int32 in E2, E4.
  pose proof (@store_bytes_inv _ _ _ _ E1) as (_ & B1 & _ & _).
  rewrite len_int_bytes in B1. unfold OFF_ver in B1.
  unfold sqlite3_malloc in Em.
  destruct ((0 <? sz) && alloc_ok env (sqlite3_malloc_call sz)); [|discriminate].
  injection Em as <-.
  assert (Hsz : 36 <= sz).
  { pose proof (@store_bytes_inv _ _ _ _ E4) as (_ & B4 & L4 & _).
    pose proof (@store_bytes_inv _ _ _ _ E3) as (_ & _ & L3 & _).
    pose proof (@store_bytes_inv _ _ _ _ E2) as (_ & _ & L2 & _).
    pose proof (@store_bytes_inv _ _ _ _ E1) as (_ & _ & L1 & _).
    rewrite len_int_bytes in B4. unfold OFF_sizeDims in B4.
    assert (0 <= sz) by (destruct (Z.le_gt_cases 0 sz); [assumption|];
                         unfold len, unset in *; rewrite length_map, length_seq in *; lia).
    rewrite len_unset in L1 by assumption. simpl in B4. lia. }
  apply nth_load_one.
  assert (D : forall off' n', off' = Z.of_nat k -> n' = 1 ->
                load_bytes b8 off' n' = load_bytes (unset env sz) off' n').
  { intros off' n' -> ->.
    rewrite (@load_store_other _ _ _ _ _ _ E8)
      by (unfold TBH_DATA_OFFSET, OFF_sizeDims; lia).
    rewrite (@store_dims_other _ _ _ _ _ E7)
      by (unfold OFF_sizeDims; lia).
    rewrite (@load_store_other _ _ _ _ _ _ E6)
      by (unfold OFF_platform, len; rewrite Lp; lia).
    rewrite (@load_store_other _ _ _ _ _ _ E5)
      by (unfold OFF_magic, len; rewrite Lm; lia).
    rewrite (@load_store_other _ _ _ _ _ _ E4)
      by (rewrite len_int_bytes; unfold OFF_sizeDims; lia).
    rewrite (@load_store_other _ _ _ _ _ _ E3)
      by (unfold OFF_endian, len; simpl length; lia).
    rewrite (@load_store_other _ _ _ _ _ _ E2)
      by (rewrite len_int_bytes; unfold OFF_clsid; lia).
    rewrite (@load_store_other _ _ _ _ _ _ E1)
      by (rewrite len_int_bytes; unfold OFF_ver; lia).
    reflexivity. }
  rewrite (D _ _ eq_refl eq_refl). apply load_one_nth. apply nth_unset. lia.
Qed.

Lemma decode_array_set_header_byte (env : Env) (blob : list byte) (k : nat) (b : byte)
      (cls : mxClassID) (n : Z) (w : bool) :
  (k < 36)%nat ->
  0 <= n ->
  decode_array env (set_byte blob k b) cls n w = decode_array env blob cls n w.
Proof.
  intros Hk Hn. unfold decode_array. cbv zeta. rewrite set_byte_len.
  rewrite (@load_dims_frame env (set_byte blob k b) blob (Z.to_nat n) 0)
    by (intros j Hj; apply load_set_byte; unfold OFF_sizeDims; lia).
  destruct (load_dims env blob 0 (Z.to_nat n)) as [pSize| |] eqn:Ed; try reflexivity.
  unfold mxCreateNumericArray.
  destruct (alloc_ok env (mxCreateNumericArray_call pSize cls)); [|reflexivity].
  unfold mxGetNumberOfElements, mxGetElementSize.
  cbn [mxGetDimensions mxGetClassID mxGetData].
  destruct (wrap32 (len blob - TBH_DATA_OFFSET n) mod 2 ^ 32
            =? (numel pSize * element_size cls) mod 2 ^ 32) eqn:Echk;
    simpl negb; cbv iota; [|reflexivity].
  rewrite load_set_byte; [reflexivity|].
  unfold TBH_DATA_OFFSET, OFF_sizeDims. lia.
Qed.

Lemma typed_blob_decode_set_unread (env : Env) (blob : list byte) (k : nat) (b : byte) :
  k = 13%nat \/ k = 30%nat ->
  (forall n, load_int32 env blob OFF_sizeDims = Ok n -> 0 <= n) ->
  typed_blob_decode env (set_byte blob k b) = typed_blob_decode env blob.
Proof.
  intros Hk Hpos. unfold typed_blob_decode, load_int16, load_byte.
  unfold load_int32 in *.
  rewrite !load_set_byte
    by (unfold OFF_ver, OFF_clsid, OFF_endian, OFF_sizeDims; lia).
  destruct (load_bytes blob OFF_ver 2) as [v| |]; try reflexivity.
  destruct (negb (wrap16 (int_value (big_endian env) v) =? wrap16 sizeof_tbh));
    [reflexivity|].
  destruct (load_bytes blob OFF_clsid 4) as [c| |]; try reflexivity.
  destruct (load_bytes blob OFF_endian 1) as [e| |]; try reflexivity.
  destruct (load_bytes blob OFF_sizeDims 4) as [n| |] eqn:En; try reflexivity.
  specialize (Hpos _ eq_refl).
  assert (Ho : origin_differs env (set_byte blob k b) (hd x00 e)
               = origin_differs env blob (hd x00 e)).
  { unfold origin_differs.
    destruct (negb (byte_val (hd x00 (g_endian env)) =? byte_val (hd x00 e)));
      [reflexivity|].
    rewrite <- (strncmp_eq_firstn_r 10 (g_platform env)
                  (skipn (Z.to_nat OFF_platform) (set_byte blob k b))).
    rewrite <- (strncmp_eq_firstn_r 10 (g_platform env)
                  (skipn (Z.to_nat OFF_platform) blob)).
    replace (firstn 10 (skipn (Z.to_nat OFF_platform) (set_byte blob k b)))
      with (firstn 10 (skipn (Z.to_nat OFF_platform) blob)); [reflexivity|].
    apply nth_error_ext. intro i. rewrite !nth_error_firstn, !nth_error_skipn.
    destruct (Nat.ltb_spec i 10); [|reflexivity].
    symmetry. apply set_byte_nth. unfold OFF_platform. lia. }
  rewrite Ho.
  destruct (origin_differs env blob (hd x00 e)) as [w| |]; try reflexivity.
  change (skipn (Z.to_nat OFF_magic) (set_byte blob k b)) with (set_byte blob k b).
  change (skipn (Z.to_nat OFF_magic) blob) with blob.
  rewrite <- (strncmp_eq_firstn_l strlen_TBH_MAGIC (set_byte blob k b)).
  rewrite <- (strncmp_eq_firstn_l strlen_TBH_MAGIC blob).
  rewrite firstn_set_byte by (unfold strlen_TBH_MAGIC; lia).
  destruct (strncmp_eq (firstn strlen_TBH_MAGIC blob) TBH_MAGIC strlen_TBH_MAGIC)
    as [ok| |]; try reflexivity.
  destruct ok; cbn [negb orb]; [|reflexivity].
  destruct (class_of_code (wrap32 (int_value (big_endian env) c))) as [cls|];
    [|reflexivity].
  destruct (supported_class cls) eqn:Hsup; simpl negb; cbv iota; [|reflexivity].
  apply decode_array_set_header_byte; [lia|exact Hpos].
Qed.

(** X8. Two bytes of the header are left as [sqlite3_malloc] gave them: the
    byte at offset 13 (behind the magic string and its terminator) and the
    byte at offset 30 (the last of the eleven bytes of the platform field,
    of which [strncpy] fills ten). The encode branch never writes them, so
    the blob that is stored holds memory that was not set at these two
    places, and the decode branch never reads them: whatever they hold, the
    result is the same. *)
Theorem typed_blob_unset_header_bytes (env : Env) (item : mxArray) (blob : list byte) :
  mx_wf item ->
  typed_blob_encode env item = Ok blob ->
  nth_error blob 13 = Some (fresh env 13) /\
  nth_error blob 30 = Some (fresh env 30) /\
  forall b : byte,
    typed_blob_decode env (set_byte blob 13 b) = typed_blob_decode env blob /\
    typed_blob_decode env (set_byte blob 30 b) = typed_blob_decode env blob.
Proof.
  intros W He.
  destruct (@typed_blob_encode_inv env item blob W He)
    as (_ & _ & _ & _ & _ & _ & _ & Hn & _).
  assert (Hm : forall n, load_int32 env blob OFF_sizeDims = Ok n -> 0 <= n).
  { intros n E. rewrite Hn in E. injection E as <-. unfold mxGetNumberOfDimensions. lia. }
  split; [exact (@typed_blob_encode_unset env item blob 13 (or_introl eq_refl) W He)|].
  split; [exact (@typed_blob_encode_unset env item blob 30 (or_intror eq_refl) W He)|].
  intro b. split; apply typed_blob_decode_set_unread; auto.
Qed.

Lemma typed_blob_unset_header_bytes_witness :
  typed_blob_encode env0 item0 = Ok blob0 /\
  nth_error blob0 13 = Some xaa /\
  nth_error blob0 30 = Some xaa /\
  typed_blob_decode env0 (set_byte blob0 30 x00) = typed_blob_decode env0 blob0.
Proof.
  assert (He : typed_blob_encode env0 item0 = Ok blob0) by (vm_compute; reflexivity).
  destruct (@typed_blob_unset_header_bytes env0 item0 blob0 TBHClaims.item0_wf He)
    as (A & B & C).
  split; [exact He|]. split; [exact A|]. split; [exact B|]. exact (proj2 (C x00)).
Defined.

(** *** A header that announces more sizes than the blob holds *)

Lemma load_dims_outside (env : Env) (blob : list byte) (m : nat) :
  forall j,
    0 <= j -> (0 < m)%nat ->
    len blob < OFF_sizeDims + 4 * (j + Z.of_nat m + 1) ->
    load_dims env blob j m = Undefined.
Proof.
  induction m as [|m IH]; intros j Hj Hm Hl; [lia|].
  cbn [load_dims]. unfold load_int32, load_bytes.
  destruct ((0 <=? OFF_sizeDims + 4 * (j + 1)) && (0 <=? 4)
            && (OFF_sizeDims + 4 * (j + 1) + 4 <=? len blob)) eqn:E; [|reflexivity].
  cbv beta iota.
  destruct m as [|m'].
  - apply andb_true_iff in E. destruct E as [_ E]. apply Z.leb_le in E. lia.
  - fold (load_bytes blob (OFF_sizeDims + 4 * (j + 1)) 4).
    rewrite (IH (j + 1)) by lia. reflexivity.
Qed.

(** X9. The number of sizes in the header is not compared with the size of
    the blob: when a header that passes the checks of version, magic string
    and class announces more sizes than the blob holds, the decode branch
    reads the sizes outside the blob. *)
Theorem typed_blob_decode_sizes_outside (env : Env) (blob : list byte) (code n : Z)
        (cls : mxClassID) :
  (10 <= length (g_platform env))%nat ->
  36 <= len blob ->
  load_int16 env blob OFF_ver = Ok (wrap16 sizeof_tbh) ->
  firstn 12 blob = firstn 12 TBH_MAGIC ->
  load_int32 env blob OFF_clsid = Ok code ->
  class_of_code code = Some cls ->
  supported_class cls = true ->
  load_int32 env blob OFF_sizeDims = Ok n ->
  len blob < TBH_DATA_OFFSET n ->
  typed_blob_decode env blob = Undefined.
Proof.
  intros Hp Hl Hv Hm Hc Hcls Hsup Hn Hout.
  destruct (@header_loads env blob Hl) as (ver' & code' & e & n' & _ & _ & He & _).
  destruct (@origin_differs_defined env blob e Hp Hl) as [w Hw].
  destruct (@magic_check blob Hl) as [[M _]|[_ M]]; [|contradiction].
  rewrite (@typed_blob_decode_checked env blob code n e w cls Hv Hc He Hn Hw M Hcls Hsup).
  unfold decode_array. cbv zeta.
  unfold TBH_DATA_OFFSET, OFF_sizeDims in Hout.
  rewrite load_dims_outside; [reflexivity|lia|lia|unfold OFF_sizeDims; lia].
Qed.

Lemma typed_blob_decode_sizes_outside_witness :
  len (set_byte blob0 32 x64) = 50 /\
  load_int32 env0 (set_byte blob0 32 x64) OFF_sizeDims = Ok 100 /\
  typed_blob_decode env0 (set_byte blob0 32 x64) = Undefined.
Proof.
  assert (Hp : (10 <= length (g_platform env0))%nat) by (vm_compute; repeat constructor).
  assert (Hl : 36 <= len (set_byte blob0 32 x64)) by (vm_compute; discriminate).
  assert (Hn : load_int32 env0 (set_byte blob0 32 x64) OFF_sizeDims = Ok 100)
    by (vm_compute; reflexivity).
  assert (Ho : len (set_byte blob0 32 x64) < TBH_DATA_OFFSET 100) by (vm_compute; reflexivity).
  split; [reflexivity|]. split; [exact Hn|].
  exact (@typed_blob_decode_sizes_outside env0 (set_byte blob0 32 x64) 10 100 mxINT16_CLASS
           Hp Hl eq_refl eq_refl eq_refl eq_refl eq_refl Hn Ho).
Defined.

End TBHProps.

(** ** More on the field names *)

Module FieldnamesProps.
Import Host Fieldnames FieldnamesFacts Names Examples.
Local Open Scope string_scope.

Lemma name_ok_app (a b : string) : name_ok (a ++ b) = name_ok a && name_ok b.
Proof.
  induction a as [|c a IH]; [reflexivity|].
  simpl. rewrite IH. now rewrite andb_assoc.
Qed.

Lemma name_ok_sanitize (s : string) : name_ok (sanitize s) = true.
Proof.
  induction s as [|c s IH]; [reflexivity|].
  simpl. rewrite IH. destruct (isalnum c) eqn:E; [now rewrite E|reflexivity].
Qed.

Lemma sanitize_name_ok (s : string) : name_ok s = true -> sanitize s = s.
Proof.
  induction s as [|c s IH]; [reflexivity|].
  simpl. intro H. apply andb_true_iff in H. destruct H as [H1 H2].
  rewrite (IH H2). destruct (isalnum c) eqn:E; [reflexivity|].
  simpl in H1. apply Ascii.eqb_eq in H1. now subst c.
Qed.

Lemma name_ok_suffix (k : Z) :
  (1 <= k < 100)%Z -> name_ok (NilZero.string_of_int (Z.to_int k)) = true.
Proof.
  intro H.
  assert (A : forallb (fun m => name_ok (NilZero.string_of_int (Z.to_int (Z.of_nat m))))
                      (seq 1 99) = true) by (vm_compute; reflexivity).
  rewrite forallb_forall in A.
  specialize (A (Z.to_nat k)). rewrite Z2Nat.id in A by lia.
  apply A. apply in_seq. lia.
Qed.

Lemma name_ok_sprintf (name : string) (k : Z) :
  name_ok name = true -> (1 <= k < 100)%Z -> name_ok (sprintf_name name k) = true.
Proof.
  intros H Hk. unfold sprintf_name. rewrite !name_ok_app, H, (name_ok_suffix Hk).
  reflexivity.
Qed.

(** One comparison, with the name of the earlier column at hand. *)
Lemma compare_columns_renames (names : list string) (w : nat) (iCol jCol : nat) :
  compare_columns (names, w) iCol jCol = (names, w)
  \/ compare_columns (names, w) iCol jCol = (names, S w)
  \/ exists fj k,
      nth_error names iCol = Some fj /\ nth_error names jCol = Some fj /\
      (1 <= k < 100)%Z /\ ~ In (sprintf_name fj k) names /\
      compare_columns (names, w) iCol jCol = (set_name names jCol (sprintf_name fj k), w).
Proof.
  unfold compare_columns.
  destruct (nth_error names iCol) as [fi|] eqn:Ei; [|now left].
  destruct (nth_error names jCol) as [fj|] eqn:Ej; [|now left].
  destruct (String.eqb fi fj) eqn:E; [|now left].
  apply String.eqb_eq in E. subst fi. right.
  pose proof (k_loop_spec names fj 99 1) as S. cbn zeta in S.
  destruct S as [_ [B|[B1 B2]]].
  - left. rewrite B. reflexivity.
  - right. exists fj, (k_loop names fj 99 1).
    replace (k_loop names fj 99 1 =? 100)%Z with false
      by (symmetry; apply Z.eqb_neq; lia).
    repeat split; try lia. now apply unique_true.
Qed.

Lemma compare_columns_inv (s names : list string) (w : nat) (iCol jCol : nat) :
  iCol <> jCol ->
  names_inv s names ->
  names_inv s (fst (compare_columns (names, w) iCol jCol)).
Proof.
  intros Hij [L I].
  destruct (compare_columns_renames names w iCol jCol)
    as [E|[E|(fj & k & Hi & Hj & Hk & Hu & E)]]; rewrite E; cbn [fst];
    try (split; assumption).
  assert (Lj : (jCol < length names)%nat) by (apply nth_error_Some; congruence).
  assert (Fresh : forall c z, nth_error names c = Some z -> z <> sprintf_name fj k).
  { intros c z Hz ->. apply Hu. eapply nth_error_In. exact Hz. }
  split; [now rewrite set_name_length|].
  intros j x sj Hx Hs.
  destruct (Nat.eq_dec j jCol) as [->|Nj].
  - rewrite set_name_same in Hx by exact Lj. injection Hx as <-.
    right. split.
    + exists k. split; [exact Hk|]. f_equal.
      destruct (I jCol fj sj Hj Hs) as [->|[_ U]]; [reflexivity|].
      exfalso. now apply (U iCol fj Hij Hi).
    + intros c y Hc Hy. rewrite set_name_other in Hy by assumption.
      now apply (Fresh c y).
  - rewrite set_name_other in Hx by assumption.
    destruct (I j x sj Hx Hs) as [->|[K U]]; [now left|].
    right. split; [exact K|].
    intros c y Hc Hy.
    destruct (Nat.eq_dec c jCol) as [->|Nc].
    + rewrite set_name_same in Hy by exact Lj. injection Hy as <-.
      intro F. now apply (Fresh j x Hx).
    + rewrite set_name_other in Hy by assumption. now apply (U c y).
Qed.

Lemma fold_inv (s : list string) (l : list (nat * nat)) :
  (forall p, In p l -> fst p <> snd p) ->
  forall st, names_inv s (fst st) ->
             names_inv s (fst (fold_left (fun st p => compare_columns st (fst p) (snd p))
                                         l st)).
Proof.
  induction l as [|p l IH]; intros Hl st H; [exact H|].
  cbn [fold_left]. apply IH; [intros q Hq; apply Hl; now right|].
  destruct st as [names w]. apply compare_columns_inv; [apply Hl; now left|exact H].
Qed.

Lemma fieldnames_inv (env : Env) (cnames : list string) :
  names_inv (map sanitize cnames) (fst (fieldnames env cnames)).
Proof.
  assert (H0 : names_inv (map sanitize cnames) (map sanitize cnames)).
  { split; [reflexivity|]. intros j x sj Hx Hs. left. congruence. }
  destruct (check4uniquefields env) eqn:Hc.
  - rewrite (@fieldnames_fold env cnames Hc). apply fold_inv; [|exact H0].
    intros [a b] Hp. apply in_column_pairs in Hp. simpl. lia.
  - unfold fieldnames. rewrite Hc. exact H0.
Qed.

(** X10. The form of the field names. Whatever the column names are, there
    are as many field names as columns; the name of a column is its column
    name with every character that is no letter and no digit replaced by an
    underscore, or that name followed by [_k] with [k] from 1 to 99 (a
    column is renamed once at most); a name with such a suffix is the name
    of no other column; and every name consists of letters, digits and
    underscores. *)
Theorem fieldnames_form (env : Env) (cnames names : list string) (warnings : nat) :
  fieldnames env cnames = (names, warnings) ->
  length names = length cnames /\
  forall j name c,
    nth_error names j = Some name -> nth_error cnames j = Some c ->
    name_ok name = true /\
    (name = sanitize c \/
     (exists k, (1 <= k <= 99)%Z /\ name = sprintf_name (sanitize c) k) /\
     (forall i other, i <> j -> nth_error names i = Some other -> other <> name)).
Proof.
  intro E. pose proof (fieldnames_inv env cnames) as [L I]. rewrite E in L, I.
  cbn [fst] in L, I. rewrite length_map in L. split; [exact L|].
  intros j name c Hn Hc.
  assert (Hs : nth_error (map sanitize cnames) j = Some (sanitize c))
    by (rewrite nth_error_map, Hc; reflexivity).
  destruct (I j name (sanitize c) Hn Hs) as [->|[(k & Hk & ->) U]].
  - split; [apply name_ok_sanitize|now left].
  - split; [apply name_ok_sprintf; [apply name_ok_sanitize|exact Hk]|].
    right. split; [exists k; split; [lia|reflexivity]|exact U].
Qed.

Lemma fieldnames_form_witness :
  fieldnames env0 ["x y"; "x?y"; "x_y_1"] = (["x_y"; "x_y_2"; "x_y_1"], O) /\
  name_ok "x_y_2" = true /\ "x_y_2" = sprintf_name (sanitize "x?y") 2.
Proof.
  assert (E : fieldnames env0 ["x y"; "x?y"; "x_y_1"] = (["x_y"; "x_y_2"; "x_y_1"], O))
    by (vm_compute; reflexivity).
  split; [exact E|].
  destruct (@fieldnames_form env0 _ _ _ E) as [_ F].
  destruct (F 1%nat "x_y_2" "x?y" eq_refl eq_refl) as [A _].
  split; [exact A|reflexivity].
Defined.

Lemma fold_unchanged (l : list (nat * nat)) (names : list string) :
  (forall a b x y, In (a, b) l -> nth_error names a = Some x ->
                   nth_error names b = Some y -> x <> y) ->
  forall w, fold_left (fun st p => compare_columns st (fst p) (snd p)) l (names, w)
            = (names, w).
Proof.
  induction l as [|[a b] l IH]; intros H w; [reflexivity|].
  cbn [fold_left fst snd].
  assert (E : compare_columns (names, w) a b = (names, w)).
  { unfold compare_columns.
    destruct (nth_error names a) as [x|] eqn:Ea; [|reflexivity].
    destruct (nth_error names b) as [y|] eqn:Eb; [|reflexivity].
    assert (N : x <> y) by (apply (H a b); [now left|assumption|assumption]).
    apply String.eqb_neq in N. now rewrite N. }
  rewrite E. apply IH. intros a' b' x y Hin. apply H. now right.
Qed.

Lemma distinct_unchanged (env : Env) (names : list string) :
  NoDup names -> Forall (fun n => name_ok n = true) names ->
  fieldnames env names = (names, O).
Proof.
  intros Hd Hok.
  assert (S : map sanitize names = names).
  { induction Hok as [|n l Hn _ IH]; [reflexivity|].
    simpl. rewrite (sanitize_name_ok _ Hn). f_equal. apply IH. now inversion Hd. }
  destruct (check4uniquefields env) eqn:Hc.
  - rewrite (@fieldnames_fold env names Hc), S. apply fold_unchanged.
    intros a b x y Hin Ha Hb ->. apply in_column_pairs in Hin.
    rewrite NoDup_nth_error in Hd.
    assert (a = b); [|lia]. apply Hd; [apply nth_error_Some|]; congruence.
  - unfold fieldnames. rewrite Hc, S. reflexivity.
Qed.

(** X11. Column names that are different from each other after the
    replacement of the characters are left as they are: no column is
    renamed and no warning is given, whether the check for unique names is
    switched on or off. *)
Theorem fieldnames_distinct_unchanged (env : Env) (cnames : list string) :
  NoDup (map sanitize cnames) ->
  fieldnames env cnames = (map sanitize cnames, O).
Proof.
  intro Hd.
  destruct (check4uniquefields env) eqn:Hc.
  - rewrite (@fieldnames_fold env cnames Hc). apply fold_unchanged.
    intros a b x y Hin Ha Hb ->. apply in_column_pairs in Hin.
    rewrite NoDup_nth_error in Hd.
    assert (a = b); [|lia]. apply Hd; [apply nth_error_Some|]; congruence.
  - unfold fieldnames. now rewrite Hc.
Qed.

Lemma fieldnames_distinct_unchanged_witness :
  NoDup (map sanitize ["id"; "first name"; "first-name2"]) /\
  fieldnames env0 ["id"; "first name"; "first-name2"]
  = (["id"; "first_name"; "first_name2"], O).
Proof.
  assert (Hd : NoDup (map sanitize ["id"; "first name"; "first-name2"])).
  { repeat constructor; simpl; intuition discriminate. }
  split; [exact Hd|].
  exact (@fieldnames_distinct_unchanged env0 ["id"; "first name"; "first-name2"] Hd).
Defined.

(** X12. The clean-up of the names is idempotent: names that came out of
    it without a warning go through it a second time unchanged. *)
Theorem fieldnames_idempotent (env : Env) (cnames names : list string) :
  fieldnames env cnames = (names, O) ->
  fieldnames env names = (names, O).
Proof.
  intro E.
  assert (Hok : Forall (fun n => name_ok n = true) names).
  { pose proof (fieldnames_inv env cnames) as [L I]. rewrite E in L, I.
    cbn [fst] in L, I. apply Forall_forall. intros n Hn.
    apply In_nth_error in Hn. destruct Hn as [j Hj].
    destruct (nth_error (map sanitize cnames) j) as [sj|] eqn:Es;
      [|apply nth_error_None in Es;
        assert (j < length names)%nat by (apply nth_error_Some; congruence); lia].
    assert (Osj : name_ok sj = true).
    { rewrite nth_error_map in Es. destruct (nth_error cnames j); [|discriminate].
      injection Es as <-. apply name_ok_sanitize. }
    destruct (I j n sj Hj Es) as [->|[(k & Hk & ->) _]]; [exact Osj|].
    now apply name_ok_sprintf. }
  destruct (check4uniquefields env) eqn:Hc.
  - apply distinct_unchanged; [|exact Hok].
    now apply (@fieldnames_NoDup env cnames names).
  - unfold fieldnames in *. rewrite Hc in *. injection E as <-.
    f_equal. rewrite map_map. apply map_ext. intro c.
    apply sanitize_name_ok, name_ok_sanitize.
Qed.

Lemma fieldnames_idempotent_witness :
  fieldnames env0 ["a"; "a"; "a"] = (["a"; "a_1"; "a_2"], O) /\
  fieldnames env0 ["a"; "a_1"; "a_2"] = (["a"; "a_1"; "a_2"], O).
Proof.
  assert (E : fieldnames env0 ["a"; "a"; "a"] = (["a"; "a_1"; "a_2"], O))
    by (vm_compute; reflexivity).
  split; [exact E|]. exact (@fieldnames_idempotent env0 _ _ E).
Defined.

End FieldnamesProps.

(** ** Values on their way back from the engine *)

Module RowsFacts.
Import Host TBH Binder Numeric Strings Rows.

Lemma strcpy_spec (x rest : list byte) :
  Charset.no_zero x -> strcpy (x ++ x00 :: rest) = Ok (x ++ [x00]).
Proof.
  induction 1 as [|b x Hb Hx IH]; [reflexivity|].
  simpl app. cbn [strcpy]. rewrite (byte_val_nonzero Hb). now rewrite IH.
Qed.

Lemma store_all (buf bs : list byte) : len buf = len bs -> store_bytes buf 0 bs = Ok bs.
Proof.
  intro H. pose proof (len_nonneg bs) as Hn.
  rewrite store_bytes_ok by lia. f_equal. simpl.
  rewrite skipn_all2; [apply app_nil_r|]. unfold len in *. lia.
Qed.

Section WithEnv.
Variable env : Env.
Variable rt : Runtime.

Lemma new_char_ok (n : Z) :
  0 <= n -> new_ok rt n = true ->
  exists buf, new_char env rt n = Some buf /\ len buf = n.
Proof.
  intros Hn H. unfold new_char. rewrite H. eexists. split; [reflexivity|].
  now apply TBHFacts.len_unset.
Qed.

(** [strnewdup] with the conversion switched on: the single byte form of
    the text, in memory of its own. *)
Lemma strnewdup_convert (y : list byte) :
  convertUTF8 env = true ->
  Charset.paired y = true ->
  len y + 1 <= INT_MAX ->
  new_ok rt (len (Charset.to_single_byte y) + 1) = true ->
  strnewdup env rt (Some (y ++ [x00])) = Ok (Some (Charset.to_single_byte y ++ [x00])).
Proof.
  intros Hc Hp Hl Hn. unfold strnewdup. rewrite Hc.
  pose proof (@CharsetClaims.len_to_single_byte (length y) y (le_n _)) as Hs.
  unfold INT_MAX in Hl. unfold Charset.utf2latin.
  rewrite (@CharsetFacts.utf2latin_loop_count [] (length y) y (le_n _) Hp 0%nat 0)
    by (unfold INT_MIN, INT_MAX; lia).
  simpl Z.add.
  destruct (@new_char_ok (len (Charset.to_single_byte y) + 1) ltac:(lia) Hn)
    as (buf & -> & Lb).
  pose proof (@CharsetFacts.utf2latin_loop_fill [] (length y) y (le_n _) Hp [] buf [] 0) as F.
  rewrite app_nil_r in F. simpl in F. rewrite app_nil_r in F.
  rewrite F by (unfold INT_MIN, INT_MAX; lia). reflexivity.
Qed.

(** [strnewdup] with the conversion switched off: a copy. *)
Lemma strnewdup_copy (x : list byte) :
  convertUTF8 env = false ->
  Charset.no_zero x ->
  len x + 1 < 2 ^ 32 ->
  new_ok rt (len x + 1) = true ->
  strnewdup env rt (Some (x ++ [x00])) = Ok (Some (x ++ [x00])).
Proof.
  intros Hc Hz Hl Hn. unfold strnewdup, strlen. rewrite Hc.
  pose proof (len_nonneg x) as Hx.
  rewrite (@BinderClaims.c_string_spec x [] Hz). cbv beta iota.
  rewrite Z.mod_small by lia.
  destruct (@new_char_ok (len x + 1) ltac:(lia) Hn) as (buf & -> & Lb).
  rewrite (@strcpy_spec x [] Hz). cbv beta iota.
  rewrite store_all; [reflexivity|].
  rewrite Lb. unfold len. rewrite length_app. simpl. lia.
Qed.

(** A blob of the engine is copied as it is. *)
Lemma fetch_blob (b : list byte) :
  0 < len b -> new_ok rt (len b) = true ->
  fetch_value env rt (ColBlob b)
  = Ok {| m_Type := SQLITE_BLOB; m_Size := len b; m_StringValue := Some b;
          m_NumericValue := 0 |}.
Proof.
  intros Hl Hn. unfold fetch_value. cbv zeta.
  replace (0 <? len b) with true by (symmetry; apply Z.ltb_lt; lia).
  destruct (@new_char_ok (len b) ltac:(lia) Hn) as (buf & -> & Lb).
  rewrite load_bytes_all. cbv beta iota. rewrite store_all by exact Lb. reflexivity.
Qed.

(** A blob of the encode branch is decoded to the array it was made
    from. *)
Lemma typed_blob_decode_encoded (item : mxArray) (blob : list byte) :
  mx_wf item ->
  typed_blob_encode env item = Ok blob ->
  alloc_ok env (mxCreateNumericArray_call (mxGetDimensions item) (mxGetClassID item))
  = true ->
  typed_blob_decode env blob
  = Ok (false, MxArray (mxGetClassID item) false (mxGetDimensions item)
                       (mxGetData item) []).
Proof.
  intros W He Hal.
  destruct (@TBHFacts.typed_blob_encode_inv env item blob W He)
    as (Hsup & Hlen & Hmax & _ & Hv & Hc & Hen & Hn & Hm & (platform & Hp & Hpl)
        & Hd & Hpay).
  rewrite (@TBHFacts.typed_blob_decode_checked env blob _ _ _ false (mxGetClassID item)
             Hv Hc Hen Hn (@TBHFacts.origin_same env _ _ Hp Hpl) (@TBHFacts.magic_same blob Hm)
             (TBHFacts.class_of_code_code _) Hsup).
  destruct W as [Wd [Wl Ws]].
  apply TBHFacts.decode_array_ok; try assumption; try reflexivity.
  change MQSQLITE_MAX_BLOB_SIZE with 1073741823 in Hmax. unfold INT_MAX. lia.
Qed.

(** The branch of the parameter loop taken for a value with several
    elements that is no text. *)
Lemma bind_param_matrix (st : stmt) (iParam : Z) (item : mxArray) :
  1 < mxGetNumberOfElements item ->
  mxIsComplex item || mxIsCell item || mxIsStruct item = false ->
  class_eqb (mxGetClassID item) mxCHAR_CLASS = false ->
  bind_param env st iParam (Some item) = bind_matrix env st iParam item.
Proof.
  intros Hn Hk Hc. unfold bind_param, mxIsEmpty.
  replace (mxGetNumberOfElements item =? 0) with false by (symmetry; apply Z.eqb_neq; lia).
  rewrite Hk.
  replace (1 <? mxGetNumberOfElements item) with true by (symmetry; apply Z.ltb_lt; lia).
  rewrite Hc. reflexivity.
Qed.

Lemma fetch_row_length (row : list column) :
  forall vs, fetch_row env rt row = Ok vs -> length vs = length row.
Proof.
  induction row as [|c row IH]; intros vs H.
  - injection H as <-. reflexivity.
  - cbn [fetch_row] in H.
    destruct (fetch_value env rt c) as [v| |]; try discriminate.
    destruct (fetch_row env rt row) as [vs'| |]; try discriminate.
    injection H as <-. simpl. f_equal. now apply IH.
Qed.

Lemma fetch_rows_shape (rows : list (list column)) :
  forall all, fetch_rows env rt rows = Ok all ->
              Forall2 (fun row vs => length vs = length row) rows all.
Proof.
  induction rows as [|row rows IH]; intros all H.
  - injection H as <-. constructor.
  - cbn [fetch_rows] in H.
    destruct (fetch_row env rt row) as [r| |] eqn:E; try discriminate.
    destruct (fetch_rows env rt rows) as [rs| |]; try discriminate.
    injection H as <-. constructor; [now apply fetch_row_length|now apply IH].
Qed.

Lemma transfer_row_length (row : list Value) :
  forall n fs, transfer_row env rt row = Ok (n, fs) -> length fs = length row.
Proof.
  induction row as [|v row IH]; intros n fs H.
  - injection H as <- <-. reflexivity.
  - cbn [transfer_row] in H.
    destruct (transfer_value env rt v) as [[w f]| |]; try discriminate.
    destruct (transfer_row env rt row) as [[m fs']| |]; try discriminate.
    injection H as <- <-. simpl. f_equal. now apply (IH m).
Qed.

Lemma transfer_rows_shape (all : list (list Value)) :
  forall n cells, transfer_rows env rt all = Ok (n, cells) ->
                  Forall2 (fun vs fs => length fs = length vs) all cells.
Proof.
  induction all as [|vs all IH]; intros n cells H.
  - injection H as <- <-. constructor.
  - cbn [transfer_rows] in H.
    destruct (transfer_row env rt vs) as [[k r]| |] eqn:E; try discriminate.
    destruct (transfer_rows env rt all) as [[m rs]| |] eqn:E'; try discriminate.
    injection H as <- <-. constructor; [now apply (@transfer_row_length vs k)|now apply (IH m)].
Qed.

(** When the loop that fills the result reaches its end, its progress is
    its result. *)
Lemma transfer_row_progress_done (row : list Value) :
  forall n fs, transfer_row env rt row = Ok (n, fs) ->
               transfer_row_progress env rt row = (true, n, fs).
Proof.
  induction row as [|v row IH]; intros n fs H.
  - injection H as <- <-. reflexivity.
  - cbn [transfer_row transfer_row_progress] in *.
    destruct (transfer_value env rt v) as [[w f]| |]; try discriminate.
    destruct (transfer_row env rt row) as [[m fs']| |]; try discriminate.
    injection H as <- <-. now rewrite (IH m fs' eq_refl).
Qed.

Lemma transfer_progress_done (all : list (list Value)) :
  forall n cells, transfer_rows env rt all = Ok (n, cells) ->
                  transfer_progress env rt all = (true, n, cells).
Proof.
  induction all as [|vs all IH]; intros n cells H.
  - injection H as <- <-. reflexivity.
  - cbn [transfer_rows transfer_progress] in *.
    destruct (transfer_row env rt vs) as [[k r]| |] eqn:E; try discriminate.
    rewrite (transfer_row_progress_done _ E).
    destruct (transfer_rows env rt all) as [[m rs]| |]; try discriminate.
    injection H as <- <-. now rewrite (IH m rs eq_refl).
Qed.

Lemma query_progress_done (cnames : list string) (rows : list (list column)) (last : Z)
      (u o : nat) (out : output) :
  query_result env rt cnames rows last = Ok (u, o, out) ->
  query_progress env rt cnames rows = (u, o, Some (Some out)).
Proof.
  unfold query_result, query_progress. cbv zeta. intro H.
  destruct (0 <? Z.of_nat (length cnames)).
  - destruct (Fieldnames.fieldnames env cnames) as [fn w].
    destruct (fetch_rows env rt rows) as [all| |]; try discriminate.
    destruct (Z.of_nat (length rows) <=? INT_MAX); [|discriminate].
    cbv beta iota in H.
    destruct (Z.of_nat (length rows) =? 0).
    + destruct (mxCreateDoubleMatrix00 rt) as [[c|a]|]; try discriminate.
      now injection H as <- <- <-.
    + destruct (create_ok rt _); [|discriminate].
      destruct (transfer_rows env rt all) as [[n c]| |] eqn:E; try discriminate.
      rewrite (transfer_progress_done _ E). now injection H as <- <- <-.
  - destruct (mxCreateDoubleMatrix00 rt) as [[c|a]|]; try discriminate;
      destruct (negb _); try discriminate.
    now injection H as <- <- <-.
Qed.

(** The warning told by the decode branch is the one counted for a blob
    whose decoding fails behind it. *)
Lemma decode_warns_done (blob : list byte) (warned : bool) (array : mxArray) :
  TBH.typed_blob_decode env blob = Ok (warned, array) -> decode_warns env blob = warned.
Proof.
  unfold TBH.typed_blob_decode, decode_warns. intro H.
  destruct (TBH.load_int16 env blob TBH.OFF_ver) as [ver| |]; try discriminate.
  cbv beta iota in H.
  destruct (negb (ver =? wrap16 TBH.sizeof_tbh)) eqn:Ev; [discriminate|].
  destruct (TBH.load_int32 env blob TBH.OFF_clsid) as [code| |]; try discriminate.
  destruct (TBH.load_byte blob TBH.OFF_endian) as [endian| |]; try discriminate.
  destruct (TBH.load_int32 env blob TBH.OFF_sizeDims) as [n| |]; try discriminate.
  destruct (TBH.origin_differs env blob endian) as [w| |]; try discriminate.
  cbv beta iota in H.
  destruct (strncmp_eq _ _ _) as [ok| |]; try discriminate.
  cbv beta iota in H.
  match type of H with
  | (if ?c then _ else _) = _ => destruct c; [discriminate|]
  end.
  destruct (class_of_code code) as [cls|]; [|discriminate].
  destruct (negb (supported_class cls)); [discriminate|].
  unfold TBH.decode_array in H. cbv zeta in H.
  destruct (TBH.load_dims env blob 0 (Z.to_nat n)) as [dims| |]; try discriminate.
  cbv beta iota in H.
  destruct (mxCreateNumericArray env dims cls); [|discriminate].
  match type of H with
  | (if ?c then _ else _) = _ => destruct c; [discriminate|]
  end.
  match type of H with
  | match ?r with _ => _ end = _ => destruct r; try discriminate
  end.
  cbv beta iota in H.
  match type of H with
  | match ?r with _ => _ end = _ => destruct r; try discriminate
  end.
  now injection H as <- _.
Qed.

Lemma bind_or_fail_slot (st : stmt) (iParam : Z) (v : sql_value) :
  0 <= iParam < sqlite3_bind_parameter_count st ->
  bind_rc env (iParam + 1) v = SQLITE_OK ->
  bind_or_fail env st (iParam + 1) v = Ok (set_slot st (Z.to_nat iParam) v).
Proof.
  intros Hs Hrc. rewrite BinderFacts.bind_or_fail_ok by (try exact Hrc; lia).
  do 3 f_equal. lia.
Qed.

End WithEnv.

(** A value with several elements on its way to the engine and back in
    typed BLOB mode. *)
Lemma typed_blob_travels (env : Env) (rt : Runtime) (st : stmt) (iParam : Z)
      (item : mxArray) :
  use_typed_blobs env = true ->
  mx_wf item ->
  1 < mxGetNumberOfElements item ->
  mxIsComplex item = false ->
  supported_class (mxGetClassID item) = true ->
  class_eqb (mxGetClassID item) mxCHAR_CLASS = false ->
  blob_total item <= MQSQLITE_MAX_BLOB_SIZE ->
  (10 <= length (g_platform env))%nat ->
  alloc_ok env (sqlite3_malloc_call (blob_total item)) = true ->
  alloc_ok env (mxCreateNumericArray_call (mxGetDimensions item) (mxGetClassID item))
  = true ->
  new_ok rt (blob_total item) = true ->
  0 <= iParam < sqlite3_bind_parameter_count st ->
  (forall v, bind_rc env (iParam + 1) v = SQLITE_OK) ->
  exists blob v,
    len blob = blob_total item /\
    bind_param env st iParam (Some item)
    = Ok (set_slot st (Z.to_nat iParam) (SqlBlob blob)) /\
    fetch_value env rt (column_of_bound (SqlBlob blob)) = Ok v /\
    transfer_value env rt v
    = Ok (false, Some (FArray (MxArray (mxGetClassID item) false (mxGetDimensions item)
                                       (mxGetData item) []))).
Proof.
  intros Ht W Hnum Hreal Hsup Hchar Hmax Hp Hal Hcr Hnew Hslot Hrc.
  pose proof W as [_ [Wl _]].
  assert (Htot : blob_total item
                 = TBH_DATA_OFFSET (mxGetNumberOfDimensions item) + len (mxGetData item))
    by (unfold blob_total; now rewrite Wl).
  assert (Hpos : 36 <= blob_total item).
  { rewrite Htot. pose proof (len_nonneg (mxGetData item)).
    unfold TBH_DATA_OFFSET, OFF_sizeDims, mxGetNumberOfDimensions. lia. }
  rewrite Htot in Hmax, Hal.
  destruct (@TBHFacts.typed_blob_encode_ok env item W Hp Hmax Hsup Hal) as [blob He].
  destruct (@TBHFacts.typed_blob_encode_inv env item blob W He) as (_ & Hlen & _).
  rewrite <- Htot in Hlen.
  exists blob,
    {| m_Type := SQLITE_BLOB; m_Size := len blob; m_StringValue := Some blob;
       m_NumericValue := 0 |}.
  split; [exact Hlen|]. split; [|split].
  - rewrite bind_param_matrix; try assumption.
    + unfold bind_matrix. cbv zeta. rewrite Ht, He. simpl negb. cbv beta iota.
      apply bind_or_fail_slot; [exact Hslot|apply Hrc].
    + rewrite Hreal. unfold mxIsCell, mxIsStruct.
      destruct (mxGetClassID item); try discriminate Hsup; reflexivity.
  - unfold column_of_bound. apply fetch_blob; rewrite Hlen; [lia|exact Hnew].
  - unfold transfer_value. cbn [m_Type m_Size m_StringValue].
    change (SQLITE_BLOB =? SQLITE_TEXT) with false.
    change (SQLITE_BLOB =? SQLITE_NULL) with false.
    change (SQLITE_BLOB =? SQLITE_BLOB) with true. cbv beta iota. simpl andb. cbv iota.
    replace (0 <? len blob) with true by (symmetry; apply Z.ltb_lt; lia).
    rewrite Ht. simpl negb. cbv iota.
    rewrite (@typed_blob_decode_encoded env item blob W He Hcr). reflexivity.
Qed.

End RowsFacts.

Module RowsProps.
Import Host TBH Binder Numeric Strings Rows RowsFacts Examples Samples.

(** X13. A text goes to the engine and comes back unchanged. A text value
    with at least one character is bound as text, turned into UTF-8 when the
    conversion is switched on (also when it has several characters, and in
    typed BLOB mode), and when the engine hands that text back,
    [strnewdup] and the result loop give the host the characters that were
    passed in. *)
Theorem text_store_fetch (env : Env) (rt : Runtime) (st : stmt) (iParam : Z)
        (item : mxArray) (chars : list byte) :
  mxGetClassID item = mxCHAR_CLASS ->
  0 < mxGetNumberOfElements item ->
  mxIsComplex item = false ->
  0 <= iParam < sqlite3_bind_parameter_count st ->
  (forall v, bind_rc env (iParam + 1) v = SQLITE_OK) ->
  mxArrayToString env item = Some chars ->
  Charset.no_zero chars ->
  2 * len chars + 1 <= INT_MAX ->
  alloc_ok env (mxCalloc_call (len (Charset.to_utf8 chars) + 1)) = true ->
  new_ok rt (len chars + 1) = true ->
  create_ok rt (mxCreateString_call (Some chars)) = true ->
  bind_param env st iParam (Some item)
  = Ok (set_slot st (Z.to_nat iParam)
          (SqlText (if convertUTF8 env then Charset.to_utf8 chars else chars))) /\
  exists v,
    fetch_value env rt
      (column_of_bound (SqlText (if convertUTF8 env then Charset.to_utf8 chars else chars)))
    = Ok v /\
    transfer_value env rt v = Ok (false, Some (FString (Some chars))).
Proof.
  intros Hcls Hnum Hreal Hslot Hrc Hs Hz Hl Hal Hnew Hcr.
  pose proof (len_nonneg chars) as Hn. pose proof (CharsetFacts.len_to_utf8 chars) as Hu.
  unfold INT_MAX in Hl.
  split.
  - unfold bind_param, mxIsEmpty, mxIsCell, mxIsStruct.
    replace (mxGetNumberOfElements item =? 0) with false by (symmetry; apply Z.eqb_neq; lia).
    rewrite Hreal, Hcls. cbn [class_eqb class_code Z.eqb orb negb andb Pos.eqb].
    rewrite andb_false_r. unfold bind_scalar. rewrite Hcls.
    rewrite (@BinderClaims.bind_string_ok env st iParam item chars Hs Hz)
      by (try exact Hal; unfold INT_MAX; lia).
    apply bind_or_fail_slot; [exact Hslot|apply Hrc].
  - exists {| m_Type := SQLITE_TEXT; m_Size := 0; m_StringValue := Some (chars ++ [x00]);
              m_NumericValue := 0 |}.
    split.
    + unfold column_of_bound, fetch_value. cbv zeta.
      destruct (convertUTF8 env) eqn:Hc.
      * rewrite (@strnewdup_convert env rt (Charset.to_utf8 chars) Hc
                   (CharsetFacts.paired_to_utf8 Hz))
          by (rewrite ?CharsetFacts.to_single_byte_to_utf8; try exact Hnew;
              unfold INT_MAX; lia).
        rewrite CharsetFacts.to_single_byte_to_utf8. reflexivity.
      * rewrite (@strnewdup_copy env rt chars Hc Hz) by (try exact Hnew; lia).
        reflexivity.
    + unfold transfer_value. cbn [m_Type m_StringValue]. rewrite Z.eqb_refl.
      unfold mxCreateString.
      rewrite (@BinderClaims.c_string_spec chars [] Hz). cbv beta iota.
      rewrite Hcr. reflexivity.
Qed.

Lemma text_store_fetch_witness :
  bind_param (env_text true true) (prepared 1) 0 (Some text_item)
  = Ok [SqlText [x61; xc3; xa4; x62]] /\
  exists v,
    fetch_value (env_text true true) rt0 (column_of_bound (SqlText [x61; xc3; xa4; x62]))
    = Ok v /\
    transfer_value (env_text true true) rt0 v
    = Ok (false, Some (FString (Some [x61; xe4; x62]))).
Proof.
  assert (Hz : Charset.no_zero [x61; xe4; x62]) by (repeat constructor; discriminate).
  assert (Hp : 0 < mxGetNumberOfElements text_item) by reflexivity.
  assert (Hs : 0 <= 0 < sqlite3_bind_parameter_count (prepared 1))
    by (vm_compute; split; [discriminate|reflexivity]).
  assert (Hl : 2 * len [x61; xe4; x62] + 1 <= INT_MAX) by (vm_compute; discriminate).
  exact (@text_store_fetch (env_text true true) rt0 (prepared 1) 0 text_item [x61; xe4; x62]
           eq_refl Hp eq_refl Hs (fun _ => eq_refl) eq_refl Hz Hl eq_refl eq_refl eq_refl).
Defined.

(** X14. An array goes to the engine and comes back unchanged in typed
    BLOB mode. A value with several elements that is no text is bound as a
    typed blob, and when the engine hands that blob back, the result loop
    gives the host an array of the same class, with the same sizes and the
    same bytes, without a warning. *)
Theorem typed_blob_store_fetch (env : Env) (rt : Runtime) (st : stmt) (iParam : Z)
        (item : mxArray) :
  use_typed_blobs env = true ->
  mx_wf item ->
  1 < mxGetNumberOfElements item ->
  mxIsComplex item = false ->
  supported_class (mxGetClassID item) = true ->
  class_eqb (mxGetClassID item) mxCHAR_CLASS = false ->
  blob_total item <= MQSQLITE_MAX_BLOB_SIZE ->
  (10 <= length (g_platform env))%nat ->
  alloc_ok env (sqlite3_malloc_call (blob_total item)) = true ->
  alloc_ok env (mxCreateNumericArray_call (mxGetDimensions item) (mxGetClassID item))
  = true ->
  new_ok rt (blob_total item) = true ->
  0 <= iParam < sqlite3_bind_parameter_count st ->
  (forall v, bind_rc env (iParam + 1) v = SQLITE_OK) ->
  exists blob v,
    len blob = blob_total item /\
    bind_param env st iParam (Some item)
    = Ok (set_slot st (Z.to_nat iParam) (SqlBlob blob)) /\
    fetch_value env rt (column_of_bound (SqlBlob blob)) = Ok v /\
    transfer_value env rt v
    = Ok (false, Some (FArray (MxArray (mxGetClassID item) false (mxGetDimensions item)
                                       (mxGetData item) []))).
Proof.
  intros. now apply RowsFacts.typed_blob_travels.
Qed.

Lemma matrix_item_wf : mx_wf matrix_item.
Proof.
  split; [|split; reflexivity].
  repeat constructor; discriminate.
Qed.

Lemma typed_blob_store_fetch_witness :
  exists blob v,
    len blob = 56 /\
    bind_param env0 (prepared 2) 1 (Some matrix_item) = Ok [SqlNull; SqlBlob blob] /\
    fetch_value env0 rt0 (column_of_bound (SqlBlob blob)) = Ok v /\
    transfer_value env0 rt0 v = Ok (false, Some (FArray matrix_item)).
Proof.
  assert (Hn : 1 < mxGetNumberOfElements matrix_item) by reflexivity.
  assert (Hm : blob_total matrix_item <= MQSQLITE_MAX_BLOB_SIZE) by (vm_compute; discriminate).
  assert (Hp : (10 <= length (g_platform env0))%nat) by (vm_compute; repeat constructor).
  assert (Hs : 0 <= 1 < sqlite3_bind_parameter_count (prepared 2))
    by (vm_compute; split; [discriminate|reflexivity]).
  exact (@typed_blob_store_fetch env0 rt0 (prepared 2) 1 matrix_item eq_refl matrix_item_wf
           Hn eq_refl eq_refl eq_refl Hm Hp eq_refl eq_refl eq_refl Hs (fun _ => eq_refl)).
Defined.

(** X15. Without typed BLOBs an array loses its class and its shape on the
    way: a value with several elements that is no text is bound as the bytes
    of its data, and when the engine hands them back, the result loop gives
    the host a row vector of class [uint8] with one element for each
    byte. *)
Theorem untyped_blob_store_fetch (env : Env) (rt : Runtime) (st : stmt) (iParam : Z)
        (item : mxArray) :
  use_typed_blobs env = false ->
  mx_wf item ->
  1 < mxGetNumberOfElements item ->
  0 < len (mxGetData item) <= INT_MAX ->
  mxIsComplex item || mxIsCell item || mxIsStruct item = false ->
  class_eqb (mxGetClassID item) mxCHAR_CLASS = false ->
  alloc_ok env (mxCreateNumericArray_call [1; len (mxGetData item)] mxUINT8_CLASS) = true ->
  new_ok rt (len (mxGetData item)) = true ->
  0 <= iParam < sqlite3_bind_parameter_count st ->
  (forall v, bind_rc env (iParam + 1) v = SQLITE_OK) ->
  bind_param env st iParam (Some item)
  = Ok (set_slot st (Z.to_nat iParam) (SqlBlob (mxGetData item))) /\
  exists v,
    fetch_value env rt (column_of_bound (SqlBlob (mxGetData item))) = Ok v /\
    transfer_value env rt v
    = Ok (false, Some (FArray (MxArray mxUINT8_CLASS false [1; len (mxGetData item)]
                                       (mxGetData item) []))).
Proof.
  intros Ht [_ [Wl _]] Hnum Hlen Hk Hchar Hcr Hnew Hslot Hrc.
  split.
  - rewrite bind_param_matrix by assumption.
    unfold bind_matrix. cbv zeta. rewrite Ht. simpl negb. cbv iota.
    fold (mxGetNumberOfElements item). rewrite <- Wl.
    rewrite wrap32_small by (unfold INT_MIN; lia).
    rewrite load_bytes_all. cbv beta iota.
    apply bind_or_fail_slot; [exact Hslot|apply Hrc].
  - exists {| m_Type := SQLITE_BLOB; m_Size := len (mxGetData item);
              m_StringValue := Some (mxGetData item); m_NumericValue := 0 |}.
    split; [apply fetch_blob; [lia|exact Hnew]|].
    unfold transfer_value. cbn [m_Type m_Size m_StringValue].
    change (SQLITE_BLOB =? SQLITE_TEXT) with false.
    change (SQLITE_BLOB =? SQLITE_NULL) with false.
    change (SQLITE_BLOB =? SQLITE_BLOB) with true. cbv beta iota. simpl andb. cbv iota.
    replace (0 <? len (mxGetData item)) with true by (symmetry; apply Z.ltb_lt; lia).
    rewrite Ht. simpl negb. cbv iota.
    unfold mxCreateNumericArray. rewrite Hcr. cbn [mxGetData].
    rewrite load_bytes_all. cbv beta iota.
    rewrite TBHFacts.zeros_filled; [reflexivity|].
    unfold numel. cbn [fold_right element_size]. lia.
Qed.

Lemma untyped_blob_store_fetch_witness :
  bind_param (env_text true false) (prepared 1) 0 (Some matrix_item)
  = Ok [SqlBlob (mxGetData matrix_item)] /\
  exists v,
    fetch_value (env_text true false) rt0 (column_of_bound (SqlBlob (mxGetData matrix_item)))
    = Ok v /\
    transfer_value (env_text true false) rt0 v
    = Ok (false, Some (FArray (MxArray mxUINT8_CLASS false [1; 12]
                                       (mxGetData matrix_item) []))).
Proof.
  assert (Hn : 1 < mxGetNumberOfElements matrix_item) by reflexivity.
  assert (Hl : 0 < len (mxGetData matrix_item) <= INT_MAX)
    by (vm_compute; split; [reflexivity|discriminate]).
  assert (Hs : 0 <= 0 < sqlite3_bind_parameter_count (prepared 1))
    by (vm_compute; split; [discriminate|reflexivity]).
  exact (@untyped_blob_store_fetch (env_text true false) rt0 (prepared 1) 0 matrix_item
           eq_refl matrix_item_wf Hn Hl eq_refl eq_refl eq_refl eq_refl Hs
           (fun _ => eq_refl)).
Defined.

(** X16. In typed BLOB mode every BLOB of a result that is not empty is
    taken for a typed blob, whoever wrote it: the version field is read at
    offset 14 without a look at the size, so for a BLOB of fewer than 16
    bytes the result loop reads outside the value. *)
Theorem typed_mode_short_blob (env : Env) (rt : Runtime) (b : list byte) :
  use_typed_blobs env = true ->
  0 < len b < 16 ->
  new_ok rt (len b) = true ->
  exists v, fetch_value env rt (ColBlob b) = Ok v /\ transfer_value env rt v = Undefined.
Proof.
  intros Ht Hl Hnew.
  exists {| m_Type := SQLITE_BLOB; m_Size := len b; m_StringValue := Some b;
            m_NumericValue := 0 |}.
  split; [apply fetch_blob; [lia|exact Hnew]|].
  unfold transfer_value. cbn [m_Type m_Size m_StringValue].
  change (SQLITE_BLOB =? SQLITE_TEXT) with false.
  change (SQLITE_BLOB =? SQLITE_NULL) with false.
  change (SQLITE_BLOB =? SQLITE_BLOB) with true. cbv beta iota. simpl andb. cbv iota.
  replace (0 <? len b) with true by (symmetry; apply Z.ltb_lt; lia).
  rewrite Ht. simpl negb. cbv iota.
  unfold typed_blob_decode, load_int16, load_bytes.
  replace (OFF_ver + 2 <=? len b) with false
    by (symmetry; apply Z.leb_gt; unfold OFF_ver; lia).
  rewrite andb_false_r. reflexivity.
Qed.

Lemma typed_mode_short_blob_witness :
  exists v, fetch_value env0 rt0 (ColBlob [x01; x02; x03]) = Ok v
            /\ transfer_value env0 rt0 v = Undefined.
Proof.
  assert (Hl : 0 < len [x01; x02; x03] < 16) by (vm_compute; split; reflexivity).
  exact (@typed_mode_short_blob env0 rt0 [x01; x02; x03] eq_refl Hl eq_refl).
Defined.

(** X17. An integer of the engine comes back as a [double] scalar that
    holds its lower 32 bits: a value that is an [int] comes back as itself
    (and [getinteger] reads it from the result as the same [int]), a larger
    value comes back as another number. *)
Theorem integer_column_low_32_bits (env : Env) (rt : Runtime) (v : Z) :
  create_ok rt (mxCreateDoubleScalar_call (double_of_int (wrap32 v))) = true ->
  (exists val,
      fetch_value env rt (ColInteger v) = Ok val /\
      transfer_value env rt val
      = Ok (false, Some (FArray (double_scalar env (double_of_int (wrap32 v)))))) /\
  getinteger env (double_scalar env (double_of_int (wrap32 v))) = Ok (wrap32 v) /\
  (INT_MIN <= v <= INT_MAX -> wrap32 v = v) /\
  (INT_MAX < v < 2 ^ 32 -> wrap32 v = v - 2 ^ 32).
Proof.
  intro Hcr. split; [|split; [|split]].
  - exists {| m_Type := SQLITE_INTEGER; m_Size := 0; m_StringValue := None;
              m_NumericValue := double_of_int (wrap32 v) |}.
    split; [reflexivity|].
    unfold transfer_value. cbn [m_Type m_NumericValue].
    change (SQLITE_INTEGER =? SQLITE_TEXT) with false.
    change (SQLITE_INTEGER =? SQLITE_NULL) with false.
    change (SQLITE_INTEGER =? SQLITE_BLOB) with false. cbv beta iota. simpl andb. cbv iota.
    unfold mxCreateDoubleScalar. rewrite Hcr. reflexivity.
  - unfold getinteger, double_scalar. cbn [mxGetClassID].
    change 8 with (Z.of_nat 8) at 1. rewrite NumericFacts.load_data_int_bytes.
    change (256 ^ Z.of_nat 8) with (2 ^ 64).
    rewrite Z.mod_small by (apply NumericFacts.double_of_int_range, wrap32_range).
    apply NumericFacts.double_to_int_of_int, wrap32_range.
  - apply wrap32_small.
  - intro H. unfold wrap32, INT_MAX in *.
    replace (v + 2147483648) with (v - 2147483648 + 1 * 4294967296) by lia.
    rewrite Z_mod_plus_full, Z.mod_small by lia. lia.
Qed.

Lemma integer_column_low_32_bits_witness :
  (exists val,
      fetch_value env0 rt0 (ColInteger 4294967301) = Ok val /\
      transfer_value env0 rt0 val
      = Ok (false, Some (FArray (double_scalar env0 (double_of_int 5))))) /\
  getinteger env0 (double_scalar env0 (double_of_int 5)) = Ok 5.
Proof.
  destruct (@integer_column_low_32_bits env0 rt0 4294967301 eq_refl) as (A & B & _).
  split; [exact A|exact B].
Defined.

(** X18. An empty value goes to the engine as NULL and comes back as a
    [double]: a value without elements, of whatever class, leaves its
    parameter as it is (NULL in a statement that was just prepared), and a
    NULL of the engine comes back as the empty matrix, or as a scalar NaN
    when [NULLasNaN] is set. An empty BLOB comes back as the empty matrix in
    both BLOB modes. *)
Theorem empty_value_store_fetch (env : Env) (rt : Runtime) (st : stmt) (iParam : Z)
        (item : mxArray) :
  mxGetNumberOfElements item = 0 ->
  create_ok rt (mxCreateDoubleMatrix_call 0 0) = true ->
  create_ok rt (mxCreateDoubleScalar_call (g_NaN rt)) = true ->
  bind_param env st iParam (Some item) = Ok st /\
  (exists v,
      fetch_value env rt (column_of_bound SqlNull) = Ok v /\
      transfer_value env rt v
      = Ok (false, Some (FArray (if NULLasNaN env then double_scalar env (g_NaN rt)
                                 else empty_double)))) /\
  (exists v,
      fetch_value env rt (ColBlob []) = Ok v /\
      transfer_value env rt v = Ok (false, Some (FArray empty_double))).
Proof.
  intros Hn Hc0 Hc1. split; [|split].
  - unfold bind_param, mxIsEmpty. rewrite Hn. reflexivity.
  - exists {| m_Type := SQLITE_NULL; m_Size := 0; m_StringValue := None;
              m_NumericValue := g_NaN rt |}.
    split; [reflexivity|].
    unfold transfer_value. cbn [m_Type m_NumericValue].
    change (SQLITE_NULL =? SQLITE_TEXT) with false.
    change (SQLITE_NULL =? SQLITE_NULL) with true.
    change (SQLITE_NULL =? SQLITE_BLOB) with false. cbv beta iota.
    unfold mxCreateDoubleMatrix00, mxCreateDoubleScalar. rewrite Hc0, Hc1.
    destruct (NULLasNaN env); reflexivity.
  - exists {| m_Type := SQLITE_BLOB; m_Size := 0; m_StringValue := None;
              m_NumericValue := 0 |}.
    split; [reflexivity|].
    unfold transfer_value. cbn [m_Type m_Size].
    change (SQLITE_BLOB =? SQLITE_TEXT) with false.
    change (SQLITE_BLOB =? SQLITE_NULL) with false.
    change (SQLITE_BLOB =? SQLITE_BLOB) with true. cbv beta iota. simpl andb. cbv iota.
    unfold mxCreateDoubleMatrix00. rewrite Hc0. reflexivity.
Qed.

Lemma empty_value_store_fetch_witness :
  bind_param env0 (prepared 1) 0 (Some (MxArray mxCELL_CLASS false [0; 0] [] []))
  = Ok [SqlNull] /\
  exists v,
    fetch_value env0 rt0 (column_of_bound SqlNull) = Ok v /\
    transfer_value env0 rt0 v = Ok (false, Some (FArray empty_double)).
Proof.
  destruct (@empty_value_store_fetch env0 rt0 (prepared 1) 0
              (MxArray mxCELL_CLASS false [0; 0] [] []) eq_refl eq_refl eq_refl)
    as (A & B & _).
  split; [exact A|exact B].
Defined.

(** X19. The shape of a result with rows. When [mexFunction] returns a
    struct array, the statement had columns and gave at least one row, the
    field names are the names that the clean-up of the column names gave,
    one for each column, and the array has one element for each row of the
    engine, in their order, with one field for each column of the row. *)
Theorem query_result_struct (env : Env) (rt : Runtime) (cnames : list string)
        (rows : list (list column)) (last : Z) (w1 w2 : nat) (names : list string)
        (cells : list (list (option field))) :
  query_result env rt cnames rows last = Ok (w1, w2, OutStruct names cells) ->
  Fieldnames.fieldnames env cnames = (names, w1) /\
  cnames <> [] /\ rows <> [] /\
  length names = length cnames /\
  Forall2 (fun row fields => length fields = length row) rows cells.
Proof.
  unfold query_result. cbv zeta. intro H.
  destruct (0 <? Z.of_nat (length cnames)) eqn:Hc.
  - apply Z.ltb_lt in Hc.
    destruct (Fieldnames.fieldnames env cnames) as [fn rn] eqn:Ef.
    destruct (fetch_rows env rt rows) as [all| |] eqn:Er; try discriminate.
    destruct (Z.of_nat (length rows) <=? INT_MAX); [|discriminate].
    cbv beta iota in H.
    destruct (Z.of_nat (length rows) =? 0) eqn:E0.
    + destruct (mxCreateDoubleMatrix00 rt) as [[c|a]|]; discriminate.
    + destruct (create_ok rt (mxCreateStructArray_call [Z.of_nat (length rows); 1] fn));
        [|discriminate].
      destruct (transfer_rows env rt all) as [[w c]| |] eqn:Et; try discriminate.
      injection H as <- <- <- <-.
      split; [reflexivity|].
      split; [intros ->; simpl in Hc; lia|].
      split; [intros ->; discriminate|].
      split.
      { pose proof (FieldnamesProps.fieldnames_inv env cnames) as [L _].
        rewrite Ef in L. cbn [fst] in L. now rewrite length_map in L. }
      pose proof (@fetch_rows_shape env rt rows all Er) as S1.
      pose proof (@transfer_rows_shape env rt all w c Et) as S2.
      clear - S1 S2. revert c S2.
      induction S1 as [|row vs rows all Hl _ IH]; intros c S2.
      * inversion S2. constructor.
      * inversion S2 as [|? fs ? cs Hf Hrest]; subst. constructor; [congruence|now apply IH].
  - destruct rows; destruct (mxCreateDoubleMatrix00 rt) as [[c|a]|]; try discriminate;
      match type of H with
      | context [if ?b then _ else _] => destruct b; discriminate
      end.
Qed.

Lemma query_result_struct_witness :
  query_result env0 rt0 ["id"; "id"]%string [[ColInteger 7; ColNull]; [ColInteger 8; ColFloat 0]]
               SQLITE_DONE
  = Ok (O, O, OutStruct ["id"; "id_1"]%string
                [[Some (FArray (double_scalar env0 (double_of_int 7)));
                  Some (FArray empty_double)];
                 [Some (FArray (double_scalar env0 (double_of_int 8)));
                  Some (FArray (double_scalar env0 0))]]) /\
  Fieldnames.fieldnames env0 ["id"; "id"]%string = (["id"; "id_1"]%string, O).
Proof.
  assert (E : query_result env0 rt0 ["id"; "id"]%string
                [[ColInteger 7; ColNull]; [ColInteger 8; ColFloat 0]] SQLITE_DONE
              = Ok (O, O, OutStruct ["id"; "id_1"]%string
                            [[Some (FArray (double_scalar env0 (double_of_int 7)));
                              Some (FArray empty_double)];
                             [Some (FArray (double_scalar env0 (double_of_int 8)));
                              Some (FArray (double_scalar env0 0))]]))
    by (vm_compute; reflexivity).
  split; [exact E|]. exact (proj1 (@query_result_struct _ _ _ _ _ _ _ _ _ E)).
Defined.

(** X20. The code that ends the stepping is looked at for a statement
    without columns only. For a statement with columns every code other
    than [SQLITE_ROW] ends the loop over the rows like the end of the data:
    the rows read so far are returned and no error is raised. For a
    statement without columns every code other than [SQLITE_DONE] is an
    error of the engine. *)
Theorem step_code_and_columns (env : Env) (rt : Runtime) :
  create_ok rt (mxCreateDoubleMatrix_call 0 0) = true ->
  (forall cnames rows last last',
      cnames <> [] ->
      query_result env rt cnames rows last = query_result env rt cnames rows last') /\
  (forall last, last <> SQLITE_DONE -> query_result env rt [] [] last = Fail SQL_ERR) /\
  query_result env rt [] [] SQLITE_DONE = Ok (O, O, OutArray empty_double).
Proof.
  intro Hc. split; [|split].
  - intros cnames rows last last' Hn. unfold query_result. cbv zeta.
    destruct cnames as [|c cnames]; [contradiction|].
    replace (0 <? Z.of_nat (length (c :: cnames))) with true
      by (symmetry; apply Z.ltb_lt; simpl length; lia).
    reflexivity.
  - intros last Hl. unfold query_result, mxCreateDoubleMatrix00. cbv zeta.
    rewrite Hc. cbn [length Z.of_nat Z.ltb Z.compare].
    replace (SQLITE_DONE =? last) with false by (symmetry; apply Z.eqb_neq; congruence).
    reflexivity.
  - unfold query_result, mxCreateDoubleMatrix00. cbv zeta. rewrite Hc. reflexivity.
Qed.

Lemma step_code_and_columns_witness :
  query_result env0 rt0 ["n"]%string [[ColInteger 1]] 5
  = query_result env0 rt0 ["n"]%string [[ColInteger 1]] SQLITE_DONE /\
  query_result env0 rt0 [] [] 5 = Fail SQL_ERR.
Proof.
  destruct (@step_code_and_columns env0 rt0 eq_refl) as (A & B & _).
  split; [apply A; discriminate|apply B; discriminate].
Defined.

End RowsProps.

(** ** The commands of [mexFunction] *)

Module CommandsFacts.
Import Host Numeric Strings Rows Commands.

Lemma char_not_numeric (a : mxArray) : mxIsChar a = true -> mxIsNumeric a = false.
Proof.
  unfold mxIsChar, mxIsNumeric, class_eqb. destruct (mxGetClassID a); simpl;
    intro H; try discriminate; reflexivity.
Qed.

Lemma bytes_eqb_eq (a : list byte) : forall b, bytes_eqb a b = true -> a = b.
Proof.
  induction a as [|x a IH]; intros [|y b] H; try discriminate; [reflexivity|].
  cbn [bytes_eqb] in H. apply andb_true_iff in H as [Hx Hr].
  apply Byte.byte_dec_bl in Hx. subst y. f_equal. now apply IH.
Qed.

(** The commands that are compared without regard to case. *)
Lemma which_command_nocase (chars : list byte) (name : string) (c : command) :
  In (name, c) [("setbusytimeout"%string, cmd_setbusytimeout);
                ("check4uniquefields"%string, cmd_check4uniquefields);
                ("convertUTF8"%string, cmd_convertUTF8);
                ("typedBLOBs"%string, cmd_typedBLOBs);
                ("NULLasNaN"%string, cmd_NULLasNaN)] ->
  map tolower chars = map tolower (list_byte_of_string name) ->
  which_command chars = c.
Proof.
  intros Hin Hl. unfold which_command.
  assert (S : forall lit,
             map tolower (list_byte_of_string lit) <> map tolower (list_byte_of_string name) ->
             strcmp_eq chars lit = false).
  { intros lit Hne. unfold strcmp_eq.
    destruct (bytes_eqb chars (list_byte_of_string lit)) eqn:E; [|reflexivity].
    apply bytes_eqb_eq in E. subst chars. contradiction. }
  unfold strcmpi_eq. rewrite Hl.
  cbn [In] in Hin.
  repeat (destruct Hin as [Hin|Hin]; [injection Hin as <- <-|]); try contradiction;
    rewrite !S by (vm_compute; discriminate); vm_compute; reflexivity.
Qed.

(** Every identifier of [TransErrToIdent] starts with the same prefix. *)
Lemma TransErrToIdent_prefix (errorcode : Z) :
  exists rest : string, TransErrToIdent errorcode = ("SQLITE:" ++ rest)%string.
Proof.
  unfold TransErrToIdent.
  repeat match goal with
         | |- context [match ?x with _ => _ end] => is_var x; destruct x
         end;
    eexists; reflexivity.
Qed.

Lemma int64_is_zero (env : Env) (a : mxArray) :
  mxGetClassID a = mxINT64_CLASS \/ mxGetClassID a = mxUINT64_CLASS ->
  mxIsNumeric a = true /\ getinteger env a = Ok 0.
Proof.
  unfold mxIsNumeric, getinteger. intros [-> | ->]; split; reflexivity.
Qed.

Section WithWorld.
Variable world : World.
Variable rt : Runtime.

(** A call with a database id in front of the command. *)
Lemma mexFunction_with_id (m : machine) (nlhs : Z) (id cmd : mxArray)
      (args : list mxArray) (k : Z) (chars : list byte) :
  mxIsNumeric id = true ->
  getinteger (flags m) id = Ok k ->
  0 <= k <= MaxNumOfDbs ->
  text_arg world (flags m) cmd chars ->
  mexFunction world rt m nlhs (id :: cmd :: args)
  = dispatch world rt m nlhs (k - 1) (Z.of_nat (length args)) chars args.
Proof.
  intros Hn Hk Hr (Hc & mem & Hg & Hs). unfold mexFunction. cbv zeta.
  rewrite Hn, Hk.
  replace (k <? 0) with false by (symmetry; apply Z.ltb_ge; lia).
  replace (MaxNumOfDbs <? k) with false by (symmetry; apply Z.ltb_ge; lia).
  cbn [orb]. unfold with_command.
  replace (Z.of_nat (length (id :: cmd :: args)) - 1 <? 1) with false
    by (symmetry; apply Z.ltb_ge; simpl length; lia).
  cbn [nth_error]. rewrite Hc. cbn [negb]. rewrite Hg, Hs.
  cbn [skipn]. f_equal. simpl length. lia.
Qed.

(** A call that starts with the command. *)
Lemma mexFunction_without_id (m : machine) (nlhs : Z) (cmd : mxArray)
      (args : list mxArray) (chars : list byte) :
  text_arg world (flags m) cmd chars ->
  mexFunction world rt m nlhs (cmd :: args)
  = dispatch world rt m nlhs 0 (Z.of_nat (length args)) chars args.
Proof.
  intros (Hc & mem & Hg & Hs). unfold mexFunction. cbv zeta.
  rewrite (char_not_numeric _ Hc). unfold with_command.
  replace (Z.of_nat (length (cmd :: args)) <? 1) with false
    by (symmetry; apply Z.ltb_ge; simpl length; lia).
  cbn [nth_error]. rewrite Hc. cbn [negb]. rewrite Hg, Hs.
  cbn [skipn]. f_equal. simpl length. lia.
Qed.

Lemma get_db_nth (m : machine) (i : nat) :
  (i < 5)%nat -> get_db m (Z.of_nat i) = nth_error (g_dbs m) i.
Proof.
  intro H. unfold get_db, MaxNumOfDbs.
  replace (0 <=? Z.of_nat i) with true by (symmetry; apply Z.leb_le; lia).
  replace (Z.of_nat i <? 5) with true by (symmetry; apply Z.ltb_lt; lia).
  cbn [andb]. now rewrite Nat2Z.id.
Qed.

(** The loop that looks for a free entry finds the first one. *)
Lemma free_slot_first (m : machine) (i : nat) (n : nat) :
  forall start,
    (start <= i < start + n)%nat -> (start + n <= 5)%nat ->
    nth_error (g_dbs m) i = Some None ->
    (forall j, (start <= j < i)%nat -> exists old, nth_error (g_dbs m) j = Some (Some old)) ->
    free_slot m start n = Some (Z.of_nat i).
Proof.
  induction n as [|n IH]; intros start Hi Hn Hfree Hused; [lia|].
  cbn [free_slot]. rewrite get_db_nth by lia.
  destruct (Nat.eq_dec start i) as [->|Hne].
  - now rewrite Hfree.
  - destruct (Hused start ltac:(lia)) as [old ->].
    apply IH; [lia|lia|exact Hfree|]. intros j Hj. apply Hused. lia.
Qed.

Lemma free_slot_none (m : machine) (n : nat) :
  forall start,
    (start + n <= 5)%nat ->
    (forall j, (start <= j < start + n)%nat ->
               exists old, nth_error (g_dbs m) j = Some (Some old)) ->
    free_slot m start n = Some (-1).
Proof.
  induction n as [|n IH]; intros start Hn Hused; [reflexivity|].
  cbn [free_slot]. rewrite get_db_nth by lia.
  destruct (Hused start ltac:(lia)) as [old ->].
  apply IH; [lia|]. intros j Hj. apply Hused. lia.
Qed.

Lemma get_db_set_db (m : machine) (i : nat) (db : option handle) :
  (i < 5)%nat -> (i < length (g_dbs m))%nat ->
  get_db (set_db i db m) (Z.of_nat i) = Some db.
Proof.
  intros H5 Hl. rewrite get_db_nth by exact H5. unfold set_db. cbn [g_dbs].
  rewrite nth_error_app, length_firstn.
  replace (Nat.min i (length (g_dbs m))) with i by lia.
  rewrite Nat.ltb_irrefl, Nat.sub_diag. reflexivity.
Qed.

Lemma replace_twice (A : Type) (l : list A) (i : nat) (a b : A) :
  (i < length l)%nat ->
  firstn i (firstn i l ++ a :: skipn (S i) l)
  ++ b :: skipn (S i) (firstn i l ++ a :: skipn (S i) l)
  = firstn i l ++ b :: skipn (S i) l.
Proof.
  intro H.
  assert (L : length (firstn i l) = i) by (rewrite length_firstn; lia).
  rewrite firstn_app, L, Nat.sub_diag, firstn_O, app_nil_r.
  rewrite firstn_all2 by lia.
  rewrite skipn_app, L.
  rewrite skipn_all2 by lia.
  replace (S i - i)%nat with 1%nat by lia. reflexivity.
Qed.

Lemma replace_same (A : Type) (l : list A) (i : nat) (a : A) :
  nth_error l i = Some a -> firstn i l ++ a :: skipn (S i) l = l.
Proof.
  revert i. induction l as [|x l IH]; intros [|i] H; try discriminate.
  - injection H as ->. reflexivity.
  - simpl. f_equal. now apply IH.
Qed.

Lemma replace_at_end (A : Type) (pre rest : list A) (x y : A) :
  firstn (length pre) (pre ++ x :: rest) ++ y :: skipn (S (length pre)) (pre ++ x :: rest)
  = (pre ++ [y]) ++ rest.
Proof.
  rewrite firstn_app, Nat.sub_diag, firstn_all, firstn_O, app_nil_r.
  rewrite skipn_app, skipn_all2 by lia.
  replace (S (length pre) - length pre)%nat with 1%nat by lia.
  rewrite <- app_assoc. reflexivity.
Qed.

(** The closing loop, started behind the entries [pre]: what is open in
    the rest of the table is closed, in the order of the entries, and the
    rest of the table is cleared. *)
Lemma close_all_spec (rest : list (option handle)) :
  forall (m : machine) (pre : list (option handle)),
    g_dbs m = pre ++ rest ->
    (length (g_dbs m) <= 5)%nat ->
    close_all m (length pre) (length rest)
    = Some {| flags := flags m;
              g_dbs := pre ++ repeat None (length rest);
              events := events m ++ closed_connections rest;
              plhs0 := plhs0 m |}.
Proof.
  induction rest as [|x rest IH]; intros m pre Hg Hl.
  - cbn [length close_all repeat closed_connections flat_map].
    rewrite app_nil_r in Hg. rewrite !app_nil_r. rewrite <- Hg. destruct m; reflexivity.
  - assert (Hp : (length pre < 5)%nat).
    { rewrite Hg, length_app in Hl. simpl in Hl. lia. }
    cbn [length close_all]. rewrite get_db_nth by exact Hp.
    rewrite Hg, nth_error_app2, Nat.sub_diag by lia. cbn [nth_error].
    destruct x as [db|].
    + set (m' := set_db (length pre) None (emit (sqlite3_close (Some db)) m)).
      assert (Hg' : g_dbs m' = (pre ++ [None]) ++ rest).
      { unfold m', set_db, emit. cbn [g_dbs]. rewrite Hg. apply replace_at_end. }
      assert (Hl' : (length (g_dbs m') <= 5)%nat).
      { rewrite Hg'. rewrite Hg in Hl. rewrite !length_app in *. simpl in *. lia. }
      pose proof (IH m' (pre ++ [None]) Hg' Hl') as R.
      rewrite length_app in R. cbn [length] in R.
      replace (length pre + 1)%nat with (S (length pre)) in R by lia.
      rewrite R. unfold m', set_db, emit. cbn [flags events plhs0 closed_connections flat_map].
      rewrite <- !app_assoc. reflexivity.
    + assert (Hg' : g_dbs m = (pre ++ [None]) ++ rest) by (now rewrite <- app_assoc).
      pose proof (IH m (pre ++ [None]) Hg' Hl) as R.
      rewrite length_app in R. cbn [length] in R.
      replace (length pre + 1)%nat with (S (length pre)) in R by lia.
      rewrite R. cbn [closed_connections flat_map app repeat].
      rewrite <- !app_assoc. reflexivity.
Qed.

Lemma close_all_table (m : machine) :
  length (g_dbs m) = 5%nat ->
  close_all m 0 5
  = Some {| flags := flags m;
            g_dbs := [None; None; None; None; None];
            events := events m ++ closed_connections (g_dbs m);
            plhs0 := plhs0 m |}.
Proof.
  intro H. pose proof (@close_all_spec (g_dbs m) m [] eq_refl ltac:(lia)) as R.
  rewrite H in R. exact R.
Qed.

End WithWorld.
End CommandsFacts.

Module CommandsProps.
Import Host TBH Binder Numeric Strings Rows Commands CommandsFacts Examples Samples.

(** X21. The command "open" with the database id 0 takes the first free
    entry of the table: the connection of the engine is stored there, the
    functions [pow] and [regex] (with two and with three arguments) are
    registered for it, no entry that is in use is touched, and the number of
    the entry plus one is returned. When no entry is free, the table stays
    as it is, 0 is returned and the call ends with [MSG_IMPOSSIBLE]. *)
Theorem open_takes_first_free_entry (world : World) (rt : Runtime) (m : machine) (nlhs : Z)
        (id cmd file : mxArray) (name : list byte) :
  length (g_dbs m) = 5%nat ->
  mxIsNumeric id = true ->
  getinteger (flags m) id = Ok 0 ->
  text_arg world (flags m) cmd (list_byte_of_string "open") ->
  text_arg world (flags m) file name ->
  (forall (i : nat) (h : handle),
      (i < 5)%nat ->
      nth_error (g_dbs m) i = Some None ->
      (forall j, (j < i)%nat -> exists old, nth_error (g_dbs m) j = Some (Some old)) ->
      sqlite3_open world name = (0, Some h) ->
      sqlite3_busy_timeout world (Some h) DEFAULT_BUSYTIMEOUT = 0 ->
      mexFunction world rt m nlhs [id; cmd; file]
      = Some ({| flags := flags m;
                 g_dbs := firstn i (g_dbs m) ++ Some h :: skipn (S i) (g_dbs m);
                 events := events m ++ [sqlite3_create_function (Some h) "pow" 2;
                                        sqlite3_create_function (Some h) "regex" 2;
                                        sqlite3_create_function (Some h) "regex" 3];
                 plhs0 := scalar_out rt (flags m) (Z.of_nat i + 1) |}, Return)) /\
  ((forall j, (j < 5)%nat -> exists old, nth_error (g_dbs m) j = Some (Some old)) ->
   mexFunction world rt m nlhs [id; cmd; file]
   = Some ({| flags := flags m;
              g_dbs := g_dbs m;
              events := events m ++ [mexPrintf MSG_NOFREESLOT];
              plhs0 := scalar_out rt (flags m) 0 |}, ErrMsgTxt (Msg MSG_IMPOSSIBLE))).
Proof.
  intros Hlen Hnum Hid Hcmd (Hfc & fmem & Hfg & Hfs).
  assert (E : mexFunction world rt m nlhs [id; cmd; file]
              = do_open world rt m (-1) 1 [file]).
  { rewrite (@mexFunction_with_id world rt m nlhs id cmd [file] 0 _ Hnum Hid) by
      (try exact Hcmd; unfold MaxNumOfDbs; lia).
    reflexivity. }
  rewrite E. unfold do_open. cbn [Z.eqb Pos.eqb nth_error]. rewrite Hfc, Hfg.
  change (0 <? -1) with false. change (-1 <? 0) with true. cbv iota.
  change (Z.to_nat MaxNumOfDbs) with 5%nat. split.
  - intros i h Hi Hfree Hused Hopen Hbusy.
    rewrite (@free_slot_first m i 5 0) by (try assumption; try lia; intros; apply Hused; lia).
    replace (Z.of_nat i <? 0) with false by (symmetry; apply Z.ltb_ge; lia).
    rewrite Hfs, get_db_nth, Hfree by exact Hi. rewrite Hopen.
    cbn [negb]. change (0 =? Binder.SQLITE_OK) with true. cbn [negb].
    rewrite Hbusy. change (0 =? Binder.SQLITE_OK) with true. cbn [negb].
    unfold finalize, set_plhs0, emit, set_db. cbn [flags g_dbs events plhs0].
    rewrite Nat2Z.id, <- !app_assoc. reflexivity.
  - intro Hused. rewrite (@free_slot_none m 5 0) by (try lia; intros; apply Hused; lia).
    reflexivity.
Qed.

Lemma open_takes_first_free_entry_witness :
  mexFunction world0 rt0 machine0 1 [id_arg 0; text_of "open"; text_of "my.db"]
  = Some ({| flags := flags machine0;
             g_dbs := [Some 7; Some 105; None; None; None];
             events := [sqlite3_create_function (Some 105) "pow" 2;
                        sqlite3_create_function (Some 105) "regex" 2;
                        sqlite3_create_function (Some 105) "regex" 3];
             plhs0 := scalar_out rt0 (flags machine0) 2 |}, Return) /\
  mexFunction world0 rt0 machine_full 1 [id_arg 0; text_of "open"; text_of "my.db"]
  = Some ({| flags := flags machine_full;
             g_dbs := g_dbs machine_full;
             events := [mexPrintf MSG_NOFREESLOT];
             plhs0 := scalar_out rt0 (flags machine_full) 0 |},
          ErrMsgTxt (Msg MSG_IMPOSSIBLE)).
Proof.
  assert (Hc : text_arg world0 (flags machine0) (text_of "open") (list_byte_of_string "open")).
  { split; [reflexivity|]. eexists. split; vm_compute; reflexivity. }
  assert (Hf : text_arg world0 (flags machine0) (text_of "my.db")
                        (list_byte_of_string "my.db")).
  { split; [reflexivity|]. eexists. split; vm_compute; reflexivity. }
  assert (Hi : getinteger (flags machine0) (id_arg 0) = Ok 0) by (vm_compute; reflexivity).
  split.
  - apply (proj1 (@open_takes_first_free_entry world0 rt0 machine0 1 (id_arg 0)
                    (text_of "open") (text_of "my.db") _ eq_refl eq_refl Hi Hc Hf)
                 1%nat 105).
    + repeat constructor.
    + reflexivity.
    + intros [|j] Hj; [exists 7; reflexivity|lia].
    + reflexivity.
    + reflexivity.
  - apply (proj2 (@open_takes_first_free_entry world0 rt0 machine_full 1 (id_arg 0)
                    (text_of "open") (text_of "my.db") _ eq_refl eq_refl Hi Hc Hf)).
    intros j Hj.
    destruct j as [|[|[|[|[|j]]]]]; try lia; eexists; reflexivity.
Defined.

(** X22. The command "open" on an entry that is in use. With a database id
    from 2 to 5, the connection that the entry holds is closed before the
    file is opened. With the id 1, and without an id, it is not: the entry
    is overwritten, and the connection it held is closed by nobody. *)
Theorem open_on_entry_in_use (world : World) (rt : Runtime) (m : machine) (nlhs : Z)
        (cmd file : mxArray) (name : list byte) (h : handle) :
  length (g_dbs m) = 5%nat ->
  text_arg world (flags m) cmd (list_byte_of_string "open") ->
  text_arg world (flags m) file name ->
  sqlite3_open world name = (0, Some h) ->
  sqlite3_busy_timeout world (Some h) DEFAULT_BUSYTIMEOUT = 0 ->
  (forall (id : mxArray) (k : Z) (old : handle),
      mxIsNumeric id = true ->
      getinteger (flags m) id = Ok k ->
      2 <= k <= 5 ->
      nth_error (g_dbs m) (Z.to_nat (k - 1)) = Some (Some old) ->
      mexFunction world rt m nlhs [id; cmd; file]
      = Some ({| flags := flags m;
                 g_dbs := firstn (Z.to_nat (k - 1)) (g_dbs m)
                          ++ Some h :: skipn (S (Z.to_nat (k - 1))) (g_dbs m);
                 events := events m ++ [sqlite3_close (Some old);
                                        sqlite3_create_function (Some h) "pow" 2;
                                        sqlite3_create_function (Some h) "regex" 2;
                                        sqlite3_create_function (Some h) "regex" 3];
                 plhs0 := scalar_out rt (flags m) k |}, Return)) /\
  (forall (id : mxArray) (old : handle),
      mxIsNumeric id = true ->
      getinteger (flags m) id = Ok 1 ->
      nth_error (g_dbs m) 0 = Some (Some old) ->
      mexFunction world rt m nlhs [id; cmd; file]
      = Some ({| flags := flags m;
                 g_dbs := Some h :: skipn 1 (g_dbs m);
                 events := events m ++ [sqlite3_create_function (Some h) "pow" 2;
                                        sqlite3_create_function (Some h) "regex" 2;
                                        sqlite3_create_function (Some h) "regex" 3];
                 plhs0 := scalar_out rt (flags m) 1 |}, Return)) /\
  (forall old : handle,
      nth_error (g_dbs m) 0 = Some (Some old) ->
      mexFunction world rt m nlhs [cmd; file]
      = Some ({| flags := flags m;
                 g_dbs := Some h :: skipn 1 (g_dbs m);
                 events := events m ++ [sqlite3_create_function (Some h) "pow" 2;
                                        sqlite3_create_function (Some h) "regex" 2;
                                        sqlite3_create_function (Some h) "regex" 3];
                 plhs0 := scalar_out rt (flags m) 1 |}, Return)).
Proof.
  intros Hlen Hcmd (Hfc & fmem & Hfg & Hfs) Hopen Hbusy.
  assert (First : forall old,
             nth_error (g_dbs m) 0 = Some (Some old) ->
             do_open world rt m 0 1 [file]
             = Some ({| flags := flags m;
                        g_dbs := Some h :: skipn 1 (g_dbs m);
                        events := events m ++ [sqlite3_create_function (Some h) "pow" 2;
                                               sqlite3_create_function (Some h) "regex" 2;
                                               sqlite3_create_function (Some h) "regex" 3];
                        plhs0 := scalar_out rt (flags m) 1 |}, Return)).
  { intros old Hold. unfold do_open. cbn [Z.eqb Pos.eqb nth_error]. rewrite Hfc, Hfg.
    change (0 <? 0) with false. cbv iota. rewrite Hfs.
    assert (G0 : get_db m 0 = nth_error (g_dbs m) 0)
      by exact (@get_db_nth m 0 ltac:(lia)).
    rewrite G0, Hold. rewrite Hopen.
    change (0 =? Binder.SQLITE_OK) with true. cbn [negb].
    rewrite Hbusy. change (0 =? Binder.SQLITE_OK) with true. cbn [negb].
    unfold finalize, set_plhs0, emit, set_db. cbn [flags g_dbs events plhs0].
    rewrite <- !app_assoc. reflexivity. }
  split; [|split].
  - intros id k old Hnum Hid Hk Hold.
    rewrite (@mexFunction_with_id world rt m nlhs id cmd [file] k _ Hnum Hid) by
      (try exact Hcmd; unfold MaxNumOfDbs; lia).
    unfold dispatch. change (which_command (list_byte_of_string "open")) with cmd_open.
    cbv iota. unfold do_open. cbn [length Z.of_nat Pos.of_succ_nat Z.eqb Pos.eqb nth_error].
    rewrite Hfc, Hfg.
    replace (0 <? k - 1) with true by (symmetry; apply Z.ltb_lt; lia).
    replace (k - 1 <? 0) with false by (symmetry; apply Z.ltb_ge; lia).
    set (i := Z.to_nat (k - 1)) in *.
    assert (Hi : (i < 5)%nat) by (unfold i; lia).
    replace (k - 1) with (Z.of_nat i) by (unfold i; lia).
    unfold close_db. rewrite (@get_db_nth m i Hi), Hold.
    replace (Z.of_nat i <? 0) with false by (symmetry; apply Z.ltb_ge; lia).
    rewrite Nat2Z.id. rewrite Hfs.
    rewrite get_db_set_db by (cbn [emit g_dbs]; lia).
    rewrite Hopen.
    change (0 =? Binder.SQLITE_OK) with true. cbn [negb].
    rewrite Hbusy. change (0 =? Binder.SQLITE_OK) with true. cbn [negb].
    unfold finalize, set_plhs0, emit, set_db. cbn [flags g_dbs events plhs0].
    rewrite <- !app_assoc.
    rewrite replace_twice by lia.
    replace (Z.of_nat i + 1) with k by (unfold i; lia). reflexivity.
  - intros id old Hnum Hid Hold.
    rewrite (@mexFunction_with_id world rt m nlhs id cmd [file] 1 _ Hnum Hid) by
      (try exact Hcmd; unfold MaxNumOfDbs; lia).
    now apply (First old).
  - intros old Hold.
    rewrite (@mexFunction_without_id world rt m nlhs cmd [file] _ Hcmd).
    now apply (First old).
Qed.

Lemma open_on_entry_in_use_witness :
  mexFunction world0 rt0 machine_full 1 [id_arg 3; text_of "open"; text_of "my.db"]
  = Some ({| flags := flags machine_full;
             g_dbs := [Some 7; Some 8; Some 105; Some 10; Some 11];
             events := [sqlite3_close (Some 9);
                        sqlite3_create_function (Some 105) "pow" 2;
                        sqlite3_create_function (Some 105) "regex" 2;
                        sqlite3_create_function (Some 105) "regex" 3];
             plhs0 := scalar_out rt0 (flags machine_full) 3 |}, Return) /\
  mexFunction world0 rt0 machine_full 1 [text_of "open"; text_of "my.db"]
  = Some ({| flags := flags machine_full;
             g_dbs := [Some 105; Some 8; Some 9; Some 10; Some 11];
             events := [sqlite3_create_function (Some 105) "pow" 2;
                        sqlite3_create_function (Some 105) "regex" 2;
                        sqlite3_create_function (Some 105) "regex" 3];
             plhs0 := scalar_out rt0 (flags machine_full) 1 |}, Return).
Proof.
  assert (Hc : text_arg world0 (flags machine_full) (text_of "open")
                        (list_byte_of_string "open")).
  { split; [reflexivity|]. eexists. split; vm_compute; reflexivity. }
  assert (Hf : text_arg world0 (flags machine_full) (text_of "my.db")
                        (list_byte_of_string "my.db")).
  { split; [reflexivity|]. eexists. split; vm_compute; reflexivity. }
  assert (Hi : getinteger (flags machine_full) (id_arg 3) = Ok 3) by (vm_compute; reflexivity).
  assert (Hk : 2 <= 3 <= 5) by lia.
  destruct (@open_on_entry_in_use world0 rt0 machine_full 1 (text_of "open") (text_of "my.db")
              _ 105 eq_refl Hc Hf eq_refl eq_refl) as (A & _ & C).
  split.
  - exact (A (id_arg 3) 3 9 eq_refl Hi Hk eq_refl).
  - exact (C 7 eq_refl).
Defined.

(** X23. The command "close". With the database id 0 every connection of
    the table is closed, once, in the order of the entries, and every entry
    is cleared. With an id from 1 to 5 that connection is closed and its
    entry cleared; when the entry holds no connection, nothing is done and
    the call ends with [MSG_DBNOTOPEN]. Without an id the first entry only
    is closed. *)
Theorem close_command (world : World) (rt : Runtime) (m : machine) (nlhs : Z)
        (cmd : mxArray) :
  length (g_dbs m) = 5%nat ->
  text_arg world (flags m) cmd (list_byte_of_string "close") ->
  (forall id : mxArray,
      mxIsNumeric id = true ->
      getinteger (flags m) id = Ok 0 ->
      mexFunction world rt m nlhs [id; cmd]
      = Some ({| flags := flags m;
                 g_dbs := [None; None; None; None; None];
                 events := events m ++ closed_connections (g_dbs m);
                 plhs0 := plhs0 m |}, Return)) /\
  (forall (id : mxArray) (k : Z),
      mxIsNumeric id = true ->
      getinteger (flags m) id = Ok k ->
      1 <= k <= 5 ->
      (forall db : handle,
          nth_error (g_dbs m) (Z.to_nat (k - 1)) = Some (Some db) ->
          mexFunction world rt m nlhs [id; cmd]
          = Some ({| flags := flags m;
                     g_dbs := firstn (Z.to_nat (k - 1)) (g_dbs m)
                              ++ None :: skipn (S (Z.to_nat (k - 1))) (g_dbs m);
                     events := events m ++ [sqlite3_close (Some db)];
                     plhs0 := plhs0 m |}, Return)) /\
      (nth_error (g_dbs m) (Z.to_nat (k - 1)) = Some None ->
       mexFunction world rt m nlhs [id; cmd] = Some (m, ErrMsgTxt MSG_DBNOTOPEN))) /\
  (forall db : handle,
      nth_error (g_dbs m) 0 = Some (Some db) ->
      mexFunction world rt m nlhs [cmd]
      = Some ({| flags := flags m;
                 g_dbs := None :: skipn 1 (g_dbs m);
                 events := events m ++ [sqlite3_close (Some db)];
                 plhs0 := plhs0 m |}, Return)).
Proof.
  intros Hlen Hcmd.
  assert (One : forall (i : nat),
             (i < 5)%nat ->
             (forall db, nth_error (g_dbs m) i = Some (Some db) ->
                         do_close world m (Z.of_nat i) 0
                         = Some ({| flags := flags m;
                                    g_dbs := firstn i (g_dbs m) ++ None :: skipn (S i) (g_dbs m);
                                    events := events m ++ [sqlite3_close (Some db)];
                                    plhs0 := plhs0 m |}, Return)) /\
             (nth_error (g_dbs m) i = Some None ->
              do_close world m (Z.of_nat i) 0 = Some (m, ErrMsgTxt MSG_DBNOTOPEN))).
  { intros i Hi. unfold do_close. change (0 <? 0) with false. cbv iota.
    replace (Z.of_nat i <? 0) with false by (symmetry; apply Z.ltb_ge; lia).
    unfold close_db. rewrite !get_db_nth by exact Hi. split.
    - intros db Hdb. cbn [emit g_dbs]. rewrite Hdb. rewrite Nat2Z.id. reflexivity.
    - intros Hdb. rewrite Hdb. reflexivity. }
  split; [|split].
  - intros id Hnum Hid.
    rewrite (@mexFunction_with_id world rt m nlhs id cmd [] 0 _ Hnum Hid) by
      (try exact Hcmd; unfold MaxNumOfDbs; lia).
    unfold dispatch. change (which_command (list_byte_of_string "close")) with cmd_close.
    cbv iota. unfold do_close. cbn [length Z.of_nat]. change (0 <? 0) with false.
    change (0 - 1 <? 0) with true. cbv iota.
    change (Z.to_nat MaxNumOfDbs) with 5%nat.
    rewrite close_all_table by exact Hlen. reflexivity.
  - intros id k Hnum Hid Hk.
    rewrite (@mexFunction_with_id world rt m nlhs id cmd [] k _ Hnum Hid) by
      (try exact Hcmd; unfold MaxNumOfDbs; lia).
    unfold dispatch. change (which_command (list_byte_of_string "close")) with cmd_close.
    cbv iota. cbn [length Z.of_nat].
    pose proof (One (Z.to_nat (k - 1)) ltac:(lia)) as R.
    rewrite Z2Nat.id in R by lia. exact R.
  - intros db Hdb.
    rewrite (@mexFunction_without_id world rt m nlhs cmd [] _ Hcmd).
    exact (proj1 (One 0%nat ltac:(lia)) db Hdb).
Qed.

Lemma close_command_witness :
  mexFunction world0 rt0 machine_full 0 [id_arg 0; text_of "close"]
  = Some ({| flags := flags machine_full;
             g_dbs := [None; None; None; None; None];
             events := [sqlite3_close (Some 7); sqlite3_close (Some 8); sqlite3_close (Some 9);
                        sqlite3_close (Some 10); sqlite3_close (Some 11)];
             plhs0 := None |}, Return) /\
  mexFunction world0 rt0 machine0 0 [id_arg 2; text_of "close"]
  = Some (machine0, ErrMsgTxt MSG_DBNOTOPEN) /\
  mexFunction world0 rt0 machine_full 0 [text_of "close"]
  = Some ({| flags := flags machine_full;
             g_dbs := [None; Some 8; Some 9; Some 10; Some 11];
             events := [sqlite3_close (Some 7)];
             plhs0 := None |}, Return).
Proof.
  assert (Hc : text_arg world0 (flags machine_full) (text_of "close")
                        (list_byte_of_string "close")).
  { split; [reflexivity|]. eexists. split; vm_compute; reflexivity. }
  assert (H0 : getinteger (flags machine_full) (id_arg 0) = Ok 0) by (vm_compute; reflexivity).
  assert (H2 : getinteger (flags machine0) (id_arg 2) = Ok 2) by (vm_compute; reflexivity).
  assert (Hk : 1 <= 2 <= 5) by lia.
  destruct (@close_command world0 rt0 machine_full 0 (text_of "close") eq_refl Hc)
    as (A & _ & C).
  destruct (@close_command world0 rt0 machine0 0 (text_of "close") eq_refl Hc)
    as (_ & B & _).
  split; [|split].
  - exact (A (id_arg 0) eq_refl H0).
  - exact (proj2 (B (id_arg 2) 2 eq_refl H2 Hk) eq_refl).
  - exact (C 7 eq_refl).
Defined.

(** X24. [CloseDBs], the function registered with [mexAtExit]: every
    connection of the table is closed, once, in the order of the entries,
    every entry is cleared, and the warning [MSG_CLOSINGFILES] is given when
    at least one connection was open, and not otherwise. *)
Theorem CloseDBs_closes_what_is_open (m : machine) :
  length (g_dbs m) = 5%nat ->
  CloseDBs m
  = Some {| flags := flags m;
            g_dbs := [None; None; None; None; None];
            events := events m ++ closed_connections (g_dbs m)
                      ++ (if existsb (fun db => match db with Some _ => true | None => false end)
                                     (g_dbs m)
                          then [mexWarnMsgTxt_CLOSINGFILES] else []);
            plhs0 := plhs0 m |} /\
  (closed_connections (g_dbs m) = [] <->
   existsb (fun db => match db with Some _ => true | None => false end) (g_dbs m) = false).
Proof.
  intro Hlen. split.
  - unfold CloseDBs. change (Z.to_nat MaxNumOfDbs) with 5%nat.
    rewrite close_all_table by exact Hlen.
    destruct (existsb _ (g_dbs m)).
    + unfold emit. cbn [flags g_dbs events plhs0]. now rewrite <- app_assoc.
    + now rewrite app_nil_r.
  - clear Hlen. induction (g_dbs m) as [|[h|] l IH]; cbn [closed_connections flat_map existsb].
    + split; reflexivity.
    + split; discriminate.
    + exact IH.
Qed.

Lemma CloseDBs_closes_what_is_open_witness :
  CloseDBs machine0
  = Some {| flags := flags machine0;
            g_dbs := [None; None; None; None; None];
            events := [sqlite3_close (Some 7); mexWarnMsgTxt_CLOSINGFILES];
            plhs0 := None |}.
Proof.
  exact (proj1 (@CloseDBs_closes_what_is_open machine0 eq_refl)).
Defined.

(** X25. The commands that read or set a flag ([check4uniquefields],
    [convertUTF8], [typedBLOBs], [NULLasNaN], in any mix of upper and lower
    case). Without a value the flag is returned as 0 or 1 and nothing is
    changed. With a numeric value the flag is set when [getinteger] reads a
    number other than 0 from it and cleared otherwise, the other flags and
    the table are left alone; so a value of class [int64] or [uint64] clears
    the flag whatever it holds. A value that is not numeric is refused with
    [MSG_INVALIDARG]. *)
Theorem flag_commands (world : World) (rt : Runtime) (m : machine) (nlhs : Z)
        (cmd : mxArray) (chars : list byte) (name : string)
        (get : Env -> bool) (set : Env -> bool -> Env) :
  In (name, get, set)
     [("check4uniquefields"%string, check4uniquefields, with_check4uniquefields);
      ("convertUTF8"%string, convertUTF8, with_convertUTF8);
      ("typedBLOBs"%string, use_typed_blobs, with_use_typed_blobs);
      ("NULLasNaN"%string, NULLasNaN, with_NULLasNaN)] ->
  text_arg world (flags m) cmd chars ->
  map tolower chars = map tolower (list_byte_of_string name) ->
  mexFunction world rt m nlhs [cmd]
  = Some ({| flags := flags m; g_dbs := g_dbs m; events := events m;
             plhs0 := scalar_out rt (flags m) (if get (flags m) then 1 else 0) |}, Return) /\
  (forall (value : mxArray) (v : Z),
      mxIsNumeric value = true ->
      getinteger (flags m) value = Ok v ->
      mexFunction world rt m nlhs [cmd; value]
      = Some ({| flags := set (flags m) (negb (v =? 0)); g_dbs := g_dbs m;
                 events := events m; plhs0 := plhs0 m |}, Return)) /\
  (forall value : mxArray,
      mxGetClassID value = mxINT64_CLASS \/ mxGetClassID value = mxUINT64_CLASS ->
      mexFunction world rt m nlhs [cmd; value]
      = Some ({| flags := set (flags m) false; g_dbs := g_dbs m;
                 events := events m; plhs0 := plhs0 m |}, Return)) /\
  (forall value : mxArray,
      mxIsNumeric value = false ->
      mexFunction world rt m nlhs [cmd; value] = Some (m, ErrMsgTxt (Msg MSG_INVALIDARG))) /\
  (forall (env : Env) (b : bool),
      get (set env b) = b /\
      Forall (fun other : Env -> bool => other = get \/ other (set env b) = other env)
             [check4uniquefields; convertUTF8; use_typed_blobs; NULLasNaN]).
Proof.
  intros Hin Hcmd Hl.
  assert (D : forall args,
             dispatch world rt m nlhs 0 (Z.of_nat (length args)) chars args
             = do_flag world rt get set m 0 (Z.of_nat (length args)) args).
  { intro args. unfold dispatch. cbn [In] in Hin.
    destruct Hin as [Hin|[Hin|[Hin|[Hin|[]]]]]; injection Hin as <- <- <-.
    - rewrite (@which_command_nocase chars "check4uniquefields" cmd_check4uniquefields)
        by first [exact Hl|cbn [In]; tauto].
      reflexivity.
    - rewrite (@which_command_nocase chars "convertUTF8" cmd_convertUTF8)
        by first [exact Hl|cbn [In]; tauto].
      reflexivity.
    - rewrite (@which_command_nocase chars "typedBLOBs" cmd_typedBLOBs)
        by first [exact Hl|cbn [In]; tauto].
      reflexivity.
    - rewrite (@which_command_nocase chars "NULLasNaN" cmd_NULLasNaN)
        by first [exact Hl|cbn [In]; tauto].
      reflexivity. }
  assert (V : forall value v,
             mxIsNumeric value = true -> getinteger (flags m) value = Ok v ->
             mexFunction world rt m nlhs [cmd; value]
             = Some ({| flags := set (flags m) (negb (v =? 0)); g_dbs := g_dbs m;
                        events := events m; plhs0 := plhs0 m |}, Return)).
  { intros value v Hn Hv.
    rewrite (@mexFunction_without_id world rt m nlhs cmd [value] _ Hcmd), D.
    unfold do_flag, numeric_arg. cbn [length Z.of_nat Pos.of_succ_nat Z.eqb Pos.eqb nth_error].
    rewrite Hn, Hv. reflexivity. }
  split; [|split; [|split; [|split]]].
  - rewrite (@mexFunction_without_id world rt m nlhs cmd [] _ Hcmd), D. reflexivity.
  - exact V.
  - intros value Hcls. destruct (@int64_is_zero (flags m) value Hcls) as [Hn Hv].
    exact (V value 0 Hn Hv).
  - intros value Hn.
    rewrite (@mexFunction_without_id world rt m nlhs cmd [value] _ Hcmd), D.
    unfold do_flag, numeric_arg. cbn [length Z.of_nat Pos.of_succ_nat Z.eqb Pos.eqb nth_error].
    rewrite Hn. reflexivity.
  - intros env b. cbn [In] in Hin.
    destruct Hin as [Hin|[Hin|[Hin|[Hin|[]]]]]; injection Hin as <- <- <-;
      (split; [reflexivity|repeat constructor; (now left) || (now right)]).
Qed.

Lemma flag_commands_witness :
  mexFunction world0 rt0 machine0 1 [text_of "TYPEDBLOBS"]
  = Some ({| flags := flags machine0; g_dbs := g_dbs machine0; events := [];
             plhs0 := scalar_out rt0 (flags machine0) 1 |}, Return) /\
  mexFunction world0 rt0 machine0 0 [text_of "TYPEDBLOBS"; id_arg 0]
  = Some ({| flags := with_use_typed_blobs (flags machine0) false; g_dbs := g_dbs machine0;
             events := []; plhs0 := None |}, Return).
Proof.
  assert (Hc : text_arg world0 (flags machine0) (text_of "TYPEDBLOBS")
                        (list_byte_of_string "TYPEDBLOBS")).
  { split; [reflexivity|]. eexists. split; vm_compute; reflexivity. }
  assert (Hin : In ("typedBLOBs"%string, use_typed_blobs, with_use_typed_blobs)
                   [("check4uniquefields"%string, check4uniquefields,
                     with_check4uniquefields);
                    ("convertUTF8"%string, convertUTF8, with_convertUTF8);
                    ("typedBLOBs"%string, use_typed_blobs, with_use_typed_blobs);
                    ("NULLasNaN"%string, NULLasNaN, with_NULLasNaN)])
    by (right; right; left; reflexivity).
  assert (H0 : getinteger (flags machine0) (id_arg 0) = Ok 0) by (vm_compute; reflexivity).
  destruct (@flag_commands world0 rt0 machine0 1 (text_of "TYPEDBLOBS") _ _ _ _
              Hin Hc eq_refl) as (A & _).
  destruct (@flag_commands world0 rt0 machine0 0 (text_of "TYPEDBLOBS") _ _ _ _
              Hin Hc eq_refl) as (_ & B & _).
  split; [exact A|exact (B (id_arg 0) 0 eq_refl H0)].
Defined.

(** X26. The command [setbusytimeout]. With the database id 0 the entry
    in front of the table is read: the behaviour is undefined. With an id
    from 1 to 5 and an open connection the time that [getinteger] reads from
    the value is handed to the engine; when the engine refuses it, the
    connection is closed, its entry is cleared, 0 is returned and the call
    ends with [MSG_BUSYTIMEOUTFAIL]. *)
Theorem setbusytimeout_command (world : World) (rt : Runtime) (m : machine) (nlhs : Z)
        (cmd value : mxArray) (chars : list byte) :
  text_arg world (flags m) cmd chars ->
  map tolower chars = map tolower (list_byte_of_string "setbusytimeout") ->
  mxIsNumeric value = true ->
  (forall id : mxArray,
      mxIsNumeric id = true ->
      getinteger (flags m) id = Ok 0 ->
      mexFunction world rt m nlhs [id; cmd; value] = None) /\
  (forall (id : mxArray) (k : Z) (db : handle) (t : Z),
      mxIsNumeric id = true ->
      getinteger (flags m) id = Ok k ->
      1 <= k <= 5 ->
      nth_error (g_dbs m) (Z.to_nat (k - 1)) = Some (Some db) ->
      getinteger (flags m) value = Ok t ->
      (sqlite3_busy_timeout world (Some db) t = 0 ->
       mexFunction world rt m nlhs [id; cmd; value] = Some (m, Return)) /\
      (sqlite3_busy_timeout world (Some db) t <> 0 ->
       mexFunction world rt m nlhs [id; cmd; value]
       = Some ({| flags := flags m;
                  g_dbs := firstn (Z.to_nat (k - 1)) (g_dbs m)
                           ++ None :: skipn (S (Z.to_nat (k - 1))) (g_dbs m);
                  events := events m ++ [mexPrintf MSG_CANTOPEN; sqlite3_close (Some db)];
                  plhs0 := scalar_out rt (flags m) 0 |}, ErrMsgTxt MSG_BUSYTIMEOUTFAIL))).
Proof.
  intros Hcmd Hl Hv.
  assert (Hw : which_command chars = cmd_setbusytimeout)
    by (apply (@which_command_nocase chars "setbusytimeout"); [cbn [In]; tauto|exact Hl]).
  split.
  - intros id Hnum Hid.
    rewrite (@mexFunction_with_id world rt m nlhs id cmd [value] 0 _ Hnum Hid) by
      (try exact Hcmd; unfold MaxNumOfDbs; lia).
    unfold dispatch. rewrite Hw. unfold do_setbusytimeout, numeric_arg.
    cbn [length Z.of_nat Pos.of_succ_nat Z.eqb Pos.eqb nth_error]. rewrite Hv. reflexivity.
  - intros id k db t Hnum Hid Hk Hdb Ht.
    rewrite (@mexFunction_with_id world rt m nlhs id cmd [value] k _ Hnum Hid) by
      (try exact Hcmd; unfold MaxNumOfDbs; lia).
    unfold dispatch. rewrite Hw. unfold do_setbusytimeout, numeric_arg.
    cbn [length Z.of_nat Pos.of_succ_nat Z.eqb Pos.eqb nth_error]. rewrite Hv.
    set (i := Z.to_nat (k - 1)) in *.
    assert (Hi : (i < 5)%nat) by (unfold i; lia).
    replace (k - 1) with (Z.of_nat i) by (unfold i; lia).
    rewrite get_db_nth by exact Hi. rewrite Hdb, Ht. split; intro Hrc.
    + rewrite Hrc. reflexivity.
    + replace (sqlite3_busy_timeout world (Some db) t =? Binder.SQLITE_OK) with false
        by (symmetry; apply Z.eqb_neq; exact Hrc).
      cbn [negb]. unfold close_and_fail, close_db. rewrite get_db_nth by exact Hi.
      cbn [emit g_dbs]. rewrite Hdb. rewrite Nat2Z.id.
      unfold finalize, set_plhs0, emit, set_db. cbn [flags g_dbs events plhs0].
      rewrite <- !app_assoc. reflexivity.
Qed.

Lemma setbusytimeout_command_witness :
  mexFunction world0 rt0 machine0 0 [id_arg 0; text_of "SetBusyTimeout"; id_arg 500] = None /\
  mexFunction world0 rt0 machine0 0 [id_arg 1; text_of "SetBusyTimeout"; id_arg 500]
  = Some (machine0, Return).
Proof.
  assert (Hc : text_arg world0 (flags machine0) (text_of "SetBusyTimeout")
                        (list_byte_of_string "SetBusyTimeout")).
  { split; [reflexivity|]. eexists. split; vm_compute; reflexivity. }
  assert (H0 : getinteger (flags machine0) (id_arg 0) = Ok 0) by (vm_compute; reflexivity).
  assert (H1 : getinteger (flags machine0) (id_arg 1) = Ok 1) by (vm_compute; reflexivity).
  assert (Ht : getinteger (flags machine0) (id_arg 500) = Ok 500) by (vm_compute; reflexivity).
  assert (Hk : 1 <= 1 <= 5) by lia.
  destruct (@setbusytimeout_command world0 rt0 machine0 0 (text_of "SetBusyTimeout")
              (id_arg 500) _ Hc eq_refl eq_refl) as (A & B).
  split.
  - exact (A (id_arg 0) eq_refl H0).
  - exact (proj1 (B (id_arg 1) 1 7 500 eq_refl H1 Hk eq_refl Ht) eq_refl).
Defined.

(** X27. The database id in front of the command. A number below 0 or
    above 5 is refused with [MSG_IMPOSSIBLE] before the command is looked
    at. An id of class [int64] or [uint64] is read as 0 whatever it holds, so
    the call does what it does for the id 0. *)
Theorem database_id_argument (world : World) (rt : Runtime) (m : machine) (nlhs : Z)
        (id : mxArray) (rest : list mxArray) :
  (forall k : Z,
      mxIsNumeric id = true ->
      getinteger (flags m) id = Ok k ->
      k < 0 \/ 5 < k ->
      mexFunction world rt m nlhs (id :: rest)
      = Some ({| flags := flags m; g_dbs := g_dbs m;
                 events := events m ++ [mexPrintf MSG_INVALIDDBHANDLE];
                 plhs0 := plhs0 m |}, ErrMsgTxt (Msg MSG_IMPOSSIBLE))) /\
  (forall zero : mxArray,
      mxGetClassID id = mxINT64_CLASS \/ mxGetClassID id = mxUINT64_CLASS ->
      mxIsNumeric zero = true ->
      getinteger (flags m) zero = Ok 0 ->
      mexFunction world rt m nlhs (id :: rest) = mexFunction world rt m nlhs (zero :: rest)).
Proof.
  split.
  - intros k Hnum Hid Hk. unfold mexFunction. cbv zeta. rewrite Hnum, Hid.
    replace ((k <? 0) || (MaxNumOfDbs <? k)) with true; [reflexivity|].
    symmetry. apply orb_true_iff. unfold MaxNumOfDbs.
    destruct Hk; [left; apply Z.ltb_lt|right; apply Z.ltb_lt]; lia.
  - intros zero Hcls Hnum Hz. destruct (@int64_is_zero (flags m) id Hcls) as [Hn H0].
    unfold mexFunction. cbv zeta. rewrite Hn, H0, Hnum, Hz. reflexivity.
Qed.

Lemma database_id_argument_witness :
  mexFunction world0 rt0 machine0 0 [id_arg 6; text_of "close"]
  = Some ({| flags := flags machine0; g_dbs := g_dbs machine0;
             events := [mexPrintf MSG_INVALIDDBHANDLE];
             plhs0 := None |}, ErrMsgTxt (Msg MSG_IMPOSSIBLE)) /\
  mexFunction world0 rt0 machine0 0
              [MxArray mxINT64_CLASS false [1; 1] [x01; x00; x00; x00; x00; x00; x00; x00] [];
               text_of "close"]
  = mexFunction world0 rt0 machine0 0 [id_arg 0; text_of "close"].
Proof.
  assert (H6 : getinteger (flags machine0) (id_arg 6) = Ok 6) by (vm_compute; reflexivity).
  assert (H0 : getinteger (flags machine0) (id_arg 0) = Ok 0) by (vm_compute; reflexivity).
  assert (Hk : 6 < 0 \/ 5 < 6) by (right; lia).
  split.
  - exact (proj1 (@database_id_argument world0 rt0 machine0 0 (id_arg 6) [text_of "close"])
                 6 eq_refl H6 Hk).
  - exact (proj2 (@database_id_argument world0 rt0 machine0 0
                    (MxArray mxINT64_CLASS false [1; 1]
                             [x01; x00; x00; x00; x00; x00; x00; x00] [])
                    [text_of "close"])
                 (id_arg 0) (or_introl eq_refl) eq_refl H0).
Defined.

(** X28. What is refused before a statement is run. A command that is
    none of the named ones is taken for SQL: with the database id 0 it ends
    with [MSG_IMPOSSIBLE], for an entry without a connection with
    [MSG_DBNOTOPEN], for a text that the engine takes for one or more complete
    statements (with the semicolon at the end) with [MSG_INVQUERY], and
    when the engine cannot prepare it, with [mexErrMsgIdAndTxt] and the
    identifier that [TransErrToIdent] gives for the error code of the
    connection, which starts with [SQLITE:]. Nothing is changed in these
    cases. *)
Theorem sql_command_refused (world : World) (rt : Runtime) (m : machine) (nlhs : Z)
        (cmd : mxArray) (chars : list byte) (args : list mxArray) :
  text_arg world (flags m) cmd chars ->
  which_command chars = cmd_sql ->
  (forall id : mxArray,
      mxIsNumeric id = true ->
      getinteger (flags m) id = Ok 0 ->
      mexFunction world rt m nlhs (id :: cmd :: args)
      = Some ({| flags := flags m; g_dbs := g_dbs m;
                 events := events m ++ [mexPrintf MSG_INVALIDDBHANDLE];
                 plhs0 := plhs0 m |}, ErrMsgTxt (Msg MSG_IMPOSSIBLE))) /\
  (forall (id : mxArray) (k : Z),
      mxIsNumeric id = true ->
      getinteger (flags m) id = Ok k ->
      1 <= k <= 5 ->
      (nth_error (g_dbs m) (Z.to_nat (k - 1)) = Some None ->
       mexFunction world rt m nlhs (id :: cmd :: args) = Some (m, ErrMsgTxt MSG_DBNOTOPEN)) /\
      (forall (db : handle) (query : list byte),
          nth_error (g_dbs m) (Z.to_nat (k - 1)) = Some (Some db) ->
          query = (if strcmpi_eq chars "show tables" then show_tables_query else chars) ->
          (sqlite3_complete world query <> 0 ->
           mexFunction world rt m nlhs (id :: cmd :: args)
           = Some (m, ErrMsgTxt MSG_INVQUERY)) /\
          (sqlite3_complete world query = 0 ->
           fst (sqlite3_prepare_v2 world (Some db) query) <> 0 ->
           exists rest : string,
             mexFunction world rt m nlhs (id :: cmd :: args)
             = Some (m, ErrMsgIdAndTxt (TransErrToIdent (sqlite3_errcode world (Some db)))) /\
             TransErrToIdent (sqlite3_errcode world (Some db)) = ("SQLITE:" ++ rest)%string))).
Proof.
  intros Hcmd Hw. split.
  - intros id Hnum Hid.
    rewrite (@mexFunction_with_id world rt m nlhs id cmd args 0 _ Hnum Hid) by
      (try exact Hcmd; unfold MaxNumOfDbs; lia).
    unfold dispatch. rewrite Hw. reflexivity.
  - intros id k Hnum Hid Hk.
    rewrite (@mexFunction_with_id world rt m nlhs id cmd args k _ Hnum Hid) by
      (try exact Hcmd; unfold MaxNumOfDbs; lia).
    unfold dispatch. rewrite Hw. unfold do_sql.
    replace (k - 1 <? 0) with false by (symmetry; apply Z.ltb_ge; lia).
    set (i := Z.to_nat (k - 1)) in *.
    assert (Hi : (i < 5)%nat) by (unfold i; lia).
    replace (k - 1) with (Z.of_nat i) by (unfold i; lia).
    rewrite get_db_nth by exact Hi. split.
    + intros ->. reflexivity.
    + intros db query Hdb Hq. rewrite Hdb. cbv zeta. rewrite <- Hq. split.
      * intro Hc.
        replace (sqlite3_complete world query =? 0) with false
          by (symmetry; apply Z.eqb_neq; exact Hc).
        reflexivity.
      * intros Hc Hp. rewrite Hc. cbn [Z.eqb negb].
        destruct (sqlite3_prepare_v2 world (Some db) query) as [rc st]. cbn [fst] in Hp.
        replace (rc =? Binder.SQLITE_OK) with false by (symmetry; apply Z.eqb_neq; exact Hp).
        cbn [negb]. unfold finalize. rewrite get_db_nth by exact Hi. rewrite Hdb.
        destruct (TransErrToIdent_prefix (sqlite3_errcode world (Some db))) as [rest Hr].
        exists rest. split; [reflexivity|exact Hr].
Qed.

Lemma sql_command_refused_witness :
  mexFunction world0 rt0 machine0 1 [id_arg 1; text_of "select 1;"]
  = Some (machine0, ErrMsgTxt MSG_INVQUERY) /\
  mexFunction world0 rt0 machine0 1 [id_arg 2; text_of "select 1;"]
  = Some (machine0, ErrMsgTxt MSG_DBNOTOPEN).
Proof.
  assert (Hc : text_arg world0 (flags machine0) (text_of "select 1;")
                        (list_byte_of_string "select 1;")).
  { split; [reflexivity|]. eexists. split; vm_compute; reflexivity. }
  assert (H1 : getinteger (flags machine0) (id_arg 1) = Ok 1) by (vm_compute; reflexivity).
  assert (H2 : getinteger (flags machine0) (id_arg 2) = Ok 2) by (vm_compute; reflexivity).
  assert (K1 : 1 <= 1 <= 5) by lia.
  assert (K2 : 1 <= 2 <= 5) by lia.
  destruct (@sql_command_refused world0 rt0 machine0 1 (text_of "select 1;") _ [] Hc eq_refl)
    as (_ & B).
  split.
  - apply (proj1 (proj2 (B (id_arg 1) 1 eq_refl H1 K1) 7 _ eq_refl eq_refl)).
    vm_compute. discriminate.
  - exact (proj1 (B (id_arg 2) 2 eq_refl H2 K2) eq_refl).
Defined.

(** X29. A whole call in typed BLOB mode. For a statement with one
    parameter and one column that gives back the value bound to its
    parameter, run on an open connection with an array of several elements
    that is no text, and with memory at hand, [mexFunction] returns a 1 x 1
    struct array whose one field, named by the clean-up of the column name,
    holds an array of the class, the sizes and the bytes that were passed
    in. The table and the flags are left as they are. *)
Theorem sql_array_round_trip (world : World) (rt : Runtime) (m : machine) (nlhs : Z)
        (id cmd item : mxArray) (k : Z) (db : handle) (chars : list byte)
        (st : statement) (column : string) :
  mxIsNumeric id = true ->
  getinteger (flags m) id = Ok k ->
  1 <= k <= 5 ->
  nth_error (g_dbs m) (Z.to_nat (k - 1)) = Some (Some db) ->
  text_arg world (flags m) cmd chars ->
  which_command chars = cmd_sql ->
  strcmpi_eq chars "show tables" = false ->
  sqlite3_complete world chars = 0 ->
  sqlite3_prepare_v2 world (Some db) chars = (0, st) ->
  parameters st = 1%nat ->
  column_names st = [column] ->
  (forall bound, run st bound = ([map column_of_bound bound], SQLITE_DONE)) ->
  use_typed_blobs (flags m) = true ->
  mx_wf item ->
  1 < mxGetNumberOfElements item ->
  mxIsComplex item = false ->
  supported_class (mxGetClassID item) = true ->
  class_eqb (mxGetClassID item) mxCHAR_CLASS = false ->
  blob_total item <= MQSQLITE_MAX_BLOB_SIZE ->
  (10 <= length (g_platform (flags m)))%nat ->
  (forall call, alloc_ok (flags m) call = true) ->
  (forall n, new_ok rt n = true) ->
  (forall call, create_ok rt call = true) ->
  (forall i v, bind_rc (flags m) i v = SQLITE_OK) ->
  mexFunction world rt m nlhs [id; cmd; item]
  = Some ({| flags := flags m;
             g_dbs := g_dbs m;
             events := events m
                       ++ [warnings (snd (Fieldnames.fieldnames (flags m) [column])) 0];
             plhs0 := Some (OutStruct
                              (fst (Fieldnames.fieldnames (flags m) [column]))
                              [[Some (FArray (MxArray (mxGetClassID item) false
                                                      (mxGetDimensions item)
                                                      (mxGetData item) []))]]) |},
          Return).
Proof.
  intros Hnum Hid Hk Hdb Hcmd Hw Hshow Hcomplete Hprep Hpar Hcol Hrun
         Ht W Hn Hreal Hsup Hchar Hmax Hp Hal Hnew Hcr Hrc.
  rewrite (@mexFunction_with_id world rt m nlhs id cmd [item] k _ Hnum Hid) by
    (try exact Hcmd; unfold MaxNumOfDbs; lia).
  unfold dispatch. rewrite Hw. unfold do_sql.
  replace (k - 1 <? 0) with false by (symmetry; apply Z.ltb_ge; lia).
  set (i := Z.to_nat (k - 1)) in *.
  assert (Hi : (i < 5)%nat) by (unfold i; lia).
  replace (k - 1) with (Z.of_nat i) by (unfold i; lia).
  rewrite get_db_nth by exact Hi. rewrite Hdb, Hshow. cbv zeta.
  rewrite Hcomplete, Hprep. cbn [Z.eqb negb]. change (0 =? SQLITE_OK) with true.
  cbn [negb]. rewrite Hpar.
  (* the parameter *)
  assert (Hslot : 0 <= 0 < sqlite3_bind_parameter_count (prepared 1))
    by (vm_compute; split; [discriminate|reflexivity]).
  destruct (@RowsFacts.typed_blob_travels (flags m) rt (prepared 1) 0 item Ht W Hn Hreal Hsup
              Hchar Hmax Hp (Hal _) (Hal _) (Hnew _) Hslot (fun v => Hrc _ v))
    as (blob & v & Hlen & Hbind & Hfetch & Htrans).
  assert (Hcell : mxIsCell item = false).
  { unfold mxIsCell. destruct (mxGetClassID item); try discriminate Hsup; reflexivity. }
  assert (Hb : bind_parameters (flags m) (prepared 1) [item] = Ok [SqlBlob blob]).
  { unfold bind_parameters. cbv zeta.
    change (sqlite3_bind_parameter_count (prepared 1)) with 1.
    rewrite BinderClaims.collect_args_positional
      by (rewrite ?Hcell; try apply Hal; try reflexivity; simpl length; lia).
    cbv beta iota. change (Z.to_nat 1) with 1%nat. cbn [bind_loop].
    rewrite BinderClaims.mxGetCell_positional by lia.
    cbn [Z.to_nat nth_error]. unfold mxDuplicateArray. rewrite Hal.
    rewrite Hbind. reflexivity. }
  rewrite Hb, Hrun. cbn [map column_of_bound].
  (* the result *)
  unfold query_result. cbv zeta. rewrite Hcol. cbn [length Z.of_nat Pos.of_succ_nat].
  change (0 <? 1) with true. cbv iota.
  destruct (Fieldnames.fieldnames (flags m) [column]) as [names renamed].
  cbn [fetch_rows fetch_row]. unfold column_of_bound in Hfetch. rewrite Hfetch.
  cbv beta iota. change (1 <=? INT_MAX) with true. cbv beta iota.
  change (1 =? 0) with false. cbv iota. rewrite Hcr.
  cbn [transfer_rows transfer_row]. rewrite Htrans. cbv beta iota.
  reflexivity.
Qed.

Lemma sql_array_round_trip_witness :
  mexFunction world0 rt0 machine0 1 [id_arg 1; text_of "select ? as x"; matrix_item]
  = Some ({| flags := flags machine0;
             g_dbs := g_dbs machine0;
             events := [warnings 0 0];
             plhs0 := Some (OutStruct ["x"%string] [[Some (FArray matrix_item)]]) |}, Return).
Proof.
  assert (Hc : text_arg world0 (flags machine0) (text_of "select ? as x")
                        (list_byte_of_string "select ? as x")).
  { split; [reflexivity|]. eexists. split; vm_compute; reflexivity. }
  assert (H1 : getinteger (flags machine0) (id_arg 1) = Ok 1) by (vm_compute; reflexivity).
  assert (K1 : 1 <= 1 <= 5) by lia.
  assert (Hn : 1 < mxGetNumberOfElements matrix_item) by reflexivity.
  assert (Hm : blob_total matrix_item <= MQSQLITE_MAX_BLOB_SIZE) by (vm_compute; discriminate).
  assert (Hp : (10 <= length (g_platform (flags machine0)))%nat)
    by (vm_compute; repeat constructor).
  exact (@sql_array_round_trip world0 rt0 machine0 1 (id_arg 1) (text_of "select ? as x")
           matrix_item 1 7 _ _ "x" eq_refl H1 K1 eq_refl Hc eq_refl eq_refl eq_refl eq_refl
           eq_refl eq_refl (fun _ => eq_refl) eq_refl RowsProps.matrix_item_wf Hn eq_refl
           eq_refl eq_refl Hm Hp (fun _ => eq_refl) (fun _ => eq_refl) (fun _ => eq_refl)
           (fun _ _ => eq_refl)).
Defined.

(** A statement without columns that the engine ends with an error: the
    empty matrix was assigned to [plhs[0]] before the code of the engine is
    looked at, and the call ends with the identifier of the error. *)
Lemma sql_without_columns_fails (world : World) (rt : Runtime) (m : machine) (nlhs : Z)
      (id cmd : mxArray) (k : Z) (db : handle) (chars : list byte)
      (st : statement) (code : Z) :
  mxIsNumeric id = true ->
  getinteger (flags m) id = Ok k ->
  1 <= k <= 5 ->
  nth_error (g_dbs m) (Z.to_nat (k - 1)) = Some (Some db) ->
  text_arg world (flags m) cmd chars ->
  which_command chars = cmd_sql ->
  strcmpi_eq chars "show tables" = false ->
  sqlite3_complete world chars = 0 ->
  sqlite3_prepare_v2 world (Some db) chars = (0, st) ->
  parameters st = 0%nat ->
  column_names st = [] ->
  run st [] = ([], code) ->
  code <> SQLITE_DONE ->
  alloc_ok (flags m) (mxCreateCellMatrix_call 0 1) = true ->
  create_ok rt (mxCreateDoubleMatrix_call 0 0) = true ->
  mexFunction world rt m nlhs [id; cmd]
  = Some ({| flags := flags m;
             g_dbs := g_dbs m;
             events := events m ++ [warnings 0 0];
             plhs0 := Some (OutArray empty_double) |},
          ErrMsgIdAndTxt (TransErrToIdent (sqlite3_errcode world (Some db)))).
Proof.
  intros Hnum Hid Hk Hdb Hcmd Hw Hshow Hcomplete Hprep Hpar Hcol Hrun Hcode Hal Hcr.
  rewrite (@mexFunction_with_id world rt m nlhs id cmd [] k _ Hnum Hid) by
    (try exact Hcmd; unfold MaxNumOfDbs; lia).
  unfold dispatch. rewrite Hw. unfold do_sql.
  replace (k - 1 <? 0) with false by (symmetry; apply Z.ltb_ge; lia).
  set (i := Z.to_nat (k - 1)) in *.
  assert (Hi : (i < 5)%nat) by (unfold i; lia).
  replace (k - 1) with (Z.of_nat i) by (unfold i; lia).
  rewrite get_db_nth by exact Hi. rewrite Hdb, Hshow. cbv zeta.
  rewrite Hcomplete, Hprep. change (0 =? 0) with true.
  change (0 =? SQLITE_OK) with true. cbn [negb]. rewrite Hpar.
  assert (Hb : bind_parameters (flags m) (prepared 0) [] = Ok []).
  { unfold bind_parameters, collect_args. cbv zeta.
    change (sqlite3_bind_parameter_count (prepared 0)) with 0.
    cbn [length Z.of_nat Z.eqb Z.ltb Z.compare andb]. rewrite Hal. reflexivity. }
  rewrite Hb, Hrun.
  unfold query_result, query_progress, mxCreateDoubleMatrix00. cbv zeta.
  rewrite Hcol, Hcr. cbn [length Z.of_nat Z.ltb Z.compare].
  replace (SQLITE_DONE =? code) with false by (symmetry; apply Z.eqb_neq; congruence).
  cbn [negb]. unfold finalize, set_plhs0, emit. cbn [flags g_dbs events plhs0].
  rewrite get_db_nth by exact Hi. cbn [g_dbs]. rewrite Hdb. reflexivity.
Qed.

Example constraint_violation :
  mexFunction world_constraint rt0 machine0 0 [id_arg 1; text_of "insert into t values (1)"]
  = Some ({| flags := flags machine0;
             g_dbs := g_dbs machine0;
             events := [warnings 0 0];
             plhs0 := Some (OutArray empty_double) |},
          ErrMsgIdAndTxt "SQLITE:CONSTRAINT").
Proof. vm_compute. reflexivity. Qed.

End CommandsProps.
